(** * MPEG transport stream demultiplexer (modules/demux/ts.c)

    A shallow embedding of the transport-stream demultiplexer and the
    properties its specification states about it.  Integers of the C
    source are [Z]; bytes are [Z] in [0, 256); the byte stream is a zipper
    (bytes already consumed, bytes still to come), so that the read
    position is always a position of the stream. *)

From Stdlib Require Import String Ascii.
From Stdlib Require Import ZArith List Bool Lia.
Import ListNotations.
Open Scope Z_scope.

(** ** C arithmetic *)

(** Two's complement reduction of a mathematical integer to [w] bits. *)
Definition wrap_signed (w : Z) (x : Z) : Z :=
  let m := 2 ^ w in
  let r := x mod m in
  if r <? 2 ^ (w - 1) then r else r - m.

Definition int32 (x : Z) : Z := wrap_signed 32 x.
Definition int64 (x : Z) : Z := wrap_signed 64 x.
Definition int16 (x : Z) : Z := wrap_signed 16 x.
Definition uint32 (x : Z) : Z := x mod 2 ^ 32.
Definition size_t (x : Z) : Z := x mod 2 ^ 64.

(** C division truncates toward zero. *)
Definition cdiv (a b : Z) : Z := Z.quot a b.
Definition cmod (a b : Z) : Z := Z.rem a b.

Definition VLC_SUCCESS : Z := 0.
Definition VLC_EGENERIC : Z := -1.
Definition VLC_ENOMEM : Z := -2.

(** [p[i]] for a byte buffer; a read outside the buffer yields 0. *)
Definition byte_at (p : list Z) (i : Z) : Z :=
  if i <? 0 then 0 else nth (Z.to_nat i) p 0.

Definition zlength {A : Type} (l : list A) : Z := Z.of_nat (length l).

(** ** Diagnostics *)

Inductive msg_level : Type := LDbg | LWarn | LErr.

(** A diagnostic: level, format string, integer arguments. *)
Definition log_entry : Type := (msg_level * string * list Z)%type.

Definition msg_Dbg (fmt : string) (args : list Z) : log_entry := (LDbg, fmt, args).
Definition msg_Warn (fmt : string) (args : list Z) : log_entry := (LWarn, fmt, args).
Definition msg_Err (fmt : string) (args : list Z) : log_entry := (LErr, fmt, args).

(** ** The input byte stream

    The stream object is an external collaborator (stream_Peek,
    stream_Read, stream_Block, stream_Tell, stream_Seek, stream_Size of
    vlc_stream.h); it is modelled as a finite seekable sequence of bytes. *)

Record stream_t : Type := mk_stream {
  s_before : list Z;
  s_after : list Z
}.

Definition stream_Tell (s : stream_t) : Z := zlength (s_before s).

Definition stream_Size (s : stream_t) : Z :=
  zlength (s_before s) + zlength (s_after s).

Definition stream_content (s : stream_t) : list Z := s_before s ++ s_after s.

(** [stream_Seek] returns a non-zero status and leaves the position alone
    when the offset is not a position of the stream. *)
Definition stream_Seek (s : stream_t) (i_pos : Z) : Z * stream_t :=
  if (0 <=? i_pos) && (i_pos <=? stream_Size s) then
    (VLC_SUCCESS,
     mk_stream (firstn (Z.to_nat i_pos) (stream_content s))
               (skipn (Z.to_nat i_pos) (stream_content s)))
  else (VLC_EGENERIC, s).

(** [stream_Peek] gives up to [n] bytes without consuming them; the
    number of bytes obtained is the length of the result. *)
Definition stream_Peek (s : stream_t) (n : Z) : list Z :=
  firstn (Z.to_nat n) (s_after s).

(** [stream_Read( s, NULL, n )] skips up to [n] bytes. *)
Definition stream_Read (s : stream_t) (n : Z) : stream_t :=
  mk_stream (s_before s ++ firstn (Z.to_nat n) (s_after s))
            (skipn (Z.to_nat n) (s_after s)).

(** ** Packet size detection *)

Definition TS_PACKET_SIZE_188 : Z := 188.
Definition TS_PACKET_SIZE_192 : Z := 192.
Definition TS_PACKET_SIZE_204 : Z := 204.
Definition TS_PACKET_SIZE_MAX : Z := 204.

(** The three sync bytes that follow offset [i_sync] at distance [sz]. *)
Definition sync_recurs (p_peek : list Z) (i_sync sz : Z) : bool :=
  (byte_at p_peek (i_sync + 1 * sz) =? 0x47) &&
  (byte_at p_peek (i_sync + 2 * sz) =? 0x47) &&
  (byte_at p_peek (i_sync + 3 * sz) =? 0x47).

(** memcmp( p_peek, "TFrc", 4 ) == 0 *)
Definition is_topfield (p_peek : list Z) : bool :=
  (byte_at p_peek 0 =? 84) && (byte_at p_peek 1 =? 70) &&
  (byte_at p_peek 2 =? 114) && (byte_at p_peek 3 =? 99).

(** The scan [for( i_sync = 0; i_sync < TS_PACKET_SIZE_MAX; i_sync++ )],
    with [n] iterations left; [p_peek] is the window of the last
    successful peek.  [None]: the scan ended without a return. *)
Fixpoint DetectPacketSize_scan (n : nat) (i_sync : Z) (s : stream_t)
    (p_peek : list Z) (i_header_size : Z) : option (Z * Z * list log_entry) :=
  match n with
  | O => None
  | S n' =>
    if negb (byte_at p_peek i_sync =? 0x47) then
      DetectPacketSize_scan n' (i_sync + 1) s p_peek i_header_size
    else
      let i_peek := TS_PACKET_SIZE_MAX * 3 + i_sync + 1 in
      let p_peek := stream_Peek s i_peek in
      if zlength p_peek <? i_peek then
        Some (-1, i_header_size, [msg_Err "cannot peek" []])
      else if sync_recurs p_peek i_sync TS_PACKET_SIZE_188 then
        Some (TS_PACKET_SIZE_188, i_header_size, [])
      else if sync_recurs p_peek i_sync TS_PACKET_SIZE_192 then
        Some (TS_PACKET_SIZE_192,
              (if i_sync =? 4 then 4 else i_header_size), [])
      else if sync_recurs p_peek i_sync TS_PACKET_SIZE_204 then
        Some (TS_PACKET_SIZE_204, i_header_size, [])
      else DetectPacketSize_scan n' (i_sync + 1) s p_peek i_header_size
  end.

(** [DetectPacketSize s b_force hdr] is (return value, *pi_header_size
    after the call, diagnostics); [hdr] is *pi_header_size before it. *)
Definition DetectPacketSize (s : stream_t) (b_force : bool)
    (pi_header_size : Z) : Z * Z * list log_entry :=
  let p_peek := stream_Peek s TS_PACKET_SIZE_MAX in
  if zlength p_peek <? TS_PACKET_SIZE_MAX then (-1, pi_header_size, [])
  else
    if is_topfield p_peek then
      (TS_PACKET_SIZE_188, 0, [msg_Dbg "this is a topfield file" []])
    else
      match DetectPacketSize_scan (Z.to_nat TS_PACKET_SIZE_MAX) 0 s p_peek 0 with
      | Some r => r
      | None =>
        if b_force then
          (TS_PACKET_SIZE_188, 0,
           [msg_Warn "this does not look like a TS stream, continuing" []])
        else (-1, 0, [msg_Dbg "TS module discarded (lost sync)" []])
      end.

(** ** Data blocks (vlc_block.h)

    A block is a byte buffer with its flags and timestamps; [i_buffer] is
    the length of [p_buffer].  A chain of blocks ([p_next]) is a list. *)

Record block_t : Type := mk_block {
  p_buffer : list Z;
  i_flags : Z;
  i_nb_samples : Z;
  i_pts : Z;
  i_dts : Z;
  i_length : Z
}.

Definition i_buffer (b : block_t) : Z := zlength (p_buffer b).

(** Constants of vlc_block.h and vlc_config.h. *)
Definition BLOCK_FLAG_PREROLL : Z := 0x0800.
Definition BLOCK_FLAG_CORRUPTED : Z := 0x1000.
Definition VLC_TS_INVALID : Z := 0.
Definition VLC_TS_0 : Z := 1.

Definition set_p_buffer (p : list Z) (b : block_t) : block_t :=
  mk_block p (i_flags b) (i_nb_samples b) (i_pts b) (i_dts b) (i_length b).
Definition set_i_flags (f : Z) (b : block_t) : block_t :=
  mk_block (p_buffer b) f (i_nb_samples b) (i_pts b) (i_dts b) (i_length b).
Definition set_i_nb_samples (n : Z) (b : block_t) : block_t :=
  mk_block (p_buffer b) (i_flags b) n (i_pts b) (i_dts b) (i_length b).
Definition set_i_pts (t : Z) (b : block_t) : block_t :=
  mk_block (p_buffer b) (i_flags b) (i_nb_samples b) t (i_dts b) (i_length b).
Definition set_i_dts (t : Z) (b : block_t) : block_t :=
  mk_block (p_buffer b) (i_flags b) (i_nb_samples b) (i_pts b) t (i_length b).
Definition set_i_length (t : Z) (b : block_t) : block_t :=
  mk_block (p_buffer b) (i_flags b) (i_nb_samples b) (i_pts b) (i_dts b) t.

(** A block as block_Alloc leaves it, holding [p]. *)
Definition block_Alloc (p : list Z) : block_t :=
  mk_block p 0 0 VLC_TS_INVALID VLC_TS_INVALID 0.

Definition block_is_corrupted (b : block_t) : bool :=
  negb (Z.land (i_flags b) BLOCK_FLAG_CORRUPTED =? 0).

(** [p_data->i_flags |= BLOCK_FLAG_CORRUPTED] on the head of a chain. *)
Definition chain_flag_corrupted (c : list block_t) : list block_t :=
  match c with
  | [] => []
  | b :: c' => set_i_flags (Z.lor (i_flags b) BLOCK_FLAG_CORRUPTED) b :: c'
  end.

(** block_ChainExtract: the bytes of the chain, in order. *)
Definition chain_bytes (c : list block_t) : list Z :=
  flat_map p_buffer c.

(** block_ChainGather: a chain of one block is returned as it is;
    otherwise one block holds all the bytes, with the flags and
    timestamps of the first block and the sum of the lengths. *)
Definition block_ChainGather (c : list block_t) : option block_t :=
  match c with
  | [] => None
  | [b] => Some b
  | b :: _ =>
    Some (mk_block (chain_bytes c) (i_flags b) 0 (i_pts b) (i_dts b)
                   (fold_right (fun x acc => i_length x + acc) 0 c))
  end.

(** [stream_Block( s, n )]: a block of [n] bytes is allocated and filled
    with what the stream still has; NULL when nothing could be read.  The
    part of the allocation the read did not fill reads as 0. *)
Definition stream_Block (s : stream_t) (n : Z) : option block_t * stream_t :=
  let got := firstn (Z.to_nat n) (s_after s) in
  match got with
  | [] => (None, s)
  | _ => (Some (block_Alloc (got ++ repeat 0 (Z.to_nat n - length got))),
          stream_Read s n)
  end.

(** ** Elementary stream formats (vlc_es.h, vlc_fourcc.h) *)

Inductive es_category : Type :=
  UNKNOWN_ES | VIDEO_ES | AUDIO_ES | SPU_ES | NAV_ES.

Definition es_category_eqb (a b : es_category) : bool :=
  match a, b with
  | UNKNOWN_ES, UNKNOWN_ES | VIDEO_ES, VIDEO_ES | AUDIO_ES, AUDIO_ES
  | SPU_ES, SPU_ES | NAV_ES, NAV_ES => true
  | _, _ => false
  end.

(** VLC_FOURCC( a, b, c, d ) *)
Definition VLC_FOURCC (a b c d : Z) : Z :=
  Z.lor (Z.lor a (Z.shiftl b 8)) (Z.lor (Z.shiftl c 16) (Z.shiftl d 24)).

Definition fourcc_of (s : string) : Z :=
  match map (fun c => Z.of_nat (nat_of_ascii c)) (list_ascii_of_string s) with
  | [a; b; c; d] => VLC_FOURCC a b c d
  | _ => 0
  end.

Definition VLC_CODEC_MPGV : Z := fourcc_of "mpgv".
Definition VLC_CODEC_MPGA : Z := fourcc_of "mpga".
Definition VLC_CODEC_MP4A : Z := fourcc_of "mp4a".
Definition VLC_CODEC_MP4V : Z := fourcc_of "mp4v".
Definition VLC_CODEC_H264 : Z := fourcc_of "h264".
Definition VLC_CODEC_HEVC : Z := fourcc_of "hevc".
Definition VLC_CODEC_CAVS : Z := fourcc_of "CAVS".
Definition VLC_CODEC_A52 : Z := fourcc_of "a52 ".
Definition VLC_CODEC_SCTE_27 : Z := fourcc_of "SC27".
Definition VLC_CODEC_SDDS : Z := fourcc_of "sdds".
Definition VLC_CODEC_DTS : Z := fourcc_of "dts ".
Definition VLC_CODEC_EAC3 : Z := fourcc_of "eac3".
Definition VLC_CODEC_SUBT : Z := fourcc_of "subt".
Definition VLC_CODEC_TELETEXT : Z := fourcc_of "telx".
Definition VLC_CODEC_DVBS : Z := fourcc_of "dvbs".
Definition VLC_CODEC_ARIB_A : Z := fourcc_of "arba".
Definition VLC_CODEC_ARIB_C : Z := fourcc_of "arbc".
Definition VLC_CODEC_OPUS : Z := fourcc_of "Opus".

(** The fields of es_format_t the demultiplexer reads or writes. *)
Record es_format_t : Type := mk_es_format {
  i_cat : es_category;
  i_codec : Z;
  i_id : Z;
  i_group : Z;
  psz_language : option string;
  psz_description : option string;
  b_packetized : bool;
  p_extra : list Z
}.

Definition i_extra (fmt : es_format_t) : Z := zlength (p_extra fmt).

(** es_format_Init( fmt, i_cat, i_codec ) *)
Definition es_format_Init (cat : es_category) (codec : Z) : es_format_t :=
  mk_es_format cat codec (-1) 0 None None true [].

Definition set_b_packetized (b : bool) (f : es_format_t) : es_format_t :=
  mk_es_format (i_cat f) (i_codec f) (i_id f) (i_group f) (psz_language f)
               (psz_description f) b (p_extra f).
Definition set_i_group (g : Z) (f : es_format_t) : es_format_t :=
  mk_es_format (i_cat f) (i_codec f) (i_id f) g (psz_language f)
               (psz_description f) (b_packetized f) (p_extra f).
Definition set_i_id (i : Z) (f : es_format_t) : es_format_t :=
  mk_es_format (i_cat f) (i_codec f) i (i_group f) (psz_language f)
               (psz_description f) (b_packetized f) (p_extra f).

Definition PIDFillFormat (i_stream_type : Z) : es_format_t :=
  let fmt :=
    if (i_stream_type =? 0x01) || (i_stream_type =? 0x02) ||
       (i_stream_type =? 0x80) then es_format_Init VIDEO_ES VLC_CODEC_MPGV
    else if (i_stream_type =? 0x03) || (i_stream_type =? 0x04) then
      es_format_Init AUDIO_ES VLC_CODEC_MPGA
    else if (i_stream_type =? 0x11) || (i_stream_type =? 0x0f) ||
            (i_stream_type =? 0x1c) then es_format_Init AUDIO_ES VLC_CODEC_MP4A
    else if i_stream_type =? 0x10 then es_format_Init VIDEO_ES VLC_CODEC_MP4V
    else if i_stream_type =? 0x1B then es_format_Init VIDEO_ES VLC_CODEC_H264
    else if i_stream_type =? 0x24 then es_format_Init VIDEO_ES VLC_CODEC_HEVC
    else if i_stream_type =? 0x42 then es_format_Init VIDEO_ES VLC_CODEC_CAVS
    else if i_stream_type =? 0x81 then es_format_Init AUDIO_ES VLC_CODEC_A52
    else if i_stream_type =? 0x82 then es_format_Init SPU_ES VLC_CODEC_SCTE_27
    else if i_stream_type =? 0x84 then es_format_Init AUDIO_ES VLC_CODEC_SDDS
    else if i_stream_type =? 0x85 then es_format_Init AUDIO_ES VLC_CODEC_DTS
    else if i_stream_type =? 0x87 then es_format_Init AUDIO_ES VLC_CODEC_EAC3
    else if i_stream_type =? 0x91 then
      es_format_Init AUDIO_ES (fourcc_of "a52b")
    else if i_stream_type =? 0x92 then
      es_format_Init SPU_ES (fourcc_of "spub")
    else if i_stream_type =? 0x94 then
      es_format_Init AUDIO_ES (fourcc_of "sddb")
    else es_format_Init UNKNOWN_ES 0 in
  set_b_packetized false fmt.

(** ** Tables delivered by the PSI decoder (dvbpsi/pat.h, dvbpsi/pmt.h) *)

Record dvbpsi_descriptor_t : Type := mk_descriptor {
  dr_tag : Z;
  dr_data : list Z
}.

Record dvbpsi_pat_program_t : Type := mk_pat_program {
  pat_i_number : Z;
  pat_i_pid : Z
}.

Record dvbpsi_pat_t : Type := mk_pat {
  pat_i_ts_id : Z;
  pat_i_version : Z;
  pat_b_current_next : bool;
  pat_programs : list dvbpsi_pat_program_t
}.

Record dvbpsi_pmt_es_t : Type := mk_pmt_es {
  pmt_es_i_type : Z;
  pmt_es_i_pid : Z;
  pmt_es_descriptors : list dvbpsi_descriptor_t
}.

Record dvbpsi_pmt_t : Type := mk_pmt {
  pmt_i_program_number : Z;
  pmt_i_version : Z;
  pmt_b_current_next : bool;
  pmt_i_pcr_pid : Z;
  pmt_descriptors : list dvbpsi_descriptor_t;
  pmt_es : list dvbpsi_pmt_es_t
}.

(** ** Demultiplexer state *)

Record decoder_config_descriptor_t : Type := mk_dcd {
  i_objectTypeIndication : Z;
  i_streamType : Z;
  dcd_p_extra : list Z
}.

Record es_mpeg4_descriptor_t : Type := mk_mpeg4desc {
  b_ok : bool;
  i_es_id : Z;
  dec_descr : decoder_config_descriptor_t
}.

Definition iod_descriptor_t : Type := list es_mpeg4_descriptor_t.

(** What is seen of a libdvbpsi handle: the decoder attached to it, and
    the packets pushed to it so far (latest first). *)
Inductive dvbpsi_decoder : Type :=
| DECODER_PAT
| DECODER_PMT (i_program_number : Z)
| DECODER_DEMUX.

Record dvbpsi_handle : Type := mk_handle {
  h_decoder : option dvbpsi_decoder;
  h_pushed : list (list Z)
}.

(** dvbpsi_new followed by an attach call. *)
Definition dvbpsi_attach (dec : dvbpsi_decoder) : dvbpsi_handle :=
  mk_handle (Some dec) [].

Record ts_prg_psi_t : Type := mk_prg {
  prg_handle : option dvbpsi_handle;
  i_version : Z;
  i_number : Z;
  i_pid_pcr : Z;
  i_pid_pmt : Z;
  i_pcr_value : Z;
  iod : option iod_descriptor_t
}.

Record ts_psi_t : Type := mk_psi {
  psi_handle : option dvbpsi_handle;
  i_pat_version : Z;
  i_sdt_version : Z;
  prg : list ts_prg_psi_t
}.

Definition i_prg (p : ts_psi_t) : Z := zlength (prg p).

Inductive ts_es_data_type_t : Type :=
  TS_ES_DATA_PES | TS_ES_DATA_TABLE_SECTION.

Inductive ts_pmt_registration_type_t : Type :=
  TS_PMT_REGISTRATION_NONE | TS_PMT_REGISTRATION_HDMV.

(** [p_data] is the chain under reassembly ([nil] for NULL); [pp_last]
    always designates its end, so appending goes to the end of the list.
    [id] is the handle the output sink gave ([None] for NULL). *)
Record ts_es_t : Type := mk_es {
  fmt : es_format_t;
  id : option Z;
  data_type : ts_es_data_type_t;
  i_data_size : Z;
  i_data_gathered : Z;
  p_data : list block_t;
  p_mpeg4desc : option es_mpeg4_descriptor_t
}.

(** [p_owner] points to the PSI context of another entry of the PID
    table; it is kept as the index of that entry. *)
Record ts_pid_t : Type := mk_pid {
  i_pid : Z;
  b_seen : bool;
  b_valid : bool;
  i_cc : Z;
  b_scrambled : bool;
  p_owner : option Z;
  i_owner_number : Z;
  psi : option ts_psi_t;
  es : option ts_es_t;
  extra_es : list ts_es_t
}.

Definition i_extra_es (p : ts_pid_t) : Z := zlength (extra_es p).

Inductive arib_modes_e : Type :=
  ARIBMODE_AUTO | ARIBMODE_DISABLED | ARIBMODE_ENABLED.

(** The descrambler (csa.h) is an external collaborator: a key state is
    seen through what csa_Decrypt makes of a packet. *)
Record csa_t : Type := mk_csa {
  csa_Decrypt : list Z -> Z -> list Z
}.

Record demux_sys_t : Type := mk_sys {
  i_packet_size : Z;
  i_packet_header_size : Z;
  i_ts_read : Z;
  i_pid_ref_pcr : Z;
  i_first_pcr : Z;
  i_current_pcr : Z;
  i_last_pcr : Z;
  b_force_seek_per_percent : bool;
  i_pcrs_num : Z;
  p_pcrs : list Z;
  p_pos : list Z;
  arib_e_mode : arib_modes_e;
  pid : Z -> ts_pid_t;
  b_user_pmt : bool;
  pmt : list Z;
  i_pmt_es : Z;
  b_es_id_pid : bool;
  csa : option csa_t;
  i_csa_pkt_size : Z;
  b_split_es : bool;
  b_trust_pcr : bool;
  b_access_control : bool;
  b_dvb_meta : bool;
  i_tdt_delta : Z;
  i_dvb_start : Z;
  i_dvb_length : Z;
  b_broken_charset : bool;
  i_current_program : Z;
  programs_list : list Z;
  b_start_record : bool
}.

Definition i_pmt (y : demux_sys_t) : Z := zlength (pmt y).

(** Field updates. *)

Definition es_set_fmt (v : es_format_t) (e : ts_es_t) : ts_es_t :=
  mk_es v (id e) (data_type e) (i_data_size e) (i_data_gathered e) (p_data
    e) (p_mpeg4desc e).
Definition es_set_id (v : option Z) (e : ts_es_t) : ts_es_t :=
  mk_es (fmt e) v (data_type e) (i_data_size e) (i_data_gathered e) (p_data
    e) (p_mpeg4desc e).
Definition es_set_data_type (v : ts_es_data_type_t) (e : ts_es_t) : ts_es_t :=
  mk_es (fmt e) (id e) v (i_data_size e) (i_data_gathered e) (p_data e)
    (p_mpeg4desc e).
Definition es_set_i_data_size (v : Z) (e : ts_es_t) : ts_es_t :=
  mk_es (fmt e) (id e) (data_type e) v (i_data_gathered e) (p_data e)
    (p_mpeg4desc e).
Definition es_set_i_data_gathered (v : Z) (e : ts_es_t) : ts_es_t :=
  mk_es (fmt e) (id e) (data_type e) (i_data_size e) v (p_data e)
    (p_mpeg4desc e).
Definition es_set_p_data (v : list block_t) (e : ts_es_t) : ts_es_t :=
  mk_es (fmt e) (id e) (data_type e) (i_data_size e) (i_data_gathered e) v
    (p_mpeg4desc e).
Definition es_set_p_mpeg4desc (v : option es_mpeg4_descriptor_t) (e : ts_es_t) : ts_es_t :=
  mk_es (fmt e) (id e) (data_type e) (i_data_size e) (i_data_gathered e)
    (p_data e) v.
Definition prg_set_prg_handle (v : option dvbpsi_handle) (g : ts_prg_psi_t) : ts_prg_psi_t :=
  mk_prg v (i_version g) (i_number g) (i_pid_pcr g) (i_pid_pmt g)
    (i_pcr_value g) (iod g).
Definition prg_set_i_version (v : Z) (g : ts_prg_psi_t) : ts_prg_psi_t :=
  mk_prg (prg_handle g) v (i_number g) (i_pid_pcr g) (i_pid_pmt g)
    (i_pcr_value g) (iod g).
Definition prg_set_i_number (v : Z) (g : ts_prg_psi_t) : ts_prg_psi_t :=
  mk_prg (prg_handle g) (i_version g) v (i_pid_pcr g) (i_pid_pmt g)
    (i_pcr_value g) (iod g).
Definition prg_set_i_pid_pcr (v : Z) (g : ts_prg_psi_t) : ts_prg_psi_t :=
  mk_prg (prg_handle g) (i_version g) (i_number g) v (i_pid_pmt g)
    (i_pcr_value g) (iod g).
Definition prg_set_i_pid_pmt (v : Z) (g : ts_prg_psi_t) : ts_prg_psi_t :=
  mk_prg (prg_handle g) (i_version g) (i_number g) (i_pid_pcr g) v
    (i_pcr_value g) (iod g).
Definition prg_set_i_pcr_value (v : Z) (g : ts_prg_psi_t) : ts_prg_psi_t :=
  mk_prg (prg_handle g) (i_version g) (i_number g) (i_pid_pcr g) (i_pid_pmt
    g) v (iod g).
Definition prg_set_iod (v : option iod_descriptor_t) (g : ts_prg_psi_t) : ts_prg_psi_t :=
  mk_prg (prg_handle g) (i_version g) (i_number g) (i_pid_pcr g) (i_pid_pmt
    g) (i_pcr_value g) v.
Definition psi_set_psi_handle (v : option dvbpsi_handle) (t : ts_psi_t) : ts_psi_t :=
  mk_psi v (i_pat_version t) (i_sdt_version t) (prg t).
Definition psi_set_i_pat_version (v : Z) (t : ts_psi_t) : ts_psi_t :=
  mk_psi (psi_handle t) v (i_sdt_version t) (prg t).
Definition psi_set_i_sdt_version (v : Z) (t : ts_psi_t) : ts_psi_t :=
  mk_psi (psi_handle t) (i_pat_version t) v (prg t).
Definition psi_set_prg (v : list ts_prg_psi_t) (t : ts_psi_t) : ts_psi_t :=
  mk_psi (psi_handle t) (i_pat_version t) (i_sdt_version t) v.
Definition pid_set_i_pid (v : Z) (q : ts_pid_t) : ts_pid_t :=
  mk_pid v (b_seen q) (b_valid q) (i_cc q) (b_scrambled q) (p_owner q)
    (i_owner_number q) (psi q) (es q) (extra_es q).
Definition pid_set_b_seen (v : bool) (q : ts_pid_t) : ts_pid_t :=
  mk_pid (i_pid q) v (b_valid q) (i_cc q) (b_scrambled q) (p_owner q)
    (i_owner_number q) (psi q) (es q) (extra_es q).
Definition pid_set_b_valid (v : bool) (q : ts_pid_t) : ts_pid_t :=
  mk_pid (i_pid q) (b_seen q) v (i_cc q) (b_scrambled q) (p_owner q)
    (i_owner_number q) (psi q) (es q) (extra_es q).
Definition pid_set_i_cc (v : Z) (q : ts_pid_t) : ts_pid_t :=
  mk_pid (i_pid q) (b_seen q) (b_valid q) v (b_scrambled q) (p_owner q)
    (i_owner_number q) (psi q) (es q) (extra_es q).
Definition pid_set_b_scrambled (v : bool) (q : ts_pid_t) : ts_pid_t :=
  mk_pid (i_pid q) (b_seen q) (b_valid q) (i_cc q) v (p_owner q)
    (i_owner_number q) (psi q) (es q) (extra_es q).
Definition pid_set_p_owner (v : option Z) (q : ts_pid_t) : ts_pid_t :=
  mk_pid (i_pid q) (b_seen q) (b_valid q) (i_cc q) (b_scrambled q) v
    (i_owner_number q) (psi q) (es q) (extra_es q).
Definition pid_set_i_owner_number (v : Z) (q : ts_pid_t) : ts_pid_t :=
  mk_pid (i_pid q) (b_seen q) (b_valid q) (i_cc q) (b_scrambled q) (p_owner
    q) v (psi q) (es q) (extra_es q).
Definition pid_set_psi (v : option ts_psi_t) (q : ts_pid_t) : ts_pid_t :=
  mk_pid (i_pid q) (b_seen q) (b_valid q) (i_cc q) (b_scrambled q) (p_owner
    q) (i_owner_number q) v (es q) (extra_es q).
Definition pid_set_es (v : option ts_es_t) (q : ts_pid_t) : ts_pid_t :=
  mk_pid (i_pid q) (b_seen q) (b_valid q) (i_cc q) (b_scrambled q) (p_owner
    q) (i_owner_number q) (psi q) v (extra_es q).
Definition pid_set_extra_es (v : list ts_es_t) (q : ts_pid_t) : ts_pid_t :=
  mk_pid (i_pid q) (b_seen q) (b_valid q) (i_cc q) (b_scrambled q) (p_owner
    q) (i_owner_number q) (psi q) (es q) v.
Definition sys_set_i_pid_ref_pcr (v : Z) (y : demux_sys_t) : demux_sys_t :=
  mk_sys (i_packet_size y) (i_packet_header_size y) (i_ts_read y) v
    (i_first_pcr y) (i_current_pcr y) (i_last_pcr y) (b_force_seek_per_percent
    y) (i_pcrs_num y) (p_pcrs y) (p_pos y) (arib_e_mode y) (pid y) (b_user_pmt
    y) (pmt y) (i_pmt_es y) (b_es_id_pid y) (csa y) (i_csa_pkt_size y)
    (b_split_es y) (b_trust_pcr y) (b_access_control y) (b_dvb_meta y)
    (i_tdt_delta y) (i_dvb_start y) (i_dvb_length y) (b_broken_charset y)
    (i_current_program y) (programs_list y) (b_start_record y).
Definition sys_set_i_first_pcr (v : Z) (y : demux_sys_t) : demux_sys_t :=
  mk_sys (i_packet_size y) (i_packet_header_size y) (i_ts_read y)
    (i_pid_ref_pcr y) v (i_current_pcr y) (i_last_pcr y)
    (b_force_seek_per_percent y) (i_pcrs_num y) (p_pcrs y) (p_pos y)
    (arib_e_mode y) (pid y) (b_user_pmt y) (pmt y) (i_pmt_es y) (b_es_id_pid
    y) (csa y) (i_csa_pkt_size y) (b_split_es y) (b_trust_pcr y)
    (b_access_control y) (b_dvb_meta y) (i_tdt_delta y) (i_dvb_start y)
    (i_dvb_length y) (b_broken_charset y) (i_current_program y) (programs_list
    y) (b_start_record y).
Definition sys_set_i_current_pcr (v : Z) (y : demux_sys_t) : demux_sys_t :=
  mk_sys (i_packet_size y) (i_packet_header_size y) (i_ts_read y)
    (i_pid_ref_pcr y) (i_first_pcr y) v (i_last_pcr y)
    (b_force_seek_per_percent y) (i_pcrs_num y) (p_pcrs y) (p_pos y)
    (arib_e_mode y) (pid y) (b_user_pmt y) (pmt y) (i_pmt_es y) (b_es_id_pid
    y) (csa y) (i_csa_pkt_size y) (b_split_es y) (b_trust_pcr y)
    (b_access_control y) (b_dvb_meta y) (i_tdt_delta y) (i_dvb_start y)
    (i_dvb_length y) (b_broken_charset y) (i_current_program y) (programs_list
    y) (b_start_record y).
Definition sys_set_i_last_pcr (v : Z) (y : demux_sys_t) : demux_sys_t :=
  mk_sys (i_packet_size y) (i_packet_header_size y) (i_ts_read y)
    (i_pid_ref_pcr y) (i_first_pcr y) (i_current_pcr y) v
    (b_force_seek_per_percent y) (i_pcrs_num y) (p_pcrs y) (p_pos y)
    (arib_e_mode y) (pid y) (b_user_pmt y) (pmt y) (i_pmt_es y) (b_es_id_pid
    y) (csa y) (i_csa_pkt_size y) (b_split_es y) (b_trust_pcr y)
    (b_access_control y) (b_dvb_meta y) (i_tdt_delta y) (i_dvb_start y)
    (i_dvb_length y) (b_broken_charset y) (i_current_program y) (programs_list
    y) (b_start_record y).
Definition sys_set_b_force_seek_per_percent (v : bool) (y : demux_sys_t) : demux_sys_t :=
  mk_sys (i_packet_size y) (i_packet_header_size y) (i_ts_read y)
    (i_pid_ref_pcr y) (i_first_pcr y) (i_current_pcr y) (i_last_pcr y) v
    (i_pcrs_num y) (p_pcrs y) (p_pos y) (arib_e_mode y) (pid y) (b_user_pmt y)
    (pmt y) (i_pmt_es y) (b_es_id_pid y) (csa y) (i_csa_pkt_size y)
    (b_split_es y) (b_trust_pcr y) (b_access_control y) (b_dvb_meta y)
    (i_tdt_delta y) (i_dvb_start y) (i_dvb_length y) (b_broken_charset y)
    (i_current_program y) (programs_list y) (b_start_record y).
Definition sys_set_p_pcrs (v : list Z) (y : demux_sys_t) : demux_sys_t :=
  mk_sys (i_packet_size y) (i_packet_header_size y) (i_ts_read y)
    (i_pid_ref_pcr y) (i_first_pcr y) (i_current_pcr y) (i_last_pcr y)
    (b_force_seek_per_percent y) (i_pcrs_num y) v (p_pos y) (arib_e_mode y)
    (pid y) (b_user_pmt y) (pmt y) (i_pmt_es y) (b_es_id_pid y) (csa y)
    (i_csa_pkt_size y) (b_split_es y) (b_trust_pcr y) (b_access_control y)
    (b_dvb_meta y) (i_tdt_delta y) (i_dvb_start y) (i_dvb_length y)
    (b_broken_charset y) (i_current_program y) (programs_list y)
    (b_start_record y).
Definition sys_set_p_pos (v : list Z) (y : demux_sys_t) : demux_sys_t :=
  mk_sys (i_packet_size y) (i_packet_header_size y) (i_ts_read y)
    (i_pid_ref_pcr y) (i_first_pcr y) (i_current_pcr y) (i_last_pcr y)
    (b_force_seek_per_percent y) (i_pcrs_num y) (p_pcrs y) v (arib_e_mode y)
    (pid y) (b_user_pmt y) (pmt y) (i_pmt_es y) (b_es_id_pid y) (csa y)
    (i_csa_pkt_size y) (b_split_es y) (b_trust_pcr y) (b_access_control y)
    (b_dvb_meta y) (i_tdt_delta y) (i_dvb_start y) (i_dvb_length y)
    (b_broken_charset y) (i_current_program y) (programs_list y)
    (b_start_record y).
Definition sys_set_arib_e_mode (v : arib_modes_e) (y : demux_sys_t) : demux_sys_t :=
  mk_sys (i_packet_size y) (i_packet_header_size y) (i_ts_read y)
    (i_pid_ref_pcr y) (i_first_pcr y) (i_current_pcr y) (i_last_pcr y)
    (b_force_seek_per_percent y) (i_pcrs_num y) (p_pcrs y) (p_pos y) v (pid y)
    (b_user_pmt y) (pmt y) (i_pmt_es y) (b_es_id_pid y) (csa y)
    (i_csa_pkt_size y) (b_split_es y) (b_trust_pcr y) (b_access_control y)
    (b_dvb_meta y) (i_tdt_delta y) (i_dvb_start y) (i_dvb_length y)
    (b_broken_charset y) (i_current_program y) (programs_list y)
    (b_start_record y).
Definition sys_set_pid (v : Z -> ts_pid_t) (y : demux_sys_t) : demux_sys_t :=
  mk_sys (i_packet_size y) (i_packet_header_size y) (i_ts_read y)
    (i_pid_ref_pcr y) (i_first_pcr y) (i_current_pcr y) (i_last_pcr y)
    (b_force_seek_per_percent y) (i_pcrs_num y) (p_pcrs y) (p_pos y)
    (arib_e_mode y) v (b_user_pmt y) (pmt y) (i_pmt_es y) (b_es_id_pid y) (csa
    y) (i_csa_pkt_size y) (b_split_es y) (b_trust_pcr y) (b_access_control y)
    (b_dvb_meta y) (i_tdt_delta y) (i_dvb_start y) (i_dvb_length y)
    (b_broken_charset y) (i_current_program y) (programs_list y)
    (b_start_record y).
Definition sys_set_b_user_pmt (v : bool) (y : demux_sys_t) : demux_sys_t :=
  mk_sys (i_packet_size y) (i_packet_header_size y) (i_ts_read y)
    (i_pid_ref_pcr y) (i_first_pcr y) (i_current_pcr y) (i_last_pcr y)
    (b_force_seek_per_percent y) (i_pcrs_num y) (p_pcrs y) (p_pos y)
    (arib_e_mode y) (pid y) v (pmt y) (i_pmt_es y) (b_es_id_pid y) (csa y)
    (i_csa_pkt_size y) (b_split_es y) (b_trust_pcr y) (b_access_control y)
    (b_dvb_meta y) (i_tdt_delta y) (i_dvb_start y) (i_dvb_length y)
    (b_broken_charset y) (i_current_program y) (programs_list y)
    (b_start_record y).
Definition sys_set_pmt (v : list Z) (y : demux_sys_t) : demux_sys_t :=
  mk_sys (i_packet_size y) (i_packet_header_size y) (i_ts_read y)
    (i_pid_ref_pcr y) (i_first_pcr y) (i_current_pcr y) (i_last_pcr y)
    (b_force_seek_per_percent y) (i_pcrs_num y) (p_pcrs y) (p_pos y)
    (arib_e_mode y) (pid y) (b_user_pmt y) v (i_pmt_es y) (b_es_id_pid y) (csa
    y) (i_csa_pkt_size y) (b_split_es y) (b_trust_pcr y) (b_access_control y)
    (b_dvb_meta y) (i_tdt_delta y) (i_dvb_start y) (i_dvb_length y)
    (b_broken_charset y) (i_current_program y) (programs_list y)
    (b_start_record y).
Definition sys_set_i_pmt_es (v : Z) (y : demux_sys_t) : demux_sys_t :=
  mk_sys (i_packet_size y) (i_packet_header_size y) (i_ts_read y)
    (i_pid_ref_pcr y) (i_first_pcr y) (i_current_pcr y) (i_last_pcr y)
    (b_force_seek_per_percent y) (i_pcrs_num y) (p_pcrs y) (p_pos y)
    (arib_e_mode y) (pid y) (b_user_pmt y) (pmt y) v (b_es_id_pid y) (csa y)
    (i_csa_pkt_size y) (b_split_es y) (b_trust_pcr y) (b_access_control y)
    (b_dvb_meta y) (i_tdt_delta y) (i_dvb_start y) (i_dvb_length y)
    (b_broken_charset y) (i_current_program y) (programs_list y)
    (b_start_record y).
Definition sys_set_b_access_control (v : bool) (y : demux_sys_t) : demux_sys_t :=
  mk_sys (i_packet_size y) (i_packet_header_size y) (i_ts_read y)
    (i_pid_ref_pcr y) (i_first_pcr y) (i_current_pcr y) (i_last_pcr y)
    (b_force_seek_per_percent y) (i_pcrs_num y) (p_pcrs y) (p_pos y)
    (arib_e_mode y) (pid y) (b_user_pmt y) (pmt y) (i_pmt_es y) (b_es_id_pid
    y) (csa y) (i_csa_pkt_size y) (b_split_es y) (b_trust_pcr y) v (b_dvb_meta
    y) (i_tdt_delta y) (i_dvb_start y) (i_dvb_length y) (b_broken_charset y)
    (i_current_program y) (programs_list y) (b_start_record y).
Definition sys_set_b_dvb_meta (v : bool) (y : demux_sys_t) : demux_sys_t :=
  mk_sys (i_packet_size y) (i_packet_header_size y) (i_ts_read y)
    (i_pid_ref_pcr y) (i_first_pcr y) (i_current_pcr y) (i_last_pcr y)
    (b_force_seek_per_percent y) (i_pcrs_num y) (p_pcrs y) (p_pos y)
    (arib_e_mode y) (pid y) (b_user_pmt y) (pmt y) (i_pmt_es y) (b_es_id_pid
    y) (csa y) (i_csa_pkt_size y) (b_split_es y) (b_trust_pcr y)
    (b_access_control y) v (i_tdt_delta y) (i_dvb_start y) (i_dvb_length y)
    (b_broken_charset y) (i_current_program y) (programs_list y)
    (b_start_record y).
Definition sys_set_i_tdt_delta (v : Z) (y : demux_sys_t) : demux_sys_t :=
  mk_sys (i_packet_size y) (i_packet_header_size y) (i_ts_read y)
    (i_pid_ref_pcr y) (i_first_pcr y) (i_current_pcr y) (i_last_pcr y)
    (b_force_seek_per_percent y) (i_pcrs_num y) (p_pcrs y) (p_pos y)
    (arib_e_mode y) (pid y) (b_user_pmt y) (pmt y) (i_pmt_es y) (b_es_id_pid
    y) (csa y) (i_csa_pkt_size y) (b_split_es y) (b_trust_pcr y)
    (b_access_control y) (b_dvb_meta y) v (i_dvb_start y) (i_dvb_length y)
    (b_broken_charset y) (i_current_program y) (programs_list y)
    (b_start_record y).
Definition sys_set_i_dvb_start (v : Z) (y : demux_sys_t) : demux_sys_t :=
  mk_sys (i_packet_size y) (i_packet_header_size y) (i_ts_read y)
    (i_pid_ref_pcr y) (i_first_pcr y) (i_current_pcr y) (i_last_pcr y)
    (b_force_seek_per_percent y) (i_pcrs_num y) (p_pcrs y) (p_pos y)
    (arib_e_mode y) (pid y) (b_user_pmt y) (pmt y) (i_pmt_es y) (b_es_id_pid
    y) (csa y) (i_csa_pkt_size y) (b_split_es y) (b_trust_pcr y)
    (b_access_control y) (b_dvb_meta y) (i_tdt_delta y) v (i_dvb_length y)
    (b_broken_charset y) (i_current_program y) (programs_list y)
    (b_start_record y).
Definition sys_set_i_dvb_length (v : Z) (y : demux_sys_t) : demux_sys_t :=
  mk_sys (i_packet_size y) (i_packet_header_size y) (i_ts_read y)
    (i_pid_ref_pcr y) (i_first_pcr y) (i_current_pcr y) (i_last_pcr y)
    (b_force_seek_per_percent y) (i_pcrs_num y) (p_pcrs y) (p_pos y)
    (arib_e_mode y) (pid y) (b_user_pmt y) (pmt y) (i_pmt_es y) (b_es_id_pid
    y) (csa y) (i_csa_pkt_size y) (b_split_es y) (b_trust_pcr y)
    (b_access_control y) (b_dvb_meta y) (i_tdt_delta y) (i_dvb_start y) v
    (b_broken_charset y) (i_current_program y) (programs_list y)
    (b_start_record y).
Definition sys_set_b_broken_charset (v : bool) (y : demux_sys_t) : demux_sys_t :=
  mk_sys (i_packet_size y) (i_packet_header_size y) (i_ts_read y)
    (i_pid_ref_pcr y) (i_first_pcr y) (i_current_pcr y) (i_last_pcr y)
    (b_force_seek_per_percent y) (i_pcrs_num y) (p_pcrs y) (p_pos y)
    (arib_e_mode y) (pid y) (b_user_pmt y) (pmt y) (i_pmt_es y) (b_es_id_pid
    y) (csa y) (i_csa_pkt_size y) (b_split_es y) (b_trust_pcr y)
    (b_access_control y) (b_dvb_meta y) (i_tdt_delta y) (i_dvb_start y)
    (i_dvb_length y) v (i_current_program y) (programs_list y) (b_start_record
    y).
Definition sys_set_i_current_program (v : Z) (y : demux_sys_t) : demux_sys_t :=
  mk_sys (i_packet_size y) (i_packet_header_size y) (i_ts_read y)
    (i_pid_ref_pcr y) (i_first_pcr y) (i_current_pcr y) (i_last_pcr y)
    (b_force_seek_per_percent y) (i_pcrs_num y) (p_pcrs y) (p_pos y)
    (arib_e_mode y) (pid y) (b_user_pmt y) (pmt y) (i_pmt_es y) (b_es_id_pid
    y) (csa y) (i_csa_pkt_size y) (b_split_es y) (b_trust_pcr y)
    (b_access_control y) (b_dvb_meta y) (i_tdt_delta y) (i_dvb_start y)
    (i_dvb_length y) (b_broken_charset y) v (programs_list y) (b_start_record
    y).
Definition sys_set_b_start_record (v : bool) (y : demux_sys_t) : demux_sys_t :=
  mk_sys (i_packet_size y) (i_packet_header_size y) (i_ts_read y)
    (i_pid_ref_pcr y) (i_first_pcr y) (i_current_pcr y) (i_last_pcr y)
    (b_force_seek_per_percent y) (i_pcrs_num y) (p_pcrs y) (p_pos y)
    (arib_e_mode y) (pid y) (b_user_pmt y) (pmt y) (i_pmt_es y) (b_es_id_pid
    y) (csa y) (i_csa_pkt_size y) (b_split_es y) (b_trust_pcr y)
    (b_access_control y) (b_dvb_meta y) (i_tdt_delta y) (i_dvb_start y)
    (i_dvb_length y) (b_broken_charset y) (i_current_program y) (programs_list
    y) v.

(** ** The session: input stream, output sink, diagnostics *)

(** Requests made to the output sink (es_out_Add, es_out_Send,
    es_out_Del, es_out_Control), in the order they are made. *)
Inductive es_out_event : Type :=
| ES_OUT_ADD (es_id : Z) (f : es_format_t)
| ES_OUT_SEND (es_id : option Z) (b : block_t)
| ES_OUT_DEL (es_id : Z)
| ES_OUT_SET_GROUP_PCR (i_group : Z) (i_pcr : Z)
| ES_OUT_SET_ES_SCRAMBLED_STATE (es_id : option Z) (b : bool)
| ES_OUT_DEL_GROUP (i_group : Z)
| ES_OUT_SET_GROUP_META (i_group : Z)
| ES_OUT_SET_GROUP_EPG (i_group : Z).

(** stream_Control requests. *)
Inductive stream_control_event : Type :=
| STREAM_SET_PRIVATE_ID_STATE (i_pid : Z) (b_selected : bool)
| STREAM_SET_PRIVATE_ID_CA (i_program : Z)
| STREAM_SET_RECORD_STATE (b : bool).

(** [s_ctl_ok]: whether the access behind the stream honours the
    private-id requests; [b_alive]: vlc_object_alive. *)
Record demux_t : Type := mk_demux {
  s : stream_t;
  out : list es_out_event;
  msgs : list log_entry;
  s_ctl : list stream_control_event;
  s_ctl_ok : bool;
  b_force : bool;
  b_alive : bool;
  p_sys : demux_sys_t
}.

Definition set_s (v : stream_t) (d : demux_t) : demux_t :=
  mk_demux v (out d) (msgs d) (s_ctl d) (s_ctl_ok d) (b_force d) (b_alive d)
    (p_sys d).
Definition set_out (v : list es_out_event) (d : demux_t) : demux_t :=
  mk_demux (s d) v (msgs d) (s_ctl d) (s_ctl_ok d) (b_force d) (b_alive d)
    (p_sys d).
Definition set_msgs (v : list log_entry) (d : demux_t) : demux_t :=
  mk_demux (s d) (out d) v (s_ctl d) (s_ctl_ok d) (b_force d) (b_alive d)
    (p_sys d).
Definition set_s_ctl (v : list stream_control_event) (d : demux_t) : demux_t :=
  mk_demux (s d) (out d) (msgs d) v (s_ctl_ok d) (b_force d) (b_alive d)
    (p_sys d).
Definition set_s_ctl_ok (v : bool) (d : demux_t) : demux_t :=
  mk_demux (s d) (out d) (msgs d) (s_ctl d) v (b_force d) (b_alive d) (p_sys
    d).
Definition set_b_force (v : bool) (d : demux_t) : demux_t :=
  mk_demux (s d) (out d) (msgs d) (s_ctl d) (s_ctl_ok d) v (b_alive d)
    (p_sys d).
Definition set_b_alive (v : bool) (d : demux_t) : demux_t :=
  mk_demux (s d) (out d) (msgs d) (s_ctl d) (s_ctl_ok d) (b_force d) v
    (p_sys d).
Definition set_p_sys (v : demux_sys_t) (d : demux_t) : demux_t :=
  mk_demux (s d) (out d) (msgs d) (s_ctl d) (s_ctl_ok d) (b_force d)
    (b_alive d) v.

Definition log (m : log_entry) (d : demux_t) : demux_t :=
  set_msgs (msgs d ++ [m]) d.

Definition emit (e : es_out_event) (d : demux_t) : demux_t :=
  set_out (out d ++ [e]) d.

Definition is_add (e : es_out_event) : bool :=
  match e with ES_OUT_ADD _ _ => true | _ => false end.

(** The requests that hand a block to the sink (es_out_Send). *)
Definition is_send (e : es_out_event) : bool :=
  match e with ES_OUT_SEND _ _ => true | _ => false end.

(** es_out_Add: the sink registers the format and hands out a handle. *)
Definition es_out_Add (f : es_format_t) (d : demux_t) : option Z * demux_t :=
  let n := zlength (filter is_add (out d)) in
  (Some n, emit (ES_OUT_ADD n f) d).

Definition stream_Control (e : stream_control_event) (d : demux_t)
    : Z * demux_t :=
  (if s_ctl_ok d then VLC_SUCCESS else VLC_EGENERIC,
   set_s_ctl (s_ctl d ++ [e]) d).

(** Access to the PID table. *)
Definition get_pid (d : demux_t) (i : Z) : ts_pid_t := pid (p_sys d) i.

Definition put_pid (i : Z) (q : ts_pid_t) (d : demux_t) : demux_t :=
  set_p_sys (sys_set_pid (fun j => if j =? i then q else pid (p_sys d) j)
                         (p_sys d)) d.

(** ** Reading packets *)

(** A loop that ran out of iterations yields [None]; the properties below
    show when the iterations given are enough. *)
Definition bind {A B : Type} (x : option A) (k : A -> option B) : option B :=
  match x with
  | Some a => k a
  | None => None
  end.

Notation "'do' x <- e ; k" := (bind e (fun x => k))
  (at level 10, x pattern, e at level 100, k at level 200).

Definition PIDGet (p : block_t) : Z :=
  Z.lor (Z.shiftl (Z.land (byte_at (p_buffer p) 1) 0x1f) 8)
        (byte_at (p_buffer p) 2).

(** The inner scan of the resynchronisation: the first [i_skip] below
    [i_peek - i_packet_size] with sync bytes one packet apart. *)
Fixpoint resync_scan (n : nat) (p_peek : list Z) (hdr pkt i_skip : Z) : Z :=
  match n with
  | O => i_skip
  | S n' =>
    if (byte_at p_peek (i_skip + hdr) =? 0x47) &&
       (byte_at p_peek (i_skip + hdr + pkt) =? 0x47)
    then i_skip
    else resync_scan n' p_peek hdr pkt (i_skip + 1)
  end.

(** The loop [while( vlc_object_alive (p_demux) )] of ReadTSPacket.  The
    result tells whether the function returns NULL from inside the loop. *)
Fixpoint ReadTSPacket_resync (fuel : nat) (d : demux_t)
    : option (bool * demux_t) :=
  match fuel with
  | O => None
  | S fuel' =>
    if negb (b_alive d) then Some (false, d)
    else
      let pkt := i_packet_size (p_sys d) in
      let hdr := i_packet_header_size (p_sys d) in
      let p_peek := stream_Peek (s d) (pkt * 10) in
      let i_peek := zlength p_peek in
      if i_peek <? pkt + 1 then Some (true, log (msg_Dbg "eof ?" []) d)
      else
        let i_skip := resync_scan (Z.to_nat (i_peek - pkt)) p_peek hdr pkt 0 in
        let d1 := log (msg_Dbg "skipping %d bytes of garbage" [i_skip]) d in
        let d2 := set_s (stream_Read (s d1) i_skip) d1 in
        if i_skip <? i_peek - pkt then Some (false, d2)
        else ReadTSPacket_resync fuel' d2
  end.

(** [ReadTSPacket]: the packet read ([None] for NULL) and the session. *)
Definition ReadTSPacket (d : demux_t) : option (option block_t * demux_t) :=
  let y := p_sys d in
  match stream_Block (s d) (i_packet_size y) with
  | (None, _) => Some (None, log (msg_Dbg "eof ?" []) d)
  | (Some p_pkt, s1) =>
    let d1 := set_s s1 d in
    let p_pkt :=
      set_p_buffer (skipn (Z.to_nat (i_packet_header_size y)) (p_buffer p_pkt))
                   p_pkt in
    if negb (byte_at (p_buffer p_pkt) 0 =? 0x47) then
      let d2 := log (msg_Warn "lost synchro" []) d1 in
      do r <- ReadTSPacket_resync (S (length (s_after (s d2)))) d2;
      let '(b_eof, d3) := r in
      if b_eof then Some (None, d3)
      else
        match stream_Block (s d3) (i_packet_size y) with
        | (None, _) => Some (None, log (msg_Dbg "eof ?" []) d3)
        | (Some p_pkt, s4) => Some (Some p_pkt, set_s s4 d3)
        end
    else Some (Some p_pkt, d1)
  end.

(** ** Program clock reference *)

Definition GetPCR (p_pkt : block_t) : Z :=
  let p := byte_at (p_buffer p_pkt) in
  if negb (Z.land (p 3) 0x20 =? 0) && negb (Z.land (p 5) 0x10 =? 0) &&
     (7 <=? p 4)
  then
    Z.lor (Z.lor (Z.lor (Z.lor (Z.shiftl (p 6) 25) (Z.shiftl (p 7) 17))
                        (Z.shiftl (p 8) 9))
                 (Z.shiftl (p 9) 1))
          (Z.shiftr (p 10) 7)
  else -1.

(** The loop of AdjustPCRWrapAround over the sample table: the index it
    stops at and the adjustment accumulated. *)
Fixpoint AdjustPCRWrapAround_loop (n : nat) (y : demux_sys_t) (i_pos : Z)
    (i : Z) (i_adjust : Z) : Z * Z :=
  match n with
  | O => (i, i_adjust)
  | S n' =>
    if (i <? i_pcrs_num y) && (byte_at (p_pos y) i <=? i_pos) then
      AdjustPCRWrapAround_loop n' y i_pos (i + 1)
        (if byte_at (p_pcrs y) i <? byte_at (p_pcrs y) (i - 1)
         then int64 (i_adjust + 0x1FFFFFFFF) else i_adjust)
    else (i, i_adjust)
  end.

Definition AdjustPCRWrapAround (d : demux_t) (i_pcr : Z) : Z :=
  let y := p_sys d in
  let i_pos := stream_Tell (s d) in
  let '(i, i_adjust) :=
    AdjustPCRWrapAround_loop (Z.to_nat (i_pcrs_num y - 1)) y i_pos 1 0 in
  let i_adjust :=
    if i_pcr <? byte_at (p_pcrs y) (i - 1)
    then int64 (i_adjust + 0x1FFFFFFFF) else i_adjust in
  int64 (i_pcr + i_adjust).

(** [a[i] = v] on an array; nothing is written outside it. *)
Fixpoint array_set (l : list Z) (i : nat) (v : Z) : list Z :=
  match l, i with
  | [], _ => []
  | _ :: l', O => v :: l'
  | x :: l', S i' => x :: array_set l' i' v
  end.

Definition array_setZ (l : list Z) (i v : Z) : list Z :=
  if i <? 0 then l else array_set l (Z.to_nat i) v.

(** The loop [while( vlc_object_alive( p_demux ) )] of SeekToPCR: the
    value of [i_pcr] when it ends. *)
Fixpoint SeekToPCR_loop (fuel : nat) (d : demux_t) (i_last_pos i_pcr : Z)
    : option (Z * demux_t) :=
  match fuel with
  | O => None
  | S fuel' =>
    if negb (b_alive d) then Some (i_pcr, d)
    else
      do r <- ReadTSPacket d;
      let '(p, d1) := r in
      match p with
      | None => Some (i_pcr, d1)
      | Some p_pkt =>
        let i_pcr :=
          if PIDGet p_pkt =? i_pid_ref_pcr (p_sys d1) then GetPCR p_pkt
          else i_pcr in
        if 0 <=? i_pcr then Some (i_pcr, d1)
        else if i_last_pos <=? stream_Tell (s d1) then Some (i_pcr, d1)
        else SeekToPCR_loop fuel' d1 i_last_pos i_pcr
      end
  end.

Definition SeekToPCR (d : demux_t) (i_pos : Z) : option (Z * demux_t) :=
  let y := p_sys d in
  let i_initial_pos := stream_Tell (s d) in
  if i_pos <? 0 then Some (VLC_EGENERIC, d)
  else
    let i_last_pos := int64 (stream_Size (s d) - i_packet_size y) in
    let i_pos := if i_last_pos <? i_pos then i_last_pos else i_pos in
    let '(err, s1) := stream_Seek (s d) i_pos in
    if negb (err =? 0) then Some (VLC_EGENERIC, d)
    else
      let d1 := set_s s1 d in
      do r <- SeekToPCR_loop (S (length (s_after s1))) d1 i_last_pos (-1);
      let '(i_pcr, d2) := r in
      if i_pcr <? 0 then
        Some (VLC_EGENERIC, set_s (snd (stream_Seek (s d2) i_initial_pos)) d2)
      else
        Some (VLC_SUCCESS,
              set_p_sys (sys_set_i_current_pcr i_pcr (p_sys d2)) d2).

(** The sample-table walk at the head of Seek: the index it stops at. *)
Fixpoint Seek_bracket (n : nat) (y : demux_sys_t) (i_target_pcr : Z)
    (i : Z) (i_adjust : Z) : Z :=
  match n with
  | O => i
  | S n' =>
    if i <? i_pcrs_num y then
      let i_adjust :=
        if byte_at (p_pcrs y) i <? byte_at (p_pcrs y) (i - 1)
        then int64 (i_adjust + 0x1FFFFFFFF) else i_adjust in
      if i_target_pcr <? int64 (byte_at (p_pcrs y) i + i_adjust) then i
      else Seek_bracket n' y i_target_pcr (i + 1) i_adjust
    else i
  end.

(** [(a - b) * 100 / 9 / 1000] on 64-bit integers. *)
Definition pcr_diff_msec (a b : Z) : Z :=
  cdiv (cdiv (int64 (int64 (a - b) * 100)) 9) 1000.

(** The bisection [while( i_head_pos <= i_tail_pos )] of Seek: whether a
    position was found, and the number of rounds. *)
Fixpoint Seek_loop (fuel : nat) (d : demux_t) (i_target_pcr : Z)
    (i_head_pos i_tail_pos : Z) (i_cnt : Z) : option (bool * Z * demux_t) :=
  match fuel with
  | O => None
  | S fuel' =>
    if i_head_pos <=? i_tail_pos then
      let pkt := i_packet_size (p_sys d) in
      let i_pos := int64 (i_head_pos + cdiv (int64 (i_tail_pos - i_head_pos)) 2) in
      let i_div := cmod i_pos pkt in
      let i_pos := int64 (i_pos - i_div) in
      do r <- SeekToPCR d i_pos;
      let '(err, d1) := r in
      if negb (err =? 0) then Some (false, i_cnt, d1)
      else
        let i_cur := AdjustPCRWrapAround d1 (i_current_pcr (p_sys d1)) in
        let d2 := set_p_sys (sys_set_i_current_pcr i_cur (p_sys d1)) d1 in
        let i_diff_msec := pcr_diff_msec i_cur i_target_pcr in
        if 500 <? i_diff_msec then
          Seek_loop fuel' d2 i_target_pcr i_head_pos (int64 (i_pos - pkt))
                    (int32 (i_cnt + 1))
        else if i_diff_msec <? -500 then
          Seek_loop fuel' d2 i_target_pcr (int64 (i_pos + pkt)) i_tail_pos
                    (int32 (i_cnt + 1))
        else Some (true, i_cnt, d2)
    else Some (false, i_cnt, d)
  end.

Section Seeking.

(** The seek fraction is a C double.  Floating point is kept outside the
    model: [target_pcr_of diff f first] stands for the value of
    [diff * f_percent + first] converted to a 64-bit integer, and
    [scale_offset size f] for [(int64_t)(size * f)]. *)
Variable double : Type.
Variable target_pcr_of : Z -> double -> Z -> Z.
Variable scale_offset : Z -> double -> Z.

Definition Seek (d : demux_t) (f_percent : double) : option (Z * demux_t) :=
  let y := p_sys d in
  let i_initial_pos := stream_Tell (s d) in
  let i_initial_pcr := i_current_pcr y in
  let i_target_pcr :=
    target_pcr_of (int64 (i_last_pcr y - i_first_pcr y)) f_percent
                  (i_first_pcr y) in
  let i := Seek_bracket (Z.to_nat (i_pcrs_num y - 1)) y i_target_pcr 1 0 in
  let i_head_pos := byte_at (p_pos y) (i - 1) in
  let i_tail_pos :=
    if i <? i_pcrs_num y then byte_at (p_pos y) i else stream_Size (s d) in
  let d0 := log (msg_Dbg "Seek():i_head_pos:%lld, i_tail_pos:%lld"
                         [i_head_pos; i_tail_pos]) d in
  do r <- Seek_loop (S (Z.to_nat (i_tail_pos - i_head_pos + 1))) d0
                    i_target_pcr i_head_pos i_tail_pos 0;
  let '(b_found, i_cnt, d1) := r in
  if negb b_found then
    let d2 := log (msg_Dbg "Seek():cannot find a time position. i_cnt:%d"
                           [i_cnt]) d1 in
    let d3 := set_s (snd (stream_Seek (s d2) i_initial_pos)) d2 in
    Some (VLC_EGENERIC,
          set_p_sys (sys_set_i_current_pcr i_initial_pcr (p_sys d3)) d3)
  else
    Some (VLC_SUCCESS,
          log (msg_Dbg "Seek():can find a time position. i_cnt:%d" [i_cnt]) d1).

(** [Control( p_demux, DEMUX_SET_POSITION, f )] *)
Definition Control_SET_POSITION (d : demux_t) (f : double)
    : option (Z * demux_t) :=
  let y := p_sys d in
  if b_force_seek_per_percent y ||
     (b_dvb_meta y && b_access_control y) ||
     (int64 (i_last_pcr y - i_first_pcr y) <=? 0)
  then
    let i64 := stream_Size (s d) in
    let '(err, s1) := stream_Seek (s d) (scale_offset i64 f) in
    if negb (err =? 0) then Some (VLC_EGENERIC, set_s s1 d)
    else Some (VLC_SUCCESS, set_s s1 d)
  else
    do r <- Seek d f;
    let '(err, d1) := r in
    if negb (err =? 0) then
      Some (VLC_EGENERIC,
            set_p_sys (sys_set_b_force_seek_per_percent true (p_sys d1)) d1)
    else Some (VLC_SUCCESS, d1).

End Seeking.

(** The loop of GetFirstPCR. *)
Fixpoint GetFirstPCR_loop (fuel : nat) (d : demux_t) : option demux_t :=
  match fuel with
  | O => None
  | S fuel' =>
    if negb (b_alive d) then Some d
    else
      do r <- ReadTSPacket d;
      let '(p, d1) := r in
      match p with
      | None => Some d1
      | Some p_pkt =>
        let i_pcr := GetPCR p_pkt in
        let d2 :=
          if 0 <=? i_pcr then
            set_p_sys
              (sys_set_i_current_pcr i_pcr
                 (sys_set_i_first_pcr i_pcr
                    (sys_set_i_pid_ref_pcr (PIDGet p_pkt) (p_sys d1)))) d1
          else d1 in
        if 0 <=? i_first_pcr (p_sys d2) then Some d2
        else GetFirstPCR_loop fuel' d2
      end
  end.

Definition GetFirstPCR (d : demux_t) : option demux_t :=
  let i_initial_pos := stream_Tell (s d) in
  let '(err, s1) := stream_Seek (s d) 0 in
  if negb (err =? 0) then Some d
  else
    let d1 := set_s s1 d in
    do d2 <- GetFirstPCR_loop (S (length (s_after s1))) d1;
    Some (set_s (snd (stream_Seek (s d2) i_initial_pos)) d2).

(** The loop of GetLastPCR. *)
Fixpoint GetLastPCR_loop (fuel : nat) (d : demux_t) (i_pos i_last_pos : Z)
    : option demux_t :=
  match fuel with
  | O => None
  | S fuel' =>
    if negb (b_alive d) then Some d
    else
      do r <- SeekToPCR d i_pos;
      let '(err, d1) := r in
      if negb (err =? 0) then Some d1
      else
        let i_last := AdjustPCRWrapAround d1 (i_current_pcr (p_sys d1)) in
        let d2 := set_p_sys (sys_set_i_last_pcr i_last (p_sys d1)) d1 in
        let i_pos := stream_Tell (s d2) in
        if i_last_pos <=? i_pos then Some d2
        else GetLastPCR_loop fuel' d2 i_pos i_last_pos
  end.

Definition TS_SUPPOSED_MAXRATE : Z := 55 * 1000 * 1000.
Definition TS_SUPPOSED_MINRATE : Z := 500000.

(** The bitrate GetLastPCR derives from the stream size and the span
    between the first and the last PCR. *)
Definition implied_rate (i_size i_first i_last : Z) : Z :=
  let i_duration_msec := pcr_diff_msec i_last i_first in
  if (i_size <? 0) || (i_duration_msec <=? 0) then 0
  else cdiv (int64 (int64 (i_size * 1000) * 8)) i_duration_msec.

Definition GetLastPCR (d : demux_t) : option demux_t :=
  let y := p_sys d in
  let i_initial_pos := stream_Tell (s d) in
  let i_initial_pcr := i_current_pcr y in
  let i_stream_size := stream_Size (s d) in
  let i_last_pos := int64 (i_stream_size - i_packet_size y) in
  let i_pos := int64 (i_last_pos - int32 (i_packet_size y * 4500)) in
  let i_div := cmod i_pos (i_packet_size y) in
  let i_pos := int64 (i_pos - i_div) in
  let i_pos :=
    if (i_pos <=? i_initial_pos) && (i_stream_size <=? i_pos)
    then int64 (i_initial_pos + i_packet_size y) else i_pos in
  if (i_pos <? 0) && (i_stream_size <=? i_pos) then Some d
  else
    do d1 <- GetLastPCR_loop (S (S (Z.to_nat i_stream_size))) d i_pos i_last_pos;
    let d2 :=
      if 0 <=? i_last_pcr (p_sys d1) then
        let i_size := stream_Size (s d1) in
        let i_rate :=
          implied_rate i_size (i_first_pcr (p_sys d1)) (i_last_pcr (p_sys d1)) in
        if (i_rate <? TS_SUPPOSED_MINRATE) || (TS_SUPPOSED_MAXRATE <? i_rate)
        then
          set_p_sys (sys_set_i_last_pcr (-1) (p_sys d1))
            (log (msg_Dbg "calculated bitrate (%lldbit/s) is too low or too high. min bitrate (%lldbit/s) max bitrate (%lldbit/s)"
                          [i_rate; TS_SUPPOSED_MINRATE; TS_SUPPOSED_MAXRATE]) d1)
        else d1
      else d1 in
    let d3 := set_s (snd (stream_Seek (s d2) i_initial_pos)) d2 in
    Some (set_p_sys (sys_set_i_current_pcr i_initial_pcr (p_sys d3)) d3).

(** The loop of CheckPCR: the index it stops at. *)
Fixpoint CheckPCR_loop (n : nat) (d : demux_t) (i_size : Z) (i : Z)
    : option (Z * demux_t) :=
  match n with
  | O => Some (i, d)
  | S n' =>
    let y := p_sys d in
    if (i <? i_pcrs_num y) && b_alive d then
      let i_pos := int64 (cdiv i_size (i_pcrs_num y) * i) in
      let i_div := cmod i_pos (i_packet_size y) in
      let i_pos := int64 (i_pos - i_div) in
      do r <- SeekToPCR d i_pos;
      let '(err, d1) := r in
      if negb (err =? 0) then Some (i, d1)
      else
        let y1 := p_sys d1 in
        let pcrs := array_setZ (p_pcrs y1) i (i_current_pcr y1) in
        let pos := array_setZ (p_pos y1) i (stream_Tell (s d1)) in
        let d2 := set_p_sys (sys_set_p_pos pos (sys_set_p_pcrs pcrs y1)) d1 in
        let d3 :=
          if byte_at pcrs i <? byte_at pcrs (i - 1) then
            log (msg_Dbg "PCR Wrap Around found between %d%% and %d%% (pcr:%lld(0x%09llx) pcr:%lld(0x%09llx))"
                   [cdiv ((i - 1) * 100) (i_pcrs_num y);
                    cdiv (i * 100) (i_pcrs_num y);
                    byte_at pcrs (i - 1); byte_at pcrs (i - 1);
                    byte_at pcrs i; byte_at pcrs i]) d2
          else d2 in
        CheckPCR_loop n' d3 i_size (i + 1)
    else Some (i, d)
  end.

Definition CheckPCR (d : demux_t) : option demux_t :=
  let y := p_sys d in
  let i_initial_pos := stream_Tell (s d) in
  let i_initial_pcr := i_current_pcr y in
  let i_size := stream_Size (s d) in
  let d0 :=
    set_p_sys (sys_set_p_pos (array_setZ (p_pos y) 0 i_initial_pos)
                 (sys_set_p_pcrs (array_setZ (p_pcrs y) 0 (i_first_pcr y)) y))
              d in
  do r <- CheckPCR_loop (Z.to_nat (i_pcrs_num y - 1)) d0 i_size 1;
  let '(i, d1) := r in
  let d2 :=
    if i <? i_pcrs_num (p_sys d1) then
      set_p_sys (sys_set_b_force_seek_per_percent true (p_sys d1))
        (log (msg_Dbg "Force Seek Per Percent: Seeking failed at %d%%."
                      [cdiv (i * 100) (i_pcrs_num (p_sys d1))]) d1)
    else d1 in
  let d3 := set_s (snd (stream_Seek (s d2) i_initial_pos)) d2 in
  Some (set_p_sys (sys_set_i_current_pcr i_initial_pcr (p_sys d3)) d3).

(** ** Reassembly of PES packets and table sections *)

(** GetWBE / GetDWBE of vlc_common.h: big-endian reads. *)
Definition GetWBE (p : list Z) (i : Z) : Z :=
  Z.lor (Z.shiftl (byte_at p i) 8) (byte_at p (i + 1)).

Definition GetDWBE (p : list Z) (i : Z) : Z :=
  Z.lor (Z.lor (Z.shiftl (byte_at p i) 24) (Z.shiftl (byte_at p (i + 1)) 16))
        (Z.lor (Z.shiftl (byte_at p (i + 2)) 8) (byte_at p (i + 3))).

(** The five bytes of a PES time stamp starting at [header[i]]. *)
Definition pes_timestamp (header : list Z) (i : Z) : Z :=
  Z.lor (Z.lor (Z.lor (Z.lor
    (Z.shiftl (Z.land (byte_at header i) 0x0e) 29)
    (Z.shiftl (byte_at header (i + 1)) 22))
    (Z.shiftl (Z.land (byte_at header (i + 2)) 0xfe) 14))
    (Z.shiftl (byte_at header (i + 3)) 7))
    (Z.shiftr (byte_at header (i + 4)) 1).

(** [VLC_TS_0 + t * 100 / 9]: 90 kHz ticks to microseconds. *)
Definition to_vlc_ts (t : Z) : Z := int64 (VLC_TS_0 + cdiv (int64 (t * 100)) 9).

(** The programs of the PSI context [p_owner] points to. *)
Definition owner_prgs (d : demux_t) (q : ts_pid_t) : list ts_prg_psi_t :=
  match p_owner q with
  | None => []
  | Some k =>
    match psi (get_pid d k) with
    | Some t => prg t
    | None => []
    end
  end.

(** [while( i_skip < 23 && header[i_skip] == 0xff ) i_skip++] *)
Fixpoint mpeg1_stuffing (n : nat) (header : list Z) (i_skip : Z) : Z :=
  match n with
  | O => i_skip
  | S n' =>
    if (i_skip <? 23) && (byte_at header i_skip =? 0xff)
    then mpeg1_stuffing n' header (i_skip + 1)
    else i_skip
  end.

(** The loop [while( p_pes && i_skip > 0 )] that drops the PES header
    from the chain. *)
Fixpoint skip_header (p_pes : list block_t) (i_skip : Z) : list block_t :=
  match p_pes with
  | [] => []
  | b :: p_next =>
    if 0 <? i_skip then
      if i_buffer b <=? i_skip then skip_header p_next (i_skip - i_buffer b)
      else set_p_buffer (skipn (Z.to_nat i_skip) (p_buffer b)) b :: p_next
    else p_pes
  end.

Section Gathering.

(** [header_garbage]: what the local array [header[34]] of ParsePES holds
    where the chain does not fill it.  [opus_frame_duration] is the
    helper of opus.h. *)
Variable header_garbage : list Z.
Variable opus_frame_duration : list Z -> Z -> Z.

Definition read_opus_flag (buf : list Z) (len : Z) : Z * list Z * Z :=
  if len <? 2 then (-1, buf, len)
  else
    let ret := int16 (Z.lor (Z.shiftl (byte_at buf 0) 8) (byte_at buf 1)) in
    let ret := if negb (Z.land ret (Z.shiftl 3 13) =? 0) then -1 else ret in
    (ret, skipn 2 buf, len - 2).

(** [while (len--) { c = *buf++; au_size += c; if (c != 0xff) break; }]
    with [len] a size_t. *)
Fixpoint opus_au_size (buf : list Z) (len au_size : Z) : list Z * Z * Z :=
  match buf with
  | [] =>
    if len =? 0 then ([], size_t (-1), au_size)
    else ([], len - 1, au_size)
  | c :: buf' =>
    if len =? 0 then (buf, size_t (-1), au_size)
    else
      let au_size := uint32 (au_size + c) in
      if negb (c =? 0xff) then (buf', len - 1, au_size)
      else opus_au_size buf' (len - 1) au_size
  end.

(** One access unit cut out of [block]. *)
Definition opus_au (block : block_t) (buf : list Z) (au_size : Z)
    (start_trim end_trim : Z) : block_t :=
  let data := firstn (Z.to_nat au_size) buf in
  let au := set_p_buffer (data ++ repeat 0 (Z.to_nat au_size - length data))
                         block in
  let i_nb := opus_frame_duration buf au_size in
  let i_len :=
    if negb (end_trim =? 0) && (uint32 end_trim <=? i_nb) then end_trim
    else 0 in
  let au := set_i_length i_len (set_i_nb_samples i_nb au) in
  if negb (start_trim =? 0) && (start_trim <? i_nb - i_len) then
    let i_nb' := uint32 (i_nb - start_trim) in
    let au := set_i_nb_samples i_nb' au in
    if i_nb' =? 0 then set_i_flags (Z.lor (i_flags au) BLOCK_FLAG_PREROLL) au
    else au
  else au.

(** The loop of Opus_Parse; [buf] is what is left of the buffer and [len]
    the size_t count kept along with it. *)
Fixpoint Opus_Parse_loop (fuel : nat) (block : block_t) (buf : list Z)
    (len : Z) : list block_t * list log_entry :=
  match fuel with
  | O => ([], [])
  | S fuel' =>
    if (3 <? len) &&
       (Z.lor (Z.shiftl (byte_at buf 0) 3) (Z.shiftr (byte_at buf 1) 5)
        =? 0x3ff)
    then
      let start_trim_flag := Z.land (Z.shiftr (byte_at buf 1) 4) 1 in
      let end_trim_flag := Z.land (Z.shiftr (byte_at buf 1) 3) 1 in
      let control_extension_flag := Z.land (Z.shiftr (byte_at buf 1) 2) 1 in
      let '(buf, len, au_size) := opus_au_size (skipn 2 buf) (len - 2) 0 in
      let '(start_trim, buf, len, m1) :=
        if negb (start_trim_flag =? 0) then
          let '(t, b, l) := read_opus_flag buf len in
          (t, b, l, if t <? 0 then [msg_Err "Invalid start trimming flag" []]
                    else [])
        else (0, buf, len, []) in
      let '(end_trim, buf, len, m2) :=
        if negb (end_trim_flag =? 0) then
          let '(t, b, l) := read_opus_flag buf len in
          (t, b, l, if t <? 0 then [msg_Err "Invalid end trimming flag" []]
                    else [])
        else (0, buf, len, []) in
      let ext :=
        if negb (control_extension_flag =? 0) && negb (len =? 0) then
          let l := byte_at buf 0 in
          let len := size_t (len - 1) in
          if len <? l then None
          else Some (skipn (Z.to_nat (1 + l)) buf, len - l)
        else Some (buf, len) in
      match ext with
      | None =>
        ([], m1 ++ m2 ++
             [msg_Err "Invalid control extension length %d > %zu"
                      [byte_at buf 0; size_t (len - 1)]])
      | Some (buf, len) =>
        if (au_size =? 0) || (len <? au_size) then
          ([], m1 ++ m2 ++
               [msg_Err "Invalid Opus AU size %d (PES %zu)" [au_size; len]])
        else
          let au := opus_au block buf au_size start_trim end_trim in
          let '(rest, m3) :=
            Opus_Parse_loop fuel' block (skipn (Z.to_nat au_size) buf)
                            (len - au_size) in
          (au :: rest, m1 ++ m2 ++ m3)
      end
    else ([], [])
  end.

Definition Opus_Parse (block : block_t) : list block_t * list log_entry :=
  Opus_Parse_loop (S (length (p_buffer block))) block (p_buffer block)
                  (i_buffer block).

(** The PES header as ParsePES decodes it: [None] when the packet is
    dropped for too much MPEG-1 stuffing, else (i_skip, i_pts, i_dts). *)
Definition parse_pes_header (header : list Z) : option (Z * Z * Z) :=
  let h := byte_at header in
  let sid := h 3 in
  if (sid =? 0xBC) || (sid =? 0xBE) || (sid =? 0xBF) || (sid =? 0xF0) ||
     (sid =? 0xF1) || (sid =? 0xFF) || (sid =? 0xF2) || (sid =? 0xF8)
  then Some (6, -1, -1)
  else if Z.land (h 6) 0xC0 =? 0x80 then
    let i_skip := h 8 + 9 in
    if negb (Z.land (h 7) 0x80 =? 0) then
      let i_pts := pes_timestamp header 9 in
      if negb (Z.land (h 7) 0x40 =? 0) then
        Some (i_skip, i_pts, pes_timestamp header 14)
      else Some (i_skip, i_pts, -1)
    else Some (i_skip, -1, -1)
  else
    let i_skip := mpeg1_stuffing 17 header 6 in
    if i_skip =? 23 then None
    else
      let i_skip :=
        if Z.land (h i_skip) 0xC0 =? 0x40 then i_skip + 2 else i_skip in
      if negb (Z.land (h i_skip) 0x20 =? 0) then
        let i_pts := pes_timestamp header i_skip in
        if negb (Z.land (h i_skip) 0x10 =? 0) then
          Some (i_skip + 10, i_pts, pes_timestamp header (i_skip + 5))
        else Some (i_skip + 5, i_pts, -1)
      else Some (i_skip + 1, -1, -1).

(** The codec-specific part of the header length: (i_skip, i_length,
    i_pes_size). *)
Definition pes_codec_skip (e : ts_es_t) (p_pes : list block_t) (i_skip : Z)
    : Z * Z * Z :=
  let codec := i_codec (fmt e) in
  let first := match p_pes with b :: _ => p_buffer b | [] => [] end in
  if (codec =? fourcc_of "a52b") || (codec =? fourcc_of "dtsb") then
    (uint32 (i_skip + 4), 0, 0)
  else if (codec =? fourcc_of "lpcb") || (codec =? fourcc_of "spub") ||
          (codec =? fourcc_of "sddb") then
    (uint32 (i_skip + 1), 0, 0)
  else if codec =? VLC_CODEC_SUBT then
    match p_mpeg4desc e with
    | None => (i_skip, 0, 0)
    | Some m =>
      let dcd := dec_descr m in
      let '(i_skip, i_length) :=
        if (2 <? zlength (dcd_p_extra dcd)) &&
           (byte_at (dcd_p_extra dcd) 0 =? 0x10) &&
           negb (Z.land (byte_at (dcd_p_extra dcd) 1) 0x10 =? 0)
        then
          (uint32 (i_skip + 2),
           if zlength first + 2 <=? i_skip then GetWBE first i_skip else 0)
        else (i_skip, 0) in
      let i_pes_size :=
        if zlength first + 2 <=? i_skip then GetWBE first i_skip else 0 in
      (uint32 (i_skip + 2), i_length, i_pes_size)
    end
  else (i_skip, 0, 0).

(** [p_block->i_buffer = n] (when smaller) and a final NUL appended. *)
Definition null_terminate (i_pes_size : Z) (b : block_t) : block_t :=
  let p :=
    if (0 <? i_pes_size) && (i_pes_size <? i_buffer b)
    then firstn (Z.to_nat i_pes_size) (p_buffer b) else p_buffer b in
  set_p_buffer (p ++ [0]) b.

(** The last PCR of the owning program, for teletext without a PTS. *)
Fixpoint teletext_pts (prgs : list ts_prg_psi_t) (i_owner : Z) (b : block_t)
    : block_t :=
  match prgs with
  | [] => b
  | g :: prgs' =>
    if i_owner =? i_number g then
      if VLC_TS_INVALID <? i_pcr_value g then
        set_i_pts (int64 (to_vlc_ts (i_pcr_value g) + 40000)) b
      else b
    else teletext_pts prgs' i_owner b
  end.

(** The delivery loop at the end of ParsePES. *)
Fixpoint send_blocks (q : ts_pid_t) (e : ts_es_t) (b_trust : bool)
    (blocks : list block_t) (d : demux_t) : demux_t :=
  match blocks with
  | [] => d
  | b :: rest =>
    let d1 :=
      fold_left (fun acc x => emit (ES_OUT_SEND (id x) b) acc) (extra_es q) d in
    let d2 :=
      if negb b_trust
      then emit (ES_OUT_SET_GROUP_PCR (i_owner_number q) (i_pts b)) d1
      else d1 in
    send_blocks q e b_trust rest (emit (ES_OUT_SEND (id e) b) d2)
  end.

(** [ParsePES( p_demux, pid, p_pes )] for the PID entry [q] with
    elementary stream [e]. *)
Definition ParsePES (d : demux_t) (q : ts_pid_t) (e : ts_es_t)
    (p_pes : list block_t) : demux_t :=
  let header := firstn 34 (chain_bytes p_pes ++ header_garbage) in
  let h := byte_at header in
  if b_scrambled q || negb (h 0 =? 0) || negb (h 1 =? 0) || negb (h 2 =? 1)
  then
    if negb (b_scrambled q) then
      log (msg_Warn "invalid header [0x%02x:%02x:%02x:%02x] (pid: %d)"
                    [h 0; h 1; h 2; h 3; i_pid q]) d
    else d
  else
    match parse_pes_header header with
    | None => log (msg_Err "too much MPEG-1 stuffing" []) d
    | Some (i_skip, pts, dts) =>
      let '(i_skip, len, i_pes_size) := pes_codec_skip e p_pes i_skip in
      let p_pes := skip_header p_pes i_skip in
      let dts := if (0 <=? pts) && (dts <? 0) then pts else dts in
      match p_pes with
      | [] => log (msg_Warn "empty pes" []) d
      | b :: p_next =>
        let b := if 0 <=? dts then set_i_dts (to_vlc_ts dts) b else b in
        let b := if 0 <=? pts then set_i_pts (to_vlc_ts pts) b else b in
        let b := set_i_length (cdiv (int64 (len * 100)) 9) b in
        match block_ChainGather (b :: p_next) with
        | None => d
        | Some p_block =>
          let codec := i_codec (fmt e) in
          let '(blocks, m) :=
            if codec =? VLC_CODEC_SUBT then
              ([null_terminate i_pes_size p_block], [])
            else if codec =? VLC_CODEC_TELETEXT then
              if i_pts p_block <=? VLC_TS_INVALID then
                ([teletext_pts (owner_prgs d q) (i_owner_number q) p_block], [])
              else ([p_block], [])
            else if (codec =? VLC_CODEC_ARIB_A) || (codec =? VLC_CODEC_ARIB_C)
            then
              if i_pts p_block <=? VLC_TS_INVALID then
                ([null_terminate i_pes_size p_block], [])
              else ([p_block], [])
            else if codec =? VLC_CODEC_OPUS then Opus_Parse p_block
            else ([p_block], []) in
          send_blocks q e (b_trust_pcr (p_sys d)) blocks
                      (set_msgs (msgs d ++ m) d)
        end
      end
    end.

(** The PCR of the owning program that ParseTableSection stamps with. *)
Fixpoint section_date (prgs : list ts_prg_psi_t) (i_owner : Z) (i_date : Z)
    : Z :=
  match prgs with
  | [] => i_date
  | g :: prgs' =>
    if i_owner =? i_number g then
      if 0 <=? i_pcr_value g then i_pcr_value g
      else section_date prgs' i_owner (i_pcr_value g)
    else section_date prgs' i_owner i_date
  end.

(** The display time a SCTE-27 section carries, against [i_date]. *)
Definition scte27_date (p : list Z) (i_date : Z) : Z :=
  if (9 <? zlength p) && (byte_at p 0 =? 0xc6) then
    let '(i_index, i_offset) :=
      if negb (Z.land (byte_at p 3) 0x40 =? 0) then
        (Z.lor (Z.shiftl (Z.land (byte_at p 7) 0x0f) 8) (byte_at p 8), 9)
      else (0, 4) in
    if (i_index =? 0) && (i_offset + 8 <? zlength p) then
      if Z.land (byte_at p (i_offset + 3)) 0x40 =? 0 then
        let i_display_in := GetDWBE p (i_offset + 4) in
        if i_display_in <? i_date then i_display_in + 2 ^ 32
        else i_display_in
      else i_date
    else i_date
  else i_date.

Definition ParseTableSection (d : demux_t) (q : ts_pid_t) (e : ts_es_t)
    (p_data : list block_t) : demux_t :=
  match block_ChainGather p_data with
  | None => d
  | Some p_content =>
    let i_date := section_date (owner_prgs d q) (i_owner_number q) (-1) in
    let p_content :=
      if 0 <=? i_date then
        let i_date :=
          if i_codec (fmt e) =? VLC_CODEC_SCTE_27
          then scte27_date (p_buffer p_content) i_date else i_date in
        set_i_dts (to_vlc_ts i_date) (set_i_pts (to_vlc_ts i_date) p_content)
      else p_content in
    emit (ES_OUT_SEND (id e) p_content) d
  end.

(** The reassembly state of an elementary stream after ParseData has
    taken the chain away. *)
Definition es_reset (e : ts_es_t) : ts_es_t :=
  es_set_p_data [] (es_set_i_data_gathered 0 (es_set_i_data_size 0 e)).

(** [ParseData( p_demux, pid )] on entry [k] of the PID table. *)
Definition ParseData (d : demux_t) (k : Z) : demux_t :=
  let q := get_pid d k in
  match es q with
  | None => d
  | Some e =>
    let p_data := p_data e in
    let q' := pid_set_es (Some (es_reset e)) q in
    let d1 := put_pid k q' d in
    match data_type e with
    | TS_ES_DATA_PES => ParsePES d1 q' (es_reset e) p_data
    | TS_ES_DATA_TABLE_SECTION => ParseTableSection d1 q' (es_reset e) p_data
    end
  end.

(** ** Clock handling and gathering *)

Definition all_pids : list Z := map Z.of_nat (seq 0 (Z.to_nat 8192)).

(** [pid->p_owner == p_sys->pmt[i]->psi] for the PMT entry [kpmt]. *)
Definition owner_is (q : ts_pid_t) (kpmt : Z) : bool :=
  match p_owner q with
  | Some k => k =? kpmt
  | None => false
  end.

(** The scan of the PID table for a valid entry owned by [kpmt] that has
    an elementary stream. *)
Definition pmt_has_es (d : demux_t) (kpmt : Z) : bool :=
  existsb (fun j =>
             let q := get_pid d j in
             b_valid q && owner_is q kpmt &&
             match es q with Some _ => true | None => false end)
          all_pids.

(** The pass of PCRHandle over the programs of one PMT: the programs with
    their PCR recorded, the group found, and whether one matched. *)
Fixpoint PCRHandle_prgs (prgs : list ts_prg_psi_t) (pid_i_pid pcr : Z)
    (i_group : Z) (b_match : bool) : list ts_prg_psi_t * Z * bool :=
  match prgs with
  | [] => ([], i_group, b_match)
  | g :: prgs' =>
    if pid_i_pid =? i_pid_pcr g then
      let '(r, i_group', b) :=
        PCRHandle_prgs prgs' pid_i_pid pcr (i_number g) true in
      (prg_set_i_pcr_value pcr g :: r, i_group', b)
    else
      let '(r, i_group', b) :=
        PCRHandle_prgs prgs' pid_i_pid pcr i_group b_match in
      (g :: r, i_group', b)
  end.

(** The loop of PCRHandle over the PMT entries, while no group is found.
    An entry of the PMT list always has a PSI context; one without is
    passed over. *)
Fixpoint PCRHandle_pmts (pmts : list Z) (d : demux_t) (pid_i_pid pcr : Z)
    (i_group : Z) : demux_t :=
  match pmts with
  | [] => d
  | kpmt :: rest =>
    if i_group <? 0 then
      match psi (get_pid d kpmt) with
      | None => PCRHandle_pmts rest d pid_i_pid pcr i_group
      | Some t =>
        let '(prgs, i_group', b_match) :=
          PCRHandle_prgs (prg t) pid_i_pid pcr i_group false in
        let d1 :=
          put_pid kpmt (pid_set_psi (Some (psi_set_prg prgs t))
                                    (get_pid d kpmt)) d in
        let b_pmt_has_es := b_match && pmt_has_es d1 kpmt in
        let d2 :=
          if b_trust_pcr (p_sys d1) && (0 <? i_group') && b_pmt_has_es
          then emit (ES_OUT_SET_GROUP_PCR i_group' (to_vlc_ts pcr)) d1
          else d1 in
        PCRHandle_pmts rest d2 pid_i_pid pcr i_group'
      end
    else d
  end.

(** [PCRHandle( p_demux, pid, p_bk )] for entry [k] of the PID table. *)
Definition PCRHandle (d : demux_t) (k : Z) (p_bk : block_t) : demux_t :=
  let y := p_sys d in
  if i_pmt_es y <=? 0 then d
  else
    let pcr := GetPCR p_bk in
    if pcr <? 0 then d
    else
      let q := get_pid d k in
      let d1 :=
        if i_pid_ref_pcr y =? i_pid q then
          set_p_sys (sys_set_i_current_pcr (AdjustPCRWrapAround d pcr) y) d
        else d in
      PCRHandle_pmts (pmt (p_sys d1)) d1 (i_pid q) pcr (-1).

(** Update of the elementary stream of entry [k]. *)
Definition put_es (k : Z) (e : ts_es_t) (d : demux_t) : demux_t :=
  put_pid k (pid_set_es (Some e) (get_pid d k)) d.

(** [pid->es->p_data->i_flags |= BLOCK_FLAG_CORRUPTED] when the entry
    has a chain under reassembly. *)
Definition pid_flag_corrupted (q : ts_pid_t) : ts_pid_t :=
  match es q with
  | Some e => pid_set_es (Some (es_set_p_data (chain_flag_corrupted (p_data e)) e)) q
  | None => q
  end.

Definition pid_has_data (q : ts_pid_t) : bool :=
  match es q with
  | Some e => match p_data e with [] => false | _ :: _ => true end
  | None => false
  end.

Definition pid_cat_is (q : ts_pid_t) (c : es_category) : bool :=
  match es q with
  | Some e => es_category_eqb (i_cat (fmt e)) c
  | None => false
  end.

(** The continuity-counter test of GatherData on entry [k]: [cc] is the
    counter of the packet. *)
Definition continuity_check (d : demux_t) (k : Z)
    (cc : Z) (b_payload b_discontinuity : bool) : demux_t :=
  let q := get_pid d k in
  let i_diff := Z.land (cc - i_cc q) 0x0f in
  if b_payload && (i_diff =? 1) then
    put_pid k (pid_set_i_cc (Z.land (i_cc q + 1) 0xf) q) d
  else if i_cc q =? 0xff then
    put_pid k (pid_set_i_cc cc q)
      (log (msg_Warn "first packet for pid=%d cc=0x%x" [i_pid q; cc]) d)
  else if negb (i_diff =? 0) && negb b_discontinuity then
    let d1 :=
      log (msg_Warn "discontinuity received 0x%x instead of 0x%x (pid=%d)"
                    [cc; Z.land (i_cc q + 1) 0x0f; i_pid q]) d in
    let q1 := pid_set_i_cc cc q in
    let q2 :=
      if pid_has_data q1 && negb (pid_cat_is q1 VIDEO_ES) &&
         negb (pid_cat_is q1 AUDIO_ES)
      then pid_flag_corrupted q1 else q1 in
    put_pid k q2 d1
  else d.

(** The size test that ends a reassembly, after [i_buffer] more bytes. *)
Definition gather_complete (e : ts_es_t) : bool :=
  (0 <? i_data_size e) && (i_data_size e <=? i_data_gathered e).

(** [block_ChainLastAppend( &pid->es->pp_last, p_bk )] and
    [pid->es->i_data_gathered += p_bk->i_buffer]. *)
Definition es_append (p_bk : block_t) (e : ts_es_t) : ts_es_t :=
  es_set_p_data (p_data e ++ [p_bk]) e.

Definition es_count (p_bk : block_t) (e : ts_es_t) : ts_es_t :=
  es_set_i_data_gathered (int32 (i_data_gathered e + i_buffer p_bk)) e.

(** The target length read at a unit start. *)
Definition es_target (p_bk : block_t) (e : ts_es_t) : ts_es_t :=
  match data_type e with
  | TS_ES_DATA_PES =>
    if 6 <? i_buffer p_bk then
      let sz := GetWBE (p_buffer p_bk) 4 in
      es_set_i_data_size (if 0 <? sz then sz + 6 else sz) e
    else e
  | TS_ES_DATA_TABLE_SECTION =>
    if (3 <? i_buffer p_bk) && negb (byte_at (p_buffer p_bk) 0 =? 0xff) then
      es_set_i_data_size
        (3 + Z.lor (Z.shiftl (Z.land (byte_at (p_buffer p_bk) 1) 0xf) 8)
                   (byte_at (p_buffer p_bk) 2)) e
    else e
  end.

Definition get_es (d : demux_t) (k : Z) : option ts_es_t := es (get_pid d k).

(** The branch [if( b_unit_start )] of GatherData; [p_bk] is the payload. *)
Definition GatherData_unit_start (d : demux_t) (k : Z) (p_bk : block_t)
    : demux_t * bool :=
  match get_es d k with
  | None => (d, false)
  | Some e =>
    let '(d1, p_bk) :=
      match data_type e with
      | TS_ES_DATA_TABLE_SECTION =>
        if 0 <? i_buffer p_bk then
          let i_pointer_field :=
            Z.min (byte_at (p_buffer p_bk) 0) (i_buffer p_bk - 1) in
          let p :=
            set_p_buffer (firstn (Z.to_nat i_pointer_field)
                                 (skipn 1 (p_buffer p_bk))) p_bk in
          (put_es k (es_append p e) d,
           set_p_buffer (skipn (Z.to_nat (1 + i_pointer_field)) (p_buffer p_bk))
                        p_bk)
        else (d, p_bk)
      | TS_ES_DATA_PES => (d, p_bk)
      end in
    let '(d2, i_ret) :=
      if pid_has_data (get_pid d1 k) then (ParseData d1 k, true)
      else (d1, false) in
    match get_es d2 k with
    | None => (d2, i_ret)
    | Some e2 =>
      let e3 := es_count p_bk (es_target p_bk (es_append p_bk e2)) in
      let d3 := put_es k e3 d2 in
      if gather_complete e3 then (ParseData d3 k, true) else (d3, i_ret)
    end
  end.

(** The branch of GatherData for a packet without unit start. *)
Definition GatherData_continue (d : demux_t) (k : Z) (p_bk : block_t)
    : demux_t * bool :=
  match get_es d k with
  | None => (d, false)
  | Some e =>
    match p_data e with
    | [] => (d, false)
    | _ :: _ =>
      let e1 := es_count p_bk (es_append p_bk e) in
      let d1 := put_es k e1 d in
      if gather_complete e1 then (ParseData d1 k, true) else (d1, false)
    end
  end.

(** The scrambled-state notifications of GatherData. *)
Definition scrambled_changed (d : demux_t) (k : Z) (b_scr : bool) : demux_t :=
  let q := get_pid d k in
  if negb (Bool.eqb (b_scrambled q) b_scr) then
    let d1 :=
      log (msg_Warn "scrambled state changed on pid %d (%d->%d)"
             [i_pid q; if b_scrambled q then 1 else 0; if b_scr then 1 else 0])
          d in
    let d2 := put_pid k (pid_set_b_scrambled b_scr q) d1 in
    let d3 :=
      fold_left
        (fun acc x => emit (ES_OUT_SET_ES_SCRAMBLED_STATE (id x) b_scr) acc)
        (extra_es q) d2 in
    emit (ES_OUT_SET_ES_SCRAMBLED_STATE
            (match es q with Some e => id e | None => None end) b_scr) d3
  else d.

(** [p_bk->i_buffer = TS_PACKET_SIZE_188]: the first 188 bytes of the
    packet memory. *)
Definition take_188 (p : list Z) : list Z := firstn 188 (p ++ repeat 0 188).

(** [GatherData( p_demux, pid, p_bk )] for entry [k] of the PID table.
    The entry is one with an elementary stream ([pid->es] is
    dereferenced throughout); without one nothing is done. *)
Definition GatherData (d : demux_t) (k : Z) (p_bk : block_t)
    : demux_t * bool :=
  match get_es d k with
  | None => (d, false)
  | Some _ =>
    let p := byte_at (p_buffer p_bk) in
    let b_unit_start := negb (Z.land (p 1) 0x40 =? 0) in
    let b_scr := negb (Z.land (p 3) 0x80 =? 0) in
    let b_adaptation := negb (Z.land (p 3) 0x20 =? 0) in
    let b_payload := negb (Z.land (p 3) 0x10 =? 0) in
    let cc := Z.land (p 3) 0x0f in
    let d1 :=
      if negb (Z.land (p 1) 0x80 =? 0) then
        let d' := log (msg_Dbg "transport_error_indicator set (pid=%d)"
                               [i_pid (get_pid d k)]) d in
        put_pid k (pid_flag_corrupted (get_pid d' k)) d'
      else d in
    let p_bk :=
      match csa (p_sys d1) with
      | Some c =>
        set_p_buffer (csa_Decrypt c (p_buffer p_bk) (i_csa_pkt_size (p_sys d1)))
                     p_bk
      | None => p_bk
      end in
    let p_bk := set_p_buffer (take_188 (p_buffer p_bk)) p_bk in
    let p := byte_at (p_buffer p_bk) in
    let '(i_skip, b_discontinuity, d2) :=
      if negb b_adaptation then (4, false, d1)
      else if 0 <? p 4 then
        let b_disc := negb (Z.land (p 5) 0x80 =? 0) in
        (5 + p 4, b_disc,
         if b_disc && pid_has_data (get_pid d1 k) then
           log (msg_Warn "discontinuity indicator (pid=%d) "
                         [i_pid (get_pid d1 k)]) d1
         else d1)
      else (5 + p 4, false, d1) in
    let d3 := continuity_check d2 k cc b_payload b_discontinuity in
    let d4 := PCRHandle d3 k p_bk in
    match get_es d4 k with
    | None => (d4, false)
    | Some e4 =>
      if (188 <=? i_skip) ||
         match id e4 with None => true | Some _ => false end
      then (d4, false)
      else
        let d5 := scrambled_changed d4 k b_scr in
        let p_bk :=
          set_p_buffer (skipn (Z.to_nat i_skip) (p_buffer p_bk)) p_bk in
        if b_unit_start then GatherData_unit_start d5 k p_bk
        else GatherData_continue d5 k p_bk
    end
  end.

End Gathering.

(** ** Life cycle of the PID table entries *)

(** The entry [memset] leaves at index [i], as Open numbers it. *)
Definition pid_zero (i : Z) : ts_pid_t :=
  mk_pid i false false 0 false None 0 None None [].

Definition prg_new : ts_prg_psi_t :=
  mk_prg None (-1) (-1) (-1) (-1) (-1) None.

Definition es_new : ts_es_t :=
  mk_es (es_format_Init UNKNOWN_ES 0) None TS_ES_DATA_PES 0 0 [] None.

(** [PIDInit( pid, b_psi, p_owner )] on the entry value [q].  With
    [b_psi], an entry that was valid keeps its PSI context (the source
    asserts there is one). *)
Definition PIDInit (q : ts_pid_t) (b_psi : bool) (owner : option Z) : ts_pid_t :=
  let b_old_valid := b_valid q in
  let q :=
    pid_set_extra_es []
      (pid_set_i_owner_number 0
         (pid_set_p_owner owner
            (pid_set_b_scrambled false
               (pid_set_i_cc 0xff (pid_set_b_valid true q))))) in
  if b_psi then
    let q := pid_set_es None q in
    let t0 :=
      if negb b_old_valid then Some (mk_psi None 0 0 []) else psi q in
    match t0 with
    | None => q
    | Some t =>
      let t := psi_set_i_sdt_version (-1) (psi_set_i_pat_version (-1) t) in
      let t :=
        match owner with
        | Some _ => psi_set_prg (prg t ++ [prg_new]) t
        | None => t
        end in
      pid_set_psi (Some t) q
    end
  else pid_set_es (Some es_new) (pid_set_psi None q).

Definition SetPIDFilter (d : demux_t) (pid_n : Z) (b_selected : bool)
    : Z * demux_t :=
  if negb (b_access_control (p_sys d)) then (VLC_EGENERIC, d)
  else stream_Control (STREAM_SET_PRIVATE_ID_STATE pid_n b_selected) d.

Definition add_pmt_es (n : Z) (d : demux_t) : demux_t :=
  set_p_sys (sys_set_i_pmt_es (int32 (i_pmt_es (p_sys d) + n)) (p_sys d)) d.

(** es_out_Del and the count, for one elementary stream with a handle. *)
Definition es_delete (e : ts_es_t) (d : demux_t) : demux_t :=
  match id e with
  | Some n => add_pmt_es (-1) (emit (ES_OUT_DEL n) d)
  | None => d
  end.

(** [PIDClean( p_demux, pid )] on entry [k].  The structures it frees
    stay referenced by the entry, which is only marked invalid. *)
Definition PIDClean (d : demux_t) (k : Z) : demux_t :=
  let q := get_pid d k in
  let d1 :=
    match psi q with
    | Some t =>
      put_pid k (pid_set_psi (Some (psi_set_psi_handle None t)) q) d
    | None =>
      let d' := match es q with Some e => es_delete e d | None => d end in
      fold_left (fun acc x => es_delete x acc) (extra_es q) d'
    end in
  put_pid k (pid_set_b_valid false (get_pid d1 k)) d1.

Definition ProgramIsSelected (d : demux_t) (i_pgrm : Z) : bool :=
  let y := p_sys d in
  let i_pgrm := i_pgrm mod 2 ^ 16 in
  ((i_current_program y =? -1) && (zlength (programs_list y) =? 0)) ||
  (i_current_program y =? 0) ||
  (i_current_program y =? i_pgrm) ||
  existsb (fun v => i_pgrm =? v) (programs_list y).

Definition ValidateDVBMeta (d : demux_t) (pid_n : Z) : demux_t :=
  if negb (b_dvb_meta (p_sys d)) ||
     (negb (pid_n =? 0x11) && negb (pid_n =? 0x12) && negb (pid_n =? 0x14))
  then d
  else
    let d1 := log (msg_Warn "Switching to non DVB mode" []) d in
    let d2 :=
      fold_left
        (fun acc i =>
           let q := get_pid acc i in
           let acc1 :=
             match psi q with
             | Some _ =>
               put_pid i (pid_set_b_valid false (pid_set_psi None q)) acc
             | None => acc
             end in
           snd (SetPIDFilter acc1 i false))
        [0x11; 0x12; 0x14] d1 in
    set_p_sys (sys_set_b_dvb_meta false (p_sys d2)) d2.

(** ** The user PMT option

    C strings are lists of characters (without the final NUL).  [strtol],
    [strchr] and [strcmp] are those of the C library. *)

Definition cstring : Type := list ascii.

Definition char_code (c : ascii) : Z := Z.of_nat (nat_of_ascii c).

Definition isspace (c : ascii) : bool :=
  let n := char_code c in (n =? 32) || ((9 <=? n) && (n <=? 13)).

(** The value of a character as a digit, in bases up to 36. *)
Definition digit_value (c : ascii) : option Z :=
  let n := char_code c in
  if (48 <=? n) && (n <=? 57) then Some (n - 48)
  else if (97 <=? n) && (n <=? 122) then Some (n - 97 + 10)
  else if (65 <=? n) && (n <=? 90) then Some (n - 65 + 10)
  else None.

Fixpoint skip_spaces (p : cstring) : cstring :=
  match p with
  | c :: p' => if isspace c then skip_spaces p' else p
  | [] => []
  end.

(** The digits of base [base] at the head of [p]: their value so far,
    how many there are, and what follows. *)
Fixpoint strtol_digits (base : Z) (p : cstring) (acc : Z) (n : nat)
    : Z * nat * cstring :=
  match p with
  | c :: p' =>
    match digit_value c with
    | Some v =>
      if v <? base then strtol_digits base p' (acc * base + v) (S n)
      else (acc, n, p)
    | None => (acc, n, p)
    end
  | [] => (acc, n, [])
  end.

Definition is_hex_prefix (p : cstring) : bool :=
  match p with
  | c0 :: c1 :: c2 :: _ =>
    (char_code c0 =? 48) && ((char_code c1 =? 120) || (char_code c1 =? 88)) &&
    match digit_value c2 with Some v => v <? 16 | None => false end
  | _ => false
  end.

(** [strtol( nptr, &endptr, 0 )] with a 64-bit long: the value and the
    end pointer. *)
Definition strtol (nptr : cstring) : Z * cstring :=
  let p := skip_spaces nptr in
  let '(neg, p) :=
    match p with
    | c :: p' =>
      if char_code c =? 45 then (true, p')
      else if char_code c =? 43 then (false, p')
      else (false, p)
    | [] => (false, p)
    end in
  let '(base, p) :=
    if is_hex_prefix p then (16, skipn 2 p)
    else match p with
         | c :: _ => if char_code c =? 48 then (8, p) else (10, p)
         | [] => (10, p)
         end in
  let '(v, n, rest) := strtol_digits base p 0 O in
  match n with
  | O => (0, nptr)
  | S _ =>
    let v := if neg then - v else v in
    (Z.max (- 2 ^ 63) (Z.min (2 ^ 63 - 1) v), rest)
  end.

(** [strchr( p, c )]: the suffix that starts at the first [c]. *)
Fixpoint strchr (p : cstring) (c : Z) : option cstring :=
  match p with
  | [] => None
  | x :: p' => if char_code x =? c then Some p else strchr p' c
  end.

(** The part of [p] before the first [c]. *)
Fixpoint before_char (p : cstring) (c : Z) : cstring :=
  match p with
  | [] => []
  | x :: p' => if char_code x =? c then [] else x :: before_char p' c
  end.

Definition cstring_eqb (a : cstring) (b : string) : bool :=
  if list_eq_dec ascii_dec a (list_ascii_of_string b) then true else false.

Definition head_is (p : cstring) (c : Z) : bool :=
  match p with
  | x :: _ => char_code x =? c
  | [] => false
  end.

(** [f] applied to the program appended last to the PSI context of
    entry [k]. *)
Definition update_last_prg (k : Z) (f : ts_prg_psi_t -> ts_prg_psi_t)
    (d : demux_t) : demux_t :=
  let q := get_pid d k in
  match psi q with
  | Some t =>
    match rev (prg t) with
    | g :: r => put_pid k (pid_set_psi (Some (psi_set_prg (rev (f g :: r)) t)) q) d
    | [] => d
    end
  | None => d
  end.

Definition last_prg (d : demux_t) (k : Z) : option ts_prg_psi_t :=
  match psi (get_pid d k) with
  | Some t => last (map Some (prg t)) None
  | None => None
  end.

Definition TS_USER_PMT_NUMBER : Z := 0.

(** The format an item describes after [pid:]: [type=fourcc] with type
    video, audio or spu when an argument of four characters follows the
    [=], else the stream type [strtol] reads from the description. *)
Definition UserPmt_format (psz_opt : cstring) : es_format_t :=
  let psz_arg := option_map (@tl ascii) (strchr psz_opt 61) in
  let psz_opt := before_char psz_opt 61 in
  match psz_arg with
  | Some [a0; a1; a2; a3] =>
    let codec :=
      VLC_FOURCC (char_code a0) (char_code a1) (char_code a2)
                 (char_code a3) in
    let cat :=
      if cstring_eqb psz_opt "video" then VIDEO_ES
      else if cstring_eqb psz_opt "audio" then AUDIO_ES
      else if cstring_eqb psz_opt "spu" then SPU_ES
      else UNKNOWN_ES in
    set_b_packetized false (es_format_Init cat codec)
  | _ => PIDFillFormat (int32 (fst (strtol psz_opt)))
  end.

(** One [pid:description] item of the user PMT string, for the user
    program held by entry [kpmt]. *)
Definition UserPmt_item (kpmt i_num : Z) (item : cstring) (d : demux_t)
    : demux_t :=
  let '(v, psz) := strtol item in
  let es_pid := int32 v in
  if negb (head_is psz 58) || (es_pid <? 2) || (8192 <=? es_pid) then d
  else
    let psz_opt := tl psz in
    if cstring_eqb psz_opt "pcr" then
      update_last_prg kpmt (prg_set_i_pid_pcr es_pid) d
    else if negb (b_valid (get_pid d es_pid)) then
      let q := PIDInit (get_pid d es_pid) false (Some kpmt) in
      let d1 := put_pid es_pid q d in
      let d2 :=
        update_last_prg kpmt
          (fun g => if i_pid_pcr g <=? 0 then prg_set_i_pid_pcr es_pid g else g)
          d1 in
      let f := UserPmt_format psz_opt in
      let f := set_i_group i_num f in
      let f := if b_es_id_pid (p_sys d2) then set_i_id es_pid f else f in
      match get_es d2 es_pid with
      | None => d2
      | Some e =>
        let d3 := put_es es_pid (es_set_fmt f e) d2 in
        if negb (es_category_eqb (i_cat f) UNKNOWN_ES) then
          let d4 := log (msg_Dbg "  * es pid=%d fcc=%4.4s" [es_pid; i_codec f])
                        d3 in
          let '(new_id, d5) := es_out_Add f d4 in
          add_pmt_es 1 (put_es es_pid (es_set_id new_id (es_set_fmt f e)) d5)
        else d3
      end
    else d.

(** The loop [while( psz && *psz )] over the items. *)
Fixpoint UserPmt_loop (fuel : nat) (kpmt i_num : Z) (psz : option cstring)
    (d : demux_t) : option demux_t :=
  match fuel with
  | O => None
  | S fuel' =>
    match psz with
    | None | Some [] => Some d
    | Some p =>
      let psz_next := option_map (@tl ascii) (strchr p 44) in
      UserPmt_loop fuel' kpmt i_num psz_next
                   (UserPmt_item kpmt i_num (before_char p 44) d)
    end
  end.

Definition UserPmt (d : demux_t) (psz_fmt : string) : option (Z * demux_t) :=
  let '(v, psz) := strtol (list_ascii_of_string psz_fmt) in
  let kpmt := int32 v in
  if (kpmt <? 2) || (8192 <=? kpmt) then Some (VLC_EGENERIC, d)
  else
    let '(i_num, psz) :=
      if head_is psz 58 then
        let '(n, r) := strtol (tl psz) in (int32 n, r)
      else (0, psz) in
    let d1 := log (msg_Dbg "user pmt specified (pid=%d,number=%d)"
                           [kpmt; i_num]) d in
    let d2 := put_pid kpmt (PIDInit (get_pid d1 kpmt) true None) d1 in
    let g :=
      mk_prg (Some (dvbpsi_attach
                      (DECODER_PMT
                         (if negb (i_num =? TS_USER_PMT_NUMBER) then i_num
                          else 1))))
             (-1) (if negb (i_num =? 0) then i_num else TS_USER_PMT_NUMBER)
             (-1) (-1) 0 None in
    let q := get_pid d2 kpmt in
    let d3 :=
      match psi q with
      | Some t => put_pid kpmt (pid_set_psi (Some (psi_set_prg (prg t ++ [g]) t)) q) d2
      | None => d2
      end in
    let psz := option_map (@tl ascii) (strchr psz 61) in
    do d4 <- UserPmt_loop (S (length (list_ascii_of_string psz_fmt))) kpmt i_num
                          psz d3;
    Some (VLC_SUCCESS,
          set_p_sys (sys_set_pmt (pmt (p_sys d4) ++ [kpmt])
                       (sys_set_b_user_pmt true (p_sys d4))) d4).

(** ** Program association table *)

(** [TAB_REMOVE]: the first occurrence of [k] leaves the array. *)
Fixpoint tab_remove (l : list Z) (k : Z) : list Z :=
  match l with
  | [] => []
  | x :: l' => if x =? k then l' else x :: tab_remove l' k
  end.

Definition psi_prgs (d : demux_t) (k : Z) : list ts_prg_psi_t :=
  match psi (get_pid d k) with
  | Some t => prg t
  | None => []
  end.

(** Whether the new PAT still lists a program of the PMT entry [k]. *)
Definition pat_keeps (d : demux_t) (p_pat : dvbpsi_pat_t) (k : Z) : bool :=
  existsb (fun p_program =>
             (pat_i_pid p_program =? i_pid (get_pid d k)) &&
             existsb (fun g => pat_i_number p_program =? i_number g)
                     (psi_prgs d k))
          (pat_programs p_pat).

(** The loop over the PMT entries to remove, for the elementary stream
    entry [i]: it is cleaned when a program of its owner has one of them
    as its PMT PID. *)
Fixpoint pat_clean_es (pmt_rm : list Z) (i : Z) (d : demux_t) : demux_t :=
  match pmt_rm with
  | [] => d
  | j :: rest =>
    let q := get_pid d i in
    if b_valid q then
      if existsb (fun g => i_pid_pmt g =? i_pid (get_pid d j)) (owner_prgs d q)
      then
        let d1 :=
          match es q with
          | Some e =>
            match id e with
            | Some _ => snd (SetPIDFilter d i false)
            | None => d
            end
          | None => d
          end in
        pat_clean_es rest i (PIDClean d1 i)
      else pat_clean_es rest i d
    else d
  end.

(** Removal of one PMT entry that the new PAT dropped. *)
Definition pat_delete_pmt (d : demux_t) (k : Z) : demux_t :=
  let q := get_pid d k in
  let d1 := snd (SetPIDFilter d (i_pid q) false) in
  let d2 :=
    fold_left (fun acc g => emit (ES_OUT_DEL_GROUP (i_number g)) acc)
              (psi_prgs d1 k) d1 in
  let d3 := PIDClean d2 (i_pid q) in
  set_p_sys (sys_set_pmt (tab_remove (pmt (p_sys d3)) k) (p_sys d3)) d3.

(** The part [if( p_sys->i_pmt > 0 )] of PATCallBack. *)
Definition pat_clean_old (d : demux_t) (p_pat : dvbpsi_pat_t) : demux_t :=
  if 0 <? i_pmt (p_sys d) then
    let pmt_rm := filter (fun k => negb (pat_keeps d p_pat k)) (pmt (p_sys d)) in
    let d1 :=
      fold_left
        (fun acc i =>
           let q := get_pid acc i in
           if negb (b_valid q) ||
              match psi q with Some _ => true | None => false end
           then acc
           else pat_clean_es pmt_rm i acc)
        (skipn 2 all_pids) d in
    fold_left pat_delete_pmt pmt_rm d1
  else d.

(** One program of the new PAT. *)
Definition pat_add_program (d : demux_t) (p_program : dvbpsi_pat_program_t)
    : demux_t :=
  let d0 := log (msg_Dbg "  * number=%d pid=%d"
                         [pat_i_number p_program; pat_i_pid p_program]) d in
  if pat_i_number p_program =? 0 then d0
  else
    let k := pat_i_pid p_program in
    let d1 := ValidateDVBMeta d0 k in
    let b_known :=
      b_valid (get_pid d1 k) &&
      existsb (fun g => i_number g =? pat_i_number p_program) (psi_prgs d1 k) in
    if b_known then d1
    else
      let d2 :=
        if b_valid (get_pid d1 k) then d1
        else set_p_sys (sys_set_pmt (pmt (p_sys d1) ++ [k]) (p_sys d1)) d1 in
      let d3 := put_pid k (PIDInit (get_pid d2 k) true (Some 0)) d2 in
      let d4 :=
        update_last_prg k
          (fun g =>
             prg_set_i_pid_pmt k
               (prg_set_i_number (pat_i_number p_program)
                  (prg_set_prg_handle
                     (Some (dvbpsi_attach (DECODER_PMT (pat_i_number p_program))))
                     g))) d3 in
      if ProgramIsSelected d4 (pat_i_number p_program) then
        let d5 :=
          if i_current_program (p_sys d4) =? 0 then
            set_p_sys (sys_set_i_current_program (pat_i_number p_program)
                                                 (p_sys d4)) d4
          else d4 in
        let '(err, d6) := SetPIDFilter d5 k true in
        if negb (err =? 0) then
          set_p_sys (sys_set_b_access_control false (p_sys d6)) d6
        else d6
      else d4.

(** [PATCallBack( p_demux, p_pat )] *)
Definition PATCallBack (d : demux_t) (p_pat : dvbpsi_pat_t) : demux_t :=
  let d0 := log (msg_Dbg "PATCallBack called" []) d in
  match psi (get_pid d0 0) with
  | None => d0
  | Some pat_psi =>
    if (negb (i_pat_version pat_psi =? -1) &&
        (negb (pat_b_current_next p_pat) ||
         (pat_i_version p_pat =? i_pat_version pat_psi))) ||
       b_user_pmt (p_sys d0)
    then d0
    else
      let d1 :=
        log (msg_Dbg "new PAT ts_id=%d version=%d current_next=%d"
               [pat_i_ts_id p_pat; pat_i_version p_pat;
                if pat_b_current_next p_pat then 1 else 0]) d0 in
      let d2 := pat_clean_old d1 p_pat in
      let d3 := fold_left pat_add_program (pat_programs p_pat) d2 in
      let q := get_pid d3 0 in
      match psi q with
      | Some t =>
        put_pid 0 (pid_set_psi (Some (psi_set_i_pat_version (pat_i_version p_pat) t)) q) d3
      | None => d3
      end
  end.

(** ** Program map table *)

Section ProgramMap.

(** Descriptor decoding rests on libdvbpsi.  [PMTSetupEs] stands for the
    refinement of a freshly initialised entry from the descriptors of one
    elementary stream (PMTSetupEsHDMV, PMTSetupEsRegistration,
    PMTSetupEs0x06, PMTSetupEsISO14496, PMTSetupEs0x83, PMTSetupEs0xA0,
    PMTSetupEs0xD1, PMTSetupEs0xEA, PMTParseEsIso639): they write to that
    entry only and emit diagnostics.  [IODNew] parses the initial object
    descriptor. *)
Variable PMTSetupEs :
  demux_sys_t -> ts_prg_psi_t -> dvbpsi_pmt_t -> dvbpsi_pmt_es_t ->
  ts_pmt_registration_type_t -> ts_pid_t -> ts_pid_t * list log_entry.
Variable IODNew : list Z -> option iod_descriptor_t.

(** The first program, in the order of the PMT list, whose number is that
    of the table: the entry holding it and its rank there. *)
Fixpoint find_prg (prgs : list ts_prg_psi_t) (n : Z) (idx : nat) : option nat :=
  match prgs with
  | [] => None
  | g :: prgs' =>
    if negb (i_number g =? TS_USER_PMT_NUMBER) && (i_number g =? n)
    then Some idx else find_prg prgs' n (S idx)
  end.

Fixpoint find_pmt (d : demux_t) (pmts : list Z) (n : Z) : option (Z * nat) :=
  match pmts with
  | [] => None
  | k :: pmts' =>
    match find_prg (psi_prgs d k) n O with
    | Some idx => Some (k, idx)
    | None => find_pmt d pmts' n
    end
  end.

Fixpoint list_update {A : Type} (l : list A) (i : nat) (f : A -> A) : list A :=
  match l, i with
  | [], _ => []
  | x :: l', O => f x :: l'
  | x :: l', S i' => x :: list_update l' i' f
  end.

(** [f] applied to program [idx] of the PSI context of entry [k]. *)
Definition update_prg (k : Z) (idx : nat) (f : ts_prg_psi_t -> ts_prg_psi_t)
    (d : demux_t) : demux_t :=
  let q := get_pid d k in
  match psi q with
  | Some t => put_pid k (pid_set_psi (Some (psi_set_prg (list_update (prg t) idx f) t)) q) d
  | None => d
  end.

(** The first pass over the program descriptors, for ARIB detection. *)
Definition arib_flags (drs : list dvbpsi_descriptor_t) : Z :=
  fold_left
    (fun acc dr =>
       if dr_tag dr =? 0x09 then
         Z.lor acc (if GetWBE (dr_data dr) 0 =? 0x05 then 1 else 0)
       else if dr_tag dr =? 0xF6 then Z.lor acc 2
       else if dr_tag dr =? 0xC1 then Z.lor acc 4
       else acc)
    drs 0.

Definition is_tag4 (p : list Z) (t : string) : bool :=
  if list_eq_dec Z.eq_dec (firstn 4 p)
       (map char_code (list_ascii_of_string t)) then true else false.

(** The second pass: the IOD and the registration type. *)
Definition pmt_parse_descriptors (drs : list dvbpsi_descriptor_t)
    : option (option iod_descriptor_t) * ts_pmt_registration_type_t *
      list log_entry :=
  fold_left
    (fun '(new_iod, reg, m) dr =>
       if dr_tag dr =? 0x1d then
         (Some (IODNew (dr_data dr)), reg,
          m ++ [msg_Dbg " * PMT descriptor : IOD (0x1d)" []])
       else if dr_tag dr =? 0x9 then
         (new_iod, reg,
          m ++ [msg_Dbg " * PMT descriptor : CA (0x9) SysID 0x%x"
                        [GetWBE (dr_data dr) 0]])
       else if dr_tag dr =? 0x5 then
         if negb (zlength (dr_data dr) =? 4) then
           (new_iod, reg,
            m ++ [msg_Warn " * PMT invalid Registration Descriptor" []])
         else
           (new_iod,
            (if is_tag4 (dr_data dr) "HDMV" || is_tag4 (dr_data dr) "HDPR"
             then TS_PMT_REGISTRATION_HDMV else reg),
            m ++ [msg_Dbg " * PMT descriptor : registration %4.4s" []])
       else if dr_tag dr =? 0x0f then
         (new_iod, reg, m ++ [msg_Dbg " * PMT descriptor : Private Data (0x0f)" []])
       else if dr_tag dr =? 0xC1 then
         (new_iod, reg,
          m ++ [msg_Dbg " * PMT descriptor : Digital copy control (0xC1)" []])
       else if dr_tag dr =? 0x88 then
         (new_iod, reg, m ++ [msg_Dbg " * descriptor : EACEM Simulcast HD" []])
       else
         (new_iod, reg,
          m ++ [msg_Dbg " * PMT descriptor : unknown (0x%x)" [dr_tag dr]]))
    drs (None, TS_PMT_REGISTRATION_NONE, []).

Definition option_string_eqb (a b : option string) : bool :=
  match a, b with
  | None, None => true
  | Some x, Some y => String.eqb x y
  | _, _ => false
  end.

(** The test that lets an elementary stream go on without a restart. *)
Definition can_keep_es (new_q old_q : ts_pid_t) : bool :=
  match es new_q, es old_q with
  | Some e, Some o =>
    (i_codec (fmt e) =? i_codec (fmt o)) &&
    (i_extra (fmt e) =? i_extra (fmt o)) &&
    (i_extra (fmt e) =? 0) &&
    (i_extra_es new_q =? i_extra_es old_q) &&
    option_string_eqb (psz_language (fmt e)) (psz_language (fmt o))
  | _, _ => false
  end.

(** Registration of the streams of a new entry with the output sink. *)
Definition pmt_add_es (q : ts_pid_t) (d : demux_t) : ts_pid_t * demux_t :=
  match es q with
  | None => (q, d)
  | Some e =>
    let '(new_id, d1) := es_out_Add (fmt e) d in
    let '(extras, d2) :=
      fold_left
        (fun '(acc, dd) x =>
           let '(xid, dd') := es_out_Add (fmt x) dd in
           (acc ++ [es_set_id xid x], dd'))
        (extra_es q) ([], d1) in
    (pid_set_extra_es extras (pid_set_es (Some (es_set_id new_id e)) q),
     add_pmt_es (1 + i_extra_es q) d2)
  end.

Definition es_set_group (g : Z) (e : ts_es_t) : ts_es_t :=
  es_set_fmt (set_i_group g (fmt e)) e.

(** One elementary stream entry of an accepted PMT; [clean] is the list
    of entries of the program still to be torn down. *)
Definition pmt_es_step (kpmt : Z) (idx : nat) (p_pmt : dvbpsi_pmt_t)
    (reg : ts_pmt_registration_type_t) (st : demux_t * list Z)
    (p_es : dvbpsi_pmt_es_t) : demux_t * list Z :=
  let '(d, clean) := st in
  let n := pmt_es_i_pid p_es in
  let b_old := existsb (Z.eqb n) clean in
  let d1 := ValidateDVBMeta d n in
  if negb b_old && b_valid (get_pid d1 n) then
    (log (msg_Warn " * PMT error: pid=%d already defined" [n]) d1, clean)
  else
    let d2 := log (msg_Dbg "  * pid=%d type=0x%x %s" [n; pmt_es_i_type p_es]) d1 in
    let d3 :=
      fold_left (fun acc dr => log (msg_Dbg "    - descriptor tag 0x%x" [dr_tag dr]) acc)
                (pmt_es_descriptors p_es) d2 in
    let g := nth idx (psi_prgs d3 kpmt) prg_new in
    let q := PIDInit (pid_zero n) false (Some kpmt) in
    let q :=
      match es q with
      | Some e => pid_set_es (Some (es_set_fmt (PIDFillFormat (pmt_es_i_type p_es)) e)) q
      | None => q
      end in
    let q :=
      pid_set_b_seen (b_seen (get_pid d3 n))
        (pid_set_i_pid n (pid_set_i_owner_number (i_number g) q)) in
    let '(q, m) := PMTSetupEs (p_sys d3) g p_pmt p_es reg q in
    let d4 := set_msgs (msgs d3 ++ m) d3 in
    match es q with
    | None => (d4, clean)
    | Some e =>
      let e :=
        if i_codec (fmt e) =? VLC_CODEC_SCTE_27
        then es_set_data_type TS_ES_DATA_TABLE_SECTION e else e in
      let e := es_set_group (pmt_i_program_number p_pmt) e in
      let q :=
        pid_set_extra_es
          (map (es_set_group (pmt_i_program_number p_pmt)) (extra_es q))
          (pid_set_es (Some e) q) in
      let '(q, d5) :=
        if es_category_eqb (i_cat (fmt e)) UNKNOWN_ES then
          (q, log (msg_Dbg "   => pid %d content is *unknown*" [n]) d4)
        else
          let d' := log (msg_Dbg "   => pid %d has now es fcc=%4.4s"
                                 [n; i_codec (fmt e)]) d4 in
          let e := if b_es_id_pid (p_sys d') then es_set_fmt (set_i_id n (fmt e)) e
                   else e in
          let q := pid_set_es (Some e) q in
          let old_q := get_pid d' n in
          if b_old && can_keep_es q old_q then
            (pid_set_extra_es (extra_es old_q)
               (pid_set_es (es old_q) (pid_set_i_cc (i_cc old_q) q)),
             put_pid n (pid_set_extra_es (extra_es q) (pid_set_es (es q) old_q)) d')
          else pmt_add_es q d' in
      let '(d6, clean) :=
        if b_old then (PIDClean d5 n, tab_remove clean n) else (d5, clean) in
      let d7 := put_pid n q d6 in
      let d8 :=
        match find (fun dr => dr_tag dr =? 0x09) (pmt_es_descriptors p_es) with
        | Some dr =>
          if 2 <=? zlength (dr_data dr) then
            log (msg_Dbg "   * PMT descriptor : CA (0x9) SysID 0x%x"
                         [GetWBE (dr_data dr) 0]) d7
          else d7
        | None => d7
        end in
      let has_id :=
        match es q with
        | Some e' => match id e' with Some _ => true | None => false end
        | None => false
        end in
      if ProgramIsSelected d8 (i_number g) && has_id
      then (snd (SetPIDFilter d8 n true), clean)
      else (d8, clean)
    end.

(** What PMTCallBack does once the table has passed the version test,
    for program [idx] of the PMT entry [kpmt]. *)
Definition PMT_apply (d : demux_t) (kpmt : Z) (idx : nat) (p_pmt : dvbpsi_pmt_t)
    : demux_t :=
  let g := nth idx (psi_prgs d kpmt) prg_new in
  let clean :=
    filter (fun i =>
              let q := get_pid d i in
              b_valid q && owner_is q kpmt && (i_owner_number q =? i_number g) &&
              match psi q with None => true | Some _ => false end)
           all_pids in
  let d1 := update_prg kpmt idx (prg_set_iod None) d in
  let d2 := log (msg_Dbg "new PMT program number=%d version=%d pid_pcr=%d"
                   [pmt_i_program_number p_pmt; pmt_i_version p_pmt;
                    pmt_i_pcr_pid p_pmt]) d1 in
  let d3 :=
    update_prg kpmt idx
      (fun x => prg_set_i_version (pmt_i_version p_pmt)
                  (prg_set_i_pid_pcr (pmt_i_pcr_pid p_pmt) x)) d2 in
  let d4 := ValidateDVBMeta d3 (pmt_i_pcr_pid p_pmt) in
  let d5 :=
    if ProgramIsSelected d4 (i_number g)
    then snd (SetPIDFilter d4 (pmt_i_pcr_pid p_pmt) true) else d4 in
  let d6 :=
    match arib_e_mode (p_sys d5) with
    | ARIBMODE_AUTO =>
      if arib_flags (pmt_descriptors p_pmt) =? 7
      then set_p_sys (sys_set_arib_e_mode ARIBMODE_ENABLED (p_sys d5)) d5
      else d5
    | _ => d5
    end in
  let '(new_iod, reg, m) := pmt_parse_descriptors (pmt_descriptors p_pmt) in
  let d7 := set_msgs (msgs d6 ++ m) d6 in
  let d8 :=
    match new_iod with
    | Some v => update_prg kpmt idx (prg_set_iod v) d7
    | None => d7
    end in
  let '(d9, clean) :=
    fold_left (pmt_es_step kpmt idx p_pmt reg) (pmt_es p_pmt) (d8, clean) in
  let b_sel := ProgramIsSelected d9 (i_number g) in
  let d10 :=
    if b_sel
    then snd (stream_Control (STREAM_SET_PRIVATE_ID_CA (pmt_i_program_number p_pmt)) d9)
    else d9 in
  fold_left
    (fun acc i =>
       let acc1 :=
         if ProgramIsSelected acc (i_number g)
         then snd (SetPIDFilter acc (i_pid (get_pid acc i)) false) else acc in
       PIDClean acc1 i)
    clean d10.

(** [PMTCallBack( p_demux, p_pmt )] *)
Definition PMTCallBack (d : demux_t) (p_pmt : dvbpsi_pmt_t) : demux_t :=
  let d0 := log (msg_Dbg "PMTCallBack called" []) d in
  match find_pmt d0 (pmt (p_sys d0)) (pmt_i_program_number p_pmt) with
  | None => log (msg_Warn "unreferenced program (broken stream)" []) d0
  | Some (kpmt, idx) =>
    let g := nth idx (psi_prgs d0 kpmt) prg_new in
    if negb (i_version g =? -1) &&
       (negb (pmt_b_current_next p_pmt) || (i_version g =? pmt_i_version p_pmt))
    then d0
    else PMT_apply d0 kpmt idx p_pmt
  end.

End ProgramMap.

(** ** The demultiplexing loop *)

(** The footprint of SDTCallBack, EITCallBack and TDTCallBack (service
    names, programme guide, wall-clock offset): the fields they assign
    and the groups they describe to the output sink. *)
Record dvb_meta_update : Type := mk_meta {
  m_sdt_version : option Z;
  m_tdt_delta : option Z;
  m_dvb_start : option Z;
  m_dvb_length : option Z;
  m_broken_charset : option bool;
  m_group_meta : list Z;
  m_group_epg : list Z
}.

(** What a packet pushed to a libdvbpsi handle sets off. *)
Inductive psi_event : Type :=
| PSI_PAT (p_pat : dvbpsi_pat_t)
| PSI_PMT (p_pmt : dvbpsi_pmt_t)
| PSI_META (u : dvb_meta_update).

Definition apply_meta (u : dvb_meta_update) (d : demux_t) : demux_t :=
  let d1 :=
    match m_sdt_version u, psi (get_pid d 0x11) with
    | Some v, Some t =>
      put_pid 0x11 (pid_set_psi (Some (psi_set_i_sdt_version v t))
                                (get_pid d 0x11)) d
    | _, _ => d
    end in
  let y := p_sys d1 in
  let y := match m_tdt_delta u with Some v => sys_set_i_tdt_delta v y | None => y end in
  let y := match m_dvb_start u with Some v => sys_set_i_dvb_start v y | None => y end in
  let y := match m_dvb_length u with Some v => sys_set_i_dvb_length v y | None => y end in
  let y := match m_broken_charset u with
           | Some v => sys_set_b_broken_charset v y | None => y end in
  let d2 := set_p_sys y d1 in
  let d3 := fold_left (fun acc g => emit (ES_OUT_SET_GROUP_META g) acc)
                      (m_group_meta u) d2 in
  fold_left (fun acc g => emit (ES_OUT_SET_GROUP_EPG g) acc) (m_group_epg u) d3.

(** One step of Demux as it is observed: the packet, whether it
    completed a frame, the count of registered streams after it, and the
    number of blocks handed to the sink while it was handled. *)
Record demux_step_t : Type := mk_step {
  step_pkt : block_t;
  step_b_frame : bool;
  step_i_pmt_es : Z;
  step_sent : Z
}.

Section Demultiplex.

Variable header_garbage : list Z.
Variable opus_frame_duration : list Z -> Z -> Z.
Variable PMTSetupEs :
  demux_sys_t -> ts_prg_psi_t -> dvbpsi_pmt_t -> dvbpsi_pmt_es_t ->
  ts_pmt_registration_type_t -> ts_pid_t -> ts_pid_t * list log_entry.
Variable IODNew : list Z -> option iod_descriptor_t.

(** The section decoder of libdvbpsi: the tables that a packet completes
    on a handle, given what the handle has been fed before. *)
Variable dvbpsi_decode : dvbpsi_handle -> list Z -> list psi_event.

Definition apply_psi_event (d : demux_t) (ev : psi_event) : demux_t :=
  match ev with
  | PSI_PAT p_pat => PATCallBack d p_pat
  | PSI_PMT p_pmt => PMTCallBack PMTSetupEs IODNew d p_pmt
  | PSI_META u => apply_meta u d
  end.

Definition handle_push (h : dvbpsi_handle) (data : list Z) : dvbpsi_handle :=
  mk_handle (h_decoder h) (data :: h_pushed h).

(** [dvbpsi_PushPacket( p_pid->psi->handle, p_pkt->p_buffer )] *)
Definition push_psi (d : demux_t) (k : Z) (data : list Z) : demux_t :=
  let q := get_pid d k in
  match psi q with
  | Some t =>
    match psi_handle t with
    | Some h =>
      let d1 :=
        put_pid k (pid_set_psi (Some (psi_set_psi_handle
                                        (Some (handle_push h data)) t)) q) d in
      fold_left apply_psi_event (dvbpsi_decode h data) d1
    | None => d
    end
  | None => d
  end.

(** [dvbpsi_PushPacket( p_pid->psi->prg[i_prg]->handle, ... )] for the
    programs from rank [idx] on, [n] at most. *)
Fixpoint push_prgs (n : nat) (d : demux_t) (k : Z) (idx : nat) (data : list Z)
    : demux_t :=
  match n with
  | O => d
  | S n' =>
    match nth_error (psi_prgs d k) idx with
    | None => d
    | Some g =>
      let d1 :=
        match prg_handle g with
        | Some h =>
          let d' :=
            update_prg k idx (prg_set_prg_handle (Some (handle_push h data))) d in
          fold_left apply_psi_event (dvbpsi_decode h data) d'
        | None => d
        end in
      push_prgs n' d1 k (S idx) data
    end
  end.

(** The body of the loop of Demux for one packet. *)
Definition Demux_packet (d : demux_t) (p_pkt : block_t) : demux_t * bool :=
  let d1 :=
    if b_start_record (p_sys d) then
      let d' := snd (stream_Control (STREAM_SET_RECORD_STATE true) d) in
      set_p_sys (sys_set_b_start_record false (p_sys d')) d'
    else d in
  let k := PIDGet p_pkt in
  let q := get_pid d1 k in
  let '(d2, b_frame) :=
    if b_valid q then
      match psi q with
      | Some t =>
        if (i_pid q =? 0) ||
           (b_dvb_meta (p_sys d1) &&
            ((i_pid q =? 0x11) || (i_pid q =? 0x12) || (i_pid q =? 0x14)))
        then (push_psi d1 k (p_buffer p_pkt), false)
        else (push_prgs (length (prg t)) d1 k O (p_buffer p_pkt), false)
      | None => GatherData header_garbage opus_frame_duration d1 k p_pkt
      end
    else
      let d' :=
        if negb (b_seen q) then log (msg_Dbg "pid[%d] unknown" [i_pid q]) d1
        else d1 in
      (PCRHandle d' k p_pkt, false) in
  (put_pid k (pid_set_b_seen true (get_pid d2 k)) d2, b_frame).

(** The loop of Demux, with the steps it takes. *)
Fixpoint Demux_loop (fuel : nat) (d : demux_t) (i_pkt : Z) (b_wait_es : bool)
    : option (Z * demux_t * list demux_step_t) :=
  if i_pkt <? i_ts_read (p_sys d) then
    match fuel with
    | O => None
    | S fuel' =>
      do r <- ReadTSPacket d;
      let '(p, d1) := r in
      match p with
      | None => Some (0, d1, [])
      | Some p_pkt =>
        let '(d2, b_frame) := Demux_packet d1 p_pkt in
        let st :=
          mk_step p_pkt b_frame (i_pmt_es (p_sys d2))
                  (zlength (filter is_send (out d2)) -
                   zlength (filter is_send (out d1))) in
        if b_frame || (b_wait_es && (0 <? i_pmt_es (p_sys d2))) then
          Some (1, d2, [st])
        else
          do r' <- Demux_loop fuel' d2 (int32 (i_pkt + 1)) b_wait_es;
          let '(ret, d3, steps) := r' in
          Some (ret, d3, st :: steps)
      end
    end
  else Some (1, d, []).

(** [Demux( p_demux )]: the value returned, the session, and the steps
    taken.  demux_UpdateTitleFromStream is outside the model. *)
Definition Demux (d : demux_t) : option (Z * demux_t * list demux_step_t) :=
  Demux_loop (Z.to_nat (i_ts_read (p_sys d))) d 0
             (i_pmt_es (p_sys d) <=? 0).

End Demultiplex.

(** ** Opening a session *)

(** The options Open reads.  [cfg_csa] is the descrambler that csa_New
    and csa_SetCW make of the key options, if they make one. *)
Record ts_config : Type := mk_config {
  cfg_es_id_pid : bool;
  cfg_trust_pcr : bool;
  cfg_extra_pmt : option string;
  cfg_csa : option csa_t;
  cfg_csa_pkt : Z;
  cfg_split_es : bool;
  cfg_seek_percent : bool;
  cfg_arib : arib_modes_e;
  cfg_can_fastseek : bool
}.

(** The state Open sets up before it reads the options: the table of
    PIDs with the PAT entry, the packet size, the batch size. *)
Definition sys_init (i_packet_size i_packet_header_size : Z) : demux_sys_t :=
  let pat :=
    match PIDInit (pid_zero 0) true None with
    | q =>
      match psi q with
      | Some t => pid_set_psi (Some (psi_set_psi_handle
                                       (Some (dvbpsi_attach DECODER_PAT)) t)) q
      | None => q
      end
    end in
  mk_sys i_packet_size i_packet_header_size 50 0 0 0 0 false 0 [] []
         ARIBMODE_DISABLED
         (fun i => if i =? 0 then pat
                   else if i =? 8191 then pid_set_b_seen true (pid_zero i)
                   else pid_zero i)
         false [] 0 false None 0 false false true true 0 0 0 false 0 [] false.

(** Initialisation of one of the SDT, EIT, TDT entries. *)
Definition Open_dvb_table (k : Z) (d : demux_t) : demux_t :=
  let q := PIDInit (get_pid d k) true None in
  match psi q with
  | Some t =>
    put_pid k (pid_set_psi (Some (psi_set_psi_handle
                                    (Some (dvbpsi_attach DECODER_DEMUX)) t)) q) d
  | None => put_pid k q d
  end.

Definition Open_dvb_meta (d : demux_t) : demux_t :=
  if b_dvb_meta (p_sys d) then
    let d1 := Open_dvb_table 0x14 (Open_dvb_table 0x12 (Open_dvb_table 0x11 d)) in
    if b_access_control (p_sys d1) then
      let '(e1, d2) := SetPIDFilter d1 0x11 true in
      let '(e, d3) :=
        if negb (e1 =? 0) then (e1, d2)
        else
          let '(e2, d') := SetPIDFilter d2 0x14 true in
          if negb (e2 =? 0) then (e2, d') else SetPIDFilter d' 0x12 true in
      if negb (e =? 0)
      then set_p_sys (sys_set_b_access_control false (p_sys d3)) d3
      else d3
    else d1
  else d.

(** Open up to the reading of the options. *)
Definition Open_init (d : demux_t) : option demux_t :=
  let '(i_packet_size, i_packet_header_size, m) :=
    DetectPacketSize (s d) (b_force d) 0 in
  let d0 := set_msgs (msgs d ++ m) d in
  if i_packet_size <? 0 then None
  else
    Some (Open_dvb_meta
            (set_p_sys (sys_init i_packet_size i_packet_header_size) d0)).

Section OpenSession.

Variable header_garbage : list Z.
Variable opus_frame_duration : list Z -> Z -> Z.
Variable PMTSetupEs :
  demux_sys_t -> ts_prg_psi_t -> dvbpsi_pmt_t -> dvbpsi_pmt_es_t ->
  ts_pmt_registration_type_t -> ts_pid_t -> ts_pid_t * list log_entry.
Variable IODNew : list Z -> option iod_descriptor_t.
Variable dvbpsi_decode : dvbpsi_handle -> list Z -> list psi_event.

(** The options, as Open stores them. *)
Definition Open_config (cfg : ts_config) (d : demux_t) : option demux_t :=
  let y := p_sys d in
  let d1 :=
    set_p_sys
      (mk_sys (i_packet_size y) (i_packet_header_size y) (i_ts_read y)
         (i_pid_ref_pcr y) (i_first_pcr y) (i_current_pcr y) (i_last_pcr y)
         (b_force_seek_per_percent y) (i_pcrs_num y) (p_pcrs y) (p_pos y)
         (arib_e_mode y) (pid y) false [] 0 (cfg_es_id_pid cfg) (csa y)
         (i_csa_pkt_size y) (b_split_es y) (cfg_trust_pcr cfg)
         (b_access_control y) (b_dvb_meta y) (i_tdt_delta y) (i_dvb_start y)
         (i_dvb_length y) (b_broken_charset y) (i_current_program y)
         (programs_list y) (b_start_record y)) d in
  do d2 <-
    match cfg_extra_pmt cfg with
    | Some psz_string =>
      match psz_string with
      | EmptyString => Some d1
      | _ => do r <- UserPmt d1 psz_string; Some (snd r)
      end
    | None => Some d1
    end;
  let d3 :=
    match cfg_csa cfg with
    | Some c =>
      let i_pkt := cfg_csa_pkt cfg in
      let y2 := p_sys d2 in
      let '(sz, m) :=
        if (i_pkt <? 4) || (188 <? i_pkt) then
          (188, [msg_Err "wrong packet size %d specified." [i_pkt];
                 msg_Warn "using default packet size of 188 bytes" []])
        else (i_pkt, []) in
      set_msgs (msgs d2 ++ m ++ [msg_Dbg "decrypting %d bytes of packet" [sz]])
        (set_p_sys
           (mk_sys (i_packet_size y2) (i_packet_header_size y2) (i_ts_read y2)
              (i_pid_ref_pcr y2) (i_first_pcr y2) (i_current_pcr y2)
              (i_last_pcr y2) (b_force_seek_per_percent y2) (i_pcrs_num y2)
              (p_pcrs y2) (p_pos y2) (arib_e_mode y2) (pid y2) (b_user_pmt y2)
              (pmt y2) (i_pmt_es y2) (b_es_id_pid y2) (Some c) sz
              (b_split_es y2) (b_trust_pcr y2) (b_access_control y2)
              (b_dvb_meta y2) (i_tdt_delta y2) (i_dvb_start y2)
              (i_dvb_length y2) (b_broken_charset y2) (i_current_program y2)
              (programs_list y2) (b_start_record y2)) d2)
    | None => d2
    end in
  let y3 := p_sys d3 in
  Some
    (set_p_sys
       (mk_sys (i_packet_size y3) (i_packet_header_size y3) (i_ts_read y3)
          (-1) (-1) (-1) (-1) (cfg_seek_percent cfg) 10 (repeat 0 10)
          (repeat 0 10) (cfg_arib cfg) (pid y3) (b_user_pmt y3) (pmt y3)
          (i_pmt_es y3) (b_es_id_pid y3) (csa y3) (i_csa_pkt_size y3)
          (cfg_split_es cfg) (b_trust_pcr y3) (b_access_control y3)
          (b_dvb_meta y3) (i_tdt_delta y3) (i_dvb_start y3) (i_dvb_length y3)
          (b_broken_charset y3) (i_current_program y3) (programs_list y3)
          (b_start_record y3)) d3).

(** The probes of the first and last PCR and of the sample table. *)
Definition Open_probe (cfg : ts_config) (d : demux_t) : option demux_t :=
  do d1 <-
    (if cfg_can_fastseek cfg then
       do a <- GetFirstPCR d; do b <- CheckPCR a; GetLastPCR b
     else Some d);
  if (i_first_pcr (p_sys d1) <? 0) || (i_last_pcr (p_sys d1) <? 0) then
    Some (set_p_sys (sys_set_b_force_seek_per_percent true (p_sys d1))
            (log (msg_Dbg "Force Seek Per Percent: PCR's not found," []) d1))
  else Some d1.

(** [while( p_sys->i_pmt_es <= 0 && vlc_object_alive( p_demux ) )] *)
Fixpoint Open_wait_es (fuel : nat) (d : demux_t) : option demux_t :=
  if (i_pmt_es (p_sys d) <=? 0) && b_alive d then
    match fuel with
    | O => None
    | S fuel' =>
      do r <- Demux header_garbage opus_frame_duration PMTSetupEs IODNew
                    dvbpsi_decode d;
      let '(ret, d1, _) := r in
      if negb (ret =? 1) then Some d1 else Open_wait_es fuel' d1
    end
  else Some d.

(** [Open]: the status and, when the stream is taken, the session. *)
Definition Open (cfg : ts_config) (d : demux_t) : option (Z * option demux_t) :=
  match Open_init d with
  | None => Some (VLC_EGENERIC, None)
  | Some d1 =>
    do d2 <- Open_config cfg d1;
    do d3 <- Open_probe cfg d2;
    do d4 <- Open_wait_es (S (length (s_after (s d3)))) d3;
    Some (VLC_SUCCESS, Some d4)
  end.

End OpenSession.

(* ================================================================== *)
(** * Properties *)

(** ** Packet size detection *)

Lemma byte_at_firstn (l : list Z) (m : nat) (k : Z) :
  0 <= k < Z.of_nat m -> byte_at (firstn m l) k = byte_at l k.
Proof.
  intros Hk. unfold byte_at.
  destruct (k <? 0) eqn:E; [reflexivity|].
  rewrite nth_firstn.
  assert (H : (Z.to_nat k <? m)%nat = true) by (apply Nat.ltb_lt; lia).
  now rewrite H.
Qed.

Lemma zlength_firstn_full (l : list Z) (n : Z) :
  n <= zlength l -> 0 <= n -> zlength (firstn (Z.to_nat n) l) = n.
Proof.
  unfold zlength. intros H H0. rewrite length_firstn. lia.
Qed.

(** The smallest of the three packet sizes at which the sync byte recurs
    three times after offset [i], if any. *)
Definition smallest_size (w : list Z) (i : Z) : option Z :=
  if sync_recurs w i 188 then Some 188
  else if sync_recurs w i 192 then Some 192
  else if sync_recurs w i 204 then Some 204
  else None.

(** Offset [i] holds a sync byte that recurs at one of the sizes. *)
Definition sync_candidate (w : list Z) (i : Z) : Prop :=
  byte_at w i = 0x47 /\ smallest_size w i <> None.

(** [i] is the first candidate offset of the window, and [sz] the
    smallest size matching there. *)
Definition first_match (w : list Z) (i sz : Z) : Prop :=
  0 <= i < 204 /\ byte_at w i = 0x47 /\ smallest_size w i = Some sz /\
  forall j, 0 <= j < i -> ~ sync_candidate w j.

Lemma sync_recurs_peek (w : list Z) (m : nat) (i sz : Z) :
  0 <= i -> 0 < sz -> i + 3 * sz < Z.of_nat m ->
  sync_recurs (firstn m w) i sz = sync_recurs w i sz.
Proof.
  intros Hi Hsz Hm. unfold sync_recurs.
  rewrite !byte_at_firstn by lia. reflexivity.
Qed.

Lemma DetectPacketSize_scan_step (s : stream_t) (n : nat) (i : Z) (m : nat) (h : Z) :
  816 <= zlength (s_after s) -> 0 <= i -> i + Z.of_nat (S n) <= 204 ->
  (204 <= m)%nat ->
  DetectPacketSize_scan (S n) i s (firstn m (s_after s)) h =
  if negb (byte_at (s_after s) i =? 0x47) then
    DetectPacketSize_scan n (i + 1) s (firstn m (s_after s)) h
  else match smallest_size (s_after s) i with
       | Some sz => Some (sz, (if (i =? 4) && (sz =? 192) then 4 else h), [])
       | None =>
         DetectPacketSize_scan n (i + 1) s
           (firstn (Z.to_nat (TS_PACKET_SIZE_MAX * 3 + i + 1)) (s_after s)) h
       end.
Proof.
  intros Hlen Hi Hn Hm.
  cbn [DetectPacketSize_scan].
  rewrite byte_at_firstn by lia.
  destruct (negb (byte_at (s_after s) i =? 71)); [reflexivity|].
  unfold stream_Peek, TS_PACKET_SIZE_MAX, TS_PACKET_SIZE_188,
    TS_PACKET_SIZE_192, TS_PACKET_SIZE_204.
  rewrite zlength_firstn_full by lia.
  rewrite Z.ltb_irrefl.
  rewrite !sync_recurs_peek by lia.
  unfold smallest_size.
  destruct (sync_recurs (s_after s) i 188); [now rewrite andb_false_r|].
  destruct (sync_recurs (s_after s) i 192);
    [now rewrite andb_true_r|].
  destruct (sync_recurs (s_after s) i 204); [now rewrite andb_false_r|].
  reflexivity.
Qed.

Lemma DetectPacketSize_scan_found (s : stream_t) (i0 sz h : Z) :
  816 <= zlength (s_after s) ->
  first_match (s_after s) i0 sz ->
  forall (n : nat) (i : Z) (m : nat),
    0 <= i <= i0 -> i + Z.of_nat n = 204 -> (204 <= m)%nat ->
    DetectPacketSize_scan n i s (firstn m (s_after s)) h =
    Some (sz, (if (i0 =? 4) && (sz =? 192) then 4 else h), []).
Proof.
  intros Hlen (Hi0 & Hsync & Hsz & Hfirst).
  induction n as [|n IH]; intros i m Hi Hn Hm; [lia|].
  rewrite DetectPacketSize_scan_step by lia.
  destruct (Z.eq_dec i i0) as [->|Hne].
  - rewrite Hsync, Hsz. reflexivity.
  - assert (Hnc : ~ sync_candidate (s_after s) i) by (apply Hfirst; lia).
    destruct (byte_at (s_after s) i =? 71) eqn:E; cbn [negb].
    + apply Z.eqb_eq in E.
      destruct (smallest_size (s_after s) i) eqn:Es.
      * exfalso. apply Hnc. split; [exact E|congruence].
      * apply IH; unfold TS_PACKET_SIZE_MAX; lia.
    + apply IH; lia.
Qed.

Lemma DetectPacketSize_scan_none (s : stream_t) (h : Z) :
  816 <= zlength (s_after s) ->
  (forall j, 0 <= j < 204 -> ~ sync_candidate (s_after s) j) ->
  forall (n : nat) (i : Z) (m : nat),
    0 <= i -> i + Z.of_nat n = 204 -> (204 <= m)%nat ->
    DetectPacketSize_scan n i s (firstn m (s_after s)) h = None.
Proof.
  intros Hlen Hnone.
  induction n as [|n IH]; intros i m Hi Hn Hm; [reflexivity|].
  rewrite DetectPacketSize_scan_step by lia.
  assert (Hnc : ~ sync_candidate (s_after s) i) by (apply Hnone; lia).
  destruct (byte_at (s_after s) i =? 71) eqn:E; cbn [negb].
  - apply Z.eqb_eq in E.
    destruct (smallest_size (s_after s) i) eqn:Es.
    + exfalso. apply Hnc. split; [exact E|congruence].
    + apply IH; unfold TS_PACKET_SIZE_MAX; lia.
  - apply IH; lia.
Qed.

(** Four consecutive packets of size [sz] whose first sync byte lies at
    offset [h] of the window. *)
Definition four_packets (w : list Z) (h sz : Z) : Prop :=
  byte_at w h = 0x47 /\ sync_recurs w h sz = true.

(** A window holding four 188-byte packets behind four leading bytes. *)
Definition window_188_at_4 : list Z :=
  map (fun k => if (k =? 4) || (k =? 192) || (k =? 380) || (k =? 568)
                then 0x47 else 0)
      (map Z.of_nat (seq 0 816)).

Definition stream_188_at_4 : stream_t := mk_stream [] window_188_at_4.

(** C4 (as stated, refuted): the first match of the window lies at offset
    exactly 4, the packets are 188 bytes apart, and no pre-header is
    recorded: the header size stays 0. *)
Lemma DetectPacketSize_preheader_counterexample :
  first_match (s_after stream_188_at_4) 4 188 /\
  four_packets (s_after stream_188_at_4) 4 188 /\
  DetectPacketSize stream_188_at_4 false 0 = (188, 0, []).
Proof.
  split; [|split].
  - split; [lia|]. split; [reflexivity|]. split; [reflexivity|].
    intros j Hj [Hs _].
    assert (Hc : j = 0 \/ j = 1 \/ j = 2 \/ j = 3) by lia.
    destruct Hc as [->|[->|[->| ->]]]; vm_compute in Hs; discriminate.
  - split; reflexivity.
  - vm_compute. reflexivity.
Qed.

(** C4 (amended): for a window of at least 4 x 204 bytes, a window that
    begins with the Topfield magic is taken as 188-byte packets without
    looking for sync bytes; otherwise the result is the smallest size
    recurring at the first candidate offset in 0..203, a 4-byte pre-header
    is recorded exactly when that offset is 4 and the size is 192, and with
    no candidate the detection fails unless forced, when it answers 188. *)
Theorem DetectPacketSize_correct (s : stream_t) (b_force : bool) (hdr : Z) :
  816 <= zlength (s_after s) ->
  (is_topfield (s_after s) = true ->
     fst (DetectPacketSize s b_force hdr) = (188, 0)) /\
  (is_topfield (s_after s) = false ->
     (forall i sz, first_match (s_after s) i sz ->
        DetectPacketSize s b_force hdr =
        (sz, (if (i =? 4) && (sz =? 192) then 4 else 0), [])) /\
     (forall h sz, four_packets (s_after s) h sz ->
        (h = 0 \/ h = 4) -> smallest_size (s_after s) h = Some sz ->
        (forall j, 0 <= j < h -> ~ sync_candidate (s_after s) j) ->
        fst (DetectPacketSize s b_force hdr) =
        (sz, (if (h =? 4) && (sz =? 192) then 4 else 0))) /\
     ((forall j, 0 <= j < 204 -> ~ sync_candidate (s_after s) j) ->
        fst (DetectPacketSize s b_force hdr) =
        ((if b_force then 188 else -1), 0))).
Proof.
  intros Hlen.
  assert (Hpk : (zlength (stream_Peek s TS_PACKET_SIZE_MAX) <? TS_PACKET_SIZE_MAX) = false).
  { unfold stream_Peek, TS_PACKET_SIZE_MAX.
    rewrite zlength_firstn_full by lia. apply Z.ltb_irrefl. }
  assert (Htf : is_topfield (stream_Peek s TS_PACKET_SIZE_MAX) = is_topfield (s_after s)).
  { unfold is_topfield, stream_Peek, TS_PACKET_SIZE_MAX.
    rewrite !byte_at_firstn by lia. reflexivity. }
  assert (Hfound : forall i sz, first_match (s_after s) i sz ->
            is_topfield (s_after s) = false ->
            DetectPacketSize s b_force hdr =
            (sz, (if (i =? 4) && (sz =? 192) then 4 else 0), [])).
  { intros i sz Hfm Ht. unfold DetectPacketSize.
    rewrite Hpk, Htf, Ht. unfold stream_Peek.
    rewrite (DetectPacketSize_scan_found s i sz 0 Hlen Hfm).
    - reflexivity.
    - destruct Hfm as [? _]. lia.
    - unfold TS_PACKET_SIZE_MAX. lia.
    - unfold TS_PACKET_SIZE_MAX. lia. }
  split.
  - intros Ht. unfold DetectPacketSize. rewrite Hpk, Htf, Ht. reflexivity.
  - intros Ht. split; [|split].
    + intros i sz Hfm. now apply Hfound.
    + intros h sz [Hsync _] Hh Hsz Hfirst.
      rewrite (Hfound h sz); [reflexivity| |exact Ht].
      split; [lia|]. split; [exact Hsync|]. split; [exact Hsz|exact Hfirst].
    + intros Hnone. unfold DetectPacketSize. rewrite Hpk, Htf, Ht.
      unfold stream_Peek.
      rewrite (DetectPacketSize_scan_none s 0 Hlen Hnone).
      * destruct b_force; reflexivity.
      * lia.
      * unfold TS_PACKET_SIZE_MAX. lia.
      * unfold TS_PACKET_SIZE_MAX. lia.
Qed.

Lemma DetectPacketSize_correct_witness :
  816 <= zlength (s_after stream_188_at_4) /\
  fst (DetectPacketSize stream_188_at_4 false 0) = (188, 0).
Proof.
  assert (H : 816 <= zlength (s_after stream_188_at_4))
    by (vm_compute; discriminate).
  split; [exact H|].
  destruct (DetectPacketSize_correct stream_188_at_4 false 0 H) as [_ Hn].
  destruct (Hn eq_refl) as [_ [Hp _]].
  apply (Hp 4 188).
  - split; reflexivity.
  - right; reflexivity.
  - reflexivity.
  - intros j Hj [Hs _].
    assert (Hc : j = 0 \/ j = 1 \/ j = 2 \/ j = 3) by lia.
    destruct Hc as [->|[->|[->| ->]]]; vm_compute in Hs; discriminate.
Defined.

(** ** Integer helpers *)

Lemma wrap_signed_id (w x : Z) :
  0 < w -> - 2 ^ (w - 1) <= x < 2 ^ (w - 1) -> wrap_signed w x = x.
Proof.
  intros Hw Hx. unfold wrap_signed.
  assert (Hp : 2 ^ w = 2 * 2 ^ (w - 1)).
  { replace w with (Z.succ (w - 1)) at 1 by lia. apply Z.pow_succ_r. lia. }
  assert (H0 : 0 < 2 ^ (w - 1)) by (apply Z.pow_pos_nonneg; lia).
  cbv zeta.
  destruct (Z_lt_le_dec x 0) as [Hneg|Hpos].
  - assert (E : x mod 2 ^ w = x + 2 ^ w).
    { symmetry. apply Z.mod_unique with (q := -1); lia. }
    rewrite E.
    destruct (x + 2 ^ w <? 2 ^ (w - 1)) eqn:C.
    + apply Z.ltb_lt in C. lia.
    + lia.
  - rewrite Z.mod_small by lia.
    destruct (x <? 2 ^ (w - 1)) eqn:C.
    + reflexivity.
    + apply Z.ltb_ge in C. lia.
Qed.

Lemma int64_id (x : Z) : - 2 ^ 63 <= x < 2 ^ 63 -> int64 x = x.
Proof. intros H. unfold int64. apply wrap_signed_id; simpl; lia. Qed.

Lemma int32_id (x : Z) : - 2 ^ 31 <= x < 2 ^ 31 -> int32 x = x.
Proof. intros H. unfold int32. apply wrap_signed_id; simpl; lia. Qed.

(** ** PCR wrap-around *)

(** The number of places in a sequence of readings where a reading is
    smaller than the one before it. *)
Fixpoint count_rollovers (l : list Z) : Z :=
  match l with
  | a :: (b :: _) as t => (if b <? a then 1 else 0) + count_rollovers t
  | _ => 0
  end.

Lemma count_rollovers_nonneg (l : list Z) : 0 <= count_rollovers l.
Proof.
  induction l as [|a [|b t] IH]; cbn [count_rollovers]; try lia.
  cbn [count_rollovers] in IH. destruct (b <? a); lia.
Qed.

Lemma count_rollovers_bound (l : list Z) : count_rollovers l <= zlength l.
Proof.
  unfold zlength.
  induction l as [|a [|b t] IH]; cbn [count_rollovers length]; try lia.
  cbn [count_rollovers length] in IH. destruct (b <? a); lia.
Qed.

Lemma count_rollovers_snoc (l : list Z) (x : Z) :
  l <> [] ->
  count_rollovers (l ++ [x]) =
  count_rollovers l + (if x <? last l 0 then 1 else 0).
Proof.
  induction l as [|a [|b t] IH]; intros Hne; [congruence| |].
  - cbn. lia.
  - change ((a :: b :: t) ++ [x]) with (a :: (b :: t) ++ [x]).
    change (last (a :: b :: t) 0) with (last (b :: t) 0).
    assert (IH' := IH ltac:(congruence)).
    change (count_rollovers (a :: (b :: t) ++ [x]))
      with ((if b <? a then 1 else 0) + count_rollovers ((b :: t) ++ [x])).
    change (count_rollovers (a :: b :: t))
      with ((if b <? a then 1 else 0) + count_rollovers (b :: t)).
    lia.
Qed.

Lemma firstn_succ_snoc (l : list Z) (k : nat) :
  (k < length l)%nat -> firstn (S k) l = firstn k l ++ [nth k l 0].
Proof.
  revert k. induction l as [|a l IH]; intros k Hk; cbn in Hk; [lia|].
  destruct k as [|k]; [reflexivity|].
  cbn [firstn nth app]. f_equal. apply IH. lia.
Qed.

Lemma last_firstn (l : list Z) (k : nat) :
  (k < length l)%nat -> last (firstn (S k) l) 0 = nth k l 0.
Proof.
  intros Hk. rewrite firstn_succ_snoc by exact Hk. apply last_last.
Qed.

(** The samples taken into account at position [i_pos]: the first one
    and those that follow it without interruption at offsets up to
    [i_pos]. *)
Definition samples_before (y : demux_sys_t) (i_pos : Z) (i : Z) : Prop :=
  1 <= i <= Z.max 1 (i_pcrs_num y) /\
  (forall j, 1 <= j < i -> byte_at (p_pos y) j <= i_pos) /\
  (i < i_pcrs_num y -> i_pos < byte_at (p_pos y) i).

Definition pcr_table_ok (y : demux_sys_t) : Prop :=
  1 <= i_pcrs_num y <= zlength (p_pcrs y) /\
  zlength (p_pcrs y) <= 2 ^ 20 /\
  Forall (fun x => 0 <= x < 2 ^ 33) (p_pcrs y).

Lemma byte_at_nth (l : list Z) (i : Z) :
  0 <= i -> byte_at l i = nth (Z.to_nat i) l 0.
Proof.
  intros Hi. unfold byte_at.
  destruct (i <? 0) eqn:E; [apply Z.ltb_lt in E; lia|reflexivity].
Qed.

Lemma count_rollovers_firstn_succ (l : list Z) (i : Z) :
  1 <= i < zlength l ->
  count_rollovers (firstn (Z.to_nat (i + 1)) l) =
  count_rollovers (firstn (Z.to_nat i) l) +
  (if byte_at l i <? byte_at l (i - 1) then 1 else 0).
Proof.
  unfold zlength. intros Hi.
  rewrite !byte_at_nth by lia.
  remember (Z.to_nat (i - 1)) as k eqn:Ek.
  replace (Z.to_nat (i + 1)) with (S (S k)) by lia.
  replace (Z.to_nat i) with (S k) by lia.
  rewrite (firstn_succ_snoc l (S k)) by lia.
  rewrite count_rollovers_snoc.
  - rewrite last_firstn by lia. reflexivity.
  - intros E. apply (f_equal (@length Z)) in E.
    rewrite length_firstn in E. cbn [length] in E. lia.
Qed.

Lemma AdjustPCRWrapAround_loop_spec (y : demux_sys_t) (i_pos : Z) :
  pcr_table_ok y ->
  forall (n : nat) (i adj : Z),
    1 <= i -> i + Z.of_nat n = i_pcrs_num y ->
    adj = 0x1FFFFFFFF * count_rollovers (firstn (Z.to_nat i) (p_pcrs y)) ->
    exists i',
      AdjustPCRWrapAround_loop n y i_pos i adj =
      (i', 0x1FFFFFFFF * count_rollovers (firstn (Z.to_nat i') (p_pcrs y))) /\
      i <= i' <= i_pcrs_num y /\
      (forall j, i <= j < i' -> byte_at (p_pos y) j <= i_pos) /\
      (i' < i_pcrs_num y -> i_pos < byte_at (p_pos y) i').
Proof.
  intros (Hnum & Hlen & Hrange).
  induction n as [|n IH]; intros i adj Hi Hn Hadj.
  - exists i. cbn [AdjustPCRWrapAround_loop]. subst adj.
    repeat split; try lia.
  - cbn [AdjustPCRWrapAround_loop].
    assert (Hlt : (i <? i_pcrs_num y) = true) by (apply Z.ltb_lt; lia).
    rewrite Hlt. cbn [andb].
    destruct (byte_at (p_pos y) i <=? i_pos) eqn:Epos.
    + apply Z.leb_le in Epos.
      assert (Hc := count_rollovers_firstn_succ (p_pcrs y) i ltac:(lia)).
      assert (Hb := count_rollovers_bound (firstn (Z.to_nat i) (p_pcrs y))).
      assert (Hnn := count_rollovers_nonneg (firstn (Z.to_nat i) (p_pcrs y))).
      assert (Hfl : zlength (firstn (Z.to_nat i) (p_pcrs y)) <= 2 ^ 20).
      { unfold zlength in *. rewrite length_firstn. lia. }
      destruct (IH (i + 1)
                  (if byte_at (p_pcrs y) i <? byte_at (p_pcrs y) (i - 1)
                   then int64 (adj + 0x1FFFFFFFF) else adj))
        as (i' & Heq & Hi' & Hbefore & Hafter); try lia.
      * rewrite Hc. subst adj.
        destruct (byte_at (p_pcrs y) i <? byte_at (p_pcrs y) (i - 1)).
        -- rewrite int64_id; [lia|]. change (2 ^ 20) with 1048576 in *.
           change (2 ^ 63) with 9223372036854775808. lia.
        -- lia.
      * exists i'. split; [exact Heq|]. split; [lia|]. split; [|exact Hafter].
        intros j Hj. destruct (Z.eq_dec j i) as [->|Hne]; [exact Epos|].
        apply Hbefore. lia.
    + apply Z.leb_gt in Epos. exists i. subst adj.
      repeat split; try lia.
Qed.

(** C2 (as stated, refuted): with the samples (offset 0, pcr 2^33 - 100)
    and (offset 188, pcr 50), the corrected second reading is
    50 + 2^33 - 1, not 50 + 2^33. *)
Definition sys_two_samples : demux_sys_t :=
  mk_sys 188 0 50 0 0 0 0 false 2 [2 ^ 33 - 100; 50] [0; 188]
         ARIBMODE_DISABLED pid_zero false [] 0 false None 0 false false
         true true 0 0 0 false 0 [] false.

Definition demux_two_samples : demux_t :=
  mk_demux (mk_stream (repeat 0 188) (repeat 0 188)) [] [] [] true false true
           sys_two_samples.

Lemma AdjustPCRWrapAround_modulus_counterexample :
  AdjustPCRWrapAround demux_two_samples 50 = 50 + 2 ^ 33 - 1 /\
  AdjustPCRWrapAround demux_two_samples 50 <> 50 + 2 ^ 33.
Proof. split; vm_compute; [reflexivity|discriminate]. Qed.

Lemma Forall_byte_at (P : Z -> Prop) (l : list Z) (i : Z) :
  Forall P l -> 0 <= i < zlength l -> P (byte_at l i).
Proof.
  unfold zlength. intros HF Hi. rewrite byte_at_nth by lia.
  rewrite Forall_forall in HF. apply HF. apply nth_In. lia.
Qed.

(** C2 (amended): each detected rollover adds 0x1FFFFFFFF = 2^33 - 1 (not
    2^33) to the reading: the result is the reading plus 2^33 - 1 times
    the number of rollovers among the samples taken at or before the
    stream position followed by the reading itself; and it is at least
    the corrected value of the last of those samples. *)
Theorem AdjustPCRWrapAround_per_rollover (d : demux_t) (i_pcr : Z) :
  pcr_table_ok (p_sys d) -> 0 <= i_pcr < 2 ^ 33 ->
  exists i,
    samples_before (p_sys d) (stream_Tell (s d)) i /\
    AdjustPCRWrapAround d i_pcr =
    i_pcr + (2 ^ 33 - 1) *
            count_rollovers (firstn (Z.to_nat i) (p_pcrs (p_sys d)) ++ [i_pcr]) /\
    byte_at (p_pcrs (p_sys d)) (i - 1) +
    (2 ^ 33 - 1) * count_rollovers (firstn (Z.to_nat i) (p_pcrs (p_sys d)))
    <= AdjustPCRWrapAround d i_pcr.
Proof.
  intros Hok Hpcr.
  assert (Hok' := Hok). destruct Hok' as (Hnum & Hlen & Hrange).
  set (y := p_sys d) in *.
  destruct (AdjustPCRWrapAround_loop_spec y (stream_Tell (s d)) Hok
              (Z.to_nat (i_pcrs_num y - 1)) 1 0)
    as (i & Heq & Hi & Hbefore & Hafter); try lia.
  { change (Z.to_nat 1) with 1%nat.
    destruct (p_pcrs y) as [|a t]; [cbn; lia|]. cbn. destruct t; lia. }
  exists i.
  assert (Hprior : 0 <= byte_at (p_pcrs y) (i - 1) < 2 ^ 33).
  { apply (Forall_byte_at (fun x => 0 <= x < 2 ^ 33)); [exact Hrange|lia]. }
  assert (Hne : firstn (Z.to_nat i) (p_pcrs y) <> []).
  { intros E. apply (f_equal (@length Z)) in E.
    rewrite length_firstn in E. cbn [length] in E. unfold zlength in *. lia. }
  assert (Hlast : last (firstn (Z.to_nat i) (p_pcrs y)) 0 =
                  byte_at (p_pcrs y) (i - 1)).
  { rewrite byte_at_nth by lia.
    replace (Z.to_nat i) with (S (Z.to_nat (i - 1))) by lia.
    apply last_firstn. unfold zlength in *. lia. }
  assert (Hb := count_rollovers_bound (firstn (Z.to_nat i) (p_pcrs y))).
  assert (Hnn := count_rollovers_nonneg (firstn (Z.to_nat i) (p_pcrs y))).
  assert (Hfl : zlength (firstn (Z.to_nat i) (p_pcrs y)) <= 2 ^ 20).
  { unfold zlength in *. rewrite length_firstn. lia. }
  assert (Hres :
    AdjustPCRWrapAround d i_pcr =
    i_pcr + (2 ^ 33 - 1) *
            count_rollovers (firstn (Z.to_nat i) (p_pcrs y) ++ [i_pcr])).
  { unfold AdjustPCRWrapAround. fold y. rewrite Heq.
    rewrite count_rollovers_snoc by exact Hne. rewrite Hlast.
    change (2 ^ 33) with 8589934592 in *. change (2 ^ 20) with 1048576 in *.
    destruct (i_pcr <? byte_at (p_pcrs y) (i - 1)).
    - rewrite (int64_id (_ + 8589934591));
        [|change (2 ^ 63) with 9223372036854775808; lia].
      rewrite int64_id; [lia|change (2 ^ 63) with 9223372036854775808; lia].
    - rewrite int64_id; [lia|change (2 ^ 63) with 9223372036854775808; lia]. }
  split; [|split].
  - split; [lia|]. split; [intros j Hj; apply Hbefore; lia|exact Hafter].
  - exact Hres.
  - rewrite Hres. rewrite count_rollovers_snoc by exact Hne. rewrite Hlast.
    change (2 ^ 33) with 8589934592 in *.
    destruct (i_pcr <? byte_at (p_pcrs y) (i - 1)) eqn:E.
    + lia.
    + apply Z.ltb_ge in E. lia.
Qed.

(** A table of three samples with one rollover, read past its end. *)
Definition sys_three_samples : demux_sys_t :=
  mk_sys 188 0 50 0 0 0 0 false 3 [2 ^ 33 - 100; 50; 9000] [0; 188; 376]
         ARIBMODE_DISABLED pid_zero false [] 0 false None 0 false false
         true true 0 0 0 false 0 [] false.

Definition demux_three_samples : demux_t :=
  mk_demux (mk_stream (repeat 0 564) (repeat 0 188)) [] [] [] true false true
           sys_three_samples.

Lemma AdjustPCRWrapAround_per_rollover_witness :
  pcr_table_ok (p_sys demux_three_samples) /\ 0 <= 9500 < 2 ^ 33 /\
  exists i,
    samples_before (p_sys demux_three_samples)
                   (stream_Tell (s demux_three_samples)) i /\
    AdjustPCRWrapAround demux_three_samples 9500 =
    9500 + (2 ^ 33 - 1) *
      count_rollovers
        (firstn (Z.to_nat i) (p_pcrs (p_sys demux_three_samples)) ++ [9500]) /\
    byte_at (p_pcrs (p_sys demux_three_samples)) (i - 1) +
    (2 ^ 33 - 1) *
      count_rollovers (firstn (Z.to_nat i) (p_pcrs (p_sys demux_three_samples)))
    <= AdjustPCRWrapAround demux_three_samples 9500.
Proof.
  assert (Hok : pcr_table_ok (p_sys demux_three_samples)).
  { split; [vm_compute; split; discriminate|].
    split; [vm_compute; discriminate|].
    repeat constructor; vm_compute; congruence. }
  assert (Hr : 0 <= 9500 < 2 ^ 33) by (vm_compute; split; congruence).
  split; [exact Hok|]. split; [exact Hr|].
  exact (AdjustPCRWrapAround_per_rollover demux_three_samples 9500 Hok Hr).
Defined.

(** ** Access to the session state *)

Lemma get_pid_put_same (d : demux_t) (k : Z) (q : ts_pid_t) :
  get_pid (put_pid k q d) k = q.
Proof. unfold get_pid, put_pid. cbn. now rewrite Z.eqb_refl. Qed.

Lemma get_pid_put_other (d : demux_t) (k j : Z) (q : ts_pid_t) :
  j <> k -> get_pid (put_pid k q d) j = get_pid d j.
Proof.
  intros H. unfold get_pid, put_pid. cbn.
  destruct (j =? k) eqn:E; [apply Z.eqb_eq in E; congruence|reflexivity].
Qed.

Lemma get_pid_log (d : demux_t) (m : log_entry) (k : Z) :
  get_pid (log m d) k = get_pid d k.
Proof. reflexivity. Qed.

Lemma get_pid_emit (d : demux_t) (e : es_out_event) (k : Z) :
  get_pid (emit e d) k = get_pid d k.
Proof. reflexivity. Qed.

Lemma msgs_put_pid (d : demux_t) (k : Z) (q : ts_pid_t) :
  msgs (put_pid k q d) = msgs d.
Proof. reflexivity. Qed.

Lemma out_put_pid (d : demux_t) (k : Z) (q : ts_pid_t) :
  out (put_pid k q d) = out d.
Proof. reflexivity. Qed.

Lemma msgs_log (d : demux_t) (m : log_entry) : msgs (log m d) = msgs d ++ [m].
Proof. reflexivity. Qed.

Lemma out_log (d : demux_t) (m : log_entry) : out (log m d) = out d.
Proof. reflexivity. Qed.

Lemma msgs_emit (d : demux_t) (e : es_out_event) : msgs (emit e d) = msgs d.
Proof. reflexivity. Qed.

Lemma out_emit (d : demux_t) (e : es_out_event) : out (emit e d) = out d ++ [e].
Proof. reflexivity. Qed.

(** ** Continuity counter *)

(** The diagnostic of a continuity-counter mismatch on entry [q]. *)
Definition discontinuity_msg (q : ts_pid_t) (cc : Z) : log_entry :=
  msg_Warn "discontinuity received 0x%x instead of 0x%x (pid=%d)"
           [cc; Z.land (i_cc q + 1) 0x0f; i_pid q].

(** The chain under reassembly of entry [k]. *)
Definition inflight (d : demux_t) (k : Z) : list block_t :=
  match get_es d k with
  | Some e => p_data e
  | None => []
  end.

Definition is_audio_video (c : es_category) : bool :=
  es_category_eqb c VIDEO_ES || es_category_eqb c AUDIO_ES.

Lemma es_set_p_data_same (e : ts_es_t) : es_set_p_data (p_data e) e = e.
Proof. now destruct e. Qed.

Lemma continuity_check_duplicate (d : demux_t) (k : Z) (cc : Z)
    (b_payload b_disc : bool) :
  i_cc (get_pid d k) <> 0xff ->
  Z.land (cc - i_cc (get_pid d k)) 0x0f = 0 ->
  continuity_check d k cc b_payload b_disc = d.
Proof.
  intros Hseed Hdiff. unfold continuity_check. rewrite Hdiff.
  assert (H2 : (i_cc (get_pid d k) =? 255) = false) by now apply Z.eqb_neq.
  rewrite H2. now rewrite andb_false_r.
Qed.

(** Two entries that differ at most in their PSI context. *)
Definition same_but_psi (a b : ts_pid_t) : Prop :=
  pid_set_psi None a = pid_set_psi None b.

Lemma same_but_psi_refl (a : ts_pid_t) : same_but_psi a a.
Proof. reflexivity. Qed.

Lemma same_but_psi_trans (a b c : ts_pid_t) :
  same_but_psi a b -> same_but_psi b c -> same_but_psi a c.
Proof. unfold same_but_psi. congruence. Qed.

Lemma same_but_psi_set (a : ts_pid_t) (t : option ts_psi_t) :
  same_but_psi (pid_set_psi t a) a.
Proof. reflexivity. Qed.

Lemma same_but_psi_es (a b : ts_pid_t) : same_but_psi a b -> es a = es b.
Proof. unfold same_but_psi. intros H. now apply (f_equal es) in H. Qed.

Lemma same_but_psi_cc (a b : ts_pid_t) : same_but_psi a b -> i_cc a = i_cc b.
Proof. unfold same_but_psi. intros H. now apply (f_equal i_cc) in H. Qed.

Lemma same_but_psi_scrambled (a b : ts_pid_t) :
  same_but_psi a b -> b_scrambled a = b_scrambled b.
Proof. unfold same_but_psi. intros H. now apply (f_equal b_scrambled) in H. Qed.

Lemma same_but_psi_extra (a b : ts_pid_t) :
  same_but_psi a b -> extra_es a = extra_es b.
Proof. unfold same_but_psi. intros H. now apply (f_equal extra_es) in H. Qed.

Lemma same_but_psi_i_pid (a b : ts_pid_t) :
  same_but_psi a b -> i_pid a = i_pid b.
Proof. unfold same_but_psi. intros H. now apply (f_equal i_pid) in H. Qed.

(** Two states of the demultiplexer that differ at most in the PID
    table and in the current PCR. *)
Definition sys_same_but_pid_pcr (y y' : demux_sys_t) : Prop :=
  y' = sys_set_pid (pid y') (sys_set_i_current_pcr (i_current_pcr y') y).

Lemma sys_same_but_pid_pcr_refl (y : demux_sys_t) : sys_same_but_pid_pcr y y.
Proof. unfold sys_same_but_pid_pcr. now destruct y. Qed.

Lemma sys_same_but_pid_pcr_trans (a b c : demux_sys_t) :
  sys_same_but_pid_pcr a b -> sys_same_but_pid_pcr b c ->
  sys_same_but_pid_pcr a c.
Proof.
  unfold sys_same_but_pid_pcr. intros H1 H2. rewrite H2. rewrite H1.
  reflexivity.
Qed.

Lemma PCRHandle_pmts_frame (pmts : list Z) :
  forall (d : demux_t) (n pcr g : Z),
    let d' := PCRHandle_pmts pmts d n pcr g in
    msgs d' = msgs d /\ s d' = s d /\
    (forall j, same_but_psi (get_pid d' j) (get_pid d j)) /\
    filter is_send (out d') = filter is_send (out d) /\
    sys_same_but_pid_pcr (p_sys d) (p_sys d').
Proof.
  induction pmts as [|kpmt rest IH]; intros d n pcr g; cbn zeta.
  - cbn. repeat split; auto. apply sys_same_but_pid_pcr_refl.
  - cbn [PCRHandle_pmts].
    destruct (g <? 0);
      [|repeat split; auto; apply sys_same_but_pid_pcr_refl].
    destruct (psi (get_pid d kpmt)) as [t|]; [|apply IH].
    destruct (PCRHandle_prgs (prg t) n pcr g false) as [[prgs g'] bm].
    match goal with
    | |- context [PCRHandle_pmts rest ?dd n pcr g'] =>
      destruct (IH dd n pcr g') as (Hm & Hs & Hp & Ho & Hy);
      set (d2 := dd) in *
    end.
    set (d1 := put_pid kpmt
                 (pid_set_psi (Some (psi_set_prg prgs t)) (get_pid d kpmt)) d) in *.
    assert (H1 : msgs d2 = msgs d /\ s d2 = s d /\
                 (forall j, get_pid d2 j = get_pid d1 j) /\
                 filter is_send (out d2) = filter is_send (out d) /\
                 p_sys d2 = p_sys d1).
    { subst d2.
      destruct (b_trust_pcr (p_sys d1) && (0 <? g') && (bm && pmt_has_es d1 kpmt)).
      - repeat split; auto. rewrite out_emit, filter_app. cbn.
        now rewrite app_nil_r.
      - repeat split; auto. }
    destruct H1 as (H1m & H1s & H1p & H1o & H1y).
    split; [congruence|]. split; [congruence|].
    split.
    { intros j. eapply same_but_psi_trans; [apply Hp|]. rewrite H1p.
      subst d1. destruct (Z.eq_dec j kpmt) as [->|Hne].
      - rewrite get_pid_put_same. apply same_but_psi_set.
      - rewrite get_pid_put_other by exact Hne. apply same_but_psi_refl. }
    split; [congruence|].
    eapply sys_same_but_pid_pcr_trans; [|exact Hy].
    rewrite H1y. subst d1. unfold sys_same_but_pid_pcr. cbn.
    now destruct (p_sys d).
Qed.

Lemma PCRHandle_frame (d : demux_t) (k : Z) (p_bk : block_t) :
  let d' := PCRHandle d k p_bk in
  msgs d' = msgs d /\ s d' = s d /\
  (forall j, same_but_psi (get_pid d' j) (get_pid d j)) /\
  filter is_send (out d') = filter is_send (out d) /\
  sys_same_but_pid_pcr (p_sys d) (p_sys d').
Proof.
  cbn zeta. unfold PCRHandle.
  destruct (i_pmt_es (p_sys d) <=? 0);
    [repeat split; auto; apply sys_same_but_pid_pcr_refl|].
  destruct (GetPCR p_bk <? 0);
    [repeat split; auto; apply sys_same_but_pid_pcr_refl|].
  match goal with
  | |- context [PCRHandle_pmts ?l ?dd ?n ?pcr ?g] =>
    destruct (PCRHandle_pmts_frame l dd n pcr g)
      as (Hm & Hs & Hp & Ho & Hy);
    set (d1 := dd) in *
  end.
  assert (H1 : msgs d1 = msgs d /\ s d1 = s d /\
               (forall j, get_pid d1 j = get_pid d j) /\
               out d1 = out d /\
               sys_same_but_pid_pcr (p_sys d) (p_sys d1)).
  { subst d1. destruct (i_pid_ref_pcr (p_sys d) =? i_pid (get_pid d k));
      repeat split; auto; try apply sys_same_but_pid_pcr_refl;
      unfold sys_same_but_pid_pcr; cbn; now destruct (p_sys d). }
  destruct H1 as (H1m & H1s & H1p & H1o & H1y).
  split; [congruence|]. split; [congruence|].
  split; [intros j; specialize (Hp j); rewrite H1p in Hp; exact Hp|].
  split; [congruence|].
  eapply sys_same_but_pid_pcr_trans; eassumption.
Qed.

(** The header bits of a transport packet. *)
Definition pkt_transport_error (p_bk : block_t) : bool :=
  negb (Z.land (byte_at (p_buffer p_bk) 1) 0x80 =? 0).
Definition pkt_unit_start (p_bk : block_t) : bool :=
  negb (Z.land (byte_at (p_buffer p_bk) 1) 0x40 =? 0).
Definition pkt_scrambled (p_bk : block_t) : bool :=
  negb (Z.land (byte_at (p_buffer p_bk) 3) 0x80 =? 0).
Definition pkt_adaptation (p_bk : block_t) : bool :=
  negb (Z.land (byte_at (p_buffer p_bk) 3) 0x20 =? 0).
Definition pkt_payload (p_bk : block_t) : bool :=
  negb (Z.land (byte_at (p_buffer p_bk) 3) 0x10 =? 0).
Definition pkt_cc (p_bk : block_t) : Z :=
  Z.land (byte_at (p_buffer p_bk) 3) 0x0f.

Definition is_discontinuity_msg (m : log_entry) : bool :=
  String.eqb (snd (fst m))
             "discontinuity received 0x%x instead of 0x%x (pid=%d)".

Lemma scrambled_changed_frame (d : demux_t) (k : Z) (b : bool) :
  let d' := scrambled_changed d k b in
  get_es d' k = get_es d k /\
  filter is_discontinuity_msg (msgs d') = filter is_discontinuity_msg (msgs d) /\
  filter is_send (out d') = filter is_send (out d) /\
  p_sys d' = sys_set_pid (pid (p_sys d')) (p_sys d) /\
  s d' = s d.
Proof.
  cbn zeta. unfold scrambled_changed.
  destruct (negb (Bool.eqb (b_scrambled (get_pid d k)) b)).
  2:{ repeat split; auto. now destruct (p_sys d). }
  set (q := get_pid d k).
  set (d2 := put_pid k (pid_set_b_scrambled b q) (log _ d)).
  assert (Hfold : forall (l : list ts_es_t) (dd : demux_t),
            let r := fold_left
                       (fun acc x => emit (ES_OUT_SET_ES_SCRAMBLED_STATE (id x) b) acc)
                       l dd in
            (forall j, get_pid r j = get_pid dd j) /\ msgs r = msgs dd /\
            filter is_send (out r) = filter is_send (out dd) /\
            p_sys r = p_sys dd /\ s r = s dd).
  { induction l as [|x l IH]; intros dd; cbn zeta; cbn [fold_left].
    - repeat split; auto.
    - destruct (IH (emit (ES_OUT_SET_ES_SCRAMBLED_STATE (id x) b) dd))
        as (A & B & C & D & E).
      split; [intros j; now rewrite A|].
      split; [now rewrite B|].
      split; [rewrite C, out_emit, filter_app; cbn; now rewrite app_nil_r|].
      split; [now rewrite D|now rewrite E]. }
  destruct (Hfold (extra_es q) d2) as (A & B & C & D & E).
  unfold get_es. rewrite get_pid_emit, A, msgs_emit, B, out_emit, filter_app.
  cbn [filter is_send app]. rewrite app_nil_r, C.
  subst d2. rewrite get_pid_put_same, msgs_put_pid, msgs_log, filter_app.
  cbn. rewrite app_nil_r.
  repeat split; auto.
  cbn. rewrite D. cbn. now destruct (p_sys d).
Qed.

(** A session with one elementary stream of category [cat] on PID 200,
    registered with the sink, one block under reassembly, counter at 2. *)
Definition es_inflight (cat : es_category) : ts_es_t :=
  mk_es (es_format_Init cat 0) (Some 0) TS_ES_DATA_PES 0 184
        [block_Alloc (repeat 1 184)] None.

Definition demux_inflight (cat : es_category) : demux_t :=
  mk_demux (mk_stream [] []) [] [] [] true false true
    (sys_set_pid
       (fun j => if j =? 200
                 then mk_pid 200 true true 2 false None 0 None
                             (Some (es_inflight cat)) []
                 else pid_zero j)
       (sys_init 188 0)).

(** A payload-only packet of PID 200 with continuity counter [cc]. *)
Definition packet_200 (cc : Z) : block_t :=
  block_Alloc ([0x47; 0x00; 0xC8; Z.lor 0x10 cc] ++ repeat 0 184).

(** ** Delivery of PES packets *)

(** The requests the delivery loop of ParsePES makes for [blocks]. *)
Definition sends_of (q : ts_pid_t) (e : ts_es_t) (b_trust : bool)
    (blocks : list block_t) : list es_out_event :=
  flat_map
    (fun b =>
       map (fun x => ES_OUT_SEND (id x) b) (extra_es q) ++
       (if negb b_trust
        then [ES_OUT_SET_GROUP_PCR (i_owner_number q) (i_pts b)] else []) ++
       [ES_OUT_SEND (id e) b])
    blocks.

Lemma fold_emit_out (A : Type) (f : A -> es_out_event) (l : list A) :
  forall d : demux_t,
    let r := fold_left (fun acc x => emit (f x) acc) l d in
    out r = out d ++ map f l /\ msgs r = msgs d /\ p_sys r = p_sys d /\
    s r = s d /\ s_ctl r = s_ctl d.
Proof.
  induction l as [|x l IH]; intros d; cbn zeta; cbn [fold_left map].
  - rewrite app_nil_r. repeat split.
  - destruct (IH (emit (f x) d)) as (A1 & A2 & A3 & A4 & A5).
    rewrite A1, A2, A3, A4, A5, out_emit, <- app_assoc. repeat split.
Qed.

Lemma send_blocks_spec (q : ts_pid_t) (e : ts_es_t) (b_trust : bool)
    (blocks : list block_t) :
  forall d : demux_t,
    let r := send_blocks q e b_trust blocks d in
    out r = out d ++ sends_of q e b_trust blocks /\ msgs r = msgs d /\
    p_sys r = p_sys d /\ s r = s d /\ s_ctl r = s_ctl d.
Proof.
  induction blocks as [|b rest IH]; intros d; cbn zeta;
    cbn [send_blocks sends_of flat_map].
  - rewrite app_nil_r. repeat split.
  - match goal with
    | |- context [send_blocks q e b_trust rest ?dd] =>
      destruct (IH dd) as (A1 & A2 & A3 & A4 & A5)
    end.
    rewrite A1, A2, A3, A4, A5. clear IH A1 A2 A3 A4 A5.
    destruct (fold_emit_out ts_es_t (fun x => ES_OUT_SEND (id x) b)
                (extra_es q) d) as (B1 & B2 & B3 & B4 & B5).
    cbn zeta in B1, B2, B3, B4, B5.
    fold (sends_of q e b_trust rest).
    destruct (negb b_trust); cbn [app];
      rewrite ?out_emit, ?msgs_emit, B1;
      repeat rewrite <- app_assoc; cbn [app]; repeat split; auto.
Qed.

Lemma In_sends_of (q : ts_pid_t) (e : ts_es_t) (b_trust : bool)
    (blocks : list block_t) (n : option Z) (b : block_t) :
  In (ES_OUT_SEND n b) (sends_of q e b_trust blocks) -> In b blocks.
Proof.
  unfold sends_of. rewrite in_flat_map. intros (x & Hx & Hin).
  rewrite !in_app_iff in Hin. destruct Hin as [H|[H|H]].
  - rewrite in_map_iff in H. destruct H as (y & Hy & _).
    injection Hy as _ <-. exact Hx.
  - destruct (negb b_trust); cbn in H; [destruct H as [H|[]]|destruct H].
    discriminate.
  - cbn in H. destruct H as [H|[]]. injection H as _ <-. exact Hx.
Qed.

Ltac break_match_in H :=
  match type of H with
  | context [match ?x with _ => _ end] => destruct x eqn:?
  end.

Ltac break_match_goal :=
  match goal with
  | |- context [match ?x with _ => _ end] => destruct x eqn:?
  end.

Section DeliveryProperties.

Variable header_garbage : list Z.
Variable opus_frame_duration : list Z -> Z -> Z.

Lemma opus_au_timestamps (block : block_t) (buf : list Z)
    (au_size start_trim end_trim : Z) :
  let au := opus_au opus_frame_duration block buf au_size start_trim end_trim in
  i_pts au = i_pts block /\ i_dts au = i_dts block.
Proof.
  cbn zeta. unfold opus_au.
  repeat break_match_goal; split; reflexivity.
Qed.

Lemma Opus_Parse_loop_timestamps (block : block_t) :
  forall (fuel : nat) (buf : list Z) (len : Z) (b : block_t),
    In b (fst (Opus_Parse_loop opus_frame_duration fuel block buf len)) ->
    i_pts b = i_pts block /\ i_dts b = i_dts block.
Proof.
  induction fuel as [|fuel IH]; intros buf len b Hin; [destruct Hin|].
  cbn [Opus_Parse_loop] in Hin.
  repeat (break_match_in Hin; cbn [fst snd In] in Hin; try contradiction).
  all: try (destruct Hin as [Hin|Hin];
            [subst b; apply opus_au_timestamps|]).
  all: match goal with
       | E : Opus_Parse_loop _ _ _ ?bu ?le = (?l, _) |- _ =>
         apply (IH bu le b); rewrite E; exact Hin
       end.
Qed.

Definition is_byte (x : Z) : Prop := 0 <= x < 256.

Lemma byte_at_byte (l : list Z) (i : Z) :
  Forall is_byte l -> is_byte (byte_at l i).
Proof.
  intros HF. unfold byte_at.
  destruct (i <? 0); [unfold is_byte; lia|].
  destruct (Nat.lt_ge_cases (Z.to_nat i) (length l)) as [Hlt|Hge].
  - rewrite Forall_forall in HF. apply HF. now apply nth_In.
  - rewrite nth_overflow by exact Hge. unfold is_byte. lia.
Qed.

Lemma lor_bound (n a b : Z) :
  0 <= n -> 0 <= a < 2 ^ n -> 0 <= b < 2 ^ n -> 0 <= Z.lor a b < 2 ^ n.
Proof.
  intros Hn Ha Hb.
  destruct (Z.eq_dec a 0) as [->|Ha0]; [now rewrite Z.lor_0_l|].
  destruct (Z.eq_dec b 0) as [->|Hb0]; [now rewrite Z.lor_0_r|].
  assert (H0 : 0 <= Z.lor a b) by (apply Z.lor_nonneg; lia).
  split; [exact H0|].
  destruct (Z.eq_dec (Z.lor a b) 0) as [E|E]; [rewrite E; lia|].
  apply Z.log2_lt_pow2; [lia|].
  rewrite Z.log2_lor by lia.
  apply Z.max_lub_lt; apply Z.log2_lt_pow2; lia.
Qed.

Lemma land_byte_bound (a m : Z) : is_byte a -> 0 <= m < 256 -> is_byte (Z.land a m).
Proof.
  unfold is_byte. intros Ha Hm.
  assert (H0 : 0 <= Z.land a m) by (apply Z.land_nonneg; lia).
  split; [exact H0|].
  destruct (Z.eq_dec (Z.land a m) 0) as [E|E]; [rewrite E; lia|].
  change 256 with (2 ^ 8). apply Z.log2_lt_pow2; [lia|].
  eapply Z.le_lt_trans; [apply Z.log2_land; lia|].
  apply Z.min_lt_iff. left.
  destruct (Z.eq_dec a 0) as [->|Ha0]; [cbn; lia|].
  apply Z.log2_lt_pow2; [lia|]. change (2 ^ 8) with 256. lia.
Qed.

Lemma pes_timestamp_range (header : list Z) (i : Z) :
  Forall is_byte header -> 0 <= pes_timestamp header i < 2 ^ 33.
Proof.
  intros HF. unfold pes_timestamp.
  assert (B0 := land_byte_bound _ 0x0e (byte_at_byte header i HF) ltac:(lia)).
  assert (B1 := byte_at_byte header (i + 1) HF).
  assert (B2 := land_byte_bound _ 0xfe (byte_at_byte header (i + 2) HF) ltac:(lia)).
  assert (B3 := byte_at_byte header (i + 3) HF).
  assert (B4 := byte_at_byte header (i + 4) HF).
  assert (C0 : Z.land (byte_at header i) 14 < 16).
  { destruct (Z.eq_dec (Z.land (byte_at header i) 14) 0) as [E|E];
      [rewrite E; lia|].
    change 16 with (2 ^ 4). apply Z.log2_lt_pow2; [unfold is_byte in B0; lia|].
    eapply Z.le_lt_trans;
      [apply Z.log2_land; unfold is_byte in *;
       pose proof (byte_at_byte header i HF) as X; unfold is_byte in X; lia|].
    apply Z.min_lt_iff. right. cbn. lia. }
  unfold is_byte in *.
  rewrite !Z.shiftl_mul_pow2 by lia. rewrite Z.shiftr_div_pow2 by lia.
  assert (D4 : 0 <= byte_at header (i + 4) / 2 ^ 1 < 256).
  { change (2 ^ 1) with 2. split; [apply Z.div_pos; lia|].
    apply Z.div_lt_upper_bound; lia. }
  change (2 ^ 29) with 536870912. change (2 ^ 22) with 4194304.
  change (2 ^ 14) with 16384. change (2 ^ 7) with 128.
  repeat apply lor_bound; change (2 ^ 33) with 8589934592; lia.
Qed.

Lemma to_vlc_ts_pos (t : Z) :
  0 <= t < 2 ^ 33 -> to_vlc_ts t = 1 + t * 100 / 9 /\ 0 < to_vlc_ts t.
Proof.
  intros Ht. unfold to_vlc_ts, VLC_TS_0, cdiv.
  change (2 ^ 33) with 8589934592 in Ht.
  rewrite (int64_id (t * 100)) by (change (2 ^ 63) with 9223372036854775808; lia).
  rewrite Z.quot_div_nonneg by lia.
  assert (H : 0 <= t * 100 / 9 <= t * 100).
  { split; [apply Z.div_pos; lia|]. apply Z.div_le_upper_bound; lia. }
  rewrite int64_id by (change (2 ^ 63) with 9223372036854775808; lia).
  lia.
Qed.

(** A block whose time stamps are unset, as stream_Block leaves it. *)
Definition unstamped (b : block_t) : Prop :=
  i_pts b = VLC_TS_INVALID /\ i_dts b = VLC_TS_INVALID.

Lemma skip_header_unstamped (c : list block_t) :
  forall n, Forall unstamped c -> Forall unstamped (skip_header c n).
Proof.
  induction c as [|b c IH]; intros n HF; cbn [skip_header]; [constructor|].
  inversion HF as [|? ? Hb Hc]; subst.
  destruct (0 <? n); [|exact HF].
  destruct (i_buffer b <=? n); [now apply IH|].
  constructor; [exact Hb|exact Hc].
Qed.

Lemma block_ChainGather_timestamps (b g : block_t) (c : list block_t) :
  block_ChainGather (b :: c) = Some g ->
  i_pts g = i_pts b /\ i_dts g = i_dts b.
Proof.
  destruct c; cbn; intros H; injection H as <-; split; reflexivity.
Qed.

Lemma block_ChainGather_some (b : block_t) (c : list block_t) :
  exists g, block_ChainGather (b :: c) = Some g.
Proof. destruct c; cbn; eexists; reflexivity. Qed.

Lemma parse_pes_header_cases (header : list Z) (i_skip pts dts : Z) :
  Forall is_byte header ->
  parse_pes_header header = Some (i_skip, pts, dts) ->
  (pts = -1 /\ dts = -1) \/
  (0 <= pts < 2 ^ 33 /\ (dts = -1 \/ 0 <= dts < 2 ^ 33)).
Proof.
  intros HF H. unfold parse_pes_header in H.
  repeat break_match_in H; try discriminate;
    injection H as <- <- <-;
    first [left; split; reflexivity
          |right; split; [now apply pes_timestamp_range|];
           first [left; reflexivity|right; now apply pes_timestamp_range]].
Qed.

(** The program a PID entry belongs to: the first program of its owner
    whose number is [i_owner_number]. *)
Definition owning_program (d : demux_t) (q : ts_pid_t) : option ts_prg_psi_t :=
  find (fun g => i_owner_number q =? i_number g) (owner_prgs d q).

(** The presentation time stamp a teletext block without PTS gets: the
    last PCR of the owning program, in microseconds, plus 40 ms; unset
    when there is no such program or its PCR is not known. *)
Definition teletext_stamp (d : demux_t) (q : ts_pid_t) : Z :=
  match owning_program d q with
  | Some g =>
    if VLC_TS_INVALID <? i_pcr_value g
    then int64 (to_vlc_ts (i_pcr_value g) + 40000)
    else VLC_TS_INVALID
  | None => VLC_TS_INVALID
  end.

Lemma teletext_pts_stamp (d : demux_t) (q : ts_pid_t) (b : block_t) :
  i_pts b = VLC_TS_INVALID ->
  i_dts (teletext_pts (owner_prgs d q) (i_owner_number q) b) = i_dts b /\
  i_pts (teletext_pts (owner_prgs d q) (i_owner_number q) b) =
  teletext_stamp d q.
Proof.
  intros Hb. unfold teletext_stamp, owning_program.
  induction (owner_prgs d q) as [|g prgs IH]; cbn [teletext_pts find].
  - split; [reflexivity|exact Hb].
  - destruct (i_owner_number q =? i_number g); [|exact IH].
    destruct (VLC_TS_INVALID <? i_pcr_value g);
      split; try reflexivity; exact Hb.
Qed.

(** The time stamps of the delivered block, given what the PES header
    holds: [pts] and [dts] are -1 where the header has none. *)
Definition delivered_timestamps (d : demux_t) (q : ts_pid_t) (e : ts_es_t)
    (pts dts : Z) (b : block_t) : Prop :=
  (0 <= pts -> dts < 0 ->
     i_pts b = to_vlc_ts pts /\ i_dts b = i_pts b) /\
  (0 <= pts -> 0 <= dts ->
     i_pts b = to_vlc_ts pts /\ i_dts b = to_vlc_ts dts) /\
  (pts < 0 ->
     i_dts b = VLC_TS_INVALID /\
     i_pts b = (if i_codec (fmt e) =? VLC_CODEC_TELETEXT
                then teletext_stamp d q else VLC_TS_INVALID)).

Lemma stamped_block (b0 : block_t) (pts dts len : Z) :
  unstamped b0 ->
  let b := if 0 <=? dts then set_i_dts (to_vlc_ts dts) b0 else b0 in
  let b := if 0 <=? pts then set_i_pts (to_vlc_ts pts) b else b in
  let b := set_i_length len b in
  i_pts b = (if 0 <=? pts then to_vlc_ts pts else VLC_TS_INVALID) /\
  i_dts b = (if 0 <=? dts then to_vlc_ts dts else VLC_TS_INVALID).
Proof.
  intros [Hp Hd]. cbn zeta.
  destruct (0 <=? dts), (0 <=? pts); cbn; auto.
Qed.

(** C10 (amended): every block ParsePES delivers for a PES whose header
    has a PTS and no DTS carries that PTS, converted to microseconds, as
    both time stamps; with neither, the decode time stamp stays unset and
    so does the presentation time stamp, except on a teletext stream,
    where it is the last PCR of the owning program plus 40 ms when that
    PCR is known. *)
Theorem ParsePES_timestamps (d : demux_t) (q : ts_pid_t) (e : ts_es_t)
    (p_pes : list block_t) :
  let header := firstn 34 (chain_bytes p_pes ++ header_garbage) in
  Forall is_byte header -> Forall unstamped p_pes ->
  exists evs,
    out (ParsePES header_garbage opus_frame_duration d q e p_pes) =
    out d ++ evs /\
    forall n b, In (ES_OUT_SEND n b) evs ->
      exists i_skip pts dts,
        parse_pes_header header = Some (i_skip, pts, dts) /\
        delivered_timestamps d q e pts dts b.
Proof.
  intros header HF HU. unfold ParsePES. fold header.
  destruct (b_scrambled q || negb (byte_at header 0 =? 0) ||
            negb (byte_at header 1 =? 0) || negb (byte_at header 2 =? 1)).
  { exists []. rewrite app_nil_r. split; [|intros n b []].
    destruct (negb (b_scrambled q)); reflexivity. }
  destruct (parse_pes_header header) as [[[i_skip pts] dts]|] eqn:Eparse.
  2:{ exists []. rewrite app_nil_r. split; [reflexivity|intros n b []]. }
  destruct (pes_codec_skip e p_pes i_skip) as [[i_skip' len] i_pes_size].
  assert (HU' := skip_header_unstamped p_pes i_skip' HU).
  destruct (skip_header p_pes i_skip') as [|b0 p_next].
  { exists []. rewrite app_nil_r. split; [reflexivity|intros n b []]. }
  inversion HU' as [|? ? Hb0 _]; subst.
  set (dts' := if (0 <=? pts) && (dts <? 0) then pts else dts).
  destruct (stamped_block b0 pts dts' (cdiv (int64 (len * 100)) 9) Hb0)
    as [Hpts Hdts].
  cbn zeta in Hpts, Hdts.
  set (b1 := set_i_length _ _) in *.
  destruct (block_ChainGather_some b1 p_next) as [g Hg]. rewrite Hg.
  destruct (block_ChainGather_timestamps b1 g p_next Hg) as [Gp Gd].
  rewrite Hpts in Gp. rewrite Hdts in Gd.
  (* the time stamps of the gathered block *)
  assert (Hcase := parse_pes_header_cases header i_skip pts dts HF Eparse).
  assert (Hg_ts :
    (0 <= pts -> dts < 0 -> i_pts g = to_vlc_ts pts /\ i_dts g = i_pts g) /\
    (0 <= pts -> 0 <= dts -> i_pts g = to_vlc_ts pts /\ i_dts g = to_vlc_ts dts) /\
    (pts < 0 -> i_pts g = VLC_TS_INVALID /\ i_dts g = VLC_TS_INVALID) /\
    (0 <= pts -> VLC_TS_INVALID < i_pts g)).
  { subst dts'.
    destruct Hcase as [[-> ->]|[Hp [-> |Hd]]].
    - cbn in Gp, Gd. repeat split; intros; try lia; auto.
    - assert (E1 : (0 <=? pts) = true) by (apply Z.leb_le; lia).
      rewrite E1 in *. cbn in Gd. rewrite E1 in Gd.
      destruct (to_vlc_ts_pos pts Hp) as [_ Hpos].
      repeat split; intros; try lia; try congruence.
      rewrite Gp. exact Hpos.
    - assert (E1 : (0 <=? pts) = true) by (apply Z.leb_le; lia).
      assert (E2 : (dts <? 0) = false) by (apply Z.ltb_ge; lia).
      assert (E3 : (0 <=? dts) = true) by (apply Z.leb_le; lia).
      rewrite E1, E2 in *. cbn in Gd. rewrite E3 in Gd.
      destruct (to_vlc_ts_pos pts Hp) as [_ Hpos].
      repeat split; intros; try lia; try congruence.
      rewrite Gp. exact Hpos. }
  destruct Hg_ts as (T1 & T2 & T3 & T4).
  match goal with
  | |- context [let '(blocks, m) := ?X in _] => destruct X as [blocks m] eqn:Eb
  end.
  destruct (send_blocks_spec q e (b_trust_pcr (p_sys d)) blocks
              (set_msgs (msgs d ++ m) d)) as (Hout & _).
  cbn zeta in Hout. rewrite Hout. cbn [out set_msgs].
  eexists. split; [reflexivity|].
  intros n b Hin. apply In_sends_of in Hin.
  exists i_skip, pts, dts. split; [reflexivity|].
  (* a block stamped as the gathered one, on a stream that is not
     teletext or with a PTS *)
  assert (Hsame : forall x, i_pts x = i_pts g -> i_dts x = i_dts g ->
                  (pts < 0 -> (i_codec (fmt e) =? VLC_CODEC_TELETEXT) = false) ->
                  delivered_timestamps d q e pts dts x).
  { intros x Xp Xd Hc. unfold delivered_timestamps. rewrite Xp, Xd.
    split; [exact T1|]. split; [exact T2|].
    intros Hneg. rewrite (Hc Hneg).
    destruct (T3 Hneg) as [A B]. split; [exact B|exact A]. }
  assert (Hpos : (i_pts g <=? VLC_TS_INVALID) = false -> pts < 0 -> False).
  { intros X Hneg. apply Z.leb_gt in X. destruct (T3 Hneg) as [A _]. lia. }
  repeat break_match_in Eb; try (injection Eb as <- <-).
  - destruct Hin as [<-|[]]. apply Hsame; try reflexivity.
    intros _.
    match goal with
    | X : (i_codec (fmt e) =? VLC_CODEC_SUBT) = true |- _ =>
      apply Z.eqb_eq in X; rewrite X
    end. reflexivity.
  - destruct Hin as [<-|[]].
    assert (Hneg : pts < 0).
    { destruct (Z_lt_le_dec pts 0) as [H|H]; [exact H|].
      specialize (T4 H).
      match goal with
      | X : (i_pts g <=? VLC_TS_INVALID) = true |- _ => apply Z.leb_le in X
      end. lia. }
    destruct (T3 Hneg) as [A B].
    destruct (teletext_pts_stamp d q g A) as [S1 S2].
    unfold delivered_timestamps. rewrite S1, S2.
    split; [intros; lia|]. split; [intros; lia|].
    intros _. split; [exact B|].
    match goal with
    | X : (i_codec (fmt e) =? VLC_CODEC_TELETEXT) = true |- _ => rewrite X
    end. reflexivity.
  - destruct Hin as [<-|[]]. apply Hsame; try reflexivity.
    intros Hneg. exfalso. now apply Hpos.
  - destruct Hin as [<-|[]].
    apply Hsame; try reflexivity; try (intros _; assumption).
  - destruct Hin as [<-|[]].
    apply Hsame; try reflexivity; try (intros _; assumption).
  - assert (Hb : blocks = fst (Opus_Parse opus_frame_duration g))
      by (rewrite Eb; reflexivity).
    subst blocks. unfold Opus_Parse in Hin.
    destruct (Opus_Parse_loop_timestamps g _ _ _ b Hin) as [A B].
    apply Hsame; try assumption; try reflexivity; try (intros _; assumption).
  - destruct Hin as [<-|[]].
    apply Hsame; try reflexivity; try (intros _; assumption).
Qed.

End DeliveryProperties.

(** A teletext stream on PID 300 of program 1, whose PMT entry (PID 100)
    has seen the PCR value 90000. *)
Definition es_teletext : ts_es_t :=
  mk_es (es_format_Init SPU_ES VLC_CODEC_TELETEXT) (Some 0) TS_ES_DATA_PES
        0 0 [] None.

Definition pid_teletext : ts_pid_t :=
  mk_pid 300 true true 0 false (Some 100) 1 None (Some es_teletext) [].

Definition demux_teletext : demux_t :=
  mk_demux (mk_stream [] []) [] [] [] true false true
    (sys_set_pid
       (fun j =>
          if j =? 100 then
            mk_pid 100 true true 0 false (Some 0) 0
              (Some (mk_psi None (-1) (-1)
                       [mk_prg None 0 1 300 100 90000 None])) None []
          else if j =? 300 then pid_teletext
          else pid_zero j)
       (sys_init 188 0)).

(** A PES packet of stream id 0xBD with an MPEG-2 header that has
    neither PTS nor DTS, and ten bytes of data. *)
Definition pes_without_timestamps : list block_t :=
  [block_Alloc ([0; 0; 1; 0xBD; 0; 13; 0x80; 0; 0] ++ repeat 0x2A 10)].

(** C10 (as stated, refuted): the PES has neither time stamp, and the
    block delivered for the teletext stream has a presentation time stamp:
    the PCR 90000 in microseconds plus 40 ms. *)
Lemma ParsePES_teletext_counterexample :
  parse_pes_header (chain_bytes pes_without_timestamps) = Some (9, -1, -1) /\
  exists b,
    filter is_send
      (out (ParsePES [] (fun _ _ => 0) demux_teletext pid_teletext es_teletext
                     pes_without_timestamps)) = [ES_OUT_SEND (Some 0) b] /\
    i_pts b = 1040001 /\ i_pts b <> VLC_TS_INVALID /\ i_dts b = VLC_TS_INVALID.
Proof.
  split; [reflexivity|]. eexists. split; [vm_compute; reflexivity|].
  split; [reflexivity|]. split; [vm_compute; discriminate|reflexivity].
Qed.

Lemma ParsePES_timestamps_witness :
  Forall is_byte (firstn 34 (chain_bytes pes_without_timestamps ++ [])) /\
  Forall unstamped pes_without_timestamps /\
  teletext_stamp demux_teletext pid_teletext = 1040001 /\
  exists evs,
    out (ParsePES [] (fun _ _ => 0) demux_teletext pid_teletext es_teletext
                  pes_without_timestamps) = out demux_teletext ++ evs /\
    forall n b, In (ES_OUT_SEND n b) evs ->
      exists i_skip pts dts,
        parse_pes_header (firstn 34 (chain_bytes pes_without_timestamps ++ []))
        = Some (i_skip, pts, dts) /\
        delivered_timestamps demux_teletext pid_teletext es_teletext pts dts b.
Proof.
  assert (H1 : Forall is_byte
                 (firstn 34 (chain_bytes pes_without_timestamps ++ []))).
  { vm_compute. repeat constructor; discriminate. }
  assert (H2 : Forall unstamped pes_without_timestamps).
  { repeat constructor. }
  split; [exact H1|]. split; [exact H2|]. split; [reflexivity|].
  exact (ParsePES_timestamps [] (fun _ _ => 0) demux_teletext pid_teletext
           es_teletext pes_without_timestamps H1 H2).
Defined.

(** ** Reassembly by declared length *)

(** [c'] is the chain [c], possibly with its head flagged corrupted. *)
Definition maybe_flagged (c c' : list block_t) : Prop :=
  c' = c \/ c' = chain_flag_corrupted c.

Lemma chain_flag_corrupted_idem (c : list block_t) :
  chain_flag_corrupted (chain_flag_corrupted c) = chain_flag_corrupted c.
Proof.
  destruct c as [|b c]; [reflexivity|]. cbn. unfold set_i_flags. cbn.
  f_equal. f_equal. rewrite <- Z.lor_assoc. now rewrite Z.lor_diag.
Qed.

Lemma maybe_flagged_trans (a b c : list block_t) :
  maybe_flagged a b -> maybe_flagged b c -> maybe_flagged a c.
Proof.
  unfold maybe_flagged. intros [->| ->] [->| ->]; auto.
  right. apply chain_flag_corrupted_idem.
Qed.

Lemma maybe_flagged_bytes (c c' : list block_t) :
  maybe_flagged c c' -> chain_bytes c' = chain_bytes c.
Proof.
  intros [->| ->]; [reflexivity|]. destruct c; reflexivity.
Qed.

Lemma maybe_flagged_nil (c c' : list block_t) :
  maybe_flagged c c' -> (c' = [] <-> c = []).
Proof.
  intros [->| ->]; [tauto|]. destruct c; cbn; split; congruence.
Qed.

Lemma maybe_flagged_unstamped (c c' : list block_t) :
  maybe_flagged c c' -> Forall unstamped c -> Forall unstamped c'.
Proof.
  intros [->| ->] H; [exact H|]. destruct c as [|b c]; [constructor|].
  inversion H; subst. constructor; assumption.
Qed.

Lemma es_set_p_data_twice (c1 c2 : list block_t) (e : ts_es_t) :
  es_set_p_data c2 (es_set_p_data c1 e) = es_set_p_data c2 e.
Proof. reflexivity. Qed.

(** What the first half of GatherData may change on entry [k]. *)
Definition es_kept (d d' : demux_t) (k : Z) (e : ts_es_t) : Prop :=
  exists c, maybe_flagged (p_data e) c /\
            get_es d' k = Some (es_set_p_data c e) /\
            filter is_send (out d') = filter is_send (out d) /\
            extra_es (get_pid d' k) = extra_es (get_pid d k) /\
            p_owner (get_pid d' k) = p_owner (get_pid d k) /\
            i_owner_number (get_pid d' k) = i_owner_number (get_pid d k) /\
            i_pid (get_pid d' k) = i_pid (get_pid d k) /\
            b_scrambled (get_pid d' k) = b_scrambled (get_pid d k) /\
            b_trust_pcr (p_sys d') = b_trust_pcr (p_sys d) /\
            csa (p_sys d') = csa (p_sys d) /\
            i_csa_pkt_size (p_sys d') = i_csa_pkt_size (p_sys d).

Lemma continuity_check_kept (d : demux_t) (k : Z) (e : ts_es_t) (cc : Z)
    (b_payload b_disc : bool) :
  get_es d k = Some e ->
  es_kept d (continuity_check d k cc b_payload b_disc) k e.
Proof.
  intros He. unfold es_kept, continuity_check, get_es in *.
  destruct (get_pid d k) as [pi se va c0 sc ow on ps es0 ex] eqn:Eq.
  cbn in He. subst es0. cbn [i_cc i_pid].
  assert (Hsame : es_set_p_data (p_data e) e = e) by apply es_set_p_data_same.
  destruct (b_payload && (Z.land (cc - c0) 15 =? 1)).
  { exists (p_data e). rewrite get_pid_put_same, Hsame. cbn.
    repeat split; auto. left; reflexivity. }
  destruct (c0 =? 255).
  { exists (p_data e). rewrite get_pid_put_same, Hsame. cbn.
    repeat split; auto. left; reflexivity. }
  destruct (negb (Z.land (cc - c0) 15 =? 0) && negb b_disc).
  2:{ exists (p_data e). rewrite Eq, Hsame. cbn.
      repeat split; auto. left; reflexivity. }
  rewrite get_pid_put_same.
  unfold pid_has_data, pid_cat_is, pid_flag_corrupted. cbn.
  destruct (match p_data e with [] => false | _ :: _ => true end &&
            negb (es_category_eqb (i_cat (fmt e)) VIDEO_ES) &&
            negb (es_category_eqb (i_cat (fmt e)) AUDIO_ES)).
  - exists (chain_flag_corrupted (p_data e)). cbn.
    repeat split; auto. right; reflexivity.
  - exists (p_data e). rewrite Hsame. cbn.
    repeat split; auto. left; reflexivity.
Qed.

Lemma es_kept_refl (d : demux_t) (k : Z) (e : ts_es_t) :
  get_es d k = Some e -> es_kept d d k e.
Proof.
  intros He. exists (p_data e). rewrite es_set_p_data_same.
  repeat split; auto. left; reflexivity.
Qed.

Lemma es_kept_trans (d d1 d2 : demux_t) (k : Z) (e : ts_es_t) :
  es_kept d d1 k e ->
  (forall e1, get_es d1 k = Some e1 -> es_kept d1 d2 k e1) ->
  es_kept d d2 k e.
Proof.
  intros (c & Hc & He1 & A1 & A2 & A3 & A4 & A5 & A6 & A7 & A8 & A9) H.
  destruct (H _ He1) as (c' & Hc' & He2 & B1 & B2 & B3 & B4 & B5 & B6 & B7 & B8 & B9).
  exists c'. cbn [p_data es_set_p_data] in Hc'.
  split; [eapply maybe_flagged_trans; eassumption|].
  rewrite es_set_p_data_twice in He2.
  repeat split; congruence.
Qed.

Lemma es_kept_log (d : demux_t) (k : Z) (e : ts_es_t) (m : log_entry) :
  get_es d k = Some e -> es_kept d (log m d) k e.
Proof.
  intros He. exists (p_data e). rewrite es_set_p_data_same.
  repeat split; auto. left; reflexivity.
Qed.

Lemma PCRHandle_kept (d : demux_t) (k : Z) (p_bk : block_t) (e : ts_es_t) :
  get_es d k = Some e -> es_kept d (PCRHandle d k p_bk) k e.
Proof.
  intros He. destruct (PCRHandle_frame d k p_bk) as (_ & _ & Hp & Ho & Hy).
  cbn zeta in *. set (d' := PCRHandle d k p_bk) in *.
  specialize (Hp k). exists (p_data e). rewrite es_set_p_data_same.
  split; [left; reflexivity|].
  split; [unfold get_es; rewrite (same_but_psi_es _ _ Hp); exact He|].
  split; [exact Ho|].
  split; [now apply same_but_psi_extra|].
  split; [unfold same_but_psi in Hp; now apply (f_equal p_owner) in Hp|].
  split; [unfold same_but_psi in Hp; now apply (f_equal i_owner_number) in Hp|].
  split; [now apply same_but_psi_i_pid|].
  split; [now apply same_but_psi_scrambled|].
  unfold sys_same_but_pid_pcr in Hy.
  split; [now apply (f_equal b_trust_pcr) in Hy|].
  split; [now apply (f_equal csa) in Hy|].
  now apply (f_equal i_csa_pkt_size) in Hy.
Qed.

(** The packet memory GatherData works on (descrambled, cut to 188
    bytes), where its payload starts, and the payload. *)
Definition gather_buffer (d : demux_t) (p_bk : block_t) : list Z :=
  take_188
    (match csa (p_sys d) with
     | Some c => csa_Decrypt c (p_buffer p_bk) (i_csa_pkt_size (p_sys d))
     | None => p_buffer p_bk
     end).

Definition gather_skip (d : demux_t) (p_bk : block_t) : Z :=
  if pkt_adaptation p_bk then 5 + byte_at (gather_buffer d p_bk) 4 else 4.

Definition gather_payload (d : demux_t) (p_bk : block_t) : block_t :=
  set_p_buffer (skipn (Z.to_nat (gather_skip d p_bk)) (gather_buffer d p_bk)) p_bk.

Definition id_is_null (e : ts_es_t) : bool :=
  match id e with None => true | Some _ => false end.

Section ReassemblyProperties.

Variable header_garbage : list Z.
Variable opus_frame_duration : list Z -> Z -> Z.

Local Abbreviation GatherData' := (GatherData header_garbage opus_frame_duration).
Local Abbreviation ParsePES' := (ParsePES header_garbage opus_frame_duration).

(** GatherData from the continuity test on, given where the payload
    starts, the discontinuity indicator and the session so far. *)
Definition gather_tail (k : Z) (p_bk pk : block_t) (t : Z * bool * demux_t)
    : demux_t * bool :=
  let '(i_skip, b_discontinuity, d2) := t in
  let d3 := continuity_check d2 k (pkt_cc p_bk) (pkt_payload p_bk)
                             b_discontinuity in
  let d4 := PCRHandle d3 k pk in
  match get_es d4 k with
  | None => (d4, false)
  | Some e4 =>
    if (188 <=? i_skip) || match id e4 with None => true | Some _ => false end
    then (d4, false)
    else
      let d5 := scrambled_changed d4 k (pkt_scrambled p_bk) in
      let pl := set_p_buffer (skipn (Z.to_nat i_skip) (p_buffer pk)) pk in
      if pkt_unit_start p_bk
      then GatherData_unit_start header_garbage opus_frame_duration d5 k pl
      else GatherData_continue header_garbage opus_frame_duration d5 k pl
  end.

Lemma gather_tail_kept (d d2 : demux_t) (k : Z) (p_bk pk : block_t)
    (e : ts_es_t) (i_skip : Z) (b_disc : bool) :
  es_kept d d2 k e ->
  exists d4,
    es_kept d d4 k e /\
    gather_tail k p_bk pk (i_skip, b_disc, d2) =
    if (188 <=? i_skip) || id_is_null e then (d4, false)
    else
      let d5 := scrambled_changed d4 k (pkt_scrambled p_bk) in
      let pl := set_p_buffer (skipn (Z.to_nat i_skip) (p_buffer pk)) pk in
      if pkt_unit_start p_bk
      then GatherData_unit_start header_garbage opus_frame_duration d5 k pl
      else GatherData_continue header_garbage opus_frame_duration d5 k pl.
Proof.
  intros K2. unfold gather_tail.
  set (d3 := continuity_check d2 k _ _ b_disc).
  assert (K3 : es_kept d d3 k e).
  { eapply es_kept_trans; [exact K2|]. intros e1 He1.
    now apply continuity_check_kept. }
  set (d4 := PCRHandle d3 k pk).
  assert (K4 : es_kept d d4 k e).
  { eapply es_kept_trans; [exact K3|]. intros e1 He1.
    now apply PCRHandle_kept. }
  exists d4. split; [exact K4|].
  destruct K4 as (c & _ & He4 & _). rewrite He4. reflexivity.
Qed.

(** GatherData up to the point where it starts gathering: the stream of
    the entry is as before, but for a head block that may have been
    flagged corrupted. *)
Lemma GatherData_prelude (d : demux_t) (k : Z) (p_bk : block_t) (e : ts_es_t) :
  get_es d k = Some e ->
  exists d4,
    es_kept d d4 k e /\
    GatherData' d k p_bk =
    if (188 <=? gather_skip d p_bk) || id_is_null e then (d4, false)
    else
      let d5 := scrambled_changed d4 k (pkt_scrambled p_bk) in
      if pkt_unit_start p_bk
      then GatherData_unit_start header_garbage opus_frame_duration d5 k
             (gather_payload d p_bk)
      else GatherData_continue header_garbage opus_frame_duration d5 k
             (gather_payload d p_bk).
Proof.
  intros He.
  set (d1 := if pkt_transport_error p_bk
             then
               let d' := log (msg_Dbg "transport_error_indicator set (pid=%d)"
                                      [i_pid (get_pid d k)]) d in
               put_pid k (pid_flag_corrupted (get_pid d' k)) d'
             else d).
  assert (K1 : es_kept d d1 k e).
  { subst d1. destruct (pkt_transport_error p_bk); [|now apply es_kept_refl].
    unfold es_kept, get_es in *. cbn zeta.
    rewrite !get_pid_put_same, !get_pid_log.
    unfold pid_flag_corrupted. rewrite He.
    exists (chain_flag_corrupted (p_data e)).
    destruct (get_pid d k); cbn in *. repeat split; auto. right; reflexivity. }
  assert (Hcsa : csa (p_sys d1) = csa (p_sys d) /\
                 i_csa_pkt_size (p_sys d1) = i_csa_pkt_size (p_sys d)).
  { destruct K1 as (c & _ & _ & _ & _ & _ & _ & _ & _ & _ & A & B). auto. }
  destruct Hcsa as [Hc1 Hc2].
  set (pk := set_p_buffer (gather_buffer d p_bk) p_bk).
  set (t := if negb (pkt_adaptation p_bk) then (4, false, d1)
            else if 0 <? byte_at (gather_buffer d p_bk) 4 then
              let b_disc :=
                negb (Z.land (byte_at (gather_buffer d p_bk) 5) 128 =? 0) in
              (5 + byte_at (gather_buffer d p_bk) 4, b_disc,
               if b_disc && pid_has_data (get_pid d1 k)
               then log (msg_Warn "discontinuity indicator (pid=%d) "
                                  [i_pid (get_pid d1 k)]) d1
               else d1)
            else (5 + byte_at (gather_buffer d p_bk) 4, false, d1)).
  assert (Hunf : GatherData' d k p_bk = gather_tail k p_bk pk t).
  { unfold GatherData. rewrite He. subst t pk. unfold gather_tail.
    clear K1. subst d1. unfold pkt_transport_error in *. cbv zeta in *.
    rewrite Hc1, Hc2.
    unfold gather_buffer, pkt_adaptation, pkt_cc, pkt_payload, pkt_scrambled,
      pkt_unit_start.
    destruct (csa (p_sys d)); reflexivity. }
  rewrite Hunf.
  assert (Ht : exists b_disc d2,
             t = (gather_skip d p_bk, b_disc, d2) /\ es_kept d d2 k e).
  { subst t. unfold gather_skip.
    destruct (pkt_adaptation p_bk); cbn [negb].
    - destruct (0 <? byte_at (gather_buffer d p_bk) 4).
      + eexists _, _. split; [reflexivity|].
        match goal with
        | |- context [if ?c then log ?m d1 else d1] => destruct c
        end; [|exact K1].
        eapply es_kept_trans; [exact K1|]. intros e1 He1.
        now apply es_kept_log.
      + eexists _, _. split; [reflexivity|exact K1].
    - eexists _, _. split; [reflexivity|exact K1]. }
  destruct Ht as (b_disc & d2 & -> & K2).
  destruct (gather_tail_kept d d2 k p_bk pk e (gather_skip d p_bk) b_disc K2)
    as (d4 & K4 & Heq).
  exists d4. split; [exact K4|]. rewrite Heq. reflexivity.
Qed.

Lemma skip_header_bytes (c : list block_t) :
  forall n, 0 <= n < zlength (chain_bytes c) ->
    exists b0 rest,
      skip_header c n = b0 :: rest /\
      chain_bytes (b0 :: rest) = skipn (Z.to_nat n) (chain_bytes c).
Proof.
  unfold zlength, chain_bytes.
  induction c as [|b c IH]; intros n Hn; cbn [flat_map] in *.
  - cbn in Hn. lia.
  - cbn [skip_header]. rewrite length_app in Hn.
    destruct (0 <? n) eqn:E0.
    + apply Z.ltb_lt in E0. unfold i_buffer, zlength.
      destruct (Z.of_nat (length (p_buffer b)) <=? n) eqn:E1.
      * apply Z.leb_le in E1.
        destruct (IH (n - Z.of_nat (length (p_buffer b)))) as (b0 & rest & H1 & H2);
          [lia|].
        exists b0, rest. split; [exact H1|].
        rewrite H2. rewrite skipn_app.
        rewrite (skipn_all2 (p_buffer b)) by lia. cbn [app].
        f_equal. lia.
      * apply Z.leb_gt in E1. eexists _, _. split; [reflexivity|].
        cbn [flat_map p_buffer set_p_buffer].
        rewrite skipn_app.
        replace (Z.to_nat n - length (p_buffer b))%nat with 0%nat by lia.
        reflexivity.
    + apply Z.ltb_ge in E0. assert (n = 0) by lia. subst n.
      exists b, c. split; reflexivity.
Qed.

Lemma block_ChainGather_bytes (b g : block_t) (c : list block_t) :
  block_ChainGather (b :: c) = Some g -> p_buffer g = chain_bytes (b :: c).
Proof.
  destruct c; cbn; intros H; injection H as <-; cbn;
    [now rewrite app_nil_r|reflexivity].
Qed.

Lemma teletext_pts_buffer (prgs : list ts_prg_psi_t) (n : Z) (b : block_t) :
  p_buffer (teletext_pts prgs n b) = p_buffer b.
Proof.
  induction prgs as [|g prgs IH]; cbn [teletext_pts]; [reflexivity|].
  destruct (n =? i_number g); [|exact IH].
  destruct (VLC_TS_INVALID <? i_pcr_value g); reflexivity.
Qed.

Lemma ParsePES_p_sys (d : demux_t) (q : ts_pid_t) (e : ts_es_t)
    (c : list block_t) :
  p_sys (ParsePES' d q e c) = p_sys d.
Proof.
  unfold ParsePES.
  repeat match goal with
  | |- context [send_blocks ?q ?e ?t ?bl ?dd] =>
    let H := fresh "H" in
    destruct (send_blocks_spec q e t bl dd) as (_ & _ & H & _);
    cbn zeta in H; rewrite H; clear H
  | |- context [match ?x with _ => _ end] => destruct x
  end; reflexivity.
Qed.

Lemma ParseData_pes (d : demux_t) (k : Z) (e : ts_es_t) :
  get_es d k = Some e -> data_type e = TS_ES_DATA_PES ->
  ParseData header_garbage opus_frame_duration d k =
  let q' := pid_set_es (Some (es_reset e)) (get_pid d k) in
  ParsePES' (put_pid k q' d) q' (es_reset e) (p_data e).
Proof.
  intros He Ht. unfold ParseData. unfold get_es in He. rewrite He, Ht.
  reflexivity.
Qed.

Lemma ParseData_table (d : demux_t) (k : Z) (e : ts_es_t) :
  get_es d k = Some e -> data_type e = TS_ES_DATA_TABLE_SECTION ->
  ParseData header_garbage opus_frame_duration d k =
  let q' := pid_set_es (Some (es_reset e)) (get_pid d k) in
  ParseTableSection (put_pid k q' d) q' (es_reset e) (p_data e).
Proof.
  intros He Ht. unfold ParseData. unfold get_es in He. rewrite He, Ht.
  reflexivity.
Qed.

(** ParseTableSection sends the gathered bytes as one block. *)
Lemma ParseTableSection_one (d : demux_t) (q : ts_pid_t) (e : ts_es_t)
    (c : list block_t) :
  c <> [] ->
  exists g,
    ParseTableSection d q e c = emit (ES_OUT_SEND (id e) g) d /\
    p_buffer g = chain_bytes c.
Proof.
  intros Hc. unfold ParseTableSection.
  destruct c as [|b0 rest]; [congruence|].
  destruct (block_ChainGather_some b0 rest) as [g Hg]. rewrite Hg.
  pose proof (block_ChainGather_bytes b0 g rest Hg) as Hb.
  eexists. split; [reflexivity|].
  destruct (0 <=? _); [|exact Hb]. cbn. exact Hb.
Qed.

Lemma scrambled_changed_pid (d : demux_t) (k : Z) (b : bool) :
  get_pid (scrambled_changed d k b) k = pid_set_b_scrambled b (get_pid d k).
Proof.
  unfold scrambled_changed.
  destruct (Bool.eqb (b_scrambled (get_pid d k)) b) eqn:E; cbn [negb].
  - apply Bool.eqb_prop in E. destruct (get_pid d k); cbn in *. now subst.
  - rewrite get_pid_emit.
    set (d2 := put_pid k _ _).
    assert (Hfold : forall (l : list ts_es_t) (dd : demux_t),
              get_pid (fold_left
                (fun acc x => emit (ES_OUT_SET_ES_SCRAMBLED_STATE (id x) b) acc)
                l dd) k = get_pid dd k).
    { induction l as [|x l IH]; intros dd; cbn [fold_left]; [reflexivity|].
      now rewrite IH, get_pid_emit. }
    rewrite Hfold. subst d2. now rewrite get_pid_put_same.
Qed.

(** The section length that opens a table section: 3 bytes of header
    plus the 12-bit length, when the payload has more than 3 bytes and
    does not start with the stuffing byte 0xff; 0 otherwise. *)
Definition section_target (b : block_t) : Z :=
  if (3 <? i_buffer b) && negb (byte_at (p_buffer b) 0 =? 0xff) then
    3 + Z.lor (Z.shiftl (Z.land (byte_at (p_buffer b) 1) 0xf) 8)
              (byte_at (p_buffer b) 2)
  else 0.

(** The requests by which ParsePES hands the block [g] to the sink: a
    copy for each sub-stream of the PID, then the block for the stream. *)
Definition unit_sends (q : ts_pid_t) (e : ts_es_t) (g : block_t)
    : list es_out_event :=
  map (fun x => ES_OUT_SEND (id x) g) (extra_es q) ++ [ES_OUT_SEND (id e) g].

Lemma sends_of_unit (q : ts_pid_t) (e : ts_es_t) (b_trust : bool)
    (g : block_t) :
  filter is_send (sends_of q e b_trust [g]) = unit_sends q e g.
Proof.
  unfold sends_of, unit_sends. cbn [flat_map]. rewrite app_nil_r.
  rewrite !filter_app.
  assert (H : forall l : list ts_es_t,
             filter is_send (map (fun x => ES_OUT_SEND (id x) g) l) =
             map (fun x => ES_OUT_SEND (id x) g) l).
  { induction l as [|x l IH]; cbn; [reflexivity|now rewrite IH]. }
  rewrite H. destruct (negb b_trust); reflexivity.
Qed.

(** Whether ParsePES ends the delivered block [g] with a NUL byte: on a
    subtitle stream, and on an ARIB stream when the block has no
    presentation time stamp. *)
Definition pes_terminated (e : ts_es_t) (g : block_t) : bool :=
  let codec := i_codec (fmt e) in
  (codec =? VLC_CODEC_SUBT) ||
  (((codec =? VLC_CODEC_ARIB_A) || (codec =? VLC_CODEC_ARIB_C)) &&
   (i_pts g <=? VLC_TS_INVALID)).

(** The bytes of the delivered block [g], for the bytes [body] that
    follow the PES header: as they are, or cut to [i_pes_size] bytes (when
    that is positive and smaller) and ended with a NUL byte. *)
Definition pes_body (e : ts_es_t) (i_pes_size : Z) (g : block_t)
    (body : list Z) : list Z :=
  if pes_terminated e g then
    (if (0 <? i_pes_size) && (i_pes_size <? zlength body)
     then firstn (Z.to_nat i_pes_size) body else body) ++ [0]
  else body.

(** A PES packet that ParsePES hands on: not scrambled, a start code, a
    header that parses, and a length [i_skip] to drop (the header and what
    the codec adds to it) smaller than the packet. *)
Definition pes_accepted (b_scr : bool) (e : ts_es_t) (chain : list block_t)
    (i_skip i_pes_size : Z) : Prop :=
  let bytes := chain_bytes chain in
  let header := firstn 34 (bytes ++ header_garbage) in
  b_scr = false /\
  byte_at header 0 = 0 /\ byte_at header 1 = 0 /\ byte_at header 2 = 1 /\
  (exists i_skip0 pts dts len,
     parse_pes_header header = Some (i_skip0, pts, dts) /\
     pes_codec_skip e chain i_skip0 = (i_skip, len, i_pes_size)) /\
  0 <= i_skip < zlength bytes.

(** A PES packet that ParsePES drops: scrambled, without a start code,
    with too much stuffing, or shorter than what is to be dropped. *)
Definition pes_rejected (b_scr : bool) (e : ts_es_t) (chain : list block_t)
    : Prop :=
  let bytes := chain_bytes chain in
  let header := firstn 34 (bytes ++ header_garbage) in
  b_scr = true \/
  byte_at header 0 <> 0 \/ byte_at header 1 <> 0 \/ byte_at header 2 <> 1 \/
  parse_pes_header header = None \/
  exists i_skip0 pts dts i_skip len i_pes_size,
    parse_pes_header header = Some (i_skip0, pts, dts) /\
    pes_codec_skip e chain i_skip0 = (i_skip, len, i_pes_size) /\
    zlength bytes < i_skip.

Lemma skip_header_all (c : list block_t) :
  forall n, zlength (chain_bytes c) < n -> skip_header c n = [].
Proof.
  unfold zlength, chain_bytes.
  induction c as [|b c IH]; intros n Hn; cbn [skip_header flat_map] in *;
    [reflexivity|].
  rewrite length_app in Hn.
  assert (E0 : (0 <? n) = true) by (apply Z.ltb_lt; lia).
  rewrite E0. unfold i_buffer, zlength.
  assert (E1 : (Z.of_nat (length (p_buffer b)) <=? n) = true)
    by (apply Z.leb_le; lia).
  rewrite E1. apply IH. lia.
Qed.

Lemma codec_eqb_teletext (c : Z) :
  (c =? VLC_CODEC_TELETEXT) = true ->
  (c =? VLC_CODEC_SUBT) = false /\ (c =? VLC_CODEC_ARIB_A) = false /\
  (c =? VLC_CODEC_ARIB_C) = false.
Proof. intros H. apply Z.eqb_eq in H. subst c. repeat split. Qed.

Lemma null_terminate_buffer (n : Z) (g : block_t) :
  p_buffer (null_terminate n g) =
  (if (0 <? n) && (n <? zlength (p_buffer g))
   then firstn (Z.to_nat n) (p_buffer g) else p_buffer g) ++ [0].
Proof. reflexivity. Qed.

(** An accepted PES packet on a stream other than Opus goes to the sink
    as exactly one block: the bytes after the header. *)
Lemma ParsePES_accepted (d : demux_t) (q : ts_pid_t) (e : ts_es_t)
    (c : list block_t) (i_skip i_pes_size : Z) :
  pes_accepted (b_scrambled q) e c i_skip i_pes_size ->
  i_codec (fmt e) <> VLC_CODEC_OPUS ->
  exists g,
    filter is_send (out (ParsePES' d q e c)) =
    filter is_send (out d) ++ unit_sends q e g /\
    p_buffer g = pes_body e i_pes_size g (skipn (Z.to_nat i_skip) (chain_bytes c)).
Proof.
  intros (Hscr & H0 & H1 & H2 & (i_skip0 & pts & dts & len & Hparse & Hcs) & Hskip)
         Hopus.
  cbn zeta in *. unfold ParsePES.
  rewrite Hscr, H0, H1, H2. cbn [orb negb Z.eqb Pos.eqb]. rewrite Hparse, Hcs.
  destruct (skip_header_bytes c i_skip Hskip) as (b0 & rest & Hsk & Hbytes).
  rewrite Hsk.
  set (b1 := set_i_length _ _).
  destruct (block_ChainGather_some b1 rest) as [g0 Hg]. rewrite Hg.
  assert (Hgb : p_buffer g0 = skipn (Z.to_nat i_skip) (chain_bytes c)).
  { rewrite (block_ChainGather_bytes b1 g0 rest Hg), <- Hbytes. subst b1.
    cbn [chain_bytes flat_map]. f_equal.
    destruct (0 <=? (if (0 <=? pts) && (dts <? 0) then pts else dts)),
             (0 <=? pts); reflexivity. }
  assert (Hone : forall g (m : list log_entry),
             p_buffer g = pes_body e i_pes_size g (p_buffer g0) ->
             exists g',
               filter is_send
                 (out (send_blocks q e (b_trust_pcr (p_sys d)) [g]
                         (set_msgs (msgs d ++ m) d))) =
               filter is_send (out d) ++ unit_sends q e g' /\
               p_buffer g' =
               pes_body e i_pes_size g' (skipn (Z.to_nat i_skip) (chain_bytes c))).
  { intros g m Hb. exists g.
    destruct (send_blocks_spec q e (b_trust_pcr (p_sys d)) [g]
                (set_msgs (msgs d ++ m) d)) as (Ho & _).
    cbn zeta in Ho. rewrite Ho, filter_app, sends_of_unit.
    split; [reflexivity|]. rewrite <- Hgb. exact Hb. }
  destruct (i_codec (fmt e) =? VLC_CODEC_SUBT) eqn:Esubt.
  { apply Hone. unfold pes_body, pes_terminated. cbn zeta. rewrite Esubt.
    cbn [orb]. apply null_terminate_buffer. }
  destruct (i_codec (fmt e) =? VLC_CODEC_TELETEXT) eqn:Etel.
  { destruct (codec_eqb_teletext _ Etel) as (_ & Ta & Tc).
    destruct (i_pts g0 <=? VLC_TS_INVALID); apply Hone;
      unfold pes_body, pes_terminated; cbn zeta; rewrite Esubt, Ta, Tc;
      cbn [orb andb]; [apply teletext_pts_buffer|reflexivity]. }
  destruct ((i_codec (fmt e) =? VLC_CODEC_ARIB_A) ||
            (i_codec (fmt e) =? VLC_CODEC_ARIB_C)) eqn:Earib.
  { destruct (i_pts g0 <=? VLC_TS_INVALID) eqn:Ep; apply Hone;
      unfold pes_body, pes_terminated; cbn zeta; rewrite Esubt, Earib;
      cbn [orb andb].
    - change (i_pts (null_terminate i_pes_size g0)) with (i_pts g0).
      rewrite Ep. apply null_terminate_buffer.
    - rewrite Ep. reflexivity. }
  assert (Eo : (i_codec (fmt e) =? VLC_CODEC_OPUS) = false)
    by now apply Z.eqb_neq.
  rewrite Eo. apply Hone.
  unfold pes_body, pes_terminated. cbn zeta. rewrite Esubt, Earib.
  reflexivity.
Qed.

(** A rejected PES packet gives the sink nothing. *)
Lemma ParsePES_rejected (d : demux_t) (q : ts_pid_t) (e : ts_es_t)
    (c : list block_t) :
  pes_rejected (b_scrambled q) e c ->
  out (ParsePES' d q e c) = out d.
Proof.
  intros Hr. unfold pes_rejected in Hr. cbn zeta in Hr. unfold ParsePES.
  set (header := firstn 34 (chain_bytes c ++ header_garbage)) in *.
  destruct (b_scrambled q || negb (byte_at header 0 =? 0) ||
            negb (byte_at header 1 =? 0) || negb (byte_at header 2 =? 1))
    eqn:Ehead.
  { destruct (negb (b_scrambled q)); reflexivity. }
  apply orb_false_iff in Ehead. destruct Ehead as [Ehead E2].
  apply orb_false_iff in Ehead. destruct Ehead as [Ehead E1].
  apply orb_false_iff in Ehead. destruct Ehead as [Es E0].
  apply negb_false_iff in E0, E1, E2. apply Z.eqb_eq in E0, E1, E2.
  destruct Hr as [Hr|[Hr|[Hr|[Hr|[Hr|Hr]]]]];
    [congruence|contradiction|contradiction|contradiction| |].
  - rewrite Hr. reflexivity.
  - destruct Hr as (i_skip0 & pts & dts & i_skip & len & sz & Hp & Hc & Hlt).
    rewrite Hp, Hc. rewrite (skip_header_all c i_skip Hlt). reflexivity.
Qed.

(** The buffer of the first block of a chain, which the codec-specific
    part of ParsePES reads. *)
Definition head_buffer (c : list block_t) : list Z :=
  match c with b :: _ => p_buffer b | [] => [] end.

Lemma pes_codec_skip_ext (e1 e2 : ts_es_t) (c1 c2 : list block_t) (i : Z) :
  fmt e1 = fmt e2 -> p_mpeg4desc e1 = p_mpeg4desc e2 ->
  head_buffer c1 = head_buffer c2 ->
  pes_codec_skip e1 c1 i = pes_codec_skip e2 c2 i.
Proof.
  intros Hf Hm Hh. unfold pes_codec_skip. rewrite Hf, Hm.
  change (match c1 with b :: _ => p_buffer b | [] => [] end)
    with (head_buffer c1).
  change (match c2 with b :: _ => p_buffer b | [] => [] end)
    with (head_buffer c2).
  now rewrite Hh.
Qed.

(** What the sink gets when the chain [chain] gathered for the stream [e]
    of the PID entry [q] is parsed, between the sessions [d] and [d']: a
    table section goes whole, as one block; a PES packet that is accepted
    goes as one block without its header (on a stream other than Opus),
    and one that is rejected gives nothing. *)
Definition unit_delivery (d d' : demux_t) (q : ts_pid_t) (e : ts_es_t)
    (chain : list block_t) (b_scr : bool) : Prop :=
  match data_type e with
  | TS_ES_DATA_TABLE_SECTION =>
    exists g,
      filter is_send (out d') = filter is_send (out d) ++ [ES_OUT_SEND (id e) g] /\
      p_buffer g = chain_bytes chain
  | TS_ES_DATA_PES =>
    (forall i_skip i_pes_size,
       pes_accepted b_scr e chain i_skip i_pes_size ->
       i_codec (fmt e) <> VLC_CODEC_OPUS ->
       exists g,
         filter is_send (out d') = filter is_send (out d) ++ unit_sends q e g /\
         p_buffer g =
         pes_body e i_pes_size g (skipn (Z.to_nat i_skip) (chain_bytes chain))) /\
    (pes_rejected b_scr e chain ->
     filter is_send (out d') = filter is_send (out d))
  end.

Lemma unit_delivery_ext (d0 d d' : demux_t) (q1 q2 : ts_pid_t)
    (e1 e2 : ts_es_t) (c1 c2 : list block_t) (b_scr : bool) :
  filter is_send (out d) = filter is_send (out d0) ->
  extra_es q1 = extra_es q2 ->
  fmt e1 = fmt e2 -> id e1 = id e2 -> data_type e1 = data_type e2 ->
  p_mpeg4desc e1 = p_mpeg4desc e2 ->
  chain_bytes c1 = chain_bytes c2 -> head_buffer c1 = head_buffer c2 ->
  unit_delivery d d' q1 e1 c1 b_scr -> unit_delivery d0 d' q2 e2 c2 b_scr.
Proof.
  intros Ho Hx Hf Hi Ht Hm Hb Hh. unfold unit_delivery.
  rewrite Ht, Ho, Hi, Hb.
  destruct (data_type e2); [|exact (fun H => H)].
  unfold pes_accepted, pes_rejected, unit_sends, pes_body, pes_terminated.
  cbn zeta. rewrite Hx, Hi, Hf, Hb.
  intros [A R]. split.
  - intros i_skip i_pes_size (B1 & B2 & B3 & B4 & (i0 & pts & dts & len & P & C) & B6) Ho2.
    apply (A i_skip i_pes_size); [|exact Ho2].
    repeat split; try assumption; try apply B6.
    exists i0, pts, dts, len. split; [exact P|].
    rewrite <- C. now apply pes_codec_skip_ext.
  - intros [B|[B|[B|[B|[B|B]]]]]; apply R; auto.
    + right. right. right. right. now left.
    + destruct B as (i0 & pts & dts & i_skip & len & sz & P & C & L).
      do 5 right. exists i0, pts, dts, i_skip, len, sz.
      split; [exact P|]. split; [|exact L].
      rewrite <- C. now apply pes_codec_skip_ext.
Qed.

Lemma es_reset_stream (e : ts_es_t) :
  fmt (es_reset e) = fmt e /\ id (es_reset e) = id e /\
  data_type (es_reset e) = data_type e /\
  p_mpeg4desc (es_reset e) = p_mpeg4desc e.
Proof. now destruct e. Qed.

(** The end of a reassembly: the chain of the entry is parsed and the
    entry is reset. *)
Lemma ParseData_unit (d : demux_t) (k : Z) (e : ts_es_t) :
  get_es d k = Some e -> p_data e <> [] ->
  let r := ParseData header_garbage opus_frame_duration d k in
  get_es r k = Some (es_reset e) /\
  extra_es (get_pid r k) = extra_es (get_pid d k) /\
  b_scrambled (get_pid r k) = b_scrambled (get_pid d k) /\
  unit_delivery d r (get_pid d k) e (p_data e) (b_scrambled (get_pid d k)).
Proof.
  intros He Hne. cbn zeta.
  destruct (es_reset_stream e) as (Rf & Ri & Rt & Rm).
  set (q' := pid_set_es (Some (es_reset e)) (get_pid d k)).
  assert (Hq : es q' = Some (es_reset e) /\
               extra_es q' = extra_es (get_pid d k) /\
               b_scrambled q' = b_scrambled (get_pid d k))
    by (subst q'; now destruct (get_pid d k)).
  destruct Hq as (Q1 & Q2 & Q3).
  destruct (data_type e) eqn:Ht.
  - rewrite (ParseData_pes d k e He Ht). cbn zeta. fold q'.
    assert (Hp : get_pid (ParsePES' (put_pid k q' d) q' (es_reset e) (p_data e)) k
                 = q').
    { unfold get_pid at 1. rewrite ParsePES_p_sys.
      change (get_pid (put_pid k q' d) k = q'). apply get_pid_put_same. }
    unfold get_es. rewrite Hp.
    split; [exact Q1|]. split; [exact Q2|]. split; [exact Q3|].
    apply (unit_delivery_ext d (put_pid k q' d) _ q' (get_pid d k)
             (es_reset e) e (p_data e) (p_data e));
      try assumption; try reflexivity.
    unfold unit_delivery. rewrite Rt. rewrite <- Q3. split.
    + intros i_skip i_pes_size Ha Ho.
      apply (ParsePES_accepted (put_pid k q' d) q' (es_reset e) (p_data e)
               i_skip i_pes_size Ha Ho).
    + intros Hr.
      now rewrite (ParsePES_rejected (put_pid k q' d) q' (es_reset e)
                     (p_data e) Hr).
  - rewrite (ParseData_table d k e He Ht). cbn zeta. fold q'.
    destruct (ParseTableSection_one (put_pid k q' d) q' (es_reset e) (p_data e)
                Hne) as (g & Hg1 & Hg2).
    rewrite Hg1. unfold get_es. rewrite get_pid_emit, get_pid_put_same.
    split; [exact Q1|]. split; [exact Q2|]. split; [exact Q3|].
    unfold unit_delivery. rewrite Ht. exists g.
    rewrite out_emit, filter_app, out_put_pid, Ri. cbn [filter is_send].
    split; [reflexivity|exact Hg2].
Qed.

Lemma maybe_flagged_head (c c' : list block_t) :
  maybe_flagged c c' -> head_buffer c' = head_buffer c.
Proof. intros [->| ->]; [reflexivity|]. now destruct c. Qed.

Lemma chain_bytes_app (c1 c2 : list block_t) :
  chain_bytes (c1 ++ c2) = chain_bytes c1 ++ chain_bytes c2.
Proof. unfold chain_bytes. apply flat_map_app. Qed.

Lemma head_buffer_app (c c' : list block_t) (b : block_t) :
  head_buffer c' = head_buffer c -> (c' = [] <-> c = []) ->
  head_buffer (c' ++ [b]) = head_buffer (c ++ [b]).
Proof.
  intros Hh [Hn1 Hn2]. destruct c as [|x c], c' as [|y c']; cbn in *; auto.
  - specialize (Hn2 eq_refl). discriminate.
  - specialize (Hn1 eq_refl). discriminate.
Qed.

(** The target length a PES unit start sets: the declared length plus 6
    when positive, read when the payload has more than 6 bytes; [old]
    otherwise. *)
Definition pes_target (b : block_t) (old : Z) : Z :=
  if 6 <? i_buffer b then
    let size := GetWBE (p_buffer b) 4 in
    if 0 <? size then size + 6 else size
  else old.

(** The reassembly state with the payload [b] appended to the chain [c]
    and the target length [target]. *)
Definition es_gathered (e : ts_es_t) (c : list block_t) (b : block_t)
    (target : Z) : ts_es_t :=
  es_set_i_data_gathered (i_data_gathered e + i_buffer b)
    (es_set_i_data_size target (es_set_p_data (c ++ [b]) e)).

(** One step of a reassembly on entry [k] holding [e], for the payload
    [b] and the target length [target]: short of the target the payload
    is appended and nothing is delivered; at the target the unit is
    parsed and the entry is reset. *)
Definition reassembly_step (d d' : demux_t) (k : Z) (e : ts_es_t)
    (b : block_t) (target : Z) (b_scr : bool) : Prop :=
  let total := i_data_gathered e + i_buffer b in
  (~ 0 < target <= total ->
   filter is_send (out d') = filter is_send (out d) /\
   exists c, maybe_flagged (p_data e) c /\
             get_es d' k = Some (es_gathered e c b target)) /\
  (0 < target <= total ->
   get_es d' k = Some (es_reset e) /\
   unit_delivery d d' (get_pid d k) e (p_data e ++ [b]) b_scr).

(** Whether a step ends the reassembly. *)
Definition target_reached (e : ts_es_t) (b : block_t) (target : Z) : bool :=
  (0 <? target) && (target <=? i_data_gathered e + i_buffer b).

Lemma gather_finish (d d5 : demux_t) (k : Z) (e e3 : ts_es_t)
    (c : list block_t) (b : block_t) (target : Z) (b_scr : bool) :
  maybe_flagged (p_data e) c ->
  filter is_send (out d5) = filter is_send (out d) ->
  extra_es (get_pid d5 k) = extra_es (get_pid d k) ->
  b_scrambled (get_pid d5 k) = b_scr ->
  e3 = es_gathered e c b target ->
  let d3 := put_es k e3 d5 in
  let r := if gather_complete e3
           then (ParseData header_garbage opus_frame_duration d3 k, true)
           else (d3, false) in
  reassembly_step d (fst r) k e b target b_scr /\
  snd r = target_reached e b target.
Proof.
  intros Hc Hout Hextra Hscr He3. cbn zeta.
  assert (Hget : get_es (put_es k e3 d5) k = Some e3).
  { unfold get_es, put_es. now rewrite get_pid_put_same; destruct (get_pid d5 k). }
  assert (Hpid : extra_es (get_pid (put_es k e3 d5) k) = extra_es (get_pid d k) /\
                 b_scrambled (get_pid (put_es k e3 d5) k) = b_scr).
  { unfold put_es. rewrite get_pid_put_same. rewrite <- Hextra, <- Hscr.
    now destruct (get_pid d5 k). }
  destruct Hpid as [Hx3 Hs3].
  assert (Hsz : i_data_size e3 = target) by (subst e3; now destruct e).
  assert (Hga : i_data_gathered e3 = i_data_gathered e + i_buffer b)
    by (subst e3; now destruct e).
  assert (Hda : p_data e3 = c ++ [b]) by (subst e3; now destruct e).
  assert (Hst : fmt e3 = fmt e /\ id e3 = id e /\ data_type e3 = data_type e /\
                p_mpeg4desc e3 = p_mpeg4desc e) by (subst e3; now destruct e).
  destruct Hst as (Hfm & Hid & Hty & Hmd).
  assert (Hrs : es_reset e3 = es_reset e) by (subst e3; now destruct e).
  assert (Hne : p_data e3 <> []) by (rewrite Hda; now destruct c).
  unfold reassembly_step, target_reached. cbn zeta. unfold gather_complete.
  rewrite Hsz, Hga.
  destruct ((0 <? target) && (target <=? i_data_gathered e + i_buffer b)) eqn:E;
    cbn [fst snd]; (split; [|reflexivity]).
  - apply andb_true_iff in E. destruct E as [E1 E2].
    apply Z.ltb_lt in E1. apply Z.leb_le in E2.
    split; [intros Hn; exfalso; apply Hn; lia|]. intros _.
    destruct (ParseData_unit (put_es k e3 d5) k e3 Hget Hne)
      as (R1 & _ & _ & R4).
    cbn zeta in R1, R4. rewrite R1, Hrs. split; [reflexivity|].
    rewrite Hs3, Hda in R4.
    apply (unit_delivery_ext d (put_es k e3 d5) _ (get_pid (put_es k e3 d5) k)
             (get_pid d k) e3 e (c ++ [b]) (p_data e ++ [b]));
      try assumption.
    + rewrite !chain_bytes_app. f_equal. apply (maybe_flagged_bytes _ _ Hc).
    + apply head_buffer_app; [now apply maybe_flagged_head|].
      now apply maybe_flagged_nil.
  - apply andb_false_iff in E.
    split; [|intros Hy; exfalso;
             destruct E as [E|E]; [apply Z.ltb_ge in E|apply Z.leb_gt in E]; lia].
    intros _. split; [unfold put_es; now rewrite out_put_pid|].
    exists c. split; [exact Hc|]. rewrite Hget, He3. reflexivity.
Qed.

(** The entry [k], holding [e] in [d], has had its chain parsed and has
    been reset in [d1]. *)
Definition unit_parsed (d d1 : demux_t) (k : Z) (e : ts_es_t) (b_scr : bool)
    : Prop :=
  get_es d1 k = Some (es_reset e) /\
  extra_es (get_pid d1 k) = extra_es (get_pid d k) /\
  unit_delivery d d1 (get_pid d k) e (p_data e) b_scr.

Lemma gather_payload_length (d : demux_t) (p_bk : block_t) :
  gather_skip d p_bk < 188 -> 0 < i_buffer (gather_payload d p_bk) <= 188.
Proof.
  intros H.
  unfold gather_payload, i_buffer, zlength, gather_buffer, take_188.
  cbn [p_buffer set_p_buffer].
  rewrite length_skipn, length_firstn, length_app, repeat_length. lia.
Qed.

(** C5 (amended): GatherData reassembles by the declared length.  A PES
    unit start sets the target length to the declared length plus 6 when
    the payload is longer than 6 bytes and the declared length is
    positive, to 0 when it declares 0, and leaves it when the payload has
    6 bytes or fewer; the unit start of a table section sets it to 3 plus
    the section length.  Payloads are appended and nothing is delivered
    while the target is 0 or above the bytes gathered; as soon as a
    positive target is reached the unit is parsed and the entry is reset,
    without waiting for the next unit start.  A parsed unit reaches the
    sink as exactly one block: a table section always and whole; a PES
    packet when ParsePES accepts it (unscrambled, start code, header
    shorter than the packet) on a stream other than Opus, without its
    header, with a copy for each sub-stream of the PID; a rejected PES
    packet gives nothing.  A unit start with a unit in flight first has
    that unit parsed, then starts the new one with its own target; the
    unit start of a table section first has what precedes the section
    parsed.  A continuation on an idle entry is dropped. *)
Theorem GatherData_declared_length (d : demux_t) (k : Z) (p_bk : block_t)
    (e : ts_es_t) :
  get_es d k = Some e ->
  id_is_null e = false ->
  gather_skip d p_bk < 188 ->
  0 <= i_data_gathered e < 2 ^ 31 - 188 ->
  let b := gather_payload d p_bk in
  let r := GatherData' d k p_bk in
  let b_scr := pkt_scrambled p_bk in
  (data_type e = TS_ES_DATA_PES ->
   pkt_unit_start p_bk = true -> p_data e = [] ->
   reassembly_step d (fst r) k e b (pes_target b (i_data_size e)) b_scr /\
   snd r = target_reached e b (pes_target b (i_data_size e))) /\
  (pkt_unit_start p_bk = false -> p_data e <> [] ->
   reassembly_step d (fst r) k e b (i_data_size e) b_scr /\
   snd r = target_reached e b (i_data_size e)) /\
  (pkt_unit_start p_bk = false -> p_data e = [] ->
   snd r = false /\ get_es (fst r) k = Some e /\
   filter is_send (out (fst r)) = filter is_send (out d)) /\
  (data_type e = TS_ES_DATA_PES ->
   pkt_unit_start p_bk = true -> p_data e <> [] ->
   snd r = true /\
   exists d1,
     unit_parsed d d1 k e b_scr /\
     reassembly_step d1 (fst r) k (es_reset e) b (pes_target b 0) b_scr) /\
  (data_type e = TS_ES_DATA_TABLE_SECTION ->
   pkt_unit_start p_bk = true ->
   let i_pointer_field := Z.min (byte_at (p_buffer b) 0) (i_buffer b - 1) in
   let pre :=
     set_p_buffer (firstn (Z.to_nat i_pointer_field) (skipn 1 (p_buffer b))) b in
   let b' :=
     set_p_buffer (skipn (Z.to_nat (1 + i_pointer_field)) (p_buffer b)) b in
   snd r = true /\
   exists d1,
     unit_parsed d d1 k (es_append pre e) b_scr /\
     reassembly_step d1 (fst r) k (es_reset e) b' (section_target b') b_scr).
Proof.
  intros He Hid Hskip HG. cbn zeta.
  pose proof (gather_payload_length d p_bk Hskip) as Hb.
  destruct (GatherData_prelude d k p_bk e He) as (d4 & K4 & Heq).
  rewrite Heq. clear Heq.
  apply Z.ltb_lt in Hskip. rewrite Z.ltb_antisym in Hskip.
  apply negb_true_iff in Hskip. rewrite Hskip, Hid. cbn [orb]. cbn zeta.
  destruct K4 as (c & Hc & He4 & Hout & Hextra & _ & _ & _ & _ & _).
  set (d5 := scrambled_changed d4 k (pkt_scrambled p_bk)).
  destruct (scrambled_changed_frame d4 k (pkt_scrambled p_bk))
    as (F1 & _ & F3 & _).
  fold d5 in F1, F3. rewrite He4 in F1. rewrite Hout in F3.
  assert (Hx5 : extra_es (get_pid d5 k) = extra_es (get_pid d k)).
  { subst d5. rewrite scrambled_changed_pid, <- Hextra.
    now destruct (get_pid d4 k). }
  assert (Hs5 : b_scrambled (get_pid d5 k) = pkt_scrambled p_bk).
  { subst d5. rewrite scrambled_changed_pid. now destruct (get_pid d4 k). }
  set (b := gather_payload d p_bk) in *.
  assert (H32 : int32 (i_data_gathered e + i_buffer b) =
                i_data_gathered e + i_buffer b) by (apply int32_id; lia).
  assert (Hst : fmt (es_set_p_data c e) = fmt e /\
                id (es_set_p_data c e) = id e /\
                data_type (es_set_p_data c e) = data_type e /\
                p_mpeg4desc (es_set_p_data c e) = p_mpeg4desc e /\
                p_data (es_set_p_data c e) = c /\
                es_reset (es_set_p_data c e) = es_reset e)
    by now destruct e.
  destruct Hst as (Sf & Si & Hty5 & Sm & Sd & Sr).
  assert (Hhas : pid_has_data (get_pid d5 k) =
                 match c with [] => false | _ :: _ => true end).
  { unfold pid_has_data. unfold get_es in F1. now rewrite F1, Sd. }
  split; [|split; [|split; [|split]]].
  - (* unit start of a PES on an idle entry *)
    intros Hty Hus Hidle. rewrite Hus.
    assert (c = []) by (apply (maybe_flagged_nil _ _ Hc); exact Hidle).
    subst c.
    unfold GatherData_unit_start. rewrite F1, Hty5, Hty, Hhas, F1.
    apply (gather_finish d d5 k e _ [] b _ _ Hc F3 Hx5 Hs5).
    unfold es_count, es_target, es_append, es_gathered, pes_target.
    destruct e as [f ei dt sz ga pd md]; cbn [data_type i_data_gathered i_data_size p_data
                     es_set_p_data es_set_i_data_size es_set_i_data_gathered]
                  in *.
    subst. destruct (6 <? i_buffer b);
      cbn [data_type i_data_gathered i_data_size p_data
           es_set_p_data es_set_i_data_size es_set_i_data_gathered];
      rewrite H32; reflexivity.
  - (* continuation of a unit in flight *)
    intros Hus Hfl. rewrite Hus.
    assert (Hcn : c <> []).
    { intros ->. apply Hfl. now apply (maybe_flagged_nil _ _ Hc). }
    unfold GatherData_continue. rewrite F1, Sd.
    destruct c as [|c0 c']; [congruence|].
    apply (gather_finish d d5 k e _ (c0 :: c') b _ _ Hc F3 Hx5 Hs5).
    unfold es_count, es_append, es_gathered.
    destruct e as [f ei dt sz ga pd md]; cbn [data_type i_data_gathered i_data_size p_data
                     es_set_p_data es_set_i_data_size es_set_i_data_gathered]
                  in *.
    now rewrite H32.
  - (* continuation on an idle entry *)
    intros Hus Hidle. rewrite Hus.
    assert (c = []) by (apply (maybe_flagged_nil _ _ Hc); exact Hidle).
    subst c.
    unfold GatherData_continue. rewrite F1, Sd. cbn [fst snd].
    split; [reflexivity|]. split; [|exact F3].
    rewrite F1, <- Hidle. now rewrite es_set_p_data_same.
  - (* unit start of a PES with a unit in flight *)
    intros Hty Hus Hfl. rewrite Hus.
    assert (Hcn : c <> []).
    { intros ->. apply Hfl. now apply (maybe_flagged_nil _ _ Hc). }
    unfold GatherData_unit_start. rewrite F1, Hty5, Hty, Hhas.
    destruct c as [|c0 c'] eqn:Ec; [congruence|]. rewrite <- Ec in *.
    destruct (ParseData_unit d5 k (es_set_p_data c e) F1
                ltac:(rewrite Sd; exact Hcn)) as (R1 & R2 & R3 & R4).
    cbn zeta in R1, R2, R3, R4.
    set (d2 := ParseData header_garbage opus_frame_duration d5 k) in *.
    rewrite Sr in R1. rewrite R1.
    set (e3 := es_count b (es_target b (es_append b (es_reset e)))).
    destruct (gather_finish d2 d2 k (es_reset e) e3 [] b (pes_target b 0)
                (pkt_scrambled p_bk)) as [G1 _].
    { left. now destruct e. }
    { reflexivity. }
    { reflexivity. }
    { now rewrite R3. }
    { subst e3. unfold es_count, es_target, es_append, es_gathered, pes_target,
        es_reset.
      destruct e as [f ei dt sz ga pd md]; cbn [data_type i_data_gathered i_data_size p_data
                       es_set_p_data es_set_i_data_size es_set_i_data_gathered
                       app] in *.
      subst. destruct (6 <? i_buffer b);
        cbn [data_type i_data_gathered i_data_size p_data
             es_set_p_data es_set_i_data_size es_set_i_data_gathered];
        rewrite (int32_id (0 + i_buffer b)) by lia; reflexivity. }
    cbn zeta in G1.
    split; [destruct (gather_complete e3); reflexivity|].
    exists d2. split.
    + split; [exact R1|]. split; [now rewrite R2|].
      rewrite Sd, Hs5 in R4.
      apply (unit_delivery_ext d d5 d2 (get_pid d5 k) (get_pid d k)
               (es_set_p_data c e) e c (p_data e)); try assumption.
      * apply (maybe_flagged_bytes _ _ Hc).
      * now apply maybe_flagged_head.
    + destruct (gather_complete e3); exact G1.
  - (* unit start of a table section *)
    intros Hty Hus. rewrite Hus. cbn zeta.
    unfold GatherData_unit_start. rewrite F1, Hty5, Hty.
    assert (Hpos : (0 <? i_buffer b) = true) by (apply Z.ltb_lt; lia).
    rewrite Hpos.
    set (i_pointer_field := Z.min (byte_at (p_buffer b) 0) (i_buffer b - 1)).
    set (pre := set_p_buffer (firstn (Z.to_nat i_pointer_field)
                                     (skipn 1 (p_buffer b))) b).
    set (b' := set_p_buffer (skipn (Z.to_nat (1 + i_pointer_field))
                                   (p_buffer b)) b).
    set (e1 := es_append pre (es_set_p_data c e)).
    set (d1 := put_es k e1 d5).
    assert (Hg1 : get_es d1 k = Some e1).
    { subst d1. unfold get_es, put_es. rewrite get_pid_put_same.
      now destruct (get_pid d5 k). }
    assert (Hp1 : extra_es (get_pid d1 k) = extra_es (get_pid d k) /\
                  b_scrambled (get_pid d1 k) = pkt_scrambled p_bk).
    { subst d1. unfold put_es. rewrite get_pid_put_same, <- Hx5, <- Hs5.
      now destruct (get_pid d5 k). }
    destruct Hp1 as [Hx1 Hs1].
    assert (Hd1 : p_data e1 = c ++ [pre]) by (subst e1; now destruct e).
    assert (Hn1 : p_data e1 <> []) by (rewrite Hd1; now destruct c).
    assert (Hh1 : pid_has_data (get_pid d1 k) = true).
    { unfold pid_has_data. unfold get_es in Hg1. rewrite Hg1.
      destruct (p_data e1); [congruence|reflexivity]. }
    rewrite Hh1.
    destruct (ParseData_unit d1 k e1 Hg1 Hn1) as (R1 & R2 & R3 & R4).
    cbn zeta in R1, R2, R3, R4.
    set (d2 := ParseData header_garbage opus_frame_duration d1 k) in *.
    assert (Hr1 : es_reset e1 = es_reset e) by (subst e1; now destruct e).
    rewrite Hr1 in R1. rewrite R1.
    set (e3 := es_count b' (es_target b' (es_append b' (es_reset e)))).
    assert (Hb' : 0 <= i_buffer b' <= 188).
    { subst b'. unfold i_buffer, zlength in *. cbn [p_buffer set_p_buffer].
      rewrite length_skipn. lia. }
    destruct (gather_finish d2 d2 k (es_reset e) e3 [] b' (section_target b')
                (pkt_scrambled p_bk)) as [G1 _].
    { left. now destruct e. }
    { reflexivity. }
    { reflexivity. }
    { now rewrite R3. }
    { subst e3. unfold es_count, es_target, es_append, es_gathered, es_reset,
        section_target.
      destruct e as [f ei dt sz ga pd md]; cbn [data_type i_data_gathered i_data_size p_data
                       es_set_p_data es_set_i_data_size es_set_i_data_gathered
                       app] in *.
      subst.
      destruct ((3 <? i_buffer b') && negb (byte_at (p_buffer b') 0 =? 255));
        cbn [data_type i_data_gathered i_data_size p_data
             es_set_p_data es_set_i_data_size es_set_i_data_gathered];
        rewrite (int32_id (0 + i_buffer b')) by lia; reflexivity. }
    cbn zeta in G1.
    split; [destruct (gather_complete e3); reflexivity|].
    exists d2. split.
    + split; [|split; [now rewrite R2|]].
      * rewrite R1. now destruct e.
      * rewrite Hs1 in R4.
        apply (unit_delivery_ext d d1 d2 (get_pid d1 k) (get_pid d k)
                 e1 (es_append pre e) (p_data e1) (p_data (es_append pre e)));
          try assumption; try (subst e1; now destruct e).
        -- rewrite Hd1. change (p_data (es_append pre e)) with (p_data e ++ [pre]).
           rewrite !chain_bytes_app. f_equal. apply (maybe_flagged_bytes _ _ Hc).
        -- rewrite Hd1. change (p_data (es_append pre e)) with (p_data e ++ [pre]).
           apply head_buffer_app; [now apply maybe_flagged_head|].
           now apply maybe_flagged_nil.
    + destruct (gather_complete e3); exact G1.
Qed.

End ReassemblyProperties.

(** A session with one idle PES video stream on PID 200, registered with
    the sink, counter at 2. *)
Definition es_idle : ts_es_t :=
  mk_es (es_format_Init VIDEO_ES 0) (Some 0) TS_ES_DATA_PES 0 0 [] None.

Definition demux_idle : demux_t :=
  mk_demux (mk_stream [] []) [] [] [] true false true
    (sys_set_pid
       (fun j => if j =? 200
                 then mk_pid 200 true true 2 false None 0 None (Some es_idle) []
                 else pid_zero j)
       (sys_init 188 0)).

(** A unit-start packet of PID 200, counter 3, whose adaptation field
    leaves a payload of exactly 6 bytes: a PES start code, stream id
    0xE0 and the declared length 2. *)
Definition packet_start_6 : block_t :=
  block_Alloc ([0x47; 0x40; 0xC8; 0x33; 177; 0] ++ repeat 0xFF 176 ++
               [0; 0; 1; 0xE0; 0; 2]).

(** A unit-start packet of PID 200, counter 3, with a payload of 184
    bytes: a PES header declaring 20 bytes, no timestamps. *)
Definition packet_start_20 : block_t :=
  block_Alloc ([0x47; 0x40; 0xC8; 0x13] ++
               [0; 0; 1; 0xE0; 0; 20; 0x80; 0; 0] ++ repeat 7 175).

(** C5 (as stated, refuted): a unit start whose payload is just the six
    bytes that declare the length 2 leaves the target length unset; the
    next payload brings the bytes gathered to 190, above 6 + 2, and
    nothing is delivered. *)
Lemma GatherData_short_start_counterexample :
  let r1 := GatherData [] (fun _ _ => 0) demux_idle 200 packet_start_6 in
  let r2 := GatherData [] (fun _ _ => 0) (fst r1) 200 (packet_200 4) in
  p_buffer (gather_payload demux_idle packet_start_6) = [0; 0; 1; 0xE0; 0; 2] /\
  GetWBE (p_buffer (gather_payload demux_idle packet_start_6)) 4 = 2 /\
  option_map i_data_size (get_es (fst r1) 200) = Some 0 /\
  option_map i_data_gathered (get_es (fst r2) 200) = Some 190 /\
  option_map i_data_size (get_es (fst r2) 200) = Some 0 /\
  snd r2 = false /\
  filter is_send (out (fst r2)) = [].
Proof. vm_compute. repeat split. Qed.

(** The session of [demux_idle] with a PES unit of unknown length in
    flight on PID 200: one payload of 184 bytes, a PES header without
    time stamps that declares the length 0. *)
Definition es_unbounded : ts_es_t :=
  mk_es (es_format_Init VIDEO_ES 0) (Some 0) TS_ES_DATA_PES 0 184
        [block_Alloc ([0; 0; 1; 0xE0; 0; 0; 0x80; 0; 0] ++ repeat 5 175)] None.

Definition demux_unbounded : demux_t :=
  set_p_sys
    (sys_set_pid
       (fun j => if j =? 200
                 then mk_pid 200 true true 2 false None 0 None
                             (Some es_unbounded) []
                 else pid_zero j)
       (p_sys demux_idle))
    demux_idle.

(** The sizes of the blocks handed to the sink. *)
Definition sent_sizes (d : demux_t) : list Z :=
  flat_map (fun ev => match ev with
                      | ES_OUT_SEND _ g => [i_buffer g]
                      | _ => []
                      end) (out d).

(** The unit start [packet_start_20] arrives while the unit of unknown
    length is in flight: that unit is parsed and delivered, and the new
    unit, whose target 26 its first payload of 184 bytes exceeds, is
    delivered in the same call; each of the two blocks is a payload
    without the 9 bytes of its PES header. *)
Lemma GatherData_declared_length_witness :
  let d := demux_unbounded in
  let p := packet_start_20 in
  let b := gather_payload d p in
  let r := GatherData [] (fun _ _ => 0) d 200 p in
  get_es d 200 = Some es_unbounded /\
  gather_skip d p < 188 /\
  pes_target b 0 = 26 /\ i_buffer b = 184 /\
  snd r = true /\
  (exists d1,
     unit_parsed [] d d1 200 es_unbounded false /\
     reassembly_step [] d1 (fst r) 200 (es_reset es_unbounded) b
                     (pes_target b 0) false) /\
  sent_sizes d = [] /\ sent_sizes (fst r) = [175; 175].
Proof.
  cbn zeta. split; [reflexivity|]. split; [vm_compute; reflexivity|].
  split; [vm_compute; reflexivity|]. split; [vm_compute; reflexivity|].
  assert (H := proj1 (proj2 (proj2 (proj2
            (GatherData_declared_length [] (fun _ _ => 0) demux_unbounded 200
               packet_start_20 es_unbounded eq_refl eq_refl
               ltac:(vm_compute; reflexivity)
               ltac:(split; vm_compute; [discriminate|reflexivity])))))
          eq_refl eq_refl ltac:(vm_compute; discriminate)).
  cbn zeta in H. destruct H as [H1 H2].
  split; [exact H1|]. split; [exact H2|].
  split; vm_compute; reflexivity.
Defined.

(** ** The taint of a continuity-counter mismatch *)

(** The discontinuity indicator GatherData reads in the adaptation field
    of the packet memory it works on. *)
Definition gather_discontinuity (d : demux_t) (p_bk : block_t) : bool :=
  pkt_adaptation p_bk && (0 <? byte_at (gather_buffer d p_bk) 4) &&
  negb (Z.land (byte_at (gather_buffer d p_bk) 5) 0x80 =? 0).

(** The session after GatherData has seen to the transport-error
    indicator of the packet: when it is set, the fact is logged and the
    chain under reassembly is flagged corrupted, whatever the stream. *)
Definition transport_error_flagged (d : demux_t) (k : Z) (p_bk : block_t)
    (e : ts_es_t) : demux_t :=
  if pkt_transport_error p_bk then
    put_es k (es_set_p_data (chain_flag_corrupted (p_data e)) e)
      (log (msg_Dbg "transport_error_indicator set (pid=%d)"
                    [i_pid (get_pid d k)]) d)
  else d.

(** The chain of a stream of category [cat] after a continuity-counter
    mismatch: flagged corrupted unless the stream is audio or video. *)
Definition chain_tainted (cat : es_category) (c : list block_t) : list block_t :=
  if is_audio_video cat then c else chain_flag_corrupted c.

(** The session after a continuity-counter mismatch on entry [k], which
    holds the stream [e]: the mismatch is logged, the counter of the
    packet is taken over, and the chain is tainted. *)
Definition continuity_tainted (d : demux_t) (k cc : Z) (e : ts_es_t) : demux_t :=
  put_pid k
    (pid_set_es (Some (es_set_p_data (chain_tainted (i_cat (fmt e)) (p_data e)) e))
                (pid_set_i_cc cc (get_pid d k)))
    (log (discontinuity_msg (get_pid d k) cc) d).

Section ContinuityProperties.

Variable header_garbage : list Z.
Variable opus_frame_duration : list Z -> Z -> Z.

Local Abbreviation GatherData' := (GatherData header_garbage opus_frame_duration).
Local Abbreviation ParsePES' := (ParsePES header_garbage opus_frame_duration).
Local Abbreviation ParseData' := (ParseData header_garbage opus_frame_duration).

(** GatherData after the continuity test, from the session [d3] the test
    leaves: the PCR, the payload offset and the stream identifier are
    looked at, the scrambling state is updated, and the payload [pk]
    without its first [i_skip] bytes is gathered. *)
Definition gather_rest (k : Z) (p_bk pk : block_t) (i_skip : Z) (d3 : demux_t)
    : demux_t * bool :=
  let d4 := PCRHandle d3 k pk in
  match get_es d4 k with
  | None => (d4, false)
  | Some e4 =>
    if (188 <=? i_skip) || id_is_null e4 then (d4, false)
    else
      let d5 := scrambled_changed d4 k (pkt_scrambled p_bk) in
      let pl := set_p_buffer (skipn (Z.to_nat i_skip) (p_buffer pk)) pk in
      if pkt_unit_start p_bk
      then GatherData_unit_start header_garbage opus_frame_duration d5 k pl
      else GatherData_continue header_garbage opus_frame_duration d5 k pl
  end.

Lemma transport_error_flagged_spec (d : demux_t) (k : Z) (p_bk : block_t)
    (e : ts_es_t) :
  get_es d k = Some e ->
  let d1 := transport_error_flagged d k p_bk e in
  (if pkt_transport_error p_bk
   then
     put_pid k
       (pid_flag_corrupted
          (get_pid (log (msg_Dbg "transport_error_indicator set (pid=%d)"
                                 [i_pid (get_pid d k)]) d) k))
       (log (msg_Dbg "transport_error_indicator set (pid=%d)"
                     [i_pid (get_pid d k)]) d)
   else d) = d1 /\
  get_es d1 k =
    Some (es_set_p_data (if pkt_transport_error p_bk
                         then chain_flag_corrupted (p_data e) else p_data e) e) /\
  i_cc (get_pid d1 k) = i_cc (get_pid d k) /\
  i_pid (get_pid d1 k) = i_pid (get_pid d k) /\
  filter is_discontinuity_msg (msgs d1) = filter is_discontinuity_msg (msgs d) /\
  csa (p_sys d1) = csa (p_sys d) /\
  i_csa_pkt_size (p_sys d1) = i_csa_pkt_size (p_sys d).
Proof.
  intros He. cbn zeta. unfold transport_error_flagged.
  destruct (pkt_transport_error p_bk).
  - unfold put_es, pid_flag_corrupted, get_es in *.
    rewrite !get_pid_log, He, !get_pid_put_same, msgs_put_pid, msgs_log,
      filter_app.
    cbn [filter is_discontinuity_msg]. 
    destruct (get_pid d k); cbn in *. rewrite app_nil_r. repeat split.
  - rewrite es_set_p_data_same. repeat split. exact He.
Qed.

Lemma continuity_check_tainted (d : demux_t) (k : Z) (e : ts_es_t) (cc : Z) :
  get_es d k = Some e ->
  i_cc (get_pid d k) <> 0xff ->
  Z.land (cc - i_cc (get_pid d k)) 0x0f <> 0 ->
  Z.land (cc - i_cc (get_pid d k)) 0x0f <> 1 ->
  continuity_check d k cc true false = continuity_tainted d k cc e.
Proof.
  intros He Hseed H0 H1. unfold continuity_check, continuity_tainted.
  assert (E1 : (Z.land (cc - i_cc (get_pid d k)) 15 =? 1) = false)
    by now apply Z.eqb_neq.
  assert (E2 : (i_cc (get_pid d k) =? 255) = false) by now apply Z.eqb_neq.
  assert (E3 : (Z.land (cc - i_cc (get_pid d k)) 15 =? 0) = false)
    by now apply Z.eqb_neq.
  rewrite E1, E2, E3. cbn [negb andb].
  unfold discontinuity_msg. f_equal.
  unfold pid_has_data, pid_cat_is, pid_flag_corrupted, chain_tainted,
    is_audio_video, get_es in *.
  destruct (get_pid d k) as [pi se va c0 sc ow on ps es0 ex].
  cbn in He. subst es0. cbn.
  destruct e as [f ei dt sz ga pd md]. cbn.
  destruct pd as [|b pd]; cbn;
    destruct (es_category_eqb (i_cat f) VIDEO_ES),
             (es_category_eqb (i_cat f) AUDIO_ES); reflexivity.
Qed.

(** GatherData up to the continuity test, on a packet without
    discontinuity indicator. *)
Lemma GatherData_rest (d : demux_t) (k : Z) (p_bk : block_t) (e : ts_es_t) :
  get_es d k = Some e ->
  gather_discontinuity d p_bk = false ->
  GatherData' d k p_bk =
  gather_rest k p_bk (set_p_buffer (gather_buffer d p_bk) p_bk)
    (gather_skip d p_bk)
    (continuity_check (transport_error_flagged d k p_bk e) k (pkt_cc p_bk)
                      (pkt_payload p_bk) false).
Proof.
  intros He Hdisc.
  destruct (transport_error_flagged_spec d k p_bk e He)
    as (T1 & _ & _ & _ & _ & T6 & T7).
  cbn zeta in T1, T6, T7.
  set (d1 := transport_error_flagged d k p_bk e) in *.
  unfold GatherData. rewrite He. cbv zeta.
  change (negb (Z.land (byte_at (p_buffer p_bk) 1) 128 =? 0))
    with (pkt_transport_error p_bk).
  rewrite T1, T6, T7.
  unfold gather_rest, gather_skip, gather_discontinuity, gather_buffer,
    pkt_adaptation, pkt_cc, pkt_payload, pkt_scrambled, pkt_unit_start,
    id_is_null in *.
  destruct (csa (p_sys d)); cbn [p_buffer set_p_buffer] in *;
    (destruct (negb (Z.land (byte_at (p_buffer p_bk) 3) 32 =? 0));
     cbn [negb andb] in *; [|reflexivity]);
    match goal with
    | |- context [0 <? byte_at ?l 4] =>
      destruct (0 <? byte_at l 4); cbn [andb] in *; [|reflexivity]
    end;
    rewrite Hdisc; reflexivity.
Qed.

(** Nothing that follows the continuity test logs a mismatch. *)
Definition no_discontinuity_msg (l : list log_entry) : Prop :=
  filter is_discontinuity_msg l = [].

Lemma no_discontinuity_msg_app (l1 l2 : list log_entry) :
  no_discontinuity_msg l1 -> no_discontinuity_msg l2 ->
  no_discontinuity_msg (l1 ++ l2).
Proof.
  unfold no_discontinuity_msg. intros H1 H2. now rewrite filter_app, H1, H2.
Qed.

Lemma read_opus_flag_msg (buf : list Z) (len : Z) (fmt : string) :
  is_discontinuity_msg (msg_Err fmt []) = false ->
  forall t b l (m : list log_entry),
    (let '(t, b, l) := read_opus_flag buf len in
     (t, b, l, if t <? 0 then [msg_Err fmt []] else [])) = (t, b, l, m) ->
    no_discontinuity_msg m.
Proof.
  intros Hf t b l m H. destruct (read_opus_flag buf len) as [[t' b'] l'].
  injection H as _ _ _ <-. unfold no_discontinuity_msg.
  destruct (t' <? 0); cbn [filter]; [now rewrite Hf|reflexivity].
Qed.

Lemma Opus_Parse_loop_msgs (block : block_t) :
  forall (fuel : nat) (buf : list Z) (len : Z),
    no_discontinuity_msg
      (snd (Opus_Parse_loop opus_frame_duration fuel block buf len)).
Proof.
  induction fuel as [|fuel IH]; intros buf len; [reflexivity|].
  cbn [Opus_Parse_loop].
  destruct ((3 <? len) && _); [|reflexivity].
  destruct (opus_au_size (skipn 2 buf) (len - 2) 0) as [[buf1 len1] au_size].
  match goal with
  | |- context [match ?X with _ => _ end] =>
    destruct X as [[[st buf2] len2] m1] eqn:E1
  end.
  match goal with
  | |- context [match ?X with _ => _ end] =>
    destruct X as [[[et buf3] len3] m2] eqn:E2
  end.
  assert (M1 : no_discontinuity_msg m1).
  { destruct (negb (Z.land (Z.shiftr (byte_at buf 1) 4) 1 =? 0)).
    - now apply (read_opus_flag_msg _ _ "Invalid start trimming flag" eq_refl
                   _ _ _ _ E1).
    - now injection E1 as _ _ _ <-. }
  assert (M2 : no_discontinuity_msg m2).
  { destruct (negb (Z.land (Z.shiftr (byte_at buf 1) 3) 1 =? 0)).
    - now apply (read_opus_flag_msg _ _ "Invalid end trimming flag" eq_refl
                   _ _ _ _ E2).
    - now injection E2 as _ _ _ <-. }
  match goal with
  | |- context [match ?X with Some _ => _ | None => _ end] =>
    destruct X as [[buf4 len4]|]
  end.
  - destruct ((au_size =? 0) || (len4 <? au_size)); cbn [snd].
    + repeat apply no_discontinuity_msg_app; auto. reflexivity.
    + specialize (IH (skipn (Z.to_nat au_size) buf4) (len4 - au_size)).
      destruct (Opus_Parse_loop _ fuel block _ _) as [rest m3].
      cbn [snd] in *. repeat apply no_discontinuity_msg_app; auto.
  - cbn [snd]. repeat apply no_discontinuity_msg_app; auto. reflexivity.
Qed.

Lemma filter_discontinuity_app (l m : list log_entry) :
  no_discontinuity_msg m ->
  filter is_discontinuity_msg (l ++ m) = filter is_discontinuity_msg l.
Proof. intros H. rewrite filter_app, H. apply app_nil_r. Qed.

Lemma ParsePES_no_discontinuity_msg (d : demux_t) (q : ts_pid_t) (e : ts_es_t)
    (c : list block_t) :
  filter is_discontinuity_msg (msgs (ParsePES' d q e c)) =
  filter is_discontinuity_msg (msgs d).
Proof.
  unfold ParsePES.
  destruct (b_scrambled q || _ || _ || _).
  { destruct (negb (b_scrambled q)); [|reflexivity].
    rewrite msgs_log. now apply filter_discontinuity_app. }
  destruct (parse_pes_header _) as [[[i_skip pts] dts]|].
  2:{ rewrite msgs_log. now apply filter_discontinuity_app. }
  destruct (pes_codec_skip e c i_skip) as [[i_skip' len] i_pes_size].
  destruct (skip_header c i_skip') as [|b0 p_next].
  { rewrite msgs_log. now apply filter_discontinuity_app. }
  destruct (block_ChainGather _) as [g|]; [|reflexivity].
  match goal with
  | |- context [let '(blocks, m) := ?X in _] => destruct X as [blocks m] eqn:Eb
  end.
  destruct (send_blocks_spec q e (b_trust_pcr (p_sys d)) blocks
              (set_msgs (msgs d ++ m) d)) as (_ & Hm & _).
  cbn zeta in Hm. rewrite Hm. cbn [msgs set_msgs].
  apply filter_discontinuity_app.
  repeat break_match_in Eb; try (injection Eb as _ <-; reflexivity).
  assert (Hs : m = snd (Opus_Parse opus_frame_duration g))
    by (rewrite Eb; reflexivity).
  rewrite Hs. apply Opus_Parse_loop_msgs.
Qed.

Lemma ParseData_no_discontinuity_msg (d : demux_t) (k : Z) :
  filter is_discontinuity_msg (msgs (ParseData' d k)) =
  filter is_discontinuity_msg (msgs d).
Proof.
  unfold ParseData. destruct (es (get_pid d k)) as [e|]; [|reflexivity].
  destruct (data_type e).
  - now rewrite ParsePES_no_discontinuity_msg, msgs_put_pid.
  - unfold ParseTableSection.
    destruct (block_ChainGather (p_data e)); [|now rewrite msgs_put_pid].
    now rewrite msgs_emit, msgs_put_pid.
Qed.

Lemma msgs_put_es (d : demux_t) (k : Z) (e : ts_es_t) :
  msgs (put_es k e d) = msgs d.
Proof. reflexivity. Qed.

Lemma gather_rest_no_discontinuity_msg (k : Z) (p_bk pk : block_t)
    (i_skip : Z) (d3 : demux_t) :
  filter is_discontinuity_msg (msgs (fst (gather_rest k p_bk pk i_skip d3))) =
  filter is_discontinuity_msg (msgs d3).
Proof.
  unfold gather_rest.
  destruct (PCRHandle_frame d3 k pk) as (Hm & _).
  cbn zeta in Hm. rewrite <- Hm.
  set (d4 := PCRHandle d3 k pk).
  destruct (get_es d4 k) as [e4|]; [|reflexivity].
  destruct ((188 <=? i_skip) || id_is_null e4); [reflexivity|].
  destruct (scrambled_changed_frame d4 k (pkt_scrambled p_bk)) as (_ & B & _).
  cbn zeta in B. rewrite <- B.
  set (d5 := scrambled_changed d4 k (pkt_scrambled p_bk)).
  set (pl := set_p_buffer _ pk).
  destruct (pkt_unit_start p_bk).
  - unfold GatherData_unit_start.
    destruct (get_es d5 k) as [e5|]; [|reflexivity].
    match goal with
    | |- context [match ?X with _ => _ end] => destruct X as [d1 b] eqn:E1
    end.
    assert (M1 : msgs d1 = msgs d5).
    { repeat break_match_in E1; injection E1 as <- _; reflexivity. }
    match goal with
    | |- context [match ?X with _ => _ end] => destruct X as [d2 r] eqn:E2
    end.
    assert (M2 : filter is_discontinuity_msg (msgs d2) =
                 filter is_discontinuity_msg (msgs d5)).
    { rewrite <- M1. destruct (pid_has_data (get_pid d1 k));
        injection E2 as <- _; [apply ParseData_no_discontinuity_msg|reflexivity]. }
    destruct (get_es d2 k) as [e2|]; [|exact M2].
    destruct (gather_complete _); cbn [fst];
      [rewrite ParseData_no_discontinuity_msg|]; rewrite msgs_put_es; exact M2.
  - unfold GatherData_continue.
    destruct (get_es d5 k) as [e5|]; [|reflexivity].
    destruct (p_data e5); [reflexivity|].
    destruct (gather_complete _); cbn [fst];
      [rewrite ParseData_no_discontinuity_msg|]; now rewrite msgs_put_es.
Qed.


Lemma get_es_put_es (d : demux_t) (k : Z) (e : ts_es_t) :
  get_es (put_es k e d) k = Some e.
Proof.
  unfold get_es, put_es. rewrite get_pid_put_same. now destruct (get_pid d k).
Qed.

Lemma inflight_put_es (d : demux_t) (k : Z) (e : ts_es_t) :
  inflight (put_es k e d) k = p_data e.
Proof. unfold inflight. now rewrite get_es_put_es. Qed.

(** When the rest of GatherData hands nothing to ParseData, the chain it
    found is still under reassembly, with the payload appended if it was
    gathered. *)
Lemma gather_rest_inflight (k : Z) (p_bk pk : block_t) (i_skip : Z)
    (d3 : demux_t) (e3 : ts_es_t) :
  get_es d3 k = Some e3 ->
  snd (gather_rest k p_bk pk i_skip d3) = false ->
  exists tail, inflight (fst (gather_rest k p_bk pk i_skip d3)) k = p_data e3 ++ tail.
Proof.
  intros He. unfold gather_rest.
  destruct (PCRHandle_frame d3 k pk) as (_ & _ & Hp & _).
  cbn zeta in Hp. set (d4 := PCRHandle d3 k pk) in *.
  assert (He4 : get_es d4 k = Some e3).
  { unfold get_es. rewrite (same_but_psi_es _ _ (Hp k)). exact He. }
  rewrite He4.
  destruct ((188 <=? i_skip) || id_is_null e3).
  { intros _. exists []. cbn [fst]. unfold inflight. rewrite He4.
    now rewrite app_nil_r. }
  destruct (scrambled_changed_frame d4 k (pkt_scrambled p_bk)) as (A & _).
  cbn zeta in A. set (d5 := scrambled_changed d4 k (pkt_scrambled p_bk)) in *.
  rewrite He4 in A.
  set (pl := set_p_buffer _ pk).
  assert (Hhas : pid_has_data (get_pid d5 k) =
                 match p_data e3 with [] => false | _ :: _ => true end).
  { unfold pid_has_data. unfold get_es in A. now rewrite A. }
  assert (Hplain :
    snd (let '(d2, i_ret) :=
           if pid_has_data (get_pid d5 k) then (ParseData' d5 k, true)
           else (d5, false) in
         match get_es d2 k with
         | None => (d2, i_ret)
         | Some e2 =>
           let e3' := es_count pl (es_target pl (es_append pl e2)) in
           let d3' := put_es k e3' d2 in
           if gather_complete e3' then (ParseData' d3' k, true) else (d3', i_ret)
         end) = false ->
    exists tail,
      inflight
        (fst (let '(d2, i_ret) :=
                if pid_has_data (get_pid d5 k) then (ParseData' d5 k, true)
                else (d5, false) in
              match get_es d2 k with
              | None => (d2, i_ret)
              | Some e2 =>
                let e3' := es_count pl (es_target pl (es_append pl e2)) in
                let d3' := put_es k e3' d2 in
                if gather_complete e3' then (ParseData' d3' k, true)
                else (d3', i_ret)
              end)) k = p_data e3 ++ tail).
  { rewrite Hhas. destruct (p_data e3) as [|x c] eqn:Ec.
    - rewrite A. cbn zeta.
      destruct (gather_complete _); cbn [fst snd]; [discriminate|].
      intros _. exists [pl]. rewrite inflight_put_es.
      unfold es_count, es_target, es_append. rewrite Ec.
      destruct (data_type e3);
        repeat match goal with
               | |- context [if ?c then _ else _] => destruct c
               end; reflexivity.
    - destruct (get_es (ParseData' d5 k) k); [|cbn; discriminate].
      cbn zeta. destruct (gather_complete _); cbn; discriminate. }
  destruct (pkt_unit_start p_bk).
  - unfold GatherData_unit_start. rewrite A.
    destruct (data_type e3); [exact Hplain|].
    destruct (0 <? i_buffer pl); [|exact Hplain].
    match goal with
    | |- context [pid_has_data (get_pid (put_es k ?x d5) k)] =>
      assert (H1 : pid_has_data (get_pid (put_es k x d5) k) = true)
    end.
    { unfold pid_has_data. 
      match goal with
      | |- context [get_pid (put_es k ?x d5) k] =>
        pose proof (get_es_put_es d5 k x) as G; unfold get_es in G; rewrite G
      end.
      unfold es_append. cbn [p_data es_set_p_data]. now destruct (p_data e3). }
    rewrite H1.
    match goal with
    | |- context [match ?X with Some _ => _ | None => _ end] => destruct X
    end; [|cbn; discriminate].
    cbn zeta. destruct (gather_complete _); cbn; discriminate.
  - unfold GatherData_continue. rewrite A.
    destruct (p_data e3) as [|x c] eqn:Ec.
    + intros _. exists []. cbn [fst]. unfold inflight. now rewrite A, Ec.
    + cbn zeta. destruct (gather_complete _); cbn [fst snd]; [discriminate|].
      intros _. exists [pl]. rewrite inflight_put_es.
      unfold es_count, es_append. cbn [p_data es_set_p_data es_set_i_data_gathered].
      now rewrite Ec.
Qed.

(** C1 (amended): on a payload-bearing packet without discontinuity
    indicator, for a stream whose counter is seeded, GatherData first
    sees to the transport-error indicator (which flags the chain of any
    stream) and then tests the continuity counter.  On a mismatch it logs
    the mismatch, once, takes the counter of the packet over, and flags
    the chain under reassembly corrupted when the category of the stream
    is neither audio nor video; the chain of an audio or video stream is
    left as it is.  On a duplicate counter it logs nothing and flags
    nothing.  The rest of GatherData runs on the session so obtained and
    logs no mismatch; when it hands nothing to ParseData, the chain is
    still under reassembly after the call. *)
Theorem GatherData_continuity_taint (d : demux_t) (k : Z) (p_bk : block_t)
    (e : ts_es_t) :
  get_es d k = Some e ->
  pkt_payload p_bk = true -> gather_discontinuity d p_bk = false ->
  i_cc (get_pid d k) <> 0xff ->
  let i_diff := Z.land (pkt_cc p_bk - i_cc (get_pid d k)) 0x0f in
  let d1 := transport_error_flagged d k p_bk e in
  let e1 :=
    es_set_p_data (if pkt_transport_error p_bk
                   then chain_flag_corrupted (p_data e) else p_data e) e in
  let rest :=
    gather_rest k p_bk (set_p_buffer (gather_buffer d p_bk) p_bk)
                (gather_skip d p_bk) in
  let r := GatherData' d k p_bk in
  get_es d1 k = Some e1 /\
  (i_diff <> 0 -> i_diff <> 1 ->
   r = rest (continuity_tainted d1 k (pkt_cc p_bk) e1) /\
   get_es (continuity_tainted d1 k (pkt_cc p_bk) e1) k =
     Some (es_set_p_data (chain_tainted (i_cat (fmt e)) (p_data e1)) e) /\
   filter is_discontinuity_msg (msgs (fst r)) =
     filter is_discontinuity_msg (msgs d) ++
     [discontinuity_msg (get_pid d k) (pkt_cc p_bk)] /\
   (snd r = false ->
    exists tail,
      inflight (fst r) k = chain_tainted (i_cat (fmt e)) (p_data e1) ++ tail)) /\
  (i_diff = 0 ->
   r = rest d1 /\
   filter is_discontinuity_msg (msgs (fst r)) =
     filter is_discontinuity_msg (msgs d) /\
   (snd r = false -> exists tail, inflight (fst r) k = p_data e1 ++ tail)).
Proof.
  intros He Hpay Hdisc Hseed. cbn zeta.
  destruct (transport_error_flagged_spec d k p_bk e He)
    as (_ & T2 & T3 & T4 & T5 & _).
  cbn zeta in T2, T3, T4, T5.
  rewrite (GatherData_rest d k p_bk e He Hdisc), Hpay.
  set (d1 := transport_error_flagged d k p_bk e) in *.
  set (e1 := es_set_p_data _ e) in *.
  split; [exact T2|]. rewrite <- T3 in Hseed. rewrite <- T3. split.
  - intros H0 H1.
    rewrite (continuity_check_tainted d1 k e1 (pkt_cc p_bk) T2 Hseed H0 H1).
    set (d3 := continuity_tainted d1 k (pkt_cc p_bk) e1).
    assert (He3 : get_es d3 k =
                  Some (es_set_p_data (chain_tainted (i_cat (fmt e)) (p_data e1)) e)).
    { subst d3. unfold continuity_tainted, get_es. rewrite get_pid_put_same.
      subst e1. now destruct e. }
    split; [reflexivity|]. split; [exact He3|]. split.
    + rewrite gather_rest_no_discontinuity_msg. subst d3.
      unfold continuity_tainted. rewrite msgs_put_pid, msgs_log, filter_app, T5.
      unfold discontinuity_msg. rewrite T3, T4. reflexivity.
    + intros Hs.
      destruct (gather_rest_inflight k p_bk _ _ d3 _ He3 Hs) as (tail & Ht).
      exists tail. rewrite Ht. now destruct e.
  - intros H0.
    rewrite (continuity_check_duplicate d1 k (pkt_cc p_bk) true false Hseed H0).
    split; [reflexivity|]. split.
    + now rewrite gather_rest_no_discontinuity_msg.
    + intros Hs.
      destruct (gather_rest_inflight k p_bk _ _ d1 _ T2 Hs) as (tail & Ht).
      exists tail. exact Ht.
Qed.

End ContinuityProperties.

(** C1 (as stated, refuted): after a jump of the counter from 2 to 4 the
    mismatch is logged, the chain of a video stream is not flagged
    corrupted, and the chain of a subtitle stream is. *)
Lemma GatherData_taint_counterexample :
  let dv := fst (GatherData [] (fun _ _ => 0) (demux_inflight VIDEO_ES) 200
                            (packet_200 4)) in
  let ds := fst (GatherData [] (fun _ _ => 0) (demux_inflight SPU_ES) 200
                            (packet_200 4)) in
  filter is_discontinuity_msg (msgs dv) =
    [discontinuity_msg (get_pid (demux_inflight VIDEO_ES) 200) 4] /\
  existsb block_is_corrupted (inflight dv 200) = false /\
  existsb block_is_corrupted (inflight ds 200) = true.
Proof. vm_compute. repeat split. Qed.

(** A session with one PES stream of category [cat] on PID 200,
    registered with the sink, counter at 2, with a unit under reassembly
    that has declared 1000 bytes and has 184 of them. *)
Definition es_pending (cat : es_category) : ts_es_t :=
  mk_es (es_format_Init cat 0) (Some 0) TS_ES_DATA_PES 1000 184
        [block_Alloc (repeat 1 184)] None.

Definition demux_pending (cat : es_category) : demux_t :=
  mk_demux (mk_stream [] []) [] [] [] true false true
    (sys_set_pid
       (fun j => if j =? 200
                 then mk_pid 200 true true 2 false None 0 None
                             (Some (es_pending cat)) []
                 else pid_zero j)
       (sys_init 188 0)).

(** With a declared length pending, a jump of the counter from 2 to 4 is
    logged once and flags the chain of a subtitle stream, not that of a
    video stream; a packet that repeats the counter 2 logs nothing and
    flags nothing.  In each case the payload is appended to the chain. *)
Lemma GatherData_continuity_taint_witness :
  let gather := GatherData [] (fun _ _ => 0) in
  let ds := demux_pending SPU_ES in
  let dv := demux_pending VIDEO_ES in
  let c := [block_Alloc (repeat 1 184)] in
  (filter is_discontinuity_msg (msgs (fst (gather ds 200 (packet_200 4)))) =
     [discontinuity_msg (get_pid ds 200) 4] /\
   exists tail,
     inflight (fst (gather ds 200 (packet_200 4))) 200 =
     chain_flag_corrupted c ++ tail) /\
  (filter is_discontinuity_msg (msgs (fst (gather dv 200 (packet_200 4)))) =
     [discontinuity_msg (get_pid dv 200) 4] /\
   exists tail, inflight (fst (gather dv 200 (packet_200 4))) 200 = c ++ tail) /\
  (filter is_discontinuity_msg (msgs (fst (gather ds 200 (packet_200 2)))) = [] /\
   exists tail, inflight (fst (gather ds 200 (packet_200 2))) 200 = c ++ tail).
Proof.
  cbn zeta. split; [|split].
  - destruct (GatherData_continuity_taint [] (fun _ _ => 0)
                (demux_pending SPU_ES) 200 (packet_200 4) (es_pending SPU_ES)
                eq_refl eq_refl eq_refl ltac:(vm_compute; discriminate))
      as (_ & H & _).
    destruct H as (_ & _ & H1 & H2);
      [vm_compute; discriminate|vm_compute; discriminate|].
    split; [exact H1|exact (H2 eq_refl)].
  - destruct (GatherData_continuity_taint [] (fun _ _ => 0)
                (demux_pending VIDEO_ES) 200 (packet_200 4) (es_pending VIDEO_ES)
                eq_refl eq_refl eq_refl ltac:(vm_compute; discriminate))
      as (_ & H & _).
    destruct H as (_ & _ & H1 & H2);
      [vm_compute; discriminate|vm_compute; discriminate|].
    split; [exact H1|exact (H2 eq_refl)].
  - destruct (GatherData_continuity_taint [] (fun _ _ => 0)
                (demux_pending SPU_ES) 200 (packet_200 2) (es_pending SPU_ES)
                eq_refl eq_refl eq_refl ltac:(vm_compute; discriminate))
      as (_ & _ & H).
    destruct H as (_ & H1 & H2); [vm_compute; reflexivity|].
    split; [exact H1|exact (H2 eq_refl)].
Defined.

(** ** The user PMT *)

Lemma update_last_prg_spec (k : Z) (f : ts_prg_psi_t -> ts_prg_psi_t)
    (d : demux_t) (t : ts_psi_t) (gs : list ts_prg_psi_t) (g : ts_prg_psi_t) :
  psi (get_pid d k) = Some t -> prg t = gs ++ [g] ->
  update_last_prg k f d =
  put_pid k (pid_set_psi (Some (psi_set_prg (gs ++ [f g]) t)) (get_pid d k)) d.
Proof.
  intros Hpsi Hprg. unfold update_last_prg. rewrite Hpsi, Hprg, rev_app_distr.
  cbn [rev app]. now rewrite rev_involutive.
Qed.

(** What one item [pid:description] of the user PMT does for a PID that
    is not in use: the entry becomes an elementary stream of the user
    program with the format of the description, the program takes the
    PID as its PCR PID if it has none, and the stream is registered with
    the sink when its category is known, and only then. *)
Lemma UserPmt_item_new (kpmt i_num : Z) (item : cstring) (d : demux_t)
    (v : Z) (opt : cstring) (t : ts_psi_t) (gs : list ts_prg_psi_t)
    (g : ts_prg_psi_t) :
  strtol item = (v, ":"%char :: opt) ->
  (int32 v <? 2) || (8192 <=? int32 v) = false ->
  cstring_eqb opt "pcr" = false ->
  b_valid (get_pid d (int32 v)) = false ->
  int32 v <> kpmt ->
  psi (get_pid d kpmt) = Some t -> prg t = gs ++ [g] ->
  let es_pid := int32 v in
  let f1 := set_i_group i_num (UserPmt_format opt) in
  let f := if b_es_id_pid (p_sys d) then set_i_id es_pid f1 else f1 in
  let known := negb (es_category_eqb (i_cat f) UNKNOWN_ES) in
  let n := zlength (filter is_add (out d)) in
  let g' := if i_pid_pcr g <=? 0 then prg_set_i_pid_pcr es_pid g else g in
  let d' := UserPmt_item kpmt i_num item d in
  get_pid d' kpmt =
    pid_set_psi (Some (psi_set_prg (gs ++ [g']) t)) (get_pid d kpmt) /\
  get_pid d' es_pid =
    pid_set_es
      (Some (if known then es_set_id (Some n) (es_set_fmt f es_new)
             else es_set_fmt f es_new))
      (PIDInit (get_pid d es_pid) false (Some kpmt)) /\
  (forall j, j <> kpmt -> j <> es_pid -> get_pid d' j = get_pid d j) /\
  out d' = out d ++ (if known then [ES_OUT_ADD n f] else []) /\
  i_pmt_es (p_sys d') =
    (if known then int32 (i_pmt_es (p_sys d) + 1) else i_pmt_es (p_sys d)) /\
  pmt (p_sys d') = pmt (p_sys d) /\
  b_es_id_pid (p_sys d') = b_es_id_pid (p_sys d).
Proof.
  intros Hst Hrange Hpcr Hvalid Hne Hpsi Hprg. cbn zeta.
  unfold UserPmt_item. rewrite Hst.
  change (head_is (":"%char :: opt) 58) with true. cbn [negb orb tl].
  rewrite Hrange, Hpcr, Hvalid. cbn [negb]. cbn zeta.
  set (es_pid := int32 v) in *.
  set (q := PIDInit (get_pid d es_pid) false (Some kpmt)).
  set (d1 := put_pid es_pid q d).
  assert (Hk1 : get_pid d1 kpmt = get_pid d kpmt).
  { subst d1. apply get_pid_put_other. congruence. }
  rewrite (update_last_prg_spec kpmt _ d1 t gs g) by (try rewrite Hk1; assumption).
  rewrite Hk1.
  set (g' := if i_pid_pcr g <=? 0 then prg_set_i_pid_pcr es_pid g else g).
  set (d2 := put_pid kpmt _ d1).
  assert (He2 : get_pid d2 es_pid = q).
  { subst d2. rewrite get_pid_put_other by assumption. subst d1.
    apply get_pid_put_same. }
  assert (Hq : es q = Some es_new) by reflexivity.
  unfold get_es. rewrite He2, Hq.
  change (b_es_id_pid (p_sys d2)) with (b_es_id_pid (p_sys d)).
  set (f := if b_es_id_pid (p_sys d) then _ else _).
  assert (Hq' : forall x, pid_set_es (Some x) q =
                          pid_set_es (Some x)
                            (PIDInit (get_pid d es_pid) false (Some kpmt)))
    by reflexivity.
  destruct (negb (es_category_eqb (i_cat f) UNKNOWN_ES)).
  - unfold es_out_Add. cbn zeta.
    unfold put_es, add_pmt_es.
    repeat split.
    + unfold get_pid at 1. cbn [p_sys set_p_sys pid sys_set_i_pmt_es].
      match goal with
      | |- pid (p_sys (put_pid es_pid ?x ?dd)) kpmt = _ =>
        change (get_pid (put_pid es_pid x dd) kpmt = 
                pid_set_psi (Some (psi_set_prg (gs ++ [g']) t)) (get_pid d kpmt))
      end.
      rewrite get_pid_put_other by congruence.
      rewrite get_pid_emit, get_pid_log, get_pid_put_other by congruence.
      subst d2. now rewrite get_pid_put_same.
    + unfold get_pid at 1. cbn [p_sys set_p_sys pid sys_set_i_pmt_es].
      match goal with
      | |- pid (p_sys (put_pid es_pid ?x ?dd)) es_pid = ?r =>
        change (get_pid (put_pid es_pid x dd) es_pid = r)
      end.
      rewrite get_pid_put_same, get_pid_emit, get_pid_log, get_pid_put_same.
      rewrite He2. reflexivity.
    + intros j Hj1 Hj2. unfold get_pid at 1.
      cbn [p_sys set_p_sys pid sys_set_i_pmt_es].
      match goal with
      | |- pid (p_sys (put_pid es_pid ?x ?dd)) j = ?r =>
        change (get_pid (put_pid es_pid x dd) j = r)
      end.
      rewrite get_pid_put_other, get_pid_emit, get_pid_log, get_pid_put_other
        by assumption.
      subst d2 d1. now rewrite !get_pid_put_other by assumption.
  - unfold put_es. rewrite He2. repeat split.
    + rewrite get_pid_put_other by congruence. subst d2.
      now rewrite get_pid_put_same.
    + now rewrite get_pid_put_same.
    + intros j Hj1 Hj2. subst d2 d1.
      now rewrite !get_pid_put_other by assumption.
    + cbn. now rewrite app_nil_r.
Qed.

Lemma UserPmt_loop_step (fuel : nat) (kpmt i_num : Z) (a : ascii)
    (p : cstring) (d : demux_t) :
  UserPmt_loop (S fuel) kpmt i_num (Some (a :: p)) d =
  UserPmt_loop fuel kpmt i_num (option_map (@tl ascii) (strchr (a :: p) 44))
               (UserPmt_item kpmt i_num (before_char (a :: p) 44) d).
Proof. reflexivity. Qed.

Lemma UserPmt_loop_done (fuel : nat) (kpmt i_num : Z) (d : demux_t) :
  UserPmt_loop (S fuel) kpmt i_num None d = Some d.
Proof. reflexivity. Qed.

(** The parsing of a string known in full is evaluated. *)
Ltac eval_strings :=
  repeat match goal with
  | |- context [strtol ?x] =>
    let v := eval vm_compute in (strtol x) in change (strtol x) with v
  | |- context [strchr ?x ?c] =>
    let v := eval vm_compute in (strchr x c) in change (strchr x c) with v
  | |- context [before_char ?x ?c] =>
    let v := eval vm_compute in (before_char x c) in
    change (before_char x c) with v
  | |- context [head_is ?x ?c] =>
    let v := eval vm_compute in (head_is x c) in change (head_is x c) with v
  | |- context [list_ascii_of_string ?x] =>
    let v := eval vm_compute in (list_ascii_of_string x) in
    change (list_ascii_of_string x) with v
  end.

(** The user program 5 on PMT PID 100 with PCR PID 200, as UserPmt
    leaves it. *)
Definition user_prg_5 : ts_prg_psi_t :=
  mk_prg (Some (dvbpsi_attach (DECODER_PMT 5))) (-1) 5 200 (-1) 0 None.

Definition user_program (d d' : demux_t) : Prop :=
  b_user_pmt (p_sys d') = true /\
  pmt (p_sys d') = pmt (p_sys d) ++ [100] /\
  b_valid (get_pid d' 100) = true /\
  psi (get_pid d' 100) = Some (mk_psi None (-1) (-1) [user_prg_5]).

(** The session after the head [100:5=] of the user PMT string. *)
Definition user_head (d : demux_t) : demux_t :=
  let d1 := log (msg_Dbg "user pmt specified (pid=%d,number=%d)" [100; 5]) d in
  let d2 := put_pid 100 (PIDInit (get_pid d1 100) true None) d1 in
  let g := mk_prg (Some (dvbpsi_attach (DECODER_PMT 5))) (-1) 5 (-1) (-1) 0
                  None in
  let q := get_pid d2 100 in
  match psi q with
  | Some t => put_pid 100 (pid_set_psi (Some (psi_set_prg (prg t ++ [g]) t)) q) d2
  | None => d2
  end.

Lemma user_head_spec (d : demux_t) :
  b_valid (get_pid d 100) = false ->
  let d3 := user_head d in
  psi (get_pid d3 100) =
    Some (mk_psi None (-1) (-1) [prg_set_i_pid_pcr (-1) user_prg_5]) /\
  b_valid (get_pid d3 100) = true /\
  (forall j, j <> 100 -> get_pid d3 j = get_pid d j) /\
  out d3 = out d /\
  i_pmt_es (p_sys d3) = i_pmt_es (p_sys d) /\
  pmt (p_sys d3) = pmt (p_sys d) /\
  b_es_id_pid (p_sys d3) = b_es_id_pid (p_sys d).
Proof.
  intros Hv. cbn zeta. unfold user_head. cbn zeta.
  rewrite get_pid_put_same, get_pid_log.
  assert (Hpsi : psi (PIDInit (get_pid d 100) true None) =
                 Some (mk_psi None (-1) (-1) [])).
  { unfold PIDInit. cbn zeta. rewrite Hv. reflexivity. }
  rewrite Hpsi. rewrite get_pid_put_same.
  repeat split.
  - unfold PIDInit. cbn zeta. rewrite Hv. reflexivity.
  - intros j Hj. now rewrite !get_pid_put_other, get_pid_log by assumption.
Qed.

(** The format of the stream an item describes, with the group of the
    user program and, under [--ts-es-id-pid], the PID as its id. *)
Definition user_fmt (d : demux_t) (es_pid : Z) (opt : cstring) : es_format_t :=
  let f1 := set_i_group 5 (UserPmt_format opt) in
  if b_es_id_pid (p_sys d) then set_i_id es_pid f1 else f1.

Definition user_known (f : es_format_t) : bool :=
  negb (es_category_eqb (i_cat f) UNKNOWN_ES).

(** The stream entry an item leaves on a PID that was not in use. *)
Definition user_entry (d : demux_t) (es_pid : Z) (f : es_format_t) (n : Z)
    : ts_pid_t :=
  pid_set_es
    (Some (if user_known f then es_set_id (Some n) (es_set_fmt f es_new)
           else es_set_fmt f es_new))
    (PIDInit (get_pid d es_pid) false (Some 100)).

(** The two items for the PIDs 200 and 201, after the head. *)
Lemma UserPmt_items_200_201 (d : demux_t) (it1 it2 opt1 opt2 : cstring) :
  strtol it1 = (200, ":"%char :: opt1) ->
  strtol it2 = (201, ":"%char :: opt2) ->
  cstring_eqb opt1 "pcr" = false ->
  cstring_eqb opt2 "pcr" = false ->
  b_valid (get_pid d 100) = false ->
  b_valid (get_pid d 200) = false ->
  b_valid (get_pid d 201) = false ->
  let f1 := user_fmt d 200 opt1 in
  let f2 := user_fmt d 201 opt2 in
  let n := zlength (filter is_add (out d)) in
  let n2 := if user_known f1 then n + 1 else n in
  let d5 := UserPmt_item 100 5 it2 (UserPmt_item 100 5 it1 (user_head d)) in
  psi (get_pid d5 100) = Some (mk_psi None (-1) (-1) [user_prg_5]) /\
  b_valid (get_pid d5 100) = true /\
  get_pid d5 200 = user_entry d 200 f1 n /\
  get_pid d5 201 = user_entry d 201 f2 n2 /\
  (forall j, j <> 100 -> j <> 200 -> j <> 201 -> get_pid d5 j = get_pid d j) /\
  out d5 = out d ++ (if user_known f1 then [ES_OUT_ADD n f1] else []) ++
                    (if user_known f2 then [ES_OUT_ADD n2 f2] else []) /\
  i_pmt_es (p_sys d5) =
    (let c1 := if user_known f1 then int32 (i_pmt_es (p_sys d) + 1)
               else i_pmt_es (p_sys d) in
     if user_known f2 then int32 (c1 + 1) else c1) /\
  pmt (p_sys d5) = pmt (p_sys d).
Proof.
  intros S1 S2 P1 P2 H100 H200 H201. cbn zeta.
  destruct (user_head_spec d H100) as (A1 & A2 & A3 & A4 & A5 & A6 & A7).
  cbn zeta in *.
  set (d3 := user_head d) in *.
  pose proof (UserPmt_item_new 100 5 it1 d3 200 opt1
                (mk_psi None (-1) (-1) [prg_set_i_pid_pcr (-1) user_prg_5])
                [] (prg_set_i_pid_pcr (-1) user_prg_5) S1 eq_refl P1) as B.
  change (int32 200) with 200 in B.
  specialize (B ltac:(rewrite A3 by discriminate; exact H200)
                ltac:(discriminate) A1 eq_refl).
  cbn zeta in B. rewrite A7, A4 in B.
  fold (user_fmt d 200 opt1) in B.
  fold (user_known (user_fmt d 200 opt1)) in B.
  destruct B as (B1 & B2 & B3 & B4 & B5 & B6 & B7).
  set (d4 := UserPmt_item 100 5 it1 d3) in *.
  assert (B1' : psi (get_pid d4 100) =
                Some (mk_psi None (-1) (-1) [user_prg_5])).
  { rewrite B1. now destruct (get_pid d3 100). }
  pose proof (UserPmt_item_new 100 5 it2 d4 201 opt2
                (mk_psi None (-1) (-1) [user_prg_5]) [] user_prg_5
                S2 eq_refl P2) as C.
  change (int32 201) with 201 in C.
  specialize (C ltac:(rewrite B3, A3 by discriminate; exact H201)
                ltac:(discriminate) B1' eq_refl).
  cbn zeta in C. rewrite B7, B4 in C.
  fold (user_fmt d 201 opt2) in C.
  fold (user_known (user_fmt d 201 opt2)) in C.
  destruct C as (C1 & C2 & C3 & C4 & C5 & C6 & C7).
  set (d5 := UserPmt_item 100 5 it2 d4) in *.
  assert (Hn2 : zlength (filter is_add
                  (out d ++ (if user_known (user_fmt d 200 opt1)
                             then [ES_OUT_ADD (zlength (filter is_add (out d)))
                                              (user_fmt d 200 opt1)]
                             else []))) =
                if user_known (user_fmt d 200 opt1)
                then zlength (filter is_add (out d)) + 1
                else zlength (filter is_add (out d))).
  { rewrite filter_app. unfold zlength. rewrite length_app.
    destruct (user_known _); cbn [filter is_add length]; lia. }
  rewrite Hn2 in C2, C4.
  split; [rewrite C1; now destruct (get_pid d4 100)|].
  split; [rewrite C1, B1; cbn; exact A2|].
  split.
  { rewrite C3 by discriminate. rewrite B2. unfold user_entry.
    now rewrite A3 by discriminate. }
  split.
  { rewrite C2. unfold user_entry. now rewrite B3, A3 by discriminate. }
  split.
  { intros j J1 J2 J3. now rewrite C3, B3, A3 by assumption. }
  split; [rewrite C4, <- app_assoc; reflexivity|].
  split; [rewrite C5, B5, A5; reflexivity|].
  now rewrite C6, B6, A6.
Qed.

(** The head [100:5=] of a user PMT string known in full is evaluated. *)
Ltac user_pmt_head d :=
  unfold UserPmt;
  eval_strings; cbv beta iota;
  change (int32 100) with 100;
  change ((100 <? 2) || (8192 <=? 100)) with false; cbv beta iota;
  eval_strings; cbv beta iota; change (int32 5) with 5;
  change (negb (5 =? TS_USER_PMT_NUMBER)) with true;
  change (negb (5 =? 0)) with true; cbv beta iota;
  eval_strings; cbn [option_map tl length];
  match goal with
  | |- context [UserPmt_loop _ _ _ _ ?x] => change x with (user_head d)
  end;
  rewrite UserPmt_loop_step; eval_strings; cbn [option_map tl];
  rewrite UserPmt_loop_step; eval_strings; cbn [option_map tl];
  rewrite UserPmt_loop_done; cbn [bind].

(** C7 (amended): on a session where the PIDs 100, 200 and 201 are not
    in use, the user PMT string [100:5=200:video,201:audio] creates the
    user program 5 on PMT PID 100 with PCR PID 200 and makes the PIDs 200
    and 201 elementary streams of it, of unknown category and codec 0;
    nothing is registered with the sink.  With a four-character codec
    after the category, [100:5=200:video=mpgv,201:audio=mpga], the two
    streams are registered with the sink at once, as video with codec
    mpgv and audio with codec mpga, in the group 5. *)
Theorem UserPmt_registration (d : demux_t) :
  b_valid (get_pid d 100) = false ->
  b_valid (get_pid d 200) = false ->
  b_valid (get_pid d 201) = false ->
  let n := zlength (filter is_add (out d)) in
  (exists d',
     UserPmt d "100:5=200:video,201:audio" = Some (VLC_SUCCESS, d') /\
     user_program d d' /\
     out d' = out d /\
     i_pmt_es (p_sys d') = i_pmt_es (p_sys d) /\
     forall k, k = 200 \/ k = 201 ->
       b_valid (get_pid d' k) = true /\
       p_owner (get_pid d' k) = Some 100 /\
       exists e, get_es d' k = Some e /\ i_cat (fmt e) = UNKNOWN_ES /\
                 i_codec (fmt e) = 0 /\ id e = None) /\
  (exists d' fv fa,
     UserPmt d "100:5=200:video=mpgv,201:audio=mpga" = Some (VLC_SUCCESS, d') /\
     user_program d d' /\
     out d' = out d ++ [ES_OUT_ADD n fv; ES_OUT_ADD (n + 1) fa] /\
     i_cat fv = VIDEO_ES /\ i_codec fv = fourcc_of "mpgv" /\ i_group fv = 5 /\
     i_cat fa = AUDIO_ES /\ i_codec fa = fourcc_of "mpga" /\ i_group fa = 5 /\
     (exists e, get_es d' 200 = Some e /\ fmt e = fv /\ id e = Some n) /\
     (exists e, get_es d' 201 = Some e /\ fmt e = fa /\ id e = Some (n + 1))).
Proof.
  intros H100 H200 H201. cbn zeta. split.
  - user_pmt_head d.
    eexists. split; [reflexivity|].
    match goal with
    | |- context [UserPmt_item 100 5 ?it2 (UserPmt_item 100 5 ?it1 _)] =>
      destruct (UserPmt_items_200_201 d it1 it2
                  (list_ascii_of_string "video") (list_ascii_of_string "audio")
                  eq_refl eq_refl eq_refl eq_refl H100 H200 H201)
        as (R1 & R2 & R3 & R4 & R5 & R6 & R7 & R8)
    end.
    cbn zeta in *.
    assert (K1 : user_known (user_fmt d 200 (list_ascii_of_string "video"))
                 = false)
      by (unfold user_fmt; destruct (b_es_id_pid (p_sys d)); reflexivity).
    assert (K2 : user_known (user_fmt d 201 (list_ascii_of_string "audio"))
                 = false)
      by (unfold user_fmt; destruct (b_es_id_pid (p_sys d)); reflexivity).
    rewrite K1, K2 in *. cbn [app] in R6. rewrite app_nil_r in R6.
    split; [|split; [exact R6|split; [exact R7|]]].
    + unfold user_program. cbn [p_sys set_p_sys b_user_pmt sys_set_pmt
                                sys_set_b_user_pmt pmt].
      rewrite R8. repeat split; assumption.
    + intros k [-> | ->].
      * change (get_pid (set_p_sys _ ?x) 200) with (get_pid x 200).
        unfold get_es.
        change (get_pid (set_p_sys _ ?x) 200) with (get_pid x 200).
        rewrite R3. unfold user_entry. rewrite K1. unfold user_fmt.
        repeat split. eexists. split; [reflexivity|].
        destruct (b_es_id_pid (p_sys d)); repeat split.
      * change (get_pid (set_p_sys _ ?x) 201) with (get_pid x 201).
        unfold get_es.
        change (get_pid (set_p_sys _ ?x) 201) with (get_pid x 201).
        rewrite R4. unfold user_entry. rewrite K2. unfold user_fmt.
        repeat split. eexists. split; [reflexivity|].
        destruct (b_es_id_pid (p_sys d)); repeat split.
  - user_pmt_head d.
    match goal with
    | |- context [UserPmt_item 100 5 ?it2 (UserPmt_item 100 5 ?it1 _)] =>
      destruct (UserPmt_items_200_201 d it1 it2
                  (list_ascii_of_string "video=mpgv")
                  (list_ascii_of_string "audio=mpga")
                  eq_refl eq_refl eq_refl eq_refl H100 H200 H201)
        as (R1 & R2 & R3 & R4 & R5 & R6 & R7 & R8)
    end.
    cbn zeta in *.
    assert (K1 : user_known (user_fmt d 200 (list_ascii_of_string "video=mpgv"))
                 = true)
      by (unfold user_fmt; destruct (b_es_id_pid (p_sys d)); reflexivity).
    assert (K2 : user_known (user_fmt d 201 (list_ascii_of_string "audio=mpga"))
                 = true)
      by (unfold user_fmt; destruct (b_es_id_pid (p_sys d)); reflexivity).
    rewrite K1, K2 in *. cbn [app] in R6.
    eexists. exists (user_fmt d 200 (list_ascii_of_string "video=mpgv")),
                    (user_fmt d 201 (list_ascii_of_string "audio=mpga")).
    split; [reflexivity|].
    split.
    { unfold user_program. cbn [p_sys set_p_sys b_user_pmt sys_set_pmt
                                sys_set_b_user_pmt pmt].
      rewrite R8. repeat split; assumption. }
    split; [exact R6|].
    unfold get_es.
    change (get_pid (set_p_sys _ ?x) 200) with (get_pid x 200).
    change (get_pid (set_p_sys _ ?x) 201) with (get_pid x 201).
    rewrite R3, R4. unfold user_entry. rewrite K1, K2.
    unfold user_fmt.
    destruct (b_es_id_pid (p_sys d)); repeat split;
      eexists; repeat split.
Qed.

(** A session as Open leaves it before any table: no PID in use. *)
Definition demux_fresh : demux_t :=
  mk_demux (mk_stream [] []) [] [] [] true false true (sys_init 188 0).

(** C7 (as stated, refuted): after [100:5=200:video,201:audio] on a fresh
    session no stream has been registered with the sink, and the streams
    of the PIDs 200 and 201 are of unknown category, not video and
    audio. *)
Lemma UserPmt_plain_counterexample :
  match UserPmt demux_fresh "100:5=200:video,201:audio" with
  | Some (r, d') =>
    r = VLC_SUCCESS /\
    out d' = [] /\
    option_map (fun e => i_cat (fmt e)) (get_es d' 200) = Some UNKNOWN_ES /\
    option_map (fun e => i_cat (fmt e)) (get_es d' 201) = Some UNKNOWN_ES /\
    option_map id (get_es d' 200) = Some None /\
    option_map id (get_es d' 201) = Some None
  | None => False
  end.
Proof. vm_compute. repeat split. Qed.

Lemma UserPmt_registration_witness :
  b_valid (get_pid demux_fresh 100) = false /\
  b_valid (get_pid demux_fresh 200) = false /\
  b_valid (get_pid demux_fresh 201) = false /\
  (exists d',
     UserPmt demux_fresh "100:5=200:video,201:audio" = Some (VLC_SUCCESS, d') /\
     user_program demux_fresh d' /\ out d' = out demux_fresh) /\
  (exists d' fv fa,
     UserPmt demux_fresh "100:5=200:video=mpgv,201:audio=mpga" =
       Some (VLC_SUCCESS, d') /\
     out d' = [ES_OUT_ADD 0 fv; ES_OUT_ADD 1 fa] /\
     i_cat fv = VIDEO_ES /\ i_cat fa = AUDIO_ES).
Proof.
  split; [reflexivity|]. split; [reflexivity|]. split; [reflexivity|].
  destruct (UserPmt_registration demux_fresh eq_refl eq_refl eq_refl)
    as [(d1 & A1 & A2 & A3 & _)
        (d2 & fv & fa & B1 & _ & B3 & B4 & _ & _ & B7 & _)].
  split.
  - exists d1. split; [exact A1|]. split; [exact A2|exact A3].
  - exists d2, fv, fa.
    split; [exact B1|]. split; [exact B3|]. split; [exact B4|exact B7].
Defined.

(** ** Version gating of the PAT and of the PMT *)

(** The version the session holds for the table an event delivers: the
    PAT version of the PID 0, or the version of the program the PMT is
    for. *)
Definition stored_version (d : demux_t) (ev : psi_event) : option Z :=
  match ev with
  | PSI_PAT _ => option_map i_pat_version (psi (get_pid d 0))
  | PSI_PMT p_pmt =>
    match find_pmt d (pmt (p_sys d)) (pmt_i_program_number p_pmt) with
    | Some (kpmt, idx) => Some (i_version (nth idx (psi_prgs d kpmt) prg_new))
    | None => None
    end
  | PSI_META _ => None
  end.

Definition table_version (ev : psi_event) : Z :=
  match ev with
  | PSI_PAT p_pat => pat_i_version p_pat
  | PSI_PMT p_pmt => pmt_i_version p_pmt
  | PSI_META _ => -1
  end.

Definition table_current (ev : psi_event) : bool :=
  match ev with
  | PSI_PAT p_pat => pat_b_current_next p_pat
  | PSI_PMT p_pmt => pmt_b_current_next p_pmt
  | PSI_META _ => false
  end.

Definition callback_msg (ev : psi_event) : log_entry :=
  match ev with
  | PSI_PAT _ => msg_Dbg "PATCallBack called" []
  | PSI_PMT _ => msg_Dbg "PMTCallBack called" []
  | PSI_META _ => msg_Dbg "" []
  end.

Lemma find_pmt_log (d : demux_t) (m : log_entry) (pmts : list Z) (n : Z) :
  find_pmt (log m d) pmts n = find_pmt d pmts n.
Proof.
  induction pmts as [|k pmts IH]; cbn [find_pmt]; [reflexivity|].
  change (psi_prgs (log m d) k) with (psi_prgs d k).
  destruct (find_prg (psi_prgs d k) n 0); [reflexivity|exact IH].
Qed.

Lemma version_gate_closed (v w : Z) (b_current : bool) :
  v <> -1 -> ~ (b_current = true /\ w <> v) ->
  negb (v =? -1) && (negb b_current || (w =? v)) = true.
Proof.
  intros Hv Hn. apply andb_true_iff. split.
  - apply negb_true_iff, Z.eqb_neq. exact Hv.
  - destruct b_current; cbn [negb orb]; [|reflexivity].
    apply Z.eqb_eq. destruct (Z.eq_dec w v); [assumption|].
    exfalso. apply Hn. split; [reflexivity|assumption].
Qed.

Section TableProperties.

Variable PMTSetupEs :
  demux_sys_t -> ts_prg_psi_t -> dvbpsi_pmt_t -> dvbpsi_pmt_es_t ->
  ts_pmt_registration_type_t -> ts_pid_t -> ts_pid_t * list log_entry.
Variable IODNew : list Z -> option iod_descriptor_t.

(** C3: a PAT or a PMT delivered for a table that has a stored version
    (not -1) is applied only if it is current and its version differs
    from the stored one; otherwise the callback logs that it was called
    and returns: the session state (programs, PID table, elementary
    streams), the requests to the sink and the stream are as before. *)
Theorem PSI_version_gate (d : demux_t) (ev : psi_event) (v : Z) :
  stored_version d ev = Some v ->
  v <> -1 ->
  ~ (table_current ev = true /\ table_version ev <> v) ->
  let d' := apply_psi_event PMTSetupEs IODNew d ev in
  d' = log (callback_msg ev) d /\
  p_sys d' = p_sys d /\ out d' = out d /\ s d' = s d.
Proof.
  intros Hs Hv Hn. cbn zeta.
  assert (H : apply_psi_event PMTSetupEs IODNew d ev = log (callback_msg ev) d).
  { destruct ev as [p_pat|p_pmt|u]; cbn [stored_version] in Hs;
      cbn [table_current table_version] in Hn; [| |discriminate].
    - cbn [apply_psi_event callback_msg]. unfold PATCallBack. cbn zeta.
      rewrite get_pid_log.
      destruct (psi (get_pid d 0)) as [t|]; [|discriminate].
      cbn [option_map] in Hs. injection Hs as Hs. rewrite Hs.
      rewrite (version_gate_closed v (pat_i_version p_pat)
                 (pat_b_current_next p_pat) Hv Hn).
      reflexivity.
    - cbn [apply_psi_event callback_msg]. unfold PMTCallBack. cbn zeta.
      rewrite find_pmt_log.
      change (pmt (p_sys (log (msg_Dbg "PMTCallBack called" []) d)))
        with (pmt (p_sys d)).
      destruct (find_pmt d (pmt (p_sys d)) (pmt_i_program_number p_pmt))
        as [[kpmt idx]|]; [|discriminate].
      change (psi_prgs (log (msg_Dbg "PMTCallBack called" []) d) kpmt)
        with (psi_prgs d kpmt).
      injection Hs as Hs. rewrite Hs.
      assert (Hn' : ~ (pmt_b_current_next p_pmt = true /\
                       pmt_i_version p_pmt <> v)) by exact Hn.
      pose proof (version_gate_closed v (pmt_i_version p_pmt)
                    (pmt_b_current_next p_pmt) Hv Hn') as G.
      rewrite (Z.eqb_sym v (pmt_i_version p_pmt)).
      rewrite G. reflexivity. }
  rewrite H. repeat split.
Qed.

End TableProperties.

(** A session that holds the PAT version 3. *)
Definition demux_pat_3 : demux_t :=
  put_pid 0
    (pid_set_psi
       (Some (mk_psi (Some (dvbpsi_attach DECODER_PAT)) 3 (-1) []))
       (get_pid demux_fresh 0))
    demux_fresh.

Lemma PSI_version_gate_witness :
  let ev := PSI_PAT (mk_pat 1 3 true [mk_pat_program 1 256]) in
  stored_version demux_pat_3 ev = Some 3 /\
  p_sys (apply_psi_event (fun _ _ _ _ _ q => (q, [])) (fun _ => None)
                         demux_pat_3 ev) = p_sys demux_pat_3.
Proof.
  cbn zeta. split; [reflexivity|].
  refine (proj1 (proj2 (PSI_version_gate (fun _ _ _ _ _ q => (q, []))
                          (fun _ => None) demux_pat_3
                          (PSI_PAT (mk_pat 1 3 true [mk_pat_program 1 256]))
                          3 eq_refl _ _))).
  - discriminate.
  - intros [_ H]. apply H. reflexivity.
Defined.

(** ** Reading and seeking *)

Lemma stream_Size_content (st : stream_t) :
  stream_Size st = zlength (stream_content st).
Proof.
  unfold stream_Size, stream_content, zlength. rewrite length_app. lia.
Qed.

Lemma stream_Read_content (st : stream_t) (n : Z) :
  stream_content (stream_Read st n) = stream_content st.
Proof.
  unfold stream_content, stream_Read. cbn [s_before s_after].
  now rewrite <- app_assoc, firstn_skipn.
Qed.

Lemma stream_Seek_content (st : stream_t) (i_pos : Z) :
  stream_content (snd (stream_Seek st i_pos)) = stream_content st.
Proof.
  unfold stream_Seek.
  destruct ((0 <=? i_pos) && (i_pos <=? stream_Size st)); [|reflexivity].
  cbn [snd]. unfold stream_content at 1. cbn [s_before s_after].
  apply firstn_skipn.
Qed.

Lemma stream_Seek_ok (st : stream_t) (i_pos : Z) :
  0 <= i_pos <= stream_Size st ->
  fst (stream_Seek st i_pos) = VLC_SUCCESS /\
  stream_Tell (snd (stream_Seek st i_pos)) = i_pos.
Proof.
  intros H. unfold stream_Seek.
  assert (E : (0 <=? i_pos) && (i_pos <=? stream_Size st) = true).
  { apply andb_true_iff. split; apply Z.leb_le; lia. }
  rewrite E. cbn [fst snd]. split; [reflexivity|].
  unfold stream_Tell, zlength. cbn [s_before].
  rewrite stream_Size_content in H. unfold zlength in H.
  rewrite length_firstn. lia.
Qed.

Lemma stream_Seek_status (st : stream_t) (i_pos : Z) :
  fst (stream_Seek st i_pos) = VLC_SUCCESS ->
  0 <= i_pos <= stream_Size st.
Proof.
  unfold stream_Seek.
  destruct ((0 <=? i_pos) && (i_pos <=? stream_Size st)) eqn:E;
    cbn [fst]; [|discriminate].
  intros _. apply andb_true_iff in E. destruct E as [A B].
  apply Z.leb_le in A, B. lia.
Qed.

(** Seeking back to where the stream was gives the stream back. *)
Lemma stream_Seek_back (st st' : stream_t) :
  stream_content st' = stream_content st ->
  snd (stream_Seek st' (stream_Tell st)) = st.
Proof.
  intros Hc. unfold stream_Seek.
  assert (E : (0 <=? stream_Tell st) && (stream_Tell st <=? stream_Size st')
              = true).
  { apply andb_true_iff. rewrite stream_Size_content, Hc.
    unfold stream_Tell, stream_content, zlength. rewrite length_app.
    split; apply Z.leb_le; lia. }
  rewrite E. cbn [snd]. rewrite Hc. unfold stream_Tell, stream_content, zlength.
  rewrite Nat2Z.id.
  rewrite firstn_app, Nat.sub_diag, firstn_all, firstn_O, app_nil_r.
  rewrite skipn_app, Nat.sub_diag, skipn_all, skipn_O.
  now destruct st.
Qed.

Lemma stream_Tell_range (st : stream_t) : 0 <= stream_Tell st <= stream_Size st.
Proof. unfold stream_Tell, stream_Size, zlength. lia. Qed.

(** What reading packets may change: the position in the stream and
    the diagnostics. *)
Definition reads_only (d d' : demux_t) : Prop :=
  p_sys d' = p_sys d /\ out d' = out d /\ b_alive d' = b_alive d /\
  stream_content (s d') = stream_content (s d).

Lemma reads_only_refl (d : demux_t) : reads_only d d.
Proof. repeat split. Qed.

Lemma reads_only_trans (d1 d2 d3 : demux_t) :
  reads_only d1 d2 -> reads_only d2 d3 -> reads_only d1 d3.
Proof.
  intros (A1 & A2 & A3 & A4) (B1 & B2 & B3 & B4).
  repeat split; congruence.
Qed.

Lemma reads_only_log (d : demux_t) (m : log_entry) : reads_only d (log m d).
Proof. repeat split. Qed.

Lemma resync_scan_range (n : nat) (p_peek : list Z) (hdr pkt : Z) :
  forall i, i <= resync_scan n p_peek hdr pkt i <= i + Z.of_nat n.
Proof.
  induction n as [|n IH]; intros i; cbn [resync_scan]; [lia|].
  destruct (_ && _); [lia|]. specialize (IH (i + 1)). lia.
Qed.

Lemma ReadTSPacket_resync_total (fuel : nat) :
  forall d : demux_t,
    0 <= i_packet_size (p_sys d) ->
    (length (s_after (s d)) < fuel)%nat ->
    exists b d',
      ReadTSPacket_resync fuel d = Some (b, d') /\ reads_only d d' /\
      (length (s_after (s d')) <= length (s_after (s d)))%nat.
Proof.
  induction fuel as [|fuel IH]; intros d Hpkt Hfuel; [lia|].
  cbn [ReadTSPacket_resync].
  destruct (negb (b_alive d)).
  { exists false, d. split; [reflexivity|]. split; [apply reads_only_refl|lia]. }
  cbn zeta.
  set (pkt := i_packet_size (p_sys d)) in *.
  set (p_peek := stream_Peek (s d) (pkt * 10)).
  destruct (zlength p_peek <? pkt + 1) eqn:E1.
  { eexists _, _. split; [reflexivity|].
    split; [apply reads_only_log|cbn; lia]. }
  apply Z.ltb_ge in E1.
  set (i_skip := resync_scan _ p_peek _ pkt 0).
  set (d2 := set_s _ _).
  assert (R2 : reads_only d d2).
  { subst d2. repeat split. cbn. apply stream_Read_content. }
  assert (Hlen : (length p_peek <= length (s_after (s d)))%nat).
  { subst p_peek. unfold stream_Peek. rewrite length_firstn. lia. }
  destruct (i_skip <? zlength p_peek - pkt) eqn:E2.
  { exists false, d2. split; [reflexivity|]. split; [exact R2|].
    subst d2. cbn. rewrite length_skipn. lia. }
  apply Z.ltb_ge in E2.
  assert (Hskip : 1 <= i_skip) by lia.
  assert (Hshort : (length (s_after (s d2)) < length (s_after (s d)))%nat).
  { subst d2. cbn. rewrite length_skipn. unfold zlength in *. lia. }
  destruct (IH d2) as (b & d' & H1 & H2 & H3).
  { destruct R2 as (A & _). rewrite A. exact Hpkt. }
  { lia. }
  exists b, d'. split; [exact H1|].
  split; [eapply reads_only_trans; eassumption|lia].
Qed.

Lemma stream_Block_spec (st : stream_t) (n : Z) :
  match stream_Block st n with
  | (None, st') => st' = st
  | (Some _, st') =>
    stream_content st' = stream_content st /\
    (length (s_after st') < length (s_after st))%nat /\
    stream_Tell st < stream_Tell st'
  end.
Proof.
  unfold stream_Block.
  destruct (firstn (Z.to_nat n) (s_after st)) as [|x got] eqn:E;
    [reflexivity|].
  split; [apply stream_Read_content|].
  assert (Hn : (0 < Z.to_nat n)%nat).
  { destruct (Z.to_nat n); [discriminate|lia]. }
  assert (Ha : (0 < length (s_after st))%nat).
  { destruct (s_after st); [now rewrite firstn_nil in E|cbn; lia]. }
  unfold stream_Read, stream_Tell, zlength. cbn [s_after s_before].
  rewrite length_skipn, length_app, length_firstn. lia.
Qed.

(** ReadTSPacket returns, having changed only the position and the
    diagnostics; a packet read moves the position forward. *)
Lemma ReadTSPacket_total (d : demux_t) :
  0 <= i_packet_size (p_sys d) ->
  exists p d',
    ReadTSPacket d = Some (p, d') /\ reads_only d d' /\
    (length (s_after (s d')) <= length (s_after (s d)))%nat /\
    (p <> None ->
     (length (s_after (s d')) < length (s_after (s d)))%nat /\
     stream_Tell (s d) < stream_Tell (s d')).
Proof.
  intros Hpkt. unfold ReadTSPacket. cbn zeta.
  pose proof (stream_Block_spec (s d) (i_packet_size (p_sys d))) as HB.
  destruct (stream_Block (s d) (i_packet_size (p_sys d))) as [[p_pkt|] s1].
  2:{ eexists _, _. split; [reflexivity|].
      split; [apply reads_only_log|]. split; [cbn; lia|congruence]. }
  destruct HB as (B1 & B2 & B3).
  destruct (negb (byte_at _ 0 =? 71)).
  2:{ eexists _, _. split; [reflexivity|].
      split; [repeat split; exact B1|]. cbn [s set_s].
      split; [lia|]. intros _. split; assumption. }
  set (d2 := log _ (set_s s1 d)).
  assert (R2 : reads_only d d2) by (repeat split; exact B1).
  destruct (ReadTSPacket_resync_total (S (length (s_after (s d2)))) d2)
    as (b & d3 & H1 & H2 & H3); [exact Hpkt|lia|].
  rewrite H1. cbn [bind].
  assert (R3 : reads_only d d3) by (eapply reads_only_trans; eassumption).
  assert (L3 : (length (s_after (s d3)) < length (s_after (s d)))%nat).
  { subst d2. cbn [s log set_msgs set_s] in H3. lia. }
  assert (T3 : stream_Tell (s d) < stream_Tell (s d3)).
  { destruct R3 as (_ & _ & _ & C3).
    pose proof (f_equal (@length Z) C3) as Hl.
    unfold stream_content in Hl. rewrite !length_app in Hl.
    unfold stream_Tell, zlength. lia. }
  destruct b.
  { eexists _, _. split; [reflexivity|]. split; [exact R3|].
    split; [lia|]. intros _. split; assumption. }
  destruct R3 as (A1 & A2 & A3 & A4).
  rewrite <- A1 in Hpkt.
  change (i_packet_size (p_sys d)) with (i_packet_size (p_sys d)).
  pose proof (stream_Block_spec (s d3) (i_packet_size (p_sys d))) as HB4.
  destruct (stream_Block (s d3) (i_packet_size (p_sys d))) as [[p4|] s4].
  - destruct HB4 as (C1 & C2 & C3).
    eexists _, _. split; [reflexivity|].
    split; [repeat split; try assumption; cbn [s set_s]; congruence|].
    cbn [s set_s]. split; [lia|]. intros _. split; lia.
  - subst s4. eexists _, _. split; [reflexivity|].
    split; [repeat split; assumption|]. cbn. split; [lia|congruence].
Qed.

Lemma reads_only_Tell (d d' : demux_t) :
  reads_only d d' ->
  (length (s_after (s d')) <= length (s_after (s d)))%nat ->
  stream_Tell (s d) <= stream_Tell (s d').
Proof.
  intros (_ & _ & _ & C) H.
  pose proof (f_equal (@length Z) C) as Hl.
  unfold stream_content in Hl. rewrite !length_app in Hl.
  unfold stream_Tell, zlength. lia.
Qed.

Lemma SeekToPCR_loop_total (fuel : nat) :
  forall (d : demux_t) (i_last_pos i_pcr : Z),
    0 <= i_packet_size (p_sys d) ->
    (length (s_after (s d)) < fuel)%nat ->
    exists i_pcr' d',
      SeekToPCR_loop fuel d i_last_pos i_pcr = Some (i_pcr', d') /\
      reads_only d d' /\
      (length (s_after (s d')) <= length (s_after (s d)))%nat /\
      (i_pcr' <> i_pcr -> stream_Tell (s d) < stream_Tell (s d')).
Proof.
  induction fuel as [|fuel IH]; intros d i_last_pos i_pcr Hpkt Hfuel; [lia|].
  cbn [SeekToPCR_loop].
  destruct (negb (b_alive d)).
  { exists i_pcr, d. split; [reflexivity|].
    split; [apply reads_only_refl|]. split; [lia|congruence]. }
  destruct (ReadTSPacket_total d Hpkt) as (p & d1 & H1 & R1 & L1 & P1).
  rewrite H1. cbn [bind].
  destruct p as [p_pkt|].
  2:{ exists i_pcr, d1. split; [reflexivity|].
      split; [exact R1|]. split; [lia|congruence]. }
  destruct (P1 ltac:(discriminate)) as [P2 P3].
  set (i_pcr1 := if PIDGet p_pkt =? _ then GetPCR p_pkt else i_pcr).
  destruct (0 <=? i_pcr1).
  { exists i_pcr1, d1. split; [reflexivity|]. split; [exact R1|].
    split; [lia|]. intros _. exact P3. }
  destruct (i_last_pos <=? stream_Tell (s d1)).
  { exists i_pcr1, d1. split; [reflexivity|]. split; [exact R1|].
    split; [lia|]. intros _. exact P3. }
  destruct (IH d1 i_last_pos i_pcr1) as (r & d' & H2 & R2 & L2 & _).
  { destruct R1 as (A & _). now rewrite A. }
  { lia. }
  exists r, d'. split; [exact H2|].
  split; [eapply reads_only_trans; eassumption|]. split; [lia|].
  intros _. pose proof (reads_only_Tell d1 d' R2 L2). lia.
Qed.

(** What SeekToPCR may change besides the position and the diagnostics:
    the current PCR. *)
Definition seeks_only (d d' : demux_t) : Prop :=
  (exists v, p_sys d' = sys_set_i_current_pcr v (p_sys d)) /\
  out d' = out d /\ b_alive d' = b_alive d /\
  stream_content (s d') = stream_content (s d).

Lemma sys_set_i_current_pcr_same (y : demux_sys_t) :
  sys_set_i_current_pcr (i_current_pcr y) y = y.
Proof. now destruct y. Qed.

Lemma sys_set_i_current_pcr_twice (v w : Z) (y : demux_sys_t) :
  sys_set_i_current_pcr v (sys_set_i_current_pcr w y) =
  sys_set_i_current_pcr v y.
Proof. reflexivity. Qed.

Lemma seeks_only_refl (d : demux_t) : seeks_only d d.
Proof.
  split; [exists (i_current_pcr (p_sys d));
          now rewrite sys_set_i_current_pcr_same|].
  repeat split.
Qed.

Lemma seeks_only_trans (d1 d2 d3 : demux_t) :
  seeks_only d1 d2 -> seeks_only d2 d3 -> seeks_only d1 d3.
Proof.
  intros ((v & A1) & A2 & A3 & A4) ((w & B1) & B2 & B3 & B4).
  split; [exists w; now rewrite B1, A1|].
  repeat split; congruence.
Qed.

Lemma reads_only_seeks (d d' : demux_t) : reads_only d d' -> seeks_only d d'.
Proof.
  intros (A1 & A2 & A3 & A4).
  split; [exists (i_current_pcr (p_sys d));
          now rewrite A1, sys_set_i_current_pcr_same|].
  repeat split; assumption.
Qed.

(** SeekToPCR returns.  When it fails the stream is where it was and
    the session state is as before; when it succeeds the current PCR is
    the one read, not negative, and the stream is beyond the position
    asked for, or beyond the last packet when that comes first. *)
Lemma SeekToPCR_total (d : demux_t) (i_pos : Z) :
  0 <= i_packet_size (p_sys d) ->
  exists err d',
    SeekToPCR d i_pos = Some (err, d') /\
    seeks_only d d' /\
    (err <> VLC_SUCCESS ->
     err = VLC_EGENERIC /\ p_sys d' = p_sys d /\ s d' = s d) /\
    (err = VLC_SUCCESS ->
     0 <= i_current_pcr (p_sys d') /\ 0 <= i_pos /\
     Z.min i_pos (int64 (stream_Size (s d) - i_packet_size (p_sys d)))
       < stream_Tell (s d')).
Proof.
  intros Hpkt. unfold SeekToPCR. cbn zeta.
  destruct (i_pos <? 0) eqn:E0.
  { exists VLC_EGENERIC, d. split; [reflexivity|].
    split; [apply seeks_only_refl|]. split; [auto|discriminate]. }
  apply Z.ltb_ge in E0.
  set (i_last_pos := int64 (stream_Size (s d) - i_packet_size (p_sys d))).
  set (i_pos' := if i_last_pos <? i_pos then i_last_pos else i_pos).
  assert (Hmin : i_pos' = Z.min i_pos i_last_pos).
  { subst i_pos'. destruct (Z.ltb_spec i_last_pos i_pos); lia. }
  pose proof (stream_Seek_content (s d) i_pos') as HC.
  pose proof (stream_Seek_status (s d) i_pos') as HS.
  pose proof (stream_Seek_ok (s d) i_pos') as HO.
  destruct (stream_Seek (s d) i_pos') as [err s1]. cbn [fst snd] in *.
  destruct (negb (err =? 0)) eqn:Eerr.
  { exists VLC_EGENERIC, d. split; [reflexivity|].
    split; [apply seeks_only_refl|]. split; [auto|discriminate]. }
  apply negb_false_iff, Z.eqb_eq in Eerr. subst err.
  specialize (HS eq_refl). destruct (HO HS) as [_ HT].
  set (d1 := set_s s1 d).
  destruct (SeekToPCR_loop_total (S (length (s_after s1))) d1 i_last_pos (-1))
    as (i_pcr & d2 & H1 & R2 & L2 & P2); [exact Hpkt|cbn; lia|].
  rewrite H1. cbn [bind].
  assert (R : reads_only d d2).
  { eapply reads_only_trans; [|exact R2]. repeat split. exact HC. }
  destruct (i_pcr <? 0) eqn:Epcr.
  - exists VLC_EGENERIC. eexists. split; [reflexivity|].
    destruct R as (A1 & A2 & A3 & A4).
    assert (Hback : snd (stream_Seek (s d2) (stream_Tell (s d))) = s d)
      by (apply stream_Seek_back; exact A4).
    rewrite Hback.
    split.
    { apply reads_only_seeks. repeat split; assumption. }
    split; [|discriminate]. intros _. repeat split. exact A1.
  - apply Z.ltb_ge in Epcr.
    exists VLC_SUCCESS. eexists. split; [reflexivity|].
    destruct R as (A1 & A2 & A3 & A4).
    split.
    { split; [exists i_pcr; cbn; now rewrite A1|].
      repeat split; assumption. }
    split; [congruence|]. intros _. cbn.
    split; [exact Epcr|]. split; [exact E0|].
    assert (i_pcr <> -1) by lia.
    specialize (P2 H). subst d1. cbn [s set_s] in P2.
    fold i_last_pos. lia.
Qed.

Lemma seeks_only_packet_size (d d' : demux_t) :
  seeks_only d d' -> i_packet_size (p_sys d') = i_packet_size (p_sys d).
Proof. intros ((v & A) & _). now rewrite A. Qed.

Lemma cmod_bound (a b : Z) : 0 < b -> - b < cmod a b < b.
Proof.
  intros Hb. unfold cmod.
  destruct (Z.le_gt_cases 0 a) as [Ha|Ha].
  - pose proof (Z.rem_bound_pos a b Ha Hb). lia.
  - pose proof (Z.rem_bound_pos (- a) b ltac:(lia) Hb) as H.
    rewrite Z.rem_opp_l' in H. lia.
Qed.

Lemma cdiv_half (a : Z) : 0 <= a -> 0 <= cdiv a 2 <= a.
Proof.
  intros Ha. unfold cdiv. rewrite Z.quot_div_nonneg by lia.
  split; [apply Z.div_pos; lia|].
  apply Z.div_le_upper_bound; lia.
Qed.

(** The bisection of Seek ends: the bracket shrinks at every round.
    When it finds a position, the PCR measured there is within 500 ms of
    the target. *)
Lemma Seek_loop_total (fuel : nat) :
  forall (d : demux_t) (i_target_pcr i_head_pos i_tail_pos i_cnt : Z),
    0 < i_packet_size (p_sys d) < 2 ^ 31 ->
    - 2 ^ 61 <= i_head_pos -> i_tail_pos <= 2 ^ 61 ->
    (Z.to_nat (i_tail_pos - i_head_pos + 1) < fuel)%nat ->
    exists b i_cnt' d',
      Seek_loop fuel d i_target_pcr i_head_pos i_tail_pos i_cnt =
        Some (b, i_cnt', d') /\
      seeks_only d d' /\
      (b = true ->
       -500 <= pcr_diff_msec (i_current_pcr (p_sys d')) i_target_pcr <= 500).
Proof.
  induction fuel as [|fuel IH];
    intros d i_target_pcr i_head_pos i_tail_pos i_cnt Hpkt Hh Ht Hfuel; [lia|].
  cbn [Seek_loop].
  destruct (i_head_pos <=? i_tail_pos) eqn:E.
  2:{ exists false, i_cnt, d. split; [reflexivity|].
      split; [apply seeks_only_refl|discriminate]. }
  apply Z.leb_le in E. cbn zeta.
  set (pkt := i_packet_size (p_sys d)) in *.
  assert (H1 : int64 (i_tail_pos - i_head_pos) = i_tail_pos - i_head_pos)
    by (apply int64_id; lia).
  rewrite H1.
  pose proof (cdiv_half (i_tail_pos - i_head_pos) ltac:(lia)) as Hhalf.
  set (half := cdiv (i_tail_pos - i_head_pos) 2) in *.
  assert (H2 : int64 (i_head_pos + half) = i_head_pos + half)
    by (apply int64_id; lia).
  rewrite H2.
  set (mid := i_head_pos + half) in *.
  pose proof (cmod_bound mid pkt ltac:(lia)) as Hdiv.
  set (i_div := cmod mid pkt) in *.
  assert (H3 : int64 (mid - i_div) = mid - i_div) by (apply int64_id; lia).
  rewrite H3.
  set (i_pos := mid - i_div) in *.
  destruct (SeekToPCR_total d i_pos ltac:(fold pkt; lia))
    as (err & d1 & S1 & S2 & S3 & S4).
  rewrite S1. cbn [bind].
  destruct (negb (err =? 0)).
  { exists false, i_cnt, d1. split; [reflexivity|].
    split; [exact S2|discriminate]. }
  set (i_cur := AdjustPCRWrapAround d1 (i_current_pcr (p_sys d1))).
  set (d2 := set_p_sys (sys_set_i_current_pcr i_cur (p_sys d1)) d1).
  assert (S12 : seeks_only d d2).
  { eapply seeks_only_trans; [exact S2|].
    split; [exists i_cur; reflexivity|]. repeat split. }
  assert (Hpkt2 : i_packet_size (p_sys d2) = pkt)
    by (apply (seeks_only_packet_size d d2 S12)).
  destruct (500 <? pcr_diff_msec i_cur i_target_pcr) eqn:E1.
  { assert (H4 : int64 (i_pos - pkt) = i_pos - pkt) by (apply int64_id; lia).
    rewrite H4.
    destruct (IH d2 i_target_pcr i_head_pos (i_pos - pkt) (int32 (i_cnt + 1)))
      as (b & c & d' & R1 & R2 & R3); [rewrite Hpkt2; lia|lia|lia|lia|].
    exists b, c, d'. split; [exact R1|].
    split; [eapply seeks_only_trans; eassumption|exact R3]. }
  destruct (pcr_diff_msec i_cur i_target_pcr <? -500) eqn:E2.
  { assert (H4 : int64 (i_pos + pkt) = i_pos + pkt) by (apply int64_id; lia).
    rewrite H4.
    destruct (IH d2 i_target_pcr (i_pos + pkt) i_tail_pos (int32 (i_cnt + 1)))
      as (b & c & d' & R1 & R2 & R3); [rewrite Hpkt2; lia|lia|lia|lia|].
    exists b, c, d'. split; [exact R1|].
    split; [eapply seeks_only_trans; eassumption|exact R3]. }
  exists true, i_cnt, d2. split; [reflexivity|]. split; [exact S12|].
  intros _. apply Z.ltb_ge in E1, E2. subst d2. cbn. lia.
Qed.

Lemma byte_at_bounded (l : list Z) (lo hi : Z) (i : Z) :
  lo <= 0 <= hi -> Forall (fun x => lo <= x <= hi) l -> lo <= byte_at l i <= hi.
Proof.
  intros H0 HF. unfold byte_at.
  destruct (i <? 0); [lia|].
  destruct (nth_in_or_default (Z.to_nat i) l 0) as [Hin|Hd].
  - rewrite Forall_forall in HF. apply (HF _ Hin).
  - rewrite Hd. lia.
Qed.

Section SeekingProperties.

Variable double : Type.
Variable target_pcr_of : Z -> double -> Z -> Z.
Variable scale_offset : Z -> double -> Z.

Local Abbreviation Seek' := (Seek double target_pcr_of).
Local Abbreviation Control' :=
  (Control_SET_POSITION double target_pcr_of scale_offset).

(** The PCR that Seek looks for. *)
Definition seek_target (d : demux_t) (f : double) : Z :=
  target_pcr_of (int64 (i_last_pcr (p_sys d) - i_first_pcr (p_sys d))) f
                (i_first_pcr (p_sys d)).

(** C6: Seek returns.  It succeeds only with a PCR measured within
    500 ms of the target; when it fails (no such PCR was measured, or
    none was found in the bracket) the stream position, the current PCR
    and the rest of the session state are as before the call, and
    Control, which called it, sets the flag that makes every later
    DEMUX_SET_POSITION seek by byte offset. *)
Theorem Seek_failure_restores (d : demux_t) (f : double) :
  0 < i_packet_size (p_sys d) < 2 ^ 31 ->
  Forall (fun x => - 2 ^ 61 <= x <= 2 ^ 61) (p_pos (p_sys d)) ->
  stream_Size (s d) <= 2 ^ 61 ->
  exists err d',
    Seek' d f = Some (err, d') /\
    (err = VLC_SUCCESS \/ err = VLC_EGENERIC) /\
    (err = VLC_SUCCESS ->
     -500 <= pcr_diff_msec (i_current_pcr (p_sys d')) (seek_target d f)
          <= 500) /\
    (err = VLC_EGENERIC ->
     s d' = s d /\ p_sys d' = p_sys d /\ out d' = out d) /\
    (b_force_seek_per_percent (p_sys d) ||
     (b_dvb_meta (p_sys d) && b_access_control (p_sys d)) ||
     (int64 (i_last_pcr (p_sys d) - i_first_pcr (p_sys d)) <=? 0) = false ->
     exists d'',
       Control' d f = Some (err, d'') /\
       (err = VLC_EGENERIC ->
        s d'' = s d /\
        i_current_pcr (p_sys d'') = i_current_pcr (p_sys d) /\
        b_force_seek_per_percent (p_sys d'') = true /\
        forall f',
          Control' d'' f' =
          let '(e, s1) :=
            stream_Seek (s d'') (scale_offset (stream_Size (s d'')) f') in
          Some (if negb (e =? 0) then VLC_EGENERIC else VLC_SUCCESS,
                set_s s1 d''))).
Proof.
  intros Hpkt Hpos Hsize.
  assert (HS : exists err d',
             Seek' d f = Some (err, d') /\
             (err = VLC_SUCCESS \/ err = VLC_EGENERIC) /\
             (err = VLC_SUCCESS ->
              -500 <= pcr_diff_msec (i_current_pcr (p_sys d')) (seek_target d f)
                   <= 500) /\
             (err = VLC_EGENERIC ->
              s d' = s d /\ p_sys d' = p_sys d /\ out d' = out d)).
  { unfold Seek. cbn zeta. fold (seek_target d f).
    set (i := Seek_bracket _ _ _ 1 0).
    set (i_head_pos := byte_at (p_pos (p_sys d)) (i - 1)).
    set (i_tail_pos := if i <? i_pcrs_num (p_sys d)
                       then byte_at (p_pos (p_sys d)) i
                       else stream_Size (s d)).
    assert (Hh : - 2 ^ 61 <= i_head_pos <= 2 ^ 61)
      by (apply byte_at_bounded; [lia|exact Hpos]).
    assert (Ht : - 2 ^ 61 <= i_tail_pos <= 2 ^ 61).
    { subst i_tail_pos. destruct (i <? i_pcrs_num (p_sys d)).
      - apply byte_at_bounded; [lia|exact Hpos].
      - pose proof (stream_Tell_range (s d)). lia. }
    set (d0 := log _ d).
    destruct (Seek_loop_total (S (Z.to_nat (i_tail_pos - i_head_pos + 1))) d0
                (seek_target d f) i_head_pos i_tail_pos 0)
      as (b & c & d1 & L1 & L2 & L3); [exact Hpkt|lia|lia|lia|].
    rewrite L1. cbn [bind].
    destruct L2 as ((v & A1) & A2 & A3 & A4).
    destruct b; cbn [negb].
    - eexists _, _. split; [reflexivity|]. split; [left; reflexivity|].
      split; [intros _; apply L3; reflexivity|discriminate].
    - eexists _, _. split; [reflexivity|]. split; [right; reflexivity|].
      split; [discriminate|]. intros _.
      cbn [s p_sys out set_p_sys set_s log set_msgs].
      rewrite (stream_Seek_back (s d) (s d1)) by exact A4.
      rewrite A1. change (p_sys d0) with (p_sys d).
      split; [reflexivity|]. split; [|exact A2].
      rewrite sys_set_i_current_pcr_twice.
      apply sys_set_i_current_pcr_same. }
  destruct HS as (err & d' & H1 & H2 & H3 & H4).
  exists err, d'. split; [exact H1|]. split; [exact H2|].
  split; [exact H3|]. split; [exact H4|].
  intros Hgate. unfold Control_SET_POSITION. cbn zeta.
  rewrite Hgate, H1. cbn [bind].
  destruct H2 as [-> | ->].
  - exists d'. split; [reflexivity|discriminate].
  - eexists. split; [reflexivity|]. intros _.
    destruct (H4 eq_refl) as (B1 & B2 & B3).
    cbn [s p_sys set_p_sys]. rewrite B2.
    split; [exact B1|]. split; [reflexivity|]. split; [reflexivity|].
    intros f'. cbn [b_force_seek_per_percent sys_set_b_force_seek_per_percent
                    p_sys set_p_sys orb s].
    destruct (stream_Seek (s d') _) as [e s1].
    destruct (negb (e =? 0)); reflexivity.
Qed.

End SeekingProperties.

(** A packet of 188 bytes on PID [k] that has only an adaptation field,
    with the PCR [v]. *)
Definition pcr_packet (k v : Z) : list Z :=
  [0x47; Z.shiftr k 8; Z.land k 0xff; 0x20; 183; 0x10;
   Z.shiftr v 25; Z.land (Z.shiftr v 17) 0xff; Z.land (Z.shiftr v 9) 0xff;
   Z.land (Z.shiftr v 1) 0xff; Z.shiftl (Z.land v 1) 7; 0] ++ repeat 0xff 176.

(** A stream of 20 packets on PID 256 whose PCR advances by 100 ms per
    packet and jumps ahead by 10 s after the tenth. *)
Definition stream_gap : list Z :=
  flat_map (fun i => pcr_packet 256 (Z.of_nat i * 9000)) (seq 0 10) ++
  flat_map (fun i => pcr_packet 256 (900000 + Z.of_nat i * 9000)) (seq 10 10).

(** A session on that stream, two packets in, as Open leaves it on a
    stream without access control: the first and the last PCR measured,
    and the table of ten samples that CheckPCR takes at every tenth of the
    stream. *)
Definition demux_gap : demux_t :=
  mk_demux (mk_stream (firstn 376 stream_gap) (skipn 376 stream_gap))
    [] [] [] true false true
    (mk_sys 188 0 50 256 0 9000 1071000 false 10
       [0; 18000; 36000; 54000; 72000; 990000; 1008000; 1026000; 1044000;
        1062000]
       [0; 564; 940; 1316; 1692; 2068; 2444; 2820; 3196; 3572]
       ARIBMODE_DISABLED (pid (sys_init 188 0)) false [] 0 false None 0
       false false false true 0 0 0 false 0 [] false).

(** The seek fraction in percent. *)
Definition target_of_percent (diff f first : Z) : Z := diff * f / 100 + first.
Definition offset_of_percent (size f : Z) : Z := size * f / 100.

(** A seek to the middle of [demux_gap], 5.95 s, which falls into the
    jump of the PCR: Control calls Seek, the bisection reads the stream
    twice and finds no PCR within 500 ms; the read position and the
    current PCR are as before, and the flag is set. *)
Lemma Seek_failure_restores_witness :
  stream_Tell (s demux_gap) = 376 /\
  stream_Size (s demux_gap) = 20 * 188 /\
  seek_target Z target_of_percent demux_gap 50 = 535500 /\
  option_map (fun d => (p_pcrs (p_sys d), p_pos (p_sys d)))
    (CheckPCR (set_s (mk_stream [] stream_gap) demux_gap)) =
  Some (p_pcrs (p_sys demux_gap), p_pos (p_sys demux_gap)) /\
  exists d'',
    Control_SET_POSITION Z target_of_percent offset_of_percent demux_gap 50 =
    Some (VLC_EGENERIC, d'') /\
    s d'' = s demux_gap /\
    i_current_pcr (p_sys d'') = 9000 /\
    b_force_seek_per_percent (p_sys demux_gap) = false /\
    b_force_seek_per_percent (p_sys d'') = true /\
    msgs d'' = [msg_Dbg "Seek():i_head_pos:%lld, i_tail_pos:%lld" [1692; 2068];
                msg_Dbg "Seek():cannot find a time position. i_cnt:%d" [2]].
Proof.
  split; [vm_compute; reflexivity|]. split; [vm_compute; reflexivity|].
  split; [vm_compute; reflexivity|].
  split; [vm_compute; reflexivity|].
  destruct (Seek_failure_restores Z target_of_percent offset_of_percent
              demux_gap 50)
    as (err & d' & H1 & _ & _ & _ & H5).
  - vm_compute. split; reflexivity.
  - repeat constructor; vm_compute; discriminate.
  - vm_compute. discriminate.
  - destruct H5 as (d'' & C1 & C2); [vm_compute; reflexivity|].
    assert (F : option_map (fun r => (fst r, msgs (snd r)))
                  (Control_SET_POSITION Z target_of_percent offset_of_percent
                     demux_gap 50) =
                Some (VLC_EGENERIC,
                      [msg_Dbg "Seek():i_head_pos:%lld, i_tail_pos:%lld" [1692; 2068];
                       msg_Dbg "Seek():cannot find a time position. i_cnt:%d" [2]]))
      by (vm_compute; reflexivity).
    rewrite C1 in F. cbn [option_map fst snd] in F. injection F as F1 F2.
    subst err. destruct (C2 eq_refl) as (B1 & B2 & B3 & _).
    exists d''. split; [exact C1|]. split; [exact B1|].
    split; [rewrite B2; reflexivity|]. split; [reflexivity|].
    split; [exact B3|exact F2].
Defined.

(** ** The probe for the last PCR *)

(** What GetLastPCR may change while it probes: the position, the
    diagnostics, the current PCR and the last PCR. *)
Definition probes_only (d d' : demux_t) : Prop :=
  (exists v w,
     p_sys d' = sys_set_i_last_pcr w (sys_set_i_current_pcr v (p_sys d))) /\
  out d' = out d /\ b_alive d' = b_alive d /\
  stream_content (s d') = stream_content (s d).

Lemma probes_only_refl (d : demux_t) : probes_only d d.
Proof.
  split; [exists (i_current_pcr (p_sys d)), (i_last_pcr (p_sys d));
          now destruct (p_sys d)|].
  repeat split.
Qed.

Lemma probes_only_trans (d1 d2 d3 : demux_t) :
  probes_only d1 d2 -> probes_only d2 d3 -> probes_only d1 d3.
Proof.
  intros ((v & w & A1) & A2 & A3 & A4) ((v' & w' & B1) & B2 & B3 & B4).
  split; [exists v', w'; now rewrite B1, A1|].
  repeat split; congruence.
Qed.

Lemma seeks_only_probes (d d' : demux_t) : seeks_only d d' -> probes_only d d'.
Proof.
  intros ((v & A1) & A2 & A3 & A4).
  split; [exists v, (i_last_pcr (p_sys d)); rewrite A1; now destruct (p_sys d)|].
  repeat split; assumption.
Qed.

Lemma probes_only_packet_size (d d' : demux_t) :
  probes_only d d' -> i_packet_size (p_sys d') = i_packet_size (p_sys d).
Proof. intros ((v & w & A) & _). now rewrite A. Qed.

Lemma probes_only_Size (d d' : demux_t) :
  probes_only d d' -> stream_Size (s d') = stream_Size (s d).
Proof. intros (_ & _ & _ & A). now rewrite !stream_Size_content, A. Qed.

(** The position at which GetLastPCR starts to probe: 4500 packets before
    the last one, rounded down to a packet boundary. *)
Definition GetLastPCR_start (d : demux_t) : Z :=
  let y := p_sys d in
  let i_last_pos := int64 (stream_Size (s d) - i_packet_size y) in
  let i_pos := int64 (i_last_pos - int32 (i_packet_size y * 4500)) in
  let i_pos := int64 (i_pos - cmod i_pos (i_packet_size y)) in
  if (i_pos <=? stream_Tell (s d)) && (stream_Size (s d) <=? i_pos)
  then int64 (stream_Tell (s d) + i_packet_size y) else i_pos.

(** The probe of GetLastPCR: its loop, from that position to the last
    packet of the stream. *)
Definition GetLastPCR_probe (d : demux_t) : option demux_t :=
  GetLastPCR_loop (S (S (Z.to_nat (stream_Size (s d))))) d
    (GetLastPCR_start d)
    (int64 (stream_Size (s d) - i_packet_size (p_sys d))).

(** The last PCR in [d1], after a probe that started in [d]: the one of
    [d] when no seek of the probe found a PCR, else the PCR that the last
    successful seek of the probe read from the stream, unwrapped. *)
Definition last_pcr_probed (d d1 : demux_t) : Prop :=
  i_last_pcr (p_sys d1) = i_last_pcr (p_sys d) \/
  exists dk i_pos dk1,
    probes_only d dk /\
    SeekToPCR dk i_pos = Some (VLC_SUCCESS, dk1) /\
    0 <= i_current_pcr (p_sys dk1) /\
    i_last_pcr (p_sys d1) =
    AdjustPCRWrapAround dk1 (i_current_pcr (p_sys dk1)).

Lemma GetLastPCR_loop_probed (fuel : nat) :
  forall (d : demux_t) (i_pos i_last_pos : Z),
    0 <= i_packet_size (p_sys d) ->
    i_last_pos = int64 (stream_Size (s d) - i_packet_size (p_sys d)) ->
    i_pos < 0 \/ (Z.to_nat (i_last_pos - i_pos) < fuel)%nat ->
    (0 < fuel)%nat ->
    exists d',
      GetLastPCR_loop fuel d i_pos i_last_pos = Some d' /\
      probes_only d d' /\ last_pcr_probed d d'.
Proof.
  induction fuel as [|fuel IH];
    intros d i_pos i_last_pos Hpkt Hlast Hfuel Hpos; [lia|].
  cbn [GetLastPCR_loop].
  destruct (negb (b_alive d)).
  { exists d. split; [reflexivity|]. split; [apply probes_only_refl|].
    now left. }
  destruct (SeekToPCR_total d i_pos Hpkt) as (err & d1 & S1 & S2 & S3 & S4).
  rewrite S1. cbn [bind].
  destruct (negb (err =? 0)) eqn:Eerr.
  { exists d1. split; [reflexivity|]. split; [now apply seeks_only_probes|].
    left. destruct S2 as ((v & A) & _). now rewrite A. }
  apply negb_false_iff, Z.eqb_eq in Eerr.
  destruct (S4 Eerr) as (P0 & P1 & P2). rewrite <- Hlast in P2.
  cbn zeta.
  set (d2 := set_p_sys _ d1).
  assert (R2 : probes_only d d2).
  { eapply probes_only_trans; [apply seeks_only_probes; exact S2|].
    split; [|repeat split].
    exists (i_current_pcr (p_sys d1)), (AdjustPCRWrapAround d1
                                          (i_current_pcr (p_sys d1))).
    subst d2. cbn. now destruct (p_sys d1). }
  assert (Q2 : exists dk i_pos dk1,
             probes_only d dk /\
             SeekToPCR dk i_pos = Some (VLC_SUCCESS, dk1) /\
             0 <= i_current_pcr (p_sys dk1) /\
             i_last_pcr (p_sys d2) =
             AdjustPCRWrapAround dk1 (i_current_pcr (p_sys dk1))).
  { exists d, i_pos, d1. split; [apply probes_only_refl|].
    split; [rewrite S1, Eerr; reflexivity|]. split; [exact P0|].
    subst d2. cbn. now destruct (p_sys d1). }
  change (s d2) with (s d1).
  destruct (i_last_pos <=? stream_Tell (s d1)) eqn:E.
  { exists d2. split; [reflexivity|]. split; [exact R2|right; exact Q2]. }
  apply Z.leb_gt in E.
  destruct (IH d2 (stream_Tell (s d1)) i_last_pos) as (d' & H1 & H2 & H3).
  { rewrite (probes_only_packet_size d d2 R2). exact Hpkt. }
  { rewrite (probes_only_packet_size d d2 R2), (probes_only_Size d d2 R2).
    exact Hlast. }
  { right. lia. }
  { lia. }
  exists d'. split; [exact H1|].
  split; [eapply probes_only_trans; eassumption|].
  destruct H3 as [H3|(dk & p & dk1 & B1 & B2 & B3 & B4)].
  - right. destruct Q2 as (dk & p & dk1 & B1 & B2 & B3 & B4).
    exists dk, p, dk1. split; [exact B1|]. split; [exact B2|].
    split; [exact B3|]. rewrite H3. exact B4.
  - right. exists dk, p, dk1. split; [|repeat split; assumption].
    eapply probes_only_trans; eassumption.
Qed.

(** Whether GetLastPCR keeps the last PCR [i_last] it has probed, for a
    stream of [i_size] bytes whose first PCR is [i_first]. *)
Definition rate_plausible (i_size i_first i_last : Z) : bool :=
  let i_rate := implied_rate i_size i_first i_last in
  (TS_SUPPOSED_MINRATE <=? i_rate) && (i_rate <=? TS_SUPPOSED_MAXRATE).

(** C9: GetLastPCR returns.  Its probe seeks from 4500 packets before the
    end of the stream to the last packet and leaves as last PCR the one
    the last successful seek has read (the value before the call when no
    seek found one).  With [i_last] that value, the bitrate implied by the
    stream size and the span from the first PCR to [i_last] is computed
    when [i_last] is not negative: if it is below 500 000 bit/s or above
    55 000 000 bit/s the last PCR is reset to -1, else [i_last] is kept;
    so a last PCR that is not negative after the call implies a bitrate
    within these bounds.  In every case the stream position and the
    current PCR are as before the call, and nothing but the last PCR has
    changed in the session state. *)
Theorem GetLastPCR_plausible (d : demux_t) :
  0 < i_packet_size (p_sys d) <= 204 ->
  stream_Size (s d) <= 2 ^ 61 ->
  exists d1 d',
    GetLastPCR_probe d = Some d1 /\ last_pcr_probed d d1 /\
    GetLastPCR d = Some d' /\
    let i_size := stream_Size (s d) in
    let i_first := i_first_pcr (p_sys d) in
    let i_last := i_last_pcr (p_sys d1) in
    p_sys d' =
      sys_set_i_last_pcr
        (if (0 <=? i_last) && negb (rate_plausible i_size i_first i_last)
         then -1 else i_last)
        (p_sys d) /\
    (0 <= i_last_pcr (p_sys d') ->
     TS_SUPPOSED_MINRATE <= implied_rate i_size i_first (i_last_pcr (p_sys d'))
                         <= TS_SUPPOSED_MAXRATE) /\
    s d' = s d /\
    i_current_pcr (p_sys d') = i_current_pcr (p_sys d) /\
    out d' = out d.
Proof.
  intros Hpkt Hsize. unfold GetLastPCR, GetLastPCR_probe, GetLastPCR_start.
  cbn zeta.
  set (i_last_pos := int64 (stream_Size (s d) - i_packet_size (p_sys d))).
  set (i_pos0 := int64 (i_last_pos - int32 (i_packet_size (p_sys d) * 4500))).
  set (i_pos1 := int64 (i_pos0 - cmod i_pos0 (i_packet_size (p_sys d)))).
  set (i_pos := if (i_pos1 <=? stream_Tell (s d)) &&
                   (stream_Size (s d) <=? i_pos1)
                then int64 (stream_Tell (s d) + i_packet_size (p_sys d))
                else i_pos1).
  pose proof (stream_Tell_range (s d)) as HT.
  assert (E0 : (i_pos <? 0) && (stream_Size (s d) <=? i_pos) = false).
  { apply andb_false_iff.
    destruct (Z.ltb_spec i_pos 0); [right; apply Z.leb_gt; lia|now left]. }
  rewrite E0.
  assert (Hlast : i_last_pos <= stream_Size (s d))
    by (subst i_last_pos; rewrite int64_id; lia).
  destruct (GetLastPCR_loop_probed (S (S (Z.to_nat (stream_Size (s d))))) d
              i_pos i_last_pos) as (d1 & L1 & L2 & L3);
    [lia|reflexivity| |lia|].
  { destruct (Z.lt_ge_cases i_pos 0); [now left|right; lia]. }
  rewrite L1. cbn [bind].
  exists d1. eexists. split; [reflexivity|]. split; [exact L3|].
  split; [reflexivity|].
  destruct L2 as ((v & w & A1) & A2 & A3 & A4).
  assert (Hsz : stream_Size (s d1) = stream_Size (s d))
    by (now rewrite !stream_Size_content, A4).
  assert (Hfi : i_first_pcr (p_sys d1) = i_first_pcr (p_sys d))
    by (now rewrite A1).
  assert (Hla : i_last_pcr (p_sys d1) = w) by (now rewrite A1).
  rewrite Hsz, Hfi, Hla.
  unfold rate_plausible. cbn zeta.
  set (rate := implied_rate (stream_Size (s d)) (i_first_pcr (p_sys d)) w).
  assert (Hneg : negb ((TS_SUPPOSED_MINRATE <=? rate) &&
                       (rate <=? TS_SUPPOSED_MAXRATE)) =
                 (rate <? TS_SUPPOSED_MINRATE) || (TS_SUPPOSED_MAXRATE <? rate)).
  { rewrite negb_andb, !Z.leb_antisym, !negb_involutive. reflexivity. }
  rewrite Hneg.
  assert (Hy : forall x,
             sys_set_i_current_pcr (i_current_pcr (p_sys d))
               (sys_set_i_last_pcr x (p_sys d1)) =
             sys_set_i_last_pcr x (p_sys d)).
  { intros x. rewrite A1. now destruct (p_sys d). }
  destruct (0 <=? w) eqn:Ew; cbn [andb].
  - destruct ((rate <? TS_SUPPOSED_MINRATE) || (TS_SUPPOSED_MAXRATE <? rate))
      eqn:Er.
    + cbn [s p_sys out set_p_sys set_s log set_msgs].
      rewrite (stream_Seek_back (s d) (s d1)) by exact A4.
      rewrite Hy. cbn [i_last_pcr i_current_pcr sys_set_i_last_pcr].
      split; [reflexivity|]. split; [lia|]. repeat split. exact A2.
    + cbn [s p_sys out set_p_sys set_s].
      rewrite (stream_Seek_back (s d) (s d1)) by exact A4.
      rewrite <- (Hy w). rewrite A1.
      cbn [i_last_pcr i_current_pcr sys_set_i_last_pcr sys_set_i_current_pcr].
      split; [reflexivity|]. split; [|repeat split; exact A2].
      intros _. fold rate.
      apply orb_false_iff in Er. destruct Er as [E1 E2].
      apply Z.ltb_ge in E1, E2. lia.
  - cbn [s p_sys out set_p_sys set_s].
    rewrite (stream_Seek_back (s d) (s d1)) by exact A4.
    rewrite <- (Hy w). rewrite A1.
    cbn [i_last_pcr i_current_pcr sys_set_i_last_pcr sys_set_i_current_pcr].
    split; [reflexivity|]. split; [|repeat split; exact A2].
    apply Z.leb_gt in Ew. lia.
Qed.

(** Packets cut down to the 12 bytes that PIDGet and GetPCR read: one with
    the PCR [v] on PID [k], and a null packet. *)
Definition short_pcr_packet (k v : Z) : list Z :=
  [0x47; Z.shiftr k 8; Z.land k 0xff; 0x20; 7; 0x10;
   Z.shiftr v 25; Z.land (Z.shiftr v 17) 0xff; Z.land (Z.shiftr v 9) 0xff;
   Z.land (Z.shiftr v 1) 0xff; Z.shiftl (Z.land v 1) 7; 0].

Definition short_null_packet : list Z :=
  [0x47; 0x1f; 0xff; 0x10; 0; 0; 0; 0; 0; 0; 0; 0].

(** A stream of 4502 such packets, of which the 4498 after the first were
    lost and read as zero: the PCR 0 on PID 256, the gap, and then the
    PCRs [v] and [v + 20] and a null packet. *)
Definition stream_tail (v : Z) : list Z :=
  short_pcr_packet 256 0 ++ repeat 0 (4498 * 12) ++
  short_pcr_packet 256 v ++ short_pcr_packet 256 (v + 20) ++ short_null_packet.

(** A session at the start of that stream, with packets of 12 bytes, after
    GetFirstPCR: the reference PID and the first PCR are known, the last
    PCR is not. *)
Definition demux_tail (v : Z) : demux_t :=
  mk_demux (mk_stream [] (stream_tail v)) [] [] [] true false true
    (mk_sys 12 0 50 256 0 0 (-1) false 10 (repeat 0 10) (repeat 0 10)
       ARIBMODE_DISABLED (pid (sys_init 12 0)) false [] 0 false None 0
       false false false true 0 0 0 false 0 [] false).

(** On [demux_tail 9000] the probe starts at the second packet, skips the
    gap up to the PCR 9000, then reads the PCR 9020, which is the last PCR
    it leaves; the 54 024 bytes in 100 ms are 4 321 920 bit/s, and the
    value is kept.  On [demux_tail 90000000] the probe leaves the PCR
    90000020; 54 024 bytes in 1000 s are 432 bit/s, and the last PCR is
    reset to -1. *)
Lemma GetLastPCR_plausible_witness :
  (GetLastPCR_start (demux_tail 9000) = 12 /\
   i_last_pcr (p_sys (demux_tail 9000)) = -1 /\
   implied_rate (stream_Size (s (demux_tail 9000))) 0 9020 = 4321920 /\
   exists d1 d',
     GetLastPCR_probe (demux_tail 9000) = Some d1 /\
     i_last_pcr (p_sys d1) = 9020 /\
     GetLastPCR (demux_tail 9000) = Some d' /\
     i_last_pcr (p_sys d') = 9020 /\
     s d' = s (demux_tail 9000) /\
     i_current_pcr (p_sys d') = i_current_pcr (p_sys (demux_tail 9000))) /\
  (implied_rate (stream_Size (s (demux_tail 90000000))) 0 90000020 = 432 /\
   exists d1 d',
     GetLastPCR_probe (demux_tail 90000000) = Some d1 /\
     i_last_pcr (p_sys d1) = 90000020 /\
     GetLastPCR (demux_tail 90000000) = Some d' /\
     i_last_pcr (p_sys d') = -1 /\
     s d' = s (demux_tail 90000000)).
Proof.
  split.
  - split; [vm_compute; reflexivity|]. split; [reflexivity|].
    split; [vm_compute; reflexivity|].
    destruct (GetLastPCR_plausible (demux_tail 9000))
      as (d1 & d' & H0 & _ & H1 & H2 & _ & H4 & H5 & _).
    + vm_compute. split; [reflexivity|discriminate].
    + vm_compute. discriminate.
    + assert (F : option_map (fun d => i_last_pcr (p_sys d))
                    (GetLastPCR_probe (demux_tail 9000)) = Some 9020)
        by (vm_compute; reflexivity).
      rewrite H0 in F. cbn [option_map] in F. injection F as F.
      exists d1, d'. split; [exact H0|]. split; [exact F|].
      split; [exact H1|].
      split; [|split; assumption].
      cbv zeta in H2. rewrite H2, F. vm_compute. reflexivity.
  - split; [vm_compute; reflexivity|].
    destruct (GetLastPCR_plausible (demux_tail 90000000))
      as (d1 & d' & H0 & _ & H1 & H2 & _ & H4 & _).
    + vm_compute. split; [reflexivity|discriminate].
    + vm_compute. discriminate.
    + assert (F : option_map (fun d => i_last_pcr (p_sys d))
                    (GetLastPCR_probe (demux_tail 90000000)) = Some 90000020)
        by (vm_compute; reflexivity).
      rewrite H0 in F. cbn [option_map] in F. injection F as F.
      exists d1, d'. split; [exact H0|]. split; [exact F|].
      split; [exact H1|]. split; [|exact H4].
      cbv zeta in H2. rewrite H2, F. vm_compute. reflexivity.
Defined.

(** ** The batch of Demux *)

(** The two settings of the session that bound a batch: the number of
    packets per call and the packet size.  Nothing assigns them after
    Open. *)
Definition batch_key (d : demux_t) : Z * Z :=
  (i_ts_read (p_sys d), i_packet_size (p_sys d)).

(** The blocks handed to the output sink so far. *)
Definition sent_key (d : demux_t) : list es_out_event :=
  filter is_send (out d).

Definition same_batch (y y0 : demux_sys_t) : Prop :=
  i_ts_read y = i_ts_read y0 /\ i_packet_size y = i_packet_size y0.

(** An observation of the session that is blind to the diagnostics, to
    the requests to the sink other than es_out_Send, to the controls of
    the stream, and to the session state but for the batch settings. *)
Definition key_laws {K : Type} (key : demux_t -> K) : Prop :=
  (forall v d, key (set_msgs v d) = key d) /\
  (forall e d, is_send e = false -> key (emit e d) = key d) /\
  (forall v d, key (set_s_ctl v d) = key d) /\
  (forall y d, same_batch y (p_sys d) -> key (set_p_sys y d) = key d).

Lemma batch_key_laws : key_laws batch_key.
Proof.
  repeat split; try reflexivity.
  intros y d [H1 H2]. unfold batch_key. cbn. now rewrite H1, H2.
Qed.

Lemma sent_key_laws : key_laws sent_key.
Proof.
  repeat split; try reflexivity.
  intros e d He. unfold sent_key. rewrite out_emit, filter_app.
  cbn [filter]. rewrite He. apply app_nil_r.
Qed.

Lemma key_fold {A K : Type} (key : demux_t -> K)
    (f : demux_t -> A -> demux_t) (l : list A) :
  (forall acc x, key (f acc x) = key acc) ->
  forall d, key (fold_left f l d) = key d.
Proof.
  intros Hf. induction l as [|x l IH]; intros d; cbn [fold_left];
    [reflexivity|].
  now rewrite IH, Hf.
Qed.

Lemma key_fold_fst {A B K : Type} (key : demux_t -> K)
    (f : demux_t * B -> A -> demux_t * B) (l : list A) :
  (forall st x, key (fst (f st x)) = key (fst st)) ->
  forall st, key (fst (fold_left f l st)) = key (fst st).
Proof.
  intros Hf. induction l as [|x l IH]; intros st; cbn [fold_left];
    [reflexivity|].
  now rewrite IH, Hf.
Qed.

Lemma key_fold_snd {A B K : Type} (key : demux_t -> K)
    (f : B * demux_t -> A -> B * demux_t) (l : list A) :
  (forall st x, key (snd (f st x)) = key (snd st)) ->
  forall st, key (snd (fold_left f l st)) = key (snd st).
Proof.
  intros Hf. induction l as [|x l IH]; intros st; cbn [fold_left];
    [reflexivity|].
  now rewrite IH, Hf.
Qed.

Create Rewrite HintDb batch.

(** Case analysis down to the updates of the session, each of which
    keeps the key; [extra] is tried on what rewriting leaves. *)
Ltac session_cases extra :=
  repeat first
    [ reflexivity
    | progress autorewrite with batch
    | extra
    | progress cbn [fst snd]
    | match goal with
      | H : (_, _) = (_, _) |- _ => inversion H; subst; clear H
      | H : ?X = (?a, ?b) |- _ =>
        is_var a; is_var b;
        let H1 := fresh in
        let H2 := fresh in
        pose proof (f_equal fst H) as H1;
        pose proof (f_equal snd H) as H2;
        cbn [fst snd] in H1, H2; clear H; subst a b
      end
    | break_match_goal
    | match goal with
      | H : context [match ?x with _ => _ end] |- _ => destruct x eqn:?
      end ].

Section SessionKey.

Variable K : Type.
Variable key : demux_t -> K.
Hypothesis laws : key_laws key.

Variable PMTSetupEs :
  demux_sys_t -> ts_prg_psi_t -> dvbpsi_pmt_t -> dvbpsi_pmt_es_t ->
  ts_pmt_registration_type_t -> ts_pid_t -> ts_pid_t * list log_entry.
Variable IODNew : list Z -> option iod_descriptor_t.
Variable dvbpsi_decode : dvbpsi_handle -> list Z -> list psi_event.

Lemma key_set_msgs (v : list log_entry) (d : demux_t) :
  key (set_msgs v d) = key d.
Proof. apply laws. Qed.

Lemma key_emit (e : es_out_event) (d : demux_t) :
  is_send e = false -> key (emit e d) = key d.
Proof. apply laws. Qed.

Lemma key_set_s_ctl (v : list stream_control_event) (d : demux_t) :
  key (set_s_ctl v d) = key d.
Proof. apply laws. Qed.

Lemma key_sys (y : demux_sys_t) (d : demux_t) :
  same_batch y (p_sys d) -> key (set_p_sys y d) = key d.
Proof. apply laws. Qed.

Lemma key_put_pid (k : Z) (q : ts_pid_t) (d : demux_t) :
  key (put_pid k q d) = key d.
Proof. apply key_sys. split; reflexivity. Qed.

Lemma key_log (m : log_entry) (d : demux_t) : key (log m d) = key d.
Proof. apply key_set_msgs. Qed.

Lemma key_put_es (k : Z) (e : ts_es_t) (d : demux_t) :
  key (put_es k e d) = key d.
Proof. apply key_put_pid. Qed.

Lemma key_add_pmt_es (n : Z) (d : demux_t) : key (add_pmt_es n d) = key d.
Proof. apply key_sys. split; reflexivity. Qed.

Lemma key_stream_Control (e : stream_control_event) (d : demux_t) :
  key (snd (stream_Control e d)) = key d.
Proof. apply key_set_s_ctl. Qed.

Lemma key_es_out_Add (f : es_format_t) (d : demux_t) :
  key (snd (es_out_Add f d)) = key d.
Proof. apply key_emit. reflexivity. Qed.

Hint Rewrite key_put_pid key_log key_set_msgs key_put_es key_add_pmt_es
  key_stream_Control key_es_out_Add : batch.
Hint Rewrite key_emit using reflexivity : batch.

Ltac key_cases :=
  session_cases ltac:(rewrite key_sys by (split; reflexivity)).

Lemma key_SetPIDFilter (d : demux_t) (n : Z) (b : bool) :
  key (snd (SetPIDFilter d n b)) = key d.
Proof. unfold SetPIDFilter. key_cases. Qed.

Lemma key_es_delete (e : ts_es_t) (d : demux_t) :
  key (es_delete e d) = key d.
Proof. unfold es_delete. key_cases. Qed.

Hint Rewrite key_SetPIDFilter key_es_delete : batch.

Lemma key_PIDClean (d : demux_t) (k : Z) : key (PIDClean d k) = key d.
Proof.
  unfold PIDClean. cbn zeta. autorewrite with batch.
  destruct (psi (get_pid d k)); [now autorewrite with batch|].
  rewrite key_fold by (intros; apply key_es_delete).
  key_cases.
Qed.

Lemma key_ValidateDVBMeta (d : demux_t) (n : Z) :
  key (ValidateDVBMeta d n) = key d.
Proof.
  unfold ValidateDVBMeta. destruct (_ || _); [reflexivity|].
  cbn zeta. rewrite key_sys by (split; reflexivity).
  rewrite key_fold; [now autorewrite with batch|].
  intros acc x. key_cases.
Qed.

Lemma key_update_last_prg (k : Z) (f : ts_prg_psi_t -> ts_prg_psi_t)
    (d : demux_t) :
  key (update_last_prg k f d) = key d.
Proof. unfold update_last_prg. key_cases. Qed.

Lemma key_update_prg (k : Z) (idx : nat) (f : ts_prg_psi_t -> ts_prg_psi_t)
    (d : demux_t) :
  key (update_prg k idx f d) = key d.
Proof. unfold update_prg. key_cases. Qed.

Hint Rewrite key_PIDClean key_ValidateDVBMeta key_update_last_prg
  key_update_prg : batch.

Lemma key_pat_clean_es (pmt_rm : list Z) (i : Z) :
  forall d, key (pat_clean_es pmt_rm i d) = key d.
Proof.
  induction pmt_rm as [|j rest IH]; intros d; cbn [pat_clean_es];
    [reflexivity|].
  destruct (b_valid (get_pid d i)); [|reflexivity].
  destruct (existsb _ _); [|apply IH].
  rewrite IH. key_cases.
Qed.

Lemma key_pat_delete_pmt (d : demux_t) (k : Z) :
  key (pat_delete_pmt d k) = key d.
Proof.
  unfold pat_delete_pmt. cbn zeta.
  rewrite key_sys by (split; reflexivity). autorewrite with batch.
  rewrite key_fold by (intros; apply key_emit; reflexivity).
  key_cases.
Qed.

Hint Rewrite key_pat_clean_es key_pat_delete_pmt : batch.

Lemma key_pat_clean_old (d : demux_t) (p_pat : dvbpsi_pat_t) :
  key (pat_clean_old d p_pat) = key d.
Proof.
  unfold pat_clean_old. destruct (0 <? i_pmt (p_sys d)); [|reflexivity].
  cbn zeta.
  rewrite key_fold by (intros; apply key_pat_delete_pmt).
  rewrite key_fold; [reflexivity|].
  intros acc x. key_cases.
Qed.

Lemma key_pat_add_program (d : demux_t) (p : dvbpsi_pat_program_t) :
  key (pat_add_program d p) = key d.
Proof. unfold pat_add_program. key_cases. Qed.

Hint Rewrite key_pat_clean_old key_pat_add_program : batch.

Lemma key_PATCallBack (d : demux_t) (p_pat : dvbpsi_pat_t) :
  key (PATCallBack d p_pat) = key d.
Proof.
  unfold PATCallBack. cbn zeta.
  destruct (psi (get_pid _ 0)); [|now autorewrite with batch].
  destruct (_ || _); [now autorewrite with batch|].
  assert (H : key
                (fold_left pat_add_program (pat_programs p_pat)
                   (pat_clean_old
                      (log (msg_Dbg "new PAT ts_id=%d version=%d current_next=%d"
                              [pat_i_ts_id p_pat; pat_i_version p_pat;
                               if pat_b_current_next p_pat then 1 else 0])
                           (log (msg_Dbg "PATCallBack called" []) d)) p_pat)) =
              key d).
  { rewrite key_fold by (intros; apply key_pat_add_program).
    now autorewrite with batch. }
  destruct (psi _); [now autorewrite with batch|exact H].
Qed.

Lemma key_pmt_add_es (q : ts_pid_t) (d : demux_t) :
  key (snd (pmt_add_es q d)) = key d.
Proof.
  unfold pmt_add_es. destruct (es q) as [e|]; [|reflexivity].
  pose proof (key_es_out_Add (fmt e) d) as H0.
  destruct (es_out_Add (fmt e) d) as [new_id d1]. cbn [snd] in H0.
  match goal with
  | |- context [fold_left ?f ?l ?st] =>
    pose proof (key_fold_snd key f l) as H;
    specialize (H ltac:(intros [acc dd] x;
                        pose proof (key_es_out_Add (fmt x) dd) as Hx;
                        destruct (es_out_Add (fmt x) dd); exact Hx) st);
    destruct (fold_left f l st) as [extras d2]
  end.
  cbn [snd] in *. autorewrite with batch. congruence.
Qed.

Hint Rewrite key_pmt_add_es : batch.

Lemma key_pmt_es_step (kpmt : Z) (idx : nat) (p_pmt : dvbpsi_pmt_t)
    (reg : ts_pmt_registration_type_t) (st : demux_t * list Z)
    (p_es : dvbpsi_pmt_es_t) :
  key (fst (pmt_es_step PMTSetupEs kpmt idx p_pmt reg st p_es)) = key (fst st).
Proof.
  destruct st as [d clean]. unfold pmt_es_step. cbn zeta. cbn [fst].
  destruct (_ && _); [cbn [fst]; now autorewrite with batch|].
  set (d3 := fold_left _ (pmt_es_descriptors p_es) _).
  assert (H3 : key d3 = key d).
  { subst d3. rewrite key_fold by (intros; apply key_log).
    now autorewrite with batch. }
  clearbody d3.
  key_cases; exact H3.
Qed.

Lemma key_PMT_apply (d : demux_t) (kpmt : Z) (idx : nat)
    (p_pmt : dvbpsi_pmt_t) :
  key (PMT_apply PMTSetupEs IODNew d kpmt idx p_pmt) = key d.
Proof.
  unfold PMT_apply. cbn zeta.
  destruct (pmt_parse_descriptors IODNew (pmt_descriptors p_pmt))
    as [[new_iod reg] m].
  match goal with
  | |- context [fold_left (pmt_es_step PMTSetupEs kpmt idx p_pmt reg) ?l ?st] =>
    pose proof (key_fold_fst key (pmt_es_step PMTSetupEs kpmt idx p_pmt reg) l
                  (key_pmt_es_step kpmt idx p_pmt reg) st) as H;
    destruct (fold_left (pmt_es_step PMTSetupEs kpmt idx p_pmt reg) l st)
      as [d9 clean]
  end.
  cbn [fst] in H.
  rewrite key_fold.
  2:{ intros acc i. key_cases. }
  assert (H9 : key d9 = key d).
  { rewrite H. key_cases. }
  key_cases; exact H9.
Qed.

Lemma key_PMTCallBack (d : demux_t) (p_pmt : dvbpsi_pmt_t) :
  key (PMTCallBack PMTSetupEs IODNew d p_pmt) = key d.
Proof.
  unfold PMTCallBack. cbn zeta.
  destruct (find_pmt _ _ _) as [[kpmt idx]|]; [|now autorewrite with batch].
  destruct (_ && _); [now autorewrite with batch|].
  rewrite key_PMT_apply. now autorewrite with batch.
Qed.

Lemma key_apply_meta (u : dvb_meta_update) (d : demux_t) :
  key (apply_meta u d) = key d.
Proof.
  unfold apply_meta. cbn zeta.
  rewrite !key_fold by (intros; apply key_emit; reflexivity).
  rewrite key_sys.
  - destruct (m_sdt_version u), (psi (get_pid d 17));
      now autorewrite with batch.
  - destruct (m_tdt_delta u), (m_dvb_start u), (m_dvb_length u),
      (m_broken_charset u); split; reflexivity.
Qed.

Lemma key_apply_psi_event (d : demux_t) (ev : psi_event) :
  key (apply_psi_event PMTSetupEs IODNew d ev) = key d.
Proof.
  destruct ev; cbn [apply_psi_event].
  - apply key_PATCallBack.
  - apply key_PMTCallBack.
  - apply key_apply_meta.
Qed.

Lemma key_push_psi (d : demux_t) (k : Z) (data : list Z) :
  key (push_psi PMTSetupEs IODNew dvbpsi_decode d k data) = key d.
Proof.
  unfold push_psi. cbn zeta.
  destruct (psi (get_pid d k)) as [t|]; [|reflexivity].
  destruct (psi_handle t); [|reflexivity].
  rewrite key_fold by (intros; apply key_apply_psi_event).
  now autorewrite with batch.
Qed.

Lemma key_push_prgs (n : nat) (data : list Z) (k : Z) :
  forall (d : demux_t) (idx : nat),
    key (push_prgs PMTSetupEs IODNew dvbpsi_decode n d k idx data) = key d.
Proof.
  induction n as [|n IH]; intros d idx; cbn [push_prgs]; [reflexivity|].
  destruct (nth_error (psi_prgs d k) idx) as [g|]; [|reflexivity].
  rewrite IH. destruct (prg_handle g); [|reflexivity].
  rewrite key_fold by (intros; apply key_apply_psi_event).
  now autorewrite with batch.
Qed.

Lemma key_continuity_check (d : demux_t) (k cc : Z) (b1 b2 : bool) :
  key (continuity_check d k cc b1 b2) = key d.
Proof. unfold continuity_check. key_cases. Qed.

Lemma key_PCRHandle_pmts (pmts : list Z) :
  forall (d : demux_t) (n pcr g : Z),
    key (PCRHandle_pmts pmts d n pcr g) = key d.
Proof.
  induction pmts as [|kpmt rest IH]; intros d n pcr g; cbn [PCRHandle_pmts];
    [reflexivity|].
  destruct (g <? 0); [|reflexivity].
  destruct (psi (get_pid d kpmt)) as [t|]; [|apply IH].
  destruct (PCRHandle_prgs (prg t) n pcr g false) as [[prgs g'] bm].
  rewrite IH. key_cases.
Qed.

Lemma key_PCRHandle (d : demux_t) (k : Z) (p_bk : block_t) :
  key (PCRHandle d k p_bk) = key d.
Proof.
  unfold PCRHandle. cbn zeta.
  destruct (i_pmt_es (p_sys d) <=? 0); [reflexivity|].
  destruct (GetPCR p_bk <? 0); [reflexivity|].
  rewrite key_PCRHandle_pmts. key_cases.
Qed.

Lemma key_scrambled_changed (d : demux_t) (k : Z) (b : bool) :
  key (scrambled_changed d k b) = key d.
Proof.
  unfold scrambled_changed. destruct (negb _); [|reflexivity].
  cbn zeta. rewrite key_emit by reflexivity.
  rewrite key_fold by (intros; apply key_emit; reflexivity).
  now autorewrite with batch.
Qed.

(** The start of the loop body of Demux: the recording is switched on. *)
Lemma key_start_record (d : demux_t) :
  key (if b_start_record (p_sys d) then
         let d' := snd (stream_Control (STREAM_SET_RECORD_STATE true) d) in
         set_p_sys (sys_set_b_start_record false (p_sys d')) d'
       else d) = key d.
Proof.
  destruct (b_start_record (p_sys d)); [|reflexivity].
  cbn zeta. rewrite key_sys by (split; reflexivity).
  apply key_stream_Control.
Qed.

End SessionKey.

(** *** The batch settings through GatherData *)

#[local] Hint Rewrite
  (key_put_pid _ batch_key batch_key_laws)
  (key_log _ batch_key batch_key_laws)
  (key_set_msgs _ batch_key batch_key_laws)
  (key_put_es _ batch_key batch_key_laws)
  (key_continuity_check _ batch_key batch_key_laws)
  (key_PCRHandle _ batch_key batch_key_laws)
  (key_scrambled_changed _ batch_key batch_key_laws) : batch.

Ltac batch_cases := session_cases ltac:(fail).

Lemma batch_key_emit (e : es_out_event) (d : demux_t) :
  batch_key (emit e d) = batch_key d.
Proof. reflexivity. Qed.

Lemma batch_key_send_blocks (q : ts_pid_t) (e : ts_es_t) (b_trust : bool)
    (blocks : list block_t) (d : demux_t) :
  batch_key (send_blocks q e b_trust blocks d) = batch_key d.
Proof.
  unfold batch_key.
  destruct (send_blocks_spec q e b_trust blocks d) as (_ & _ & H & _).
  cbn zeta in H. now rewrite H.
Qed.

#[local] Hint Rewrite batch_key_emit batch_key_send_blocks : batch.

Section BatchGathering.

Variable header_garbage : list Z.
Variable opus_frame_duration : list Z -> Z -> Z.

Lemma batch_key_ParsePES (d : demux_t) (q : ts_pid_t) (e : ts_es_t)
    (c : list block_t) :
  batch_key (ParsePES header_garbage opus_frame_duration d q e c) = batch_key d.
Proof.
  unfold batch_key. now rewrite ParsePES_p_sys.
Qed.

Lemma batch_key_ParseTableSection (d : demux_t) (q : ts_pid_t) (e : ts_es_t)
    (c : list block_t) :
  batch_key (ParseTableSection d q e c) = batch_key d.
Proof. unfold ParseTableSection. batch_cases. Qed.

Lemma batch_key_ParseData (d : demux_t) (k : Z) :
  batch_key (ParseData header_garbage opus_frame_duration d k) = batch_key d.
Proof.
  unfold ParseData. cbn zeta.
  destruct (es (get_pid d k)); [|reflexivity].
  destruct (data_type t).
  - now rewrite batch_key_ParsePES.
  - now rewrite batch_key_ParseTableSection.
Qed.

Hint Rewrite batch_key_ParseData : batch.

Lemma batch_key_GatherData_unit_start (d : demux_t) (k : Z) (b : block_t) :
  batch_key (fst (GatherData_unit_start header_garbage opus_frame_duration
                    d k b)) = batch_key d.
Proof. unfold GatherData_unit_start. batch_cases. Qed.

Lemma batch_key_GatherData_continue (d : demux_t) (k : Z) (b : block_t) :
  batch_key (fst (GatherData_continue header_garbage opus_frame_duration
                    d k b)) = batch_key d.
Proof. unfold GatherData_continue. batch_cases. Qed.

Hint Rewrite batch_key_GatherData_unit_start batch_key_GatherData_continue
  : batch.

Lemma batch_key_GatherData (d : demux_t) (k : Z) (p_bk : block_t) :
  batch_key (fst (GatherData header_garbage opus_frame_duration d k p_bk)) =
  batch_key d.
Proof. unfold GatherData. batch_cases. Qed.

(** *** What is sent while GatherData does not complete a unit *)

Lemma sent_key_GatherData_unit_start (d : demux_t) (k : Z) (b : block_t) :
  let r := GatherData_unit_start header_garbage opus_frame_duration d k b in
  snd r = false -> sent_key (fst r) = sent_key d.
Proof.
  cbn zeta. unfold GatherData_unit_start.
  destruct (get_es d k) as [e|]; [|reflexivity].
  match goal with
  | |- context [let '(d1, p_bk) := ?X in _] =>
    assert (H1 : sent_key (fst X) = sent_key d)
      by (destruct (data_type e); [reflexivity|];
          destruct (0 <? i_buffer b); reflexivity);
    destruct X as [d1 b1]
  end.
  cbn [fst] in H1.
  destruct (pid_has_data (get_pid d1 k)).
  - destruct (get_es _ k); [|discriminate].
    destruct (gather_complete _); discriminate.
  - destruct (get_es d1 k); [|intros _; exact H1].
    destruct (gather_complete _); [discriminate|].
    intros _. exact H1.
Qed.

Lemma sent_key_GatherData_continue (d : demux_t) (k : Z) (b : block_t) :
  let r := GatherData_continue header_garbage opus_frame_duration d k b in
  snd r = false -> sent_key (fst r) = sent_key d.
Proof.
  cbn zeta. unfold GatherData_continue.
  destruct (get_es d k) as [e|]; [|reflexivity].
  destruct (p_data e); [reflexivity|].
  destruct (gather_complete _); [discriminate|reflexivity].
Qed.

(** A packet on which GatherData does not report a completed unit
    sends nothing to the sink. *)
Lemma sent_key_GatherData (d : demux_t) (k : Z) (p_bk : block_t) :
  let r := GatherData header_garbage opus_frame_duration d k p_bk in
  snd r = false -> sent_key (fst r) = sent_key d.
Proof.
  cbn zeta.
  destruct (get_es d k) as [e|] eqn:He.
  2:{ unfold GatherData. now rewrite He. }
  destruct (GatherData_prelude header_garbage opus_frame_duration d k p_bk e He)
    as (d4 & K4 & Heq).
  rewrite Heq. clear Heq.
  destruct K4 as (c & _ & _ & Hout & _).
  destruct (_ || _); [intros _; exact Hout|].
  cbn zeta.
  pose proof (key_scrambled_changed _ sent_key sent_key_laws d4 k
                (pkt_scrambled p_bk)) as H5.
  destruct (pkt_unit_start p_bk); intros Hr.
  - rewrite sent_key_GatherData_unit_start by exact Hr.
    rewrite H5. exact Hout.
  - rewrite sent_key_GatherData_continue by exact Hr.
    rewrite H5. exact Hout.
Qed.

End BatchGathering.

Section BatchTables.

Variable header_garbage : list Z.
Variable opus_frame_duration : list Z -> Z -> Z.
Variable PMTSetupEs :
  demux_sys_t -> ts_prg_psi_t -> dvbpsi_pmt_t -> dvbpsi_pmt_es_t ->
  ts_pmt_registration_type_t -> ts_pid_t -> ts_pid_t * list log_entry.
Variable IODNew : list Z -> option iod_descriptor_t.
Variable dvbpsi_decode : dvbpsi_handle -> list Z -> list psi_event.

Local Abbreviation Demux_packet' :=
  (Demux_packet header_garbage opus_frame_duration PMTSetupEs IODNew
                dvbpsi_decode).

(** The part of the loop body of Demux that does not gather. *)
Lemma key_Demux_packet {K : Type} (key : demux_t -> K) (d : demux_t)
    (p_pkt : block_t) :
  key_laws key ->
  (let r := GatherData header_garbage opus_frame_duration
              (if b_start_record (p_sys d) then
                 let d' := snd (stream_Control (STREAM_SET_RECORD_STATE true) d) in
                 set_p_sys (sys_set_b_start_record false (p_sys d')) d'
               else d) (PIDGet p_pkt) p_pkt in
   snd (Demux_packet' d p_pkt) = snd r -> key (fst r) = key d) ->
  key (fst (Demux_packet' d p_pkt)) = key d.
Proof.
  intros laws HG. unfold Demux_packet in *. cbn zeta in *.
  pose proof (key_start_record _ key laws d) as H1. cbn zeta in H1.
  set (d1 := if b_start_record (p_sys d) then _ else d) in *.
  clearbody d1.
  destruct (b_valid (get_pid d1 (PIDGet p_pkt))).
  - destruct (psi (get_pid d1 (PIDGet p_pkt))) as [t|].
    + destruct (_ || _); cbn [fst]; rewrite (key_put_pid _ key laws).
      * now rewrite (key_push_psi _ key laws).
      * now rewrite (key_push_prgs _ key laws).
    + destruct (GatherData _ _ d1 _ p_pkt) as [d2 b]. cbn [fst snd] in *.
      rewrite (key_put_pid _ key laws). apply HG. reflexivity.
  - cbn [fst]. rewrite (key_put_pid _ key laws), (key_PCRHandle _ key laws).
    destruct (negb _); [rewrite (key_log _ key laws)|]; exact H1.
Qed.

Lemma batch_key_Demux_packet (d : demux_t) (p_pkt : block_t) :
  batch_key (fst (Demux_packet' d p_pkt)) = batch_key d.
Proof.
  apply key_Demux_packet; [apply batch_key_laws|].
  cbn zeta. intros _. rewrite batch_key_GatherData.
  apply (key_start_record _ batch_key batch_key_laws).
Qed.

(** A packet that does not complete a frame sends nothing to the sink. *)
Lemma sent_key_Demux_packet (d : demux_t) (p_pkt : block_t) :
  snd (Demux_packet' d p_pkt) = false ->
  sent_key (fst (Demux_packet' d p_pkt)) = sent_key d.
Proof.
  intros Hb. apply key_Demux_packet; [apply sent_key_laws|].
  cbn zeta. intros Heq. rewrite sent_key_GatherData by congruence.
  apply (key_start_record _ sent_key sent_key_laws).
Qed.

End BatchTables.

(** Whether the batch ends after a step: the packet completed a frame,
    or the call was waiting for a first elementary stream and one is
    registered now. *)
Definition step_stops (b_wait_es : bool) (st : demux_step_t) : bool :=
  step_b_frame st || (b_wait_es && (0 <? step_i_pmt_es st)).

(** No step follows a step that ends the batch. *)
Fixpoint stops_at_first (b_wait_es : bool) (steps : list demux_step_t)
    : Prop :=
  match steps with
  | [] => True
  | st :: rest =>
    if step_stops b_wait_es st then rest = []
    else stops_at_first b_wait_es rest
  end.

Section BatchProperties.

Variable header_garbage : list Z.
Variable opus_frame_duration : list Z -> Z -> Z.
Variable PMTSetupEs :
  demux_sys_t -> ts_prg_psi_t -> dvbpsi_pmt_t -> dvbpsi_pmt_es_t ->
  ts_pmt_registration_type_t -> ts_pid_t -> ts_pid_t * list log_entry.
Variable IODNew : list Z -> option iod_descriptor_t.
Variable dvbpsi_decode : dvbpsi_handle -> list Z -> list psi_event.

Local Abbreviation Demux_loop' :=
  (Demux_loop header_garbage opus_frame_duration PMTSetupEs IODNew
              dvbpsi_decode).
Local Abbreviation Demux' :=
  (Demux header_garbage opus_frame_duration PMTSetupEs IODNew dvbpsi_decode).

Lemma Demux_loop_total (fuel : nat) :
  forall (d : demux_t) (i_pkt : Z) (b_wait_es : bool),
    0 <= i_packet_size (p_sys d) ->
    0 <= i_pkt -> i_ts_read (p_sys d) < 2 ^ 31 ->
    (Z.to_nat (i_ts_read (p_sys d) - i_pkt) <= fuel)%nat ->
    exists ret d' steps,
      Demux_loop' fuel d i_pkt b_wait_es = Some (ret, d', steps) /\
      batch_key d' = batch_key d /\
      Z.of_nat (length steps) <= Z.max 0 (i_ts_read (p_sys d) - i_pkt) /\
      stops_at_first b_wait_es steps /\
      Forall (fun st => step_b_frame st = false -> step_sent st = 0) steps /\
      (ret = 0 \/ ret = 1).
Proof.
  induction fuel as [|fuel IH]; intros d i_pkt b_wait_es Hpkt Hi Hn Hfuel.
  - cbn [Demux_loop].
    assert (E : (i_pkt <? i_ts_read (p_sys d)) = false)
      by (apply Z.ltb_ge; lia).
    rewrite E. exists 1, d, []. repeat split; auto. cbn. lia.
  - cbn [Demux_loop].
    destruct (i_pkt <? i_ts_read (p_sys d)) eqn:E.
    2:{ exists 1, d, []. repeat split; auto. cbn. lia. }
    apply Z.ltb_lt in E.
    destruct (ReadTSPacket_total d Hpkt) as (p & d1 & R1 & R2 & _).
    rewrite R1. cbn [bind].
    assert (K1 : batch_key d1 = batch_key d).
    { destruct R2 as (A & _). unfold batch_key. now rewrite A. }
    destruct p as [p_pkt|].
    2:{ exists 0, d1, []. repeat split; auto. cbn. lia. }
    pose proof (batch_key_Demux_packet header_garbage opus_frame_duration
                  PMTSetupEs IODNew dvbpsi_decode d1 p_pkt) as K2.
    pose proof (sent_key_Demux_packet header_garbage opus_frame_duration
                  PMTSetupEs IODNew dvbpsi_decode d1 p_pkt) as K5.
    destruct (Demux_packet _ _ _ _ _ d1 p_pkt) as [d2 b_frame].
    cbn [fst snd] in K2, K5.
    assert (K : batch_key d2 = batch_key d) by congruence.
    set (st := mk_step p_pkt b_frame (i_pmt_es (p_sys d2)) _).
    assert (Hst : step_b_frame st = false -> step_sent st = 0).
    { subst st. cbn [step_b_frame step_sent]. intros Hb.
      specialize (K5 Hb). unfold sent_key in K5. rewrite K5. lia. }
    assert (Hstop : step_stops b_wait_es st =
                    b_frame || (b_wait_es && (0 <? i_pmt_es (p_sys d2))))
      by reflexivity.
    clearbody st.
    destruct (b_frame || (b_wait_es && (0 <? i_pmt_es (p_sys d2)))) eqn:Es.
    { exists 1, d2, [st]. split; [reflexivity|]. split; [exact K|].
      split; [cbn [length]; lia|].
      split; [cbn [stops_at_first]; now rewrite Hstop|].
      split; [|now right]. constructor; [exact Hst|constructor]. }
    assert (H32 : int32 (i_pkt + 1) = i_pkt + 1) by (apply int32_id; lia).
    rewrite H32.
    injection K as K3 K4.
    destruct (IH d2 (i_pkt + 1) b_wait_es)
      as (ret & d3 & steps & L1 & L2 & L3 & L4 & L5 & L6);
      [lia|lia|lia|rewrite K3; lia|].
    rewrite L1. cbn [bind].
    exists ret, d3, (st :: steps). split; [reflexivity|].
    split; [rewrite L2; unfold batch_key; congruence|].
    split; [cbn [length]; rewrite K3 in L3; lia|].
    split; [cbn [stops_at_first]; rewrite Hstop; exact L4|].
    split; [|exact L6]. constructor; assumption.
Qed.

(** C8: on a session that keeps the batch size Open gave it (50
    packets), every call of Demux returns after reading at most 50
    packets, hence at most 100; no packet is read after one that completed
    a frame, nor, when the call started without a registered elementary
    stream, after one that left the count of registered streams positive.
    A packet that handed a block to the output sink completed a frame, so
    the batch ends with it.  The batch size and the packet size are as
    before after the call, so the same holds for the next call. *)
Theorem Demux_batch (d : demux_t) (pkt hdr : Z) :
  0 <= i_packet_size (p_sys d) ->
  i_ts_read (p_sys d) = i_ts_read (sys_init pkt hdr) ->
  exists ret d' steps,
    Demux' d = Some (ret, d', steps) /\
    (length steps <= 50)%nat /\ (length steps <= 100)%nat /\
    stops_at_first (i_pmt_es (p_sys d) <=? 0) steps /\
    Forall (fun st => step_sent st <> 0 -> step_b_frame st = true) steps /\
    (ret = 0 \/ ret = 1) /\
    i_ts_read (p_sys d') = i_ts_read (p_sys d) /\
    i_packet_size (p_sys d') = i_packet_size (p_sys d).
Proof.
  intros Hpkt Hread. change (i_ts_read (sys_init pkt hdr)) with 50 in Hread.
  unfold Demux.
  destruct (Demux_loop_total (Z.to_nat (i_ts_read (p_sys d))) d 0
              (i_pmt_es (p_sys d) <=? 0))
    as (ret & d' & steps & L1 & L2 & L3 & L4 & L5 & L6);
    [exact Hpkt|lia|rewrite Hread; lia|rewrite Hread; lia|].
  exists ret, d', steps. split; [exact L1|].
  rewrite Hread in L3. injection L2 as K1 K2.
  split; [lia|]. split; [lia|]. split; [exact L4|].
  split.
  { eapply Forall_impl; [|exact L5]. cbn beta. intros st H Hs.
    destruct (step_b_frame st); [reflexivity|].
    exfalso. apply Hs, H. reflexivity. }
  split; [exact L6|]. split; assumption.
Qed.

End BatchProperties.

(** A null packet: PID 8191, payload only. *)
Definition null_packet : list Z := [0x47; 0x1f; 0xff; 0x10] ++ repeat 0xff 184.

(** A fresh session on a stream of 60 null packets. *)
Definition demux_nulls : demux_t :=
  set_s (mk_stream [] (concat (repeat null_packet 60))) demux_fresh.

(** The session with an idle video stream on PID 200, on a stream of four
    packets: a null packet, a unit start whose PES is complete in its own
    packet, and two more null packets. *)
Definition demux_frames : demux_t :=
  set_s (mk_stream [] (null_packet ++ p_buffer packet_start_20 ++
                       null_packet ++ null_packet)) demux_idle.

(** What a call of Demux is observed to do: the value returned, the read
    position after it, and for each packet whether it completed a frame
    and how many blocks it handed to the sink. *)
Definition batch_summary (r : option (Z * demux_t * list demux_step_t))
    : option (Z * Z * list (bool * Z)) :=
  match r with
  | Some (ret, d', steps) =>
    Some (ret, stream_Tell (s d'),
          map (fun st => (step_b_frame st, step_sent st)) steps)
  | None => None
  end.

(** On 60 null packets the batch reads 50 of them; on the second stream
    it ends with the packet that completes a frame, two packets before
    the end of the stream. *)
Lemma Demux_batch_witness :
  (exists ret d' steps,
     Demux [] (fun _ _ => 0) (fun _ _ _ _ _ q => (q, [])) (fun _ => None)
           (fun _ _ => []) demux_nulls = Some (ret, d', steps) /\
     stream_Size (s demux_nulls) = 60 * 188 /\
     length steps = 50%nat /\ stream_Tell (s d') = 50 * 188 /\
     (length steps <= 100)%nat /\
     i_ts_read (p_sys d') = i_ts_read (p_sys demux_nulls)) /\
  (exists ret d' steps,
     Demux [] (fun _ _ => 0) (fun _ _ _ _ _ q => (q, [])) (fun _ => None)
           (fun _ _ => []) demux_frames = Some (ret, d', steps) /\
     stream_Size (s demux_frames) = 4 * 188 /\
     map (fun st => (step_b_frame st, step_sent st)) steps =
       [(false, 0); (true, 1)] /\
     stream_Tell (s d') = 2 * 188 /\
     stops_at_first (i_pmt_es (p_sys demux_frames) <=? 0) steps /\
     i_ts_read (p_sys d') = i_ts_read (p_sys demux_frames)).
Proof.
  split.
  - destruct (Demux_batch [] (fun _ _ => 0) (fun _ _ _ _ _ q => (q, []))
                (fun _ => None) (fun _ _ => []) demux_nulls 188 0)
      as (ret & d' & steps & H1 & _ & H3 & _ & _ & _ & H6 & _).
    + vm_compute. discriminate.
    + reflexivity.
    + assert (F : batch_summary (Demux [] (fun _ _ => 0) (fun _ _ _ _ _ q => (q, [])) (fun _ => None)
           (fun _ _ => []) demux_nulls) =
                  Some (1, 50 * 188, repeat (false, 0) 50))
        by (vm_compute; reflexivity).
      rewrite H1 in F. cbn [batch_summary] in F.
      injection F as F1 F2 F3.
      exists ret, d', steps. split; [exact H1|].
      split; [vm_compute; reflexivity|].
      split; [rewrite <- (length_map (fun st => (step_b_frame st, step_sent st))),
                F3; reflexivity|].
      split; [exact F2|]. split; assumption.
  - destruct (Demux_batch [] (fun _ _ => 0) (fun _ _ _ _ _ q => (q, []))
                (fun _ => None) (fun _ _ => []) demux_frames 188 0)
      as (ret & d' & steps & H1 & _ & _ & H4 & _ & _ & H6 & _).
    + vm_compute. discriminate.
    + reflexivity.
    + assert (F : batch_summary (Demux [] (fun _ _ => 0) (fun _ _ _ _ _ q => (q, [])) (fun _ => None)
           (fun _ _ => []) demux_frames) =
                  Some (1, 2 * 188, [(false, 0); (true, 1)]))
        by (vm_compute; reflexivity).
      rewrite H1 in F. cbn [batch_summary] in F.
      injection F as F1 F2 F3.
      exists ret, d', steps. split; [exact H1|].
      split; [vm_compute; reflexivity|].
      split; [exact F3|]. split; [exact F2|]. split; assumption.
Defined.
